(** * WorkMonitor: the repository list, its JSON file, and the two front-ends

    A shallow embedding of [monitorWork.py] (the Tk front-end) and
    [monitorWork_server.py] (the Flask front-end).  Both keep one list of
    repository entries in [~/.workmonitor/repositories.json], guard
    themselves with an advisory lock file, and shell out to [startWork],
    [stopWork] and [tabulateWork].

    Python values are dynamically typed, so the embedding keeps them as
    they are at run time: a [str] is a list of code points, and whatever
    [json.load] or [request.json] hands to the program is a [json] value.
    An operation that raises in Python yields [Raise] here. *)

From Stdlib Require Import ZArith List String Ascii Bool Lia.
From Stdlib Require Decimal DecimalZ DecimalPos DecimalFacts.
Import ListNotations.
Open Scope Z_scope.
Set Warnings "-register-all".

(** ** Python strings *)

Module Py.

(** A [str] is a sequence of code points; [ord] of each lies in
    [0 .. 0x10FFFF]. *)
Definition pystr := list Z.

Definition code_point (c : Z) : Prop := 0 <= c < 1114112.

(** A string literal of the source text (ASCII only). *)
Definition lit (s : string) : pystr :=
  map (fun a => Z.of_N (N_of_ascii a)) (list_ascii_of_string s).

Fixpoint str_eqb (a b : pystr) : bool :=
  match a, b with
  | [], [] => true
  | x :: a', y :: b' => (x =? y) && str_eqb a' b'
  | _, _ => false
  end.

(** [s.startswith(prefix)] *)
Fixpoint startswith (s prefix : pystr) : bool :=
  match prefix, s with
  | [], _ => true
  | p :: prefix', c :: s' => (c =? p) && startswith s' prefix'
  | _ :: _, [] => false
  end.

(** [c.isspace()]: the code points [str.strip()] removes. *)
Definition isspace (c : Z) : bool :=
  ((9 <=? c) && (c <=? 13)) || ((28 <=? c) && (c <=? 32))
  || (c =? 133) || (c =? 160) || (c =? 5760)
  || ((8192 <=? c) && (c <=? 8202))
  || (c =? 8232) || (c =? 8233) || (c =? 8239) || (c =? 8287) || (c =? 12288).

Fixpoint lstrip (s : pystr) : pystr :=
  match s with
  | c :: s' => if isspace c then lstrip s' else s
  | [] => []
  end.

Definition rstrip (s : pystr) : pystr := rev (lstrip (rev s)).

(** [s.strip()] *)
Definition strip (s : pystr) : pystr := rstrip (lstrip s).

(** [sep.join(parts)] *)
Fixpoint join (sep : pystr) (parts : list pystr) : pystr :=
  match parts with
  | [] => []
  | [p] => p
  | p :: rest => p ++ sep ++ join sep rest
  end.

(** ** Values exchanged with [json]

    What [json.load] returns and [json.dump] accepts in this program.  A
    [dict] keeps its keys in insertion order, each key once.  A float is
    kept as the literal it was read from: the program does no float
    arithmetic, and none of the properties below lets a float decide
    anything. *)
Inductive json : Type :=
| JNull
| JBool (b : bool)
| JInt (n : Z)
| JFloat (literal : pystr)
| JStr (s : pystr)
| JArr (items : list json)
| JObj (members : list (pystr * json)).

(** [d[key] = value] on a dict: an existing key keeps its place. *)
Fixpoint dict_setitem (key : pystr) (value : json) (d : list (pystr * json))
  : list (pystr * json) :=
  match d with
  | [] => [(key, value)]
  | (k, v) :: d' =>
    if str_eqb k key then (k, value) :: d' else (k, v) :: dict_setitem key value d'
  end.

(** [dict(pairs)] *)
Definition dict_of_pairs (pairs : list (pystr * json)) : list (pystr * json) :=
  fold_left (fun d kv => dict_setitem (fst kv) (snd kv) d) pairs [].

Fixpoint dict_lookup (key : pystr) (d : list (pystr * json)) : option json :=
  match d with
  | [] => None
  | (k, v) :: d' => if str_eqb k key then Some v else dict_lookup key d'
  end.

(** [d.get(key, default)] *)
Definition dict_get (key : pystr) (default : json) (d : list (pystr * json)) : json :=
  match dict_lookup key d with
  | Some v => v
  | None => default
  end.

(** The value of a float literal is zero when its mantissa has no digit
    other than [0] ([NaN] and the infinities are not zero). *)
Fixpoint mantissa_zero (l : pystr) : bool :=
  match l with
  | [] => true
  | c :: l' =>
    if (c =? 101) || (c =? 69) then true
    else if (49 <=? c) && (c <=? 57) then false
    else if (c =? 78) || (c =? 73) then false
    else mantissa_zero l'
  end.

(** [bool(v)], as in [if not v]. *)
Definition truthy (v : json) : bool :=
  match v with
  | JNull => false
  | JBool b => b
  | JInt n => negb (n =? 0)
  | JFloat l => negb (mantissa_zero l)
  | JStr s => match s with [] => false | _ => true end
  | JArr l => match l with [] => false | _ => true end
  | JObj d => match d with [] => false | _ => true end
  end.

(** [a == b].  [True == 1] and [False == 0] hold in Python; dicts compare
    without regard to order; floats are compared by literal. *)
Fixpoint py_eq (a b : json) {struct a} : bool :=
  match a, b with
  | JNull, JNull => true
  | JBool x, JBool y => Bool.eqb x y
  | JBool x, JInt n => (if x then 1 else 0) =? n
  | JInt n, JBool y => n =? (if y then 1 else 0)
  | JInt n, JInt m => n =? m
  | JFloat x, JFloat y => str_eqb x y
  | JStr x, JStr y => str_eqb x y
  | JArr xs, JArr ys =>
    (fix all2 (xs : list json) (ys : list json) {struct xs} : bool :=
       match xs, ys with
       | [], [] => true
       | x :: xs', y :: ys' => py_eq x y && all2 xs' ys'
       | _, _ => false
       end) xs ys
  | JObj xd, JObj yd =>
    (List.length xd =? List.length yd)%nat &&
    (fix sub (xd : list (pystr * json)) {struct xd} : bool :=
       match xd with
       | [] => true
       | (k, v) :: xd' =>
         match dict_lookup k yd with
         | Some w => py_eq v w && sub xd'
         | None => false
         end
       end) xd
  | _, _ => false
  end.

End Py.
Export Py.

(** ** The [json] module of the standard library

    [save_repositories] calls [json.dump(obj, f, indent=2)] and
    [load_repositories] calls [json.load(f)].  The encoder below writes
    what [json.dump] writes with [indent=2] and the default
    [ensure_ascii=True]; the decoder accepts what [json.load] accepts
    (strict mode), and [None] stands for [JSONDecodeError]. *)

Module Json.

(** *** Encoder *)

Definition hex_digit (d : Z) : Z := if d <? 10 then 48 + d else 87 + d.

(** ['{0:04x}'.format(n)] for [0 <= n < 0x10000] *)
Definition hex4 (n : Z) : pystr :=
  [hex_digit (n / 4096 mod 16); hex_digit (n / 256 mod 16);
   hex_digit (n / 16 mod 16); hex_digit (n mod 16)].

(** The replacement of one character by [encode_basestring_ascii]:
    printable ASCII stays, the short escapes are used where they exist,
    any other character of the BMP becomes [\uXXXX] and a character beyond
    it a surrogate pair. *)
Definition escape (c : Z) : pystr :=
  if c =? 92 then [92; 92]
  else if c =? 34 then [92; 34]
  else if c =? 8 then [92; 98]
  else if c =? 12 then [92; 102]
  else if c =? 10 then [92; 110]
  else if c =? 13 then [92; 114]
  else if c =? 9 then [92; 116]
  else if (32 <=? c) && (c <=? 126) then [c]
  else if c <? 65536 then 92 :: 117 :: hex4 c
  else
    let n := c - 65536 in
    let s1 := Z.lor 55296 (Z.land (Z.shiftr n 10) 1023) in
    let s2 := Z.lor 56320 (Z.land n 1023) in
    (92 :: 117 :: hex4 s1) ++ (92 :: 117 :: hex4 s2).

Definition encode_basestring_ascii (s : pystr) : pystr :=
  34 :: flat_map escape s ++ [34].

Fixpoint uint_chars (u : Decimal.uint) : pystr :=
  match u with
  | Decimal.Nil => []
  | Decimal.D0 u' => 48 :: uint_chars u'
  | Decimal.D1 u' => 49 :: uint_chars u'
  | Decimal.D2 u' => 50 :: uint_chars u'
  | Decimal.D3 u' => 51 :: uint_chars u'
  | Decimal.D4 u' => 52 :: uint_chars u'
  | Decimal.D5 u' => 53 :: uint_chars u'
  | Decimal.D6 u' => 54 :: uint_chars u'
  | Decimal.D7 u' => 55 :: uint_chars u'
  | Decimal.D8 u' => 56 :: uint_chars u'
  | Decimal.D9 u' => 57 :: uint_chars u'
  end.

(** [int.__repr__] *)
Definition int_repr (n : Z) : pystr :=
  match Z.to_int n with
  | Decimal.Pos u => uint_chars u
  | Decimal.Neg u => 45 :: uint_chars u
  end.

(** ['\n' + ' ' * (2 * level)] *)
Definition newline_indent (level : nat) : pystr := 10 :: repeat 32 (2 * level)%nat.

(** A list or dict whose items are already encoded: empty brackets when
    there is none, else one item per line, one level deeper. *)
Definition bracket (opening closing : Z) (level : nat) (chunks : list pystr) : pystr :=
  match chunks with
  | [] => [opening; closing]
  | _ =>
    opening :: newline_indent (S level)
      ++ join (44 :: newline_indent (S level)) chunks
      ++ newline_indent level ++ [closing]
  end.

Fixpoint iterencode (level : nat) (o : json) : pystr :=
  match o with
  | JNull => lit "null"
  | JBool true => lit "true"
  | JBool false => lit "false"
  | JInt n => int_repr n
  | JFloat l => l
  | JStr s => encode_basestring_ascii s
  | JArr items => bracket 91 93 level (map (iterencode (S level)) items)
  | JObj members =>
    bracket 123 125 level
      (map (fun kv : pystr * json =>
              let (k, v) := kv in
              encode_basestring_ascii k ++ [58; 32] ++ iterencode (S level) v)
           members)
  end.

(** [json.dumps(o, indent=2)] *)
Definition dumps (o : json) : pystr := iterencode 0 o.

(** *** Decoder *)

Definition is_ws (c : Z) : bool := (c =? 32) || (c =? 9) || (c =? 10) || (c =? 13).

Fixpoint skip_ws (s : pystr) : pystr :=
  match s with
  | c :: s' => if is_ws c then skip_ws s' else s
  | [] => []
  end.

Definition hex_val (c : Z) : option Z :=
  if (48 <=? c) && (c <=? 57) then Some (c - 48)
  else if (97 <=? c) && (c <=? 102) then Some (c - 87)
  else if (65 <=? c) && (c <=? 70) then Some (c - 55)
  else None.

(** [_decode_uXXXX]: four hexadecimal digits, nothing else. *)
Definition decode_uXXXX (h1 h2 h3 h4 : Z) : option Z :=
  match hex_val h1, hex_val h2, hex_val h3, hex_val h4 with
  | Some a, Some b, Some c, Some d => Some (a * 4096 + b * 256 + c * 16 + d)
  | _, _, _, _ => None
  end.

(** The [BACKSLASH] table. *)
Definition backslash (esc : Z) : option Z :=
  if esc =? 34 then Some 34
  else if esc =? 92 then Some 92
  else if esc =? 47 then Some 47
  else if esc =? 98 then Some 8
  else if esc =? 102 then Some 12
  else if esc =? 110 then Some 10
  else if esc =? 114 then Some 13
  else if esc =? 116 then Some 9
  else None.

Definition is_high (u : Z) : bool := (55296 <=? u) && (u <=? 56319).
Definition is_low (u : Z) : bool := (56320 <=? u) && (u <=? 57343).

Definition push (c : Z) (r : option (pystr * pystr)) : option (pystr * pystr) :=
  match r with
  | Some (content, rest) => Some (c :: content, rest)
  | None => None
  end.

(** [scanstring(s, end, strict=True)], from the character after the
    opening quote: the decoded content and what follows the closing quote.
    A high surrogate escape directly followed by a low surrogate escape is
    read as the one character they encode. *)
Fixpoint scanstring (s : pystr) : option (pystr * pystr) :=
  match s with
  | [] => None
  | c :: r =>
    if c =? 34 then Some ([], r)
    else if c =? 92 then
      match r with
      | [] => None
      | esc :: r1 =>
        if esc =? 117 then
          match r1 with
          | h1 :: h2 :: h3 :: h4 :: r2 =>
            match decode_uXXXX h1 h2 h3 h4 with
            | None => None
            | Some uni =>
              if is_high uni then
                match r2 with
                | b :: u :: k1 :: k2 :: k3 :: k4 :: r3 =>
                  if (b =? 92) && (u =? 117) then
                    match decode_uXXXX k1 k2 k3 k4 with
                    | None => None
                    | Some uni2 =>
                      if is_low uni2
                      then push (65536 + Z.lor (Z.shiftl (uni - 55296) 10) (uni2 - 56320))
                                (scanstring r3)
                      else push uni (scanstring r2)
                    end
                  else push uni (scanstring r2)
                | _ => push uni (scanstring r2)
                end
              else push uni (scanstring r2)
            end
          | _ => None
          end
        else
          match backslash esc with
          | Some ch => push ch (scanstring r1)
          | None => None
          end
      end
    else if c <? 32 then None
    else push c (scanstring r)
  end.

Definition is_digit (c : Z) : bool := (48 <=? c) && (c <=? 57).

(** The longest run of digits at the head of [s]. *)
Fixpoint span_digits (s : pystr) : pystr * pystr :=
  match s with
  | c :: s' =>
    if is_digit c then let (ds, rest) := span_digits s' in (c :: ds, rest) else ([], s)
  | [] => ([], [])
  end.

Fixpoint uint_of_digits (ds : pystr) : Decimal.uint :=
  match ds with
  | [] => Decimal.Nil
  | c :: ds' =>
    let u := uint_of_digits ds' in
    if c =? 48 then Decimal.D0 u else if c =? 49 then Decimal.D1 u
    else if c =? 50 then Decimal.D2 u else if c =? 51 then Decimal.D3 u
    else if c =? 52 then Decimal.D4 u else if c =? 53 then Decimal.D5 u
    else if c =? 54 then Decimal.D6 u else if c =? 55 then Decimal.D7 u
    else if c =? 56 then Decimal.D8 u else Decimal.D9 u
  end.

(** [s] minus the prefix [p], when it starts with it. *)
Fixpoint strip_prefix (p s : pystr) : option pystr :=
  match p, s with
  | [], _ => Some s
  | a :: p', c :: s' => if c =? a then strip_prefix p' s' else None
  | _ :: _, [] => None
  end.

(** The integer part of [NUMBER_RE]: an optional minus sign, then either
    a single [0] or a digit from 1 to 9 and every digit that follows. *)
Definition match_integer (s : pystr) : option (bool * pystr * pystr) :=
  let (neg, s1) := match s with
                   | c :: r => if c =? 45 then (true, r) else (false, s)
                   | [] => (false, s)
                   end in
  match s1 with
  | d :: r =>
    if d =? 48 then Some (neg, [48], r)
    else if is_digit d then let (ds, rest) := span_digits r in Some (neg, d :: ds, rest)
    else None
  | [] => None
  end.

(** The optional fraction: a dot and at least one digit. *)
Definition match_frac (s : pystr) : pystr * pystr :=
  match s with
  | c :: r =>
    if c =? 46 then
      match span_digits r with
      | ([], _) => ([], s)
      | (ds, rest) => (46 :: ds, rest)
      end
    else ([], s)
  | [] => ([], s)
  end.

(** The optional exponent: [e] or [E], an optional sign, at least one
    digit. *)
Definition match_exp (s : pystr) : pystr * pystr :=
  match s with
  | e :: r =>
    if (e =? 101) || (e =? 69) then
      let (sign, r1) := match r with
                        | c :: r' => if (c =? 45) || (c =? 43) then ([c], r') else ([], r)
                        | [] => ([], r)
                        end in
      match span_digits r1 with
      | ([], _) => ([], s)
      | (ds, rest) => (e :: sign ++ ds, rest)
      end
    else ([], s)
  | [] => ([], s)
  end.

(** [match_number] and the conversion that follows it: an [int] when the
    literal has neither fraction nor exponent, else a [float]. *)
Definition scan_number (s : pystr) : option (json * pystr) :=
  match match_integer s with
  | None => None
  | Some (neg, integer, r) =>
    let (frac, r1) := match_frac r in
    let (exp, r2) := match_exp r1 in
    match frac, exp with
    | [], [] =>
      let u := uint_of_digits integer in
      Some (JInt (Z.of_int (if neg then Decimal.Neg u else Decimal.Pos u)), r2)
    | _, _ => Some (JFloat ((if neg then [45] else []) ++ integer ++ frac ++ exp), r2)
    end
  end.

Definition scan_constant (name : string) (v : json) (s : pystr) : option (json * pystr) :=
  match strip_prefix (lit name) s with
  | Some r => Some (v, r)
  | None => None
  end.

(** The loop of [JSONArray], from the first character of a value. *)
Fixpoint array_items (scan : pystr -> option (json * pystr)) (fuel : nat) (s : pystr)
  : option (list json * pystr) :=
  match fuel with
  | O => None
  | S k =>
    match scan s with
    | None => None
    | Some (value, r) =>
      match skip_ws r with
      | c :: r' =>
        if c =? 93 then Some ([value], r')
        else if c =? 44 then
          match array_items scan k (skip_ws r') with
          | Some (values, r'') => Some (value :: values, r'')
          | None => None
          end
        else None
      | [] => None
      end
    end
  end.

(** The loop of [JSONObject], from the opening quote of a key. *)
Fixpoint object_pairs (scan : pystr -> option (json * pystr)) (fuel : nat) (s : pystr)
  : option (list (pystr * json) * pystr) :=
  match fuel with
  | O => None
  | S k =>
    match s with
    | q :: s1 =>
      if q =? 34 then
        match scanstring s1 with
        | None => None
        | Some (key, r) =>
          match skip_ws r with
          | colon :: r1 =>
            if colon =? 58 then
              match scan (skip_ws r1) with
              | None => None
              | Some (value, r2) =>
                match skip_ws r2 with
                | c :: r3 =>
                  if c =? 125 then Some ([(key, value)], r3)
                  else if c =? 44 then
                    match object_pairs scan k (skip_ws r3) with
                    | Some (pairs, r4) => Some ((key, value) :: pairs, r4)
                    | None => None
                    end
                  else None
                | [] => None
                end
              end
            else None
          | [] => None
          end
        end
      else None
    | [] => None
    end
  end.

(** [scan_once(string, idx)]: the value that starts at the head of [s]
    and the text after it.  [fuel] bounds the nesting and the number of
    items; the length of [s] is always enough (see [scan_once_fuel]). *)
Fixpoint scan_once (fuel : nat) (s : pystr) : option (json * pystr) :=
  match fuel with
  | O => None
  | S k =>
    match s with
    | [] => None
    | c :: r =>
      if c =? 34 then
        match scanstring r with
        | Some (content, rest) => Some (JStr content, rest)
        | None => None
        end
      else if c =? 123 then
        match skip_ws r with
        | c' :: r' =>
          if c' =? 125 then Some (JObj [], r')
          else
            match object_pairs (scan_once k) k (c' :: r') with
            | Some (pairs, rest) => Some (JObj (dict_of_pairs pairs), rest)
            | None => None
            end
        | [] => None
        end
      else if c =? 91 then
        match skip_ws r with
        | c' :: r' =>
          if c' =? 93 then Some (JArr [], r')
          else
            match array_items (scan_once k) k (c' :: r') with
            | Some (values, rest) => Some (JArr values, rest)
            | None => None
            end
        | [] => None
        end
      else
        match (if c =? 110 then scan_constant "null" JNull s
               else if c =? 116 then scan_constant "true" (JBool true) s
               else if c =? 102 then scan_constant "false" (JBool false) s
               else None) with
        | Some res => Some res
        | None =>
          match scan_number s with
          | Some res => Some res
          | None =>
            if c =? 78 then scan_constant "NaN" (JFloat (lit "NaN")) s
            else if c =? 73 then scan_constant "Infinity" (JFloat (lit "Infinity")) s
            else if c =? 45 then scan_constant "-Infinity" (JFloat (lit "-Infinity")) s
            else None
          end
        end
    end
  end.

(** [json.loads(s)]: leading white space, one value, trailing white space
    and nothing more. *)
Definition loads (s : pystr) : option json :=
  let s' := skip_ws s in
  match scan_once (S (List.length s')) s' with
  | Some (obj, rest) =>
    match skip_ws rest with
    | [] => Some obj
    | _ :: _ => None
    end
  | None => None
  end.

End Json.

(** ** The world outside the program

    The configuration file, the operating system and the external
    commands.  What the program cannot decide (whether a directory exists,
    how a command ends, what the user answers) is read from an
    environment [env]; what it changes (the configuration file) and what
    it shows (dialogs, printed lines, commands started) is kept in a
    [world]. *)

Module Sys.

Inductive exn_class : Type :=
| AttributeError | KeyError | TypeError | ValueError
| BadRequest | UnsupportedMediaType
| UnicodeEncodeError | UnicodeDecodeError | RecursionError
| PermissionError | OSError.

(** A raised exception: its class and [str(e)]. *)
Inductive exn : Type := Exn (cls : exn_class) (msg : pystr).

Definition exn_str (e : exn) : pystr := let (_, msg) := e in msg.

Inductive result (A : Type) : Type :=
| Ret (a : A)
| Raise (e : exn).
Arguments Ret {A} a.
Arguments Raise {A} e.

(** How [subprocess.run(argv, capture_output=True, text=True, timeout=t)]
    ends: the command exits, [FileNotFoundError], [TimeoutExpired], or
    any other exception [e] ([PermissionError] for a file that may not be
    executed, [UnicodeDecodeError] for output that is not text, ...). *)
Inductive proc_result : Type :=
| Completed (returncode : Z) (stderr : pystr)
| FileNotFound
| TimeoutExpired
| Failed (e : exn).

Inductive dialog : Type := showerror | showwarning | showinfo.

Inductive event : Type :=
| EvPrint (line : pystr)
| EvTraceback (e : exn)
| EvListdir (path : pystr)
| EvRun (argv : list pystr) (timeout : Z)
| EvDialog (kind : dialog) (title message : pystr)
| EvFlock (path : pystr)
| EvExit (code : Z).

(** [CONFIG_FILE] as [load_repositories] finds it: absent; present but
    not readable ([IOError] on [open] or [read]); present with the text
    [t], which [json.load] takes or rejects with [JSONDecodeError]; or
    such that loading raises [e], an exception no [except] clause of
    [load_repositories] names: [PermissionError] from [exists()] in a
    directory that may not be searched, [UnicodeDecodeError] from
    [read()] for bytes that are not UTF-8, and from [json.load]
    [RecursionError] for a text nested deeper, or [ValueError] for an
    integer of more digits, than the interpreter takes. *)
Inductive file : Type :=
| Missing
| Unreadable
| Text (t : pystr)
| Broken (e : exn).

(** How writing [CONFIG_FILE] fails with [IOError(msg)]: in
    [open(CONFIG_FILE, 'w')], which leaves the file as it was; or after
    it, in [json.dump] or in closing the file, when [open] has emptied the
    file and only the first [reached] characters of the new text have got
    to it. *)
Inductive write_failure : Type :=
| CannotOpen (msg : pystr)
| CannotWrite (reached : nat) (msg : pystr).

Record env : Type := {
  home : pystr;                          (* str(Path.home()) *)
  abspath : pystr -> pystr;              (* os.path.abspath *)
  expanduser : pystr -> pystr;           (* os.path.expanduser *)
  path_exists : pystr -> bool;           (* os.path.exists *)
  isdir : pystr -> bool;                 (* os.path.isdir *)
  listdir : pystr -> option (list pystr);(* os.listdir; None: OSError *)
  listdir_error : pystr;                 (* str(e) of that OSError *)
  write_error : option write_failure;    (* how writing CONFIG_FILE fails, if it does *)
  run : list pystr -> proc_result;       (* how the command line ends *)
  leaves : list pystr -> file -> file    (* CONFIG_FILE after the command has run, from
                                            CONFIG_FILE before it *)
}.

Record world : Type := {
  config : file;
  events : list event
}.

(** Computations that read and change a state [S] and may raise. *)
Definition M (S A : Type) : Type := S -> result A * S.

Definition ret {S A} (a : A) : M S A := fun s => (Ret a, s).
Definition raise {S A} (e : exn) : M S A := fun s => (Raise e, s).
Definition bind {S A B} (m : M S A) (k : A -> M S B) : M S B :=
  fun s => match m s with
           | (Ret a, s') => k a s'
           | (Raise e, s') => (Raise e, s')
           end.
(** [try: m except Exception as e: handler(e)] *)
Definition try_except {S A} (m : M S A) (handler : exn -> M S A) : M S A :=
  fun s => match m s with
           | (Ret a, s') => (Ret a, s')
           | (Raise e, s') => handler e s'
           end.
Definition lift {S A} (r : result A) : M S A := fun s => (r, s).
Definition get {S} : M S S := fun s => (Ret s, s).
Definition put {S} (s : S) : M S unit := fun _ => (Ret tt, s).

Definition emit (e : event) : M world unit :=
  fun w => (Ret tt, {| config := config w; events := events w ++ [e] |}).

Definition write_config (t : pystr) : M world unit :=
  fun w => (Ret tt, {| config := Text t; events := events w |}).

(** What a command that has run did to [CONFIG_FILE]. *)
Definition touch_config (f : file -> file) : M world unit :=
  fun w => (Ret tt, {| config := f (config w); events := events w |}).

End Sys.
Export Sys.

Declare Scope monad_scope.
Notation "x <- m ;; k" := (bind m (fun x => k))
  (at level 61, m at next level, right associativity) : monad_scope.
Notation "m ;;; k" := (bind m (fun _ => k))
  (at level 61, right associativity) : monad_scope.
Open Scope monad_scope.

(** A second notation, for steps that only may raise. *)
Definition and_then {A B} (r : result A) (k : A -> result B) : result B :=
  match r with
  | Ret a => k a
  | Raise e => Raise e
  end.
Notation "x <-- r ;; k" := (and_then r (fun x => k))
  (at level 61, r at next level, right associativity) : monad_scope.

(** ** Python operations on dynamically typed values *)

Module Dyn.

Definition type_name (v : json) : pystr :=
  match v with
  | JNull => lit "NoneType"
  | JBool _ => lit "bool"
  | JInt _ => lit "int"
  | JFloat _ => lit "float"
  | JStr _ => lit "str"
  | JArr _ => lit "list"
  | JObj _ => lit "dict"
  end.

Definition no_attribute (v : json) (attr : string) : exn :=
  Exn AttributeError
      (lit "'" ++ type_name v ++ lit "' object has no attribute '" ++ lit attr ++ lit "'").

(** [v.get(key, default)] *)
Definition py_get (v : json) (key : string) (default : json) : result json :=
  match v with
  | JObj d => Ret (dict_get (lit key) default d)
  | _ => Raise (no_attribute v "get")
  end.

(** [v[key]] with a string key *)
Definition py_getitem (v : json) (key : string) : result json :=
  match v with
  | JObj d =>
    match dict_lookup (lit key) d with
    | Some x => Ret x
    | None => Raise (Exn KeyError (lit "'" ++ lit key ++ lit "'"))
    end
  | JStr _ => Raise (Exn TypeError (lit "string indices must be integers, not 'str'"))
  | JArr _ => Raise (Exn TypeError (lit "list indices must be integers or slices, not str"))
  | _ => Raise (Exn TypeError (lit "'" ++ type_name v ++ lit "' object is not subscriptable"))
  end.

(** [v[key] = value] with a string key *)
Definition py_setitem (v : json) (key : string) (value : json) : result json :=
  match v with
  | JObj d => Ret (JObj (dict_setitem (lit key) value d))
  | JArr _ => Raise (Exn TypeError (lit "list indices must be integers or slices, not str"))
  | _ => Raise (Exn TypeError
                    (lit "'" ++ type_name v ++ lit "' object does not support item assignment"))
  end.

(** The items [for x in v] runs through: the elements of a list, the keys
    of a dict, the characters of a string. *)
Definition py_iter (v : json) : result (list json) :=
  match v with
  | JArr l => Ret l
  | JObj d => Ret (map (fun kv => JStr (fst kv)) d)
  | JStr s => Ret (map (fun c => JStr [c]) s)
  | _ => Raise (Exn TypeError (lit "'" ++ type_name v ++ lit "' object is not iterable"))
  end.

(** [len(v)] *)
Definition py_len (v : json) : result nat :=
  match v with
  | JArr l => Ret (List.length l)
  | JObj d => Ret (List.length d)
  | JStr s => Ret (List.length s)
  | _ => Raise (Exn TypeError (lit "object of type '" ++ type_name v ++ lit "' has no len()"))
  end.

(** [v.append(x)] *)
Definition py_append (v x : json) : result json :=
  match v with
  | JArr l => Ret (JArr (l ++ [x]))
  | _ => Raise (no_attribute v "append")
  end.

(** [v.strip()] *)
Definition py_strip (v : json) : result pystr :=
  match v with
  | JStr s => Ret (strip s)
  | _ => Raise (no_attribute v "strip")
  end.

(** [hash(v)], needed to put [v] in a set. *)
Definition py_hashable (v : json) : result unit :=
  match v with
  | JArr _ | JObj _ => Raise (Exn TypeError (lit "unhashable type: '" ++ type_name v ++ lit "'"))
  | _ => Ret tt
  end.

(** A path argument of [os.path] or [subprocess]: a [str]. *)
Definition py_fspath (v : json) : result pystr :=
  match v with
  | JStr s => Ret s
  | _ => Raise (Exn TypeError
                    (lit "expected str, bytes or os.PathLike object, not " ++ type_name v))
  end.

(** [x in s] for a set [s], kept as the list of its members. *)
Definition set_mem (x : json) (s : list json) : bool := existsb (py_eq x) s.

(** [os.path.join(a, b)] on POSIX *)
Definition path_join (a b : pystr) : pystr :=
  if startswith b [47] then b
  else match a with
       | [] => b
       | _ => if Z.eqb (last a 0) 47 then a ++ b else a ++ [47] ++ b
       end.

(** [{'error': msg}] *)
Definition error_body (msg : pystr) : json := JObj [(lit "error", JStr msg)].

(** [{'path': path, 'selected': False}] *)
Definition new_entry (path : pystr) : json :=
  JObj [(lit "path", JStr path); (lit "selected", JBool false)].

(** [any(r['path'] == path for r in items)] *)
Fixpoint any_path_is (path : pystr) (items : list json) : result bool :=
  match items with
  | [] => Ret false
  | r :: rest =>
    p <-- py_getitem r "path" ;;
    if py_eq p (JStr path) then Ret true else any_path_is path rest
  end.

(** [[r for r in items if r['path'] != path]] *)
Fixpoint without_path (path : json) (items : list json) : result (list json) :=
  match items with
  | [] => Ret []
  | r :: rest =>
    p <-- py_getitem r "path" ;;
    kept <-- without_path path rest ;;
    Ret (if py_eq p path then kept else r :: kept)
  end.

End Dyn.
Export Dyn.

(** ** [datetime.strptime(s, "%Y-%m-%d")]

    The format compiles to the regular expression
    [(\d\d\d\d)-(1[0-2]|0[1-9]|[1-9])-(3[0-1]|[1-2]\d|0[1-9]|[1-9]| [1-9])],
    matched at the start of [s]; text left over after the match, a year
    [0] and a day the month does not have raise [ValueError]. *)

Module Datetime.

(** The code points of the digit zero of each decimal digit block of
    Unicode 14: [\d] and [int] accept them all. *)
Definition digit_zeros : list Z :=
  [48; 1632; 1776; 1984; 2406; 2534; 2662; 2790; 2918; 3046; 3174; 3302; 3430;
   3558; 3664; 3792; 3872; 4160; 4240; 6112; 6160; 6470; 6608; 6784; 6800; 6992;
   7088; 7232; 7248; 42528; 43216; 43264; 43472; 43504; 43600; 44016; 65296;
   66720; 68912; 69734; 69872; 69942; 70096; 70384; 70736; 70864; 71248; 71360;
   71472; 71904; 72016; 72784; 73040; 73120; 92768; 92864; 93008; 120782;
   120792; 120802; 120812; 120822; 123200; 123632; 125264; 130032].

(** The value of a decimal digit character. *)
Definition digit_value (c : Z) : option Z :=
  match find (fun z => (z <=? c) && (c <? z + 10)) digit_zeros with
  | Some z => Some (c - z)
  | None => None
  end.

(** A character that is one of the ASCII digits [lo .. hi], as in the
    classes [[1-9]] of the expression. *)
Definition in_range (lo hi c : Z) : bool := (48 + lo <=? c) && (c <=? 48 + hi).

(** Group [Y]: four digits. *)
Definition match_Y (s : pystr) : option (Z * pystr) :=
  match s with
  | a :: b :: c :: d :: r =>
    match digit_value a, digit_value b, digit_value c, digit_value d with
    | Some x, Some y, Some z, Some t => Some (x * 1000 + y * 100 + z * 10 + t, r)
    | _, _, _, _ => None
    end
  | _ => None
  end.

(** Group [m], with the hyphen that has to follow it: the alternatives in
    their order. *)
Definition match_m (s : pystr) : option (Z * pystr) :=
  match s with
  | [] => None
  | a :: r =>
    let two_digits :=
      match r with
      | b :: 45 :: r' =>
        if (a =? 49) && in_range 0 2 b then Some (10 + (b - 48), r')
        else if (a =? 48) && in_range 1 9 b then Some (b - 48, r')
        else None
      | _ => None
      end in
    match two_digits with
    | Some res => Some res
    | None =>
      match r with
      | 45 :: r' => if in_range 1 9 a then Some (a - 48, r') else None
      | _ => None
      end
    end
  end.

(** Group [d]: the first alternative that matches, and the text after
    it. *)
Definition match_d (s : pystr) : option (Z * pystr) :=
  match s with
  | [] => None
  | a :: r =>
    match r with
    | b :: r' =>
      if (a =? 51) && in_range 0 1 b then Some (30 + (b - 48), r')
      else if in_range 1 2 a then
        match digit_value b with
        | Some v => Some (10 * (a - 48) + v, r')
        | None => Some (a - 48, r)
        end
      else if (a =? 48) && in_range 1 9 b then Some (b - 48, r')
      else if in_range 1 9 a then Some (a - 48, r)
      else if (a =? 32) && in_range 1 9 b then Some (b - 48, r')
      else None
    | [] => if in_range 1 9 a then Some (a - 48, r) else None
    end
  end.

Definition is_leap (y : Z) : bool :=
  (y mod 4 =? 0) && (negb (y mod 100 =? 0) || (y mod 400 =? 0)).

Definition days_in_month (y m : Z) : Z :=
  if m =? 2 then (if is_leap y then 29 else 28)
  else if (m =? 4) || (m =? 6) || (m =? 9) || (m =? 11) then 30
  else 31.

(** The date, or [None] for [ValueError]. *)
Definition strptime (s : pystr) : option (Z * Z * Z) :=
  match match_Y s with
  | Some (y, 45 :: r1) =>
    match match_m r1 with
    | Some (m, r2) =>
      match match_d r2 with
      | Some (d, []) =>
        if (1 <=? y) && (d <=? days_in_month y m) then Some (y, m, d) else None
      | _ => None
      end
    | None => None
    end
  | _ => None
  end.

End Datetime.

(** ** [subprocess.run] *)

Module Subprocess.

Definition is_surrogate (c : Z) : bool := (55296 <=? c) && (c <=? 57343).

(** The surrogates [U+DC80 .. U+DCFF], which the error handler
    [surrogateescape] turns into the bytes [0x80 .. 0xFF]. *)
Definition escapes_byte (c : Z) : bool := (56448 <=? c) && (c <=? 56575).

(** The number of surrogates at the head of [s]. *)
Fixpoint surrogate_run (s : pystr) : nat :=
  match s with
  | c :: r => if is_surrogate c then S (surrogate_run r) else O
  | [] => O
  end.

(** [str(e)] of the [UnicodeEncodeError] for the surrogates at the
    positions [pos .. pos + run - 1], the first of which is [c]. *)
Definition surrogates_not_allowed (pos : Z) (c : Z) (run : nat) : pystr :=
  lit "'utf-8' codec can't encode character"
    ++ match run with
       | 1%nat => lit " '" ++ [92; 117] ++ Json.hex4 c ++ lit "' in position " ++ Json.int_repr pos
       | _ => lit "s in position " ++ Json.int_repr pos ++ lit "-"
                  ++ Json.int_repr (pos + Z.of_nat run - 1)
       end
    ++ lit ": surrogates not allowed".

(** The error of encoding [s], whose head is at position [pos], for the
    file system (UTF-8 with [surrogateescape]): the first surrogate that
    stands for no byte, with the surrogates that follow it. *)
Fixpoint encode_error (pos : Z) (s : pystr) : option exn :=
  match s with
  | [] => None
  | c :: r =>
    if is_surrogate c && negb (escapes_byte c)
    then Some (Exn UnicodeEncodeError (surrogates_not_allowed pos c (surrogate_run s)))
    else encode_error (pos + 1) r
  end.

(** An argument of the command line as the operating system takes it: a
    [str] that can be encoded and holds no null character. *)
Definition fsencode (v : json) : result pystr :=
  s <-- py_fspath v ;;
  match encode_error 0 s with
  | Some e => Raise e
  | None =>
    if existsb (Z.eqb 0) s then Raise (Exn ValueError (lit "embedded null byte")) else Ret s
  end.

Fixpoint fsencode_all (argv : list json) : result (list pystr) :=
  match argv with
  | [] => Ret []
  | v :: rest =>
    s <-- fsencode v ;;
    args <-- fsencode_all rest ;;
    Ret (s :: args)
  end.

(** [subprocess.run(argv, capture_output=True, text=True, timeout=t)]:
    the call is recorded, the environment says how it ends and, unless
    the command was not found, what the command has done to
    [CONFIG_FILE]. *)
Definition run_command (E : env) (argv : list json) (timeout : Z) : M world proc_result :=
  args <- lift (fsencode_all argv) ;;
  emit (EvRun args timeout) ;;;
  match run E args with
  | FileNotFound => ret FileNotFound
  | outcome => touch_config (leaves E args) ;;; ret outcome
  end.

(** [f"{v}"] for a [str]; only values that were passed to a command are
    formatted, and those are strings. *)
Definition format (v : json) : pystr :=
  match v with
  | JStr s => s
  | _ => []
  end.

End Subprocess.
Export Subprocess.

(** ** [monitorWork_server.py] *)

Module Server.

(** What a handler reads of the Flask request: [request.is_json] and the
    outcome of evaluating [request.json]. *)
Record request : Type := {
  is_json : bool;
  request_json : result json
}.

(** [jsonify(body), status] *)
Record response : Type := {
  payload : json;
  status : Z
}.

Definition jsonify (body : json) (code : Z) : response :=
  {| payload := body; status := code |}.

Definition error (msg : pystr) (code : Z) : response := jsonify (error_body msg) code.

Definition load_repositories : M world json :=
  fun w =>
    (match config w with
     | Text t =>
       match Json.loads t with
       | Some data => py_get data "repositories" (JArr [])
       | None => Ret (JArr [])
       end
     | Unreadable => Ret (JArr [])
     | Missing => Ret (JArr [])
     | Broken e => Raise e
     end, w).

(** [CONFIG_DIR.mkdir(parents=True, exist_ok=True)] finds the directory
    that [SingleInstance.__enter__] has made. *)
Definition save_repositories (E : env) (repositories : json) : M world bool :=
  let text := Json.dumps (JObj [(lit "repositories", repositories)]) in
  match write_error E with
  | None =>
    write_config text ;;;
    ret true
  | Some (CannotOpen msg) =>
    emit (EvPrint (lit "Error saving repositories: " ++ msg)) ;;;
    ret false
  | Some (CannotWrite reached msg) =>
    write_config (firstn reached text) ;;;
    emit (EvPrint (lit "Error saving repositories: " ++ msg)) ;;;
    ret false
  end.

(** The handler of [except Exception as e] in the endpoints. *)
Definition server_error (prefix : string) (e : exn) : M world response :=
  emit (EvTraceback e) ;;;
  ret (error (lit prefix ++ exn_str e) 500).

(** [str.lower()] on the ASCII letters; for the test ['git' in
    item.lower()] the other letters make no difference. *)
Definition lower (s : pystr) : pystr :=
  map (fun c => if (65 <=? c) && (c <=? 90) then c + 32 else c) s.

(** [needle in s] for strings *)
Fixpoint contains (needle s : pystr) : bool :=
  startswith s needle ||
  match s with
  | [] => false
  | _ :: s' => contains needle s'
  end.

(** [s.rstrip('/')] *)
Definition rstrip_slash (s : pystr) : pystr :=
  rev ((fix drop (l : pystr) : pystr :=
          match l with
          | c :: l' => if c =? 47 then drop l' else l
          | [] => []
          end) (rev s)).

(** The prefix of [p] up to and including its last slash. *)
Fixpoint head_to_last_slash (p : pystr) : pystr :=
  match p with
  | [] => []
  | c :: p' =>
    if existsb (Z.eqb 47) p then c :: head_to_last_slash p' else []
  end.

(** [os.path.dirname(p)] on POSIX *)
Definition dirname (p : pystr) : pystr :=
  let head := head_to_last_slash p in
  if forallb (Z.eqb 47) head then head else rstrip_slash head.

(** [a <= b] on strings: code point by code point. *)
Fixpoint str_leb (a b : pystr) : bool :=
  match a, b with
  | [], _ => true
  | _ :: _, [] => false
  | x :: a', y :: b' => (x <? y) || ((x =? y) && str_leb a' b')
  end.

Fixpoint insert_by_name (x : pystr * pystr) (l : list (pystr * pystr)) : list (pystr * pystr) :=
  match l with
  | [] => [x]
  | y :: l' => if str_leb (fst y) (fst x) then y :: insert_by_name x l' else x :: l
  end.

(** [git_repos.sort(key=lambda x: x['name'])]: a stable sort. *)
Definition sort_by_name (l : list (pystr * pystr)) : list (pystr * pystr) :=
  fold_left (fun acc x => insert_by_name x acc) l [].

Definition scan_repositories (E : env) (req : request) : M world response :=
  try_except
    (if negb (is_json req) then ret (error (lit "Request must be JSON") 400)
     else
       data <- lift (request_json req) ;;
       if negb (truthy data) then ret (error (lit "Invalid request data") 400)
       else
         raw <- lift (py_get data "folderPath" (JStr [])) ;;
         stripped <- lift (py_strip raw) ;;
         match stripped with
         | [] => ret (error (lit "Folder path is required") 400)
         | _ :: _ =>
           let folder_path := abspath E (expanduser E stripped) in
           let home_path := home E in
           if negb (startswith folder_path home_path)
           then ret (error (lit "Access denied: Cannot scan outside home directory") 403)
           else if negb (path_exists E folder_path) then
             let parent_dir := dirname folder_path in
             suggested_paths <-
               (if isdir E parent_dir then
                  emit (EvListdir parent_dir) ;;;
                  match listdir E parent_dir with
                  | Some items =>
                    ret (map (path_join parent_dir)
                             (filter (fun item =>
                                        isdir E (path_join parent_dir item)
                                        && contains (lit "git") (lower item))
                                     items))
                  | None => ret []
                  end
                else ret []) ;;
             let error_msg := lit "Path does not exist: '" ++ folder_path ++ lit "'" in
             let error_msg :=
               match suggested_paths with
               | [] => error_msg
               | _ :: _ =>
                 error_msg ++ [10] ++ lit "Did you mean one of these?" ++ [10]
                   ++ join [10] (map (fun p => lit "  - " ++ p) (firstn 5 suggested_paths))
               end in
             ret (error error_msg 400)
           else if negb (isdir E folder_path)
           then ret (error (lit "Path is not a directory: '" ++ folder_path ++ lit "'") 400)
           else
             emit (EvListdir folder_path) ;;;
             match listdir E folder_path with
             | None => ret (error (lit "Cannot access directory: " ++ listdir_error E) 403)
             | Some items =>
               let git_repos :=
                 map (fun item => (item, path_join folder_path item))
                     (filter (fun item =>
                                isdir E (path_join folder_path item)
                                && isdir E (path_join (path_join folder_path item) (lit ".git")))
                             items) in
               ret (jsonify
                      (JObj [(lit "folderPath", JStr folder_path);
                             (lit "repositories",
                              JArr (map (fun r => JObj [(lit "name", JStr (fst r));
                                                        (lit "path", JStr (snd r))])
                                        (sort_by_name git_repos)))])
                      200)
             end
         end)
    (server_error "Server error: ").

Definition get_repositories : M world response :=
  repositories <- load_repositories ;;
  ret (jsonify (JObj [(lit "repositories", repositories)]) 200).

Definition add_repository (E : env) (req : request) : M world response :=
  try_except
    (if negb (is_json req) then ret (error (lit "Request must be JSON") 400)
     else
       data <- lift (request_json req) ;;
       if negb (truthy data) then ret (error (lit "Invalid request data") 400)
       else
         raw <- lift (py_get data "path" (JStr [])) ;;
         stripped <- lift (py_strip raw) ;;
         match stripped with
         | [] => ret (error (lit "Path is required") 400)
         | _ :: _ =>
           let path := abspath E (expanduser E stripped) in
           if negb (isdir E (path_join path (lit ".git")))
           then ret (error (lit "'" ++ path ++ lit "' is not a git repository") 400)
           else
             repositories <- load_repositories ;;
             items <- lift (py_iter repositories) ;;
             present <- lift (any_path_is path items) ;;
             if present then ret (error (lit "Repository already in list") 400)
             else
               repositories <- lift (py_append repositories (new_entry path)) ;;
               save_repositories E repositories ;;;
               ret (jsonify (JObj [(lit "repositories", repositories)]) 200)
         end)
    (server_error "Server error: ").

Definition remove_repository (E : env) (req : request) : M world response :=
  data <- lift (request_json req) ;;
  path <- lift (py_get data "path" (JStr [])) ;;
  if negb (truthy path) then ret (error (lit "Path is required") 400)
  else
    repositories <- load_repositories ;;
    items <- lift (py_iter repositories) ;;
    kept <- lift (without_path path items) ;;
    let repositories := JArr kept in
    save_repositories E repositories ;;;
    ret (jsonify (JObj [(lit "repositories", repositories)]) 200).

Definition clear_repositories (E : env) : M world response :=
  try_except
    (save_repositories E (JArr []) ;;;
     repositories <- load_repositories ;;
     n <- lift (py_len repositories) ;;
     if (0 <? n)%nat then ret (error (lit "Failed to clear repositories") 500)
     else ret (jsonify (JObj [(lit "repositories", JArr []);
                              (lit "message", JStr (lit "All repositories cleared"))]) 200))
    (server_error "Error clearing repositories: ").

(** [{r['path'] for r in items}] *)
Fixpoint path_set (items : list json) : result (list json) :=
  match items with
  | [] => Ret []
  | r :: rest =>
    p <-- py_getitem r "path" ;;
    _ <-- py_hashable p ;;
    paths <-- path_set rest ;;
    Ret (p :: paths)
  end.

(** The loop of [batch_add_repositories] over the requested paths; its
    variables are [repositories], [existing_paths], [added_count] and
    [errors]. *)
Fixpoint batch_loop (E : env) (repo_paths : list json)
         (repositories : json) (existing_paths : list json)
         (added_count : Z) (errors : list pystr)
  : result (json * Z * list pystr) :=
  match repo_paths with
  | [] => Ret (repositories, added_count, errors)
  | raw :: rest =>
    stripped <-- py_strip raw ;;
    match stripped with
    | [] => batch_loop E rest repositories existing_paths added_count errors
    | _ :: _ =>
      let path := abspath E (expanduser E stripped) in
      if negb (isdir E (path_join path (lit ".git")))
      then batch_loop E rest repositories existing_paths added_count
                      (errors ++ [lit "'" ++ path ++ lit "' is not a git repository"])
      else if set_mem (JStr path) existing_paths
      then batch_loop E rest repositories existing_paths added_count errors
      else
        repositories' <-- py_append repositories (new_entry path) ;;
        batch_loop E rest repositories' (existing_paths ++ [JStr path])
                   (added_count + 1) errors
    end
  end.

Definition batch_add_repositories (E : env) (req : request) : M world response :=
  try_except
    (if negb (is_json req) then ret (error (lit "Request must be JSON") 400)
     else
       data <- lift (request_json req) ;;
       if negb (truthy data) then ret (error (lit "Invalid request data") 400)
       else
         repo_paths <- lift (py_get data "paths" (JArr [])) ;;
         match repo_paths with
         | JArr paths =>
           repositories <- load_repositories ;;
           items <- lift (py_iter repositories) ;;
           existing_paths <- lift (path_set items) ;;
           out <- lift (batch_loop E paths repositories existing_paths 0 []) ;;
           let '(repositories, added_count, errors) := out in
           save_repositories E repositories ;;;
           ret (jsonify (JObj [(lit "repositories", repositories);
                               (lit "added", JInt added_count);
                               (lit "errors", JArr (map JStr errors))]) 200)
         | _ => ret (error (lit "Paths must be a list") 400)
         end)
    (server_error "Server error: ").

Definition update_repositories (E : env) (req : request) : M world response :=
  data <- lift (request_json req) ;;
  repositories <- lift (py_get data "repositories" (JArr [])) ;;
  save_repositories E repositories ;;;
  ret (jsonify (JObj [(lit "repositories", repositories)]) 200).

Definition not_found (command : string) : pystr :=
  lit command ++ lit " command not found. Please ensure it's installed and in your PATH.".

(** The loop of [start_work] and [stop_work]: [inl] is the response
    returned from inside the loop, [inr] the lists [results] and [errors]
    when the loop runs to its end. *)
Fixpoint work_loop (E : env) (command : string) (items : list json)
         (results : list json) (errors : list pystr)
  : M world (response + list json * list pystr) :=
  match items with
  | [] => ret (inr (results, errors))
  | repo_path :: rest =>
    outcome <- run_command E [JStr (lit command); repo_path] 30 ;;
    match outcome with
    | Completed returncode stderr =>
      if negb (returncode =? 0)
      then work_loop E command rest results
                     (errors ++ [format repo_path ++ lit ": " ++ stderr])
      else work_loop E command rest (results ++ [repo_path]) errors
    | FileNotFound => ret (inl (error (not_found command) 500))
    | TimeoutExpired =>
      work_loop E command rest results (errors ++ [format repo_path ++ lit ": Timeout"])
    | Failed e => raise e
    end
  end.

Definition work (E : env) (command : string) (req : request) : M world response :=
  data <- lift (request_json req) ;;
  repositories <- lift (py_get data "repositories" (JArr [])) ;;
  if negb (truthy repositories) then ret (error (lit "No repositories selected") 400)
  else
    items <- lift (py_iter repositories) ;;
    out <- work_loop E command items [] [] ;;
    match out with
    | inl resp => ret resp
    | inr (results, errors) =>
      ret (jsonify (JObj [(lit "success", JInt (Z.of_nat (List.length results)));
                          (lit "errors", JArr (map JStr errors));
                          (lit "results", JArr results)]) 200)
    end.

Definition start_work (E : env) (req : request) : M world response := work E "startWork" req.
Definition stop_work (E : env) (req : request) : M world response := work E "stopWork" req.

(** [datetime.strptime(v, "%Y-%m-%d")]: [Ret None] is [ValueError]. *)
Definition py_strptime (v : json) : result (option (Z * Z * Z)) :=
  match v with
  | JStr s => Ret (Datetime.strptime s)
  | _ => Raise (Exn TypeError (lit "strptime() argument 1 must be str, not " ++ type_name v))
  end.

(** The [try] block that validates both dates: [false] when either call
    raises [ValueError]. *)
Definition dates_valid (start_date end_date : json) : result bool :=
  s <-- py_strptime start_date ;;
  match s with
  | None => Ret false
  | Some _ =>
    e <-- py_strptime end_date ;;
    Ret (match e with Some _ => true | None => false end)
  end.

(** [[...] + v] *)
Definition list_concat (l : list json) (v : json) : result (list json) :=
  match v with
  | JArr items => Ret (l ++ items)
  | _ => Raise (Exn TypeError
                    (lit "can only concatenate list (not " ++ [34] ++ type_name v ++ [34]
                         ++ lit ") to list"))
  end.

Definition tabulate_work (E : env) (req : request) : M world response :=
  data <- lift (request_json req) ;;
  repositories <- lift (py_get data "repositories" (JArr [])) ;;
  start_date <- lift (py_get data "startDate" (JStr [])) ;;
  end_date <- lift (py_get data "endDate" (JStr [])) ;;
  output_file <- lift (py_get data "outputFile" (JStr [])) ;;
  if negb (truthy repositories) then ret (error (lit "No repositories selected") 400)
  else if negb (truthy start_date) || negb (truthy end_date)
  then ret (error (lit "Start date and end date are required") 400)
  else
    valid <- lift (dates_valid start_date end_date) ;;
    if negb valid
    then ret (error (lit "Invalid date format. Please use YYYY-MM-DD format.") 400)
    else if negb (truthy output_file) then ret (error (lit "Output file is required") 400)
    else
      output_file <- lift (py_fspath output_file) ;;
      let output_file := abspath E (expanduser E output_file) in
      cmd <- lift (list_concat [JStr (lit "tabulateWork"); JStr (lit "-o"); JStr output_file;
                                start_date; end_date] repositories) ;;
      outcome <- run_command E cmd 60 ;;
      match outcome with
      | Completed returncode stderr =>
        if negb (returncode =? 0)
        then ret (error (lit "Failed to generate work report: " ++ stderr) 500)
        else ret (jsonify (JObj [(lit "success", JBool true);
                                 (lit "outputFile", JStr output_file);
                                 (lit "message",
                                  JStr (lit "Work report saved to " ++ output_file))]) 200)
      | FileNotFound => ret (error (not_found "tabulateWork") 500)
      | TimeoutExpired => ret (error (lit "Timeout generating work report") 500)
      | Failed e => raise e
      end.

End Server.

(** ** [monitorWork.py]: class [WorkMonitorGUI] *)

Module Gui.

(** The attributes of the window that its methods read and write: the
    list in memory, the rows of the tree view (the check mark and the path
    shown), the two date fields, and the world outside. *)
Record gui : Type := {
  repositories : json;
  repo_tree : list (bool * json);
  start_date_var : pystr;
  end_date_var : pystr;
  outside : world
}.

Definition set_repositories (r : json) : M gui unit :=
  fun g => (Ret tt, {| repositories := r; repo_tree := repo_tree g;
                       start_date_var := start_date_var g;
                       end_date_var := end_date_var g; outside := outside g |}).

Definition set_tree (rows : list (bool * json)) : M gui unit :=
  fun g => (Ret tt, {| repositories := repositories g; repo_tree := rows;
                       start_date_var := start_date_var g;
                       end_date_var := end_date_var g; outside := outside g |}).

(** A step on the world outside, run from the window. *)
Definition on_world {A} (m : M world A) : M gui A :=
  fun g => let (r, w) := m (outside g) in
           (r, {| repositories := repositories g; repo_tree := repo_tree g;
                  start_date_var := start_date_var g;
                  end_date_var := end_date_var g; outside := w |}).

Definition messagebox (kind : dialog) (title : string) (message : pystr) : M gui unit :=
  on_world (emit (EvDialog kind (lit title) message)).

Definition load_repositories : M gui unit :=
  g <- get ;;
  match config (outside g) with
  | Text t =>
    match Json.loads t with
    | Some data =>
      repositories <- lift (py_get data "repositories" (JArr [])) ;;
      set_repositories repositories
    | None => set_repositories (JArr [])
    end
  | Unreadable => set_repositories (JArr [])
  | Missing => set_repositories (JArr [])
  | Broken e => raise e
  end.

Definition save_repositories (E : env) : M gui unit :=
  g <- get ;;
  let text := Json.dumps (JObj [(lit "repositories", repositories g)]) in
  match write_error E with
  | None => on_world (write_config text)
  | Some (CannotOpen msg) =>
    messagebox showerror "Error" (lit "Failed to save repositories: " ++ msg)
  | Some (CannotWrite reached msg) =>
    on_world (write_config (firstn reached text)) ;;;
    messagebox showerror "Error" (lit "Failed to save repositories: " ++ msg)
  end.

(** The rows [update_repo_list] inserts, up to the first entry that
    raises. *)
Fixpoint tree_rows (items : list json) : list (bool * json) * option exn :=
  match items with
  | [] => ([], None)
  | repo :: rest =>
    match (selected <-- py_get repo "selected" (JBool false) ;;
           path <-- py_getitem repo "path" ;;
           Ret (truthy selected, path)) with
    | Ret row => let (rows, e) := tree_rows rest in (row :: rows, e)
    | Raise e => ([], Some e)
    end
  end.

Definition update_repo_list : M gui unit :=
  set_tree [] ;;;
  g <- get ;;
  items <- lift (py_iter (repositories g)) ;;
  let (rows, e) := tree_rows items in
  set_tree rows ;;;
  match e with
  | Some e => raise e
  | None => ret tt
  end.

(** [add_repository]: [askdirectory] is what the directory dialog
    returns (empty when cancelled), [askstring] what the text dialog
    returns when it is shown. *)
Definition add_repository (E : env) (askdirectory : pystr) (askstring : option pystr)
  : M gui unit :=
  let path := match askdirectory with
              | [] => askstring
              | _ :: _ => Some askdirectory
              end in
  match path with
  | None | Some [] => ret tt
  | Some path =>
    let path := abspath E path in
    if negb (isdir E (path_join path (lit ".git")))
    then messagebox showerror "Error" (lit "'" ++ path ++ lit "' is not a git repository.")
    else
      g <- get ;;
      items <- lift (py_iter (repositories g)) ;;
      present <- lift (any_path_is path items) ;;
      if present then messagebox showwarning "Warning" (lit "Repository already in list.")
      else
        repositories <- lift (py_append (repositories g) (new_entry path)) ;;
        set_repositories repositories ;;;
        save_repositories E ;;;
        update_repo_list
  end.

(** The loop of [remove_repository] over the selected rows of the tree;
    a row is given by its position. *)
Fixpoint remove_loop (selected_items : list nat) : M gui unit :=
  match selected_items with
  | [] => ret tt
  | item :: rest =>
    g <- get ;;
    match nth_error (repo_tree g) item with
    | Some (_, path) =>
      items <- lift (py_iter (repositories g)) ;;
      kept <- lift (without_path path items) ;;
      set_repositories (JArr kept) ;;;
      remove_loop rest
    | None => remove_loop rest
    end
  end.

Definition remove_repository (E : env) (selected_items : list nat) : M gui unit :=
  match selected_items with
  | [] => messagebox showwarning "Warning" (lit "Please select a repository to remove.")
  | _ :: _ =>
    remove_loop selected_items ;;;
    save_repositories E ;;;
    update_repo_list
  end.

(** [for repo in items: repo['selected'] = value], with the entries
    changed before an entry raises. *)
Fixpoint mark_all (value : bool) (items : list json) : list json * option exn :=
  match items with
  | [] => ([], None)
  | repo :: rest =>
    match py_setitem repo "selected" (JBool value) with
    | Ret repo' => let (rest', e) := mark_all value rest in (repo' :: rest', e)
    | Raise e => (items, Some e)
    end
  end.

(** The entries of the list in memory are changed in place; the items of
    any other iterable are temporary objects. *)
Definition store_items (items : list json) : M gui unit :=
  g <- get ;;
  match repositories g with
  | JArr _ => set_repositories (JArr items)
  | _ => ret tt
  end.

Definition select (E : env) (value : bool) : M gui unit :=
  g <- get ;;
  items <- lift (py_iter (repositories g)) ;;
  let (items', e) := mark_all value items in
  store_items items' ;;;
  match e with
  | Some e => raise e
  | None => save_repositories E ;;; update_repo_list
  end.

Definition select_all (E : env) : M gui unit := select E true.
Definition deselect_all (E : env) : M gui unit := select E false.

(** The loop of [on_tree_click]: the first entry with the path gets the
    new mark. *)
Fixpoint set_selected (path : json) (value : bool) (items : list json)
  : list json * option exn :=
  match items with
  | [] => ([], None)
  | repo :: rest =>
    match py_getitem repo "path" with
    | Raise e => (items, Some e)
    | Ret p =>
      if py_eq p path then
        match py_setitem repo "selected" (JBool value) with
        | Ret repo' => (repo' :: rest, None)
        | Raise e => (items, Some e)
        end
      else let (rest', e) := set_selected path value rest in (repo :: rest', e)
    end
  end.

Fixpoint replace_row (i : nat) (row : bool * json) (rows : list (bool * json))
  : list (bool * json) :=
  match rows, i with
  | [], _ => []
  | _ :: rows', O => row :: rows'
  | r :: rows', S i' => r :: replace_row i' row rows'
  end.

(** [on_tree_click]: [region], [item] and [column] are what the tree view
    identifies under the pointer. *)
Definition on_tree_click (E : env) (region : pystr) (item : option nat) (column : pystr)
  : M gui unit :=
  if str_eqb region (lit "cell") then
    match item with
    | Some i =>
      if str_eqb column (lit "#1") then
        g <- get ;;
        match nth_error (repo_tree g) i with
        | Some (current_state, path) =>
          let new_state := negb current_state in
          set_tree (replace_row i (new_state, path) (repo_tree g)) ;;;
          items <- lift (py_iter (repositories g)) ;;
          let (items', e) := set_selected path new_state items in
          store_items items' ;;;
          match e with
          | Some e => raise e
          | None => save_repositories E
          end
        | None => ret tt
        end
      else ret tt
    | None => ret tt
    end
  else ret tt.

(** [[r['path'] for r in items if r.get('selected', False)]] *)
Fixpoint selected_paths (items : list json) : result (list json) :=
  match items with
  | [] => Ret []
  | r :: rest =>
    selected <-- py_get r "selected" (JBool false) ;;
    if truthy selected then
      path <-- py_getitem r "path" ;;
      paths <-- selected_paths rest ;;
      Ret (path :: paths)
    else selected_paths rest
  end.

Definition get_selected_repositories : M gui (list json) :=
  g <- get ;;
  items <- lift (py_iter (repositories g)) ;;
  lift (selected_paths items).

(** [validate_dates]: the two stripped dates, or [None] for the pair
    [(None, None)]. *)
Definition validate_dates : M gui (option (pystr * pystr)) :=
  g <- get ;;
  let start_date := strip (start_date_var g) in
  let end_date := strip (end_date_var g) in
  match Datetime.strptime start_date, Datetime.strptime end_date with
  | Some _, Some _ => ret (Some (start_date, end_date))
  | _, _ =>
    messagebox showerror "Error" (lit "Invalid date format. Please use YYYY-MM-DD format.") ;;;
    ret None
  end.

Definition not_found (command : string) : pystr :=
  lit command ++ lit " command not found. Please ensure it's installed and in your PATH.".

(** The loop of [start_work] and [stop_work]; [false] when the method
    returns from inside the loop. *)
Fixpoint work_loop (E : env) (command verb gerund : string) (selected : list json)
  : M gui bool :=
  match selected with
  | [] => ret true
  | repo_path :: rest =>
    outcome <- on_world (run_command E [JStr (lit command); repo_path] 30) ;;
    match outcome with
    | Completed returncode stderr =>
      (if negb (returncode =? 0)
       then messagebox showerror "Error"
                       (lit "Failed to " ++ lit verb ++ lit " work on " ++ format repo_path
                            ++ lit ":" ++ [10] ++ stderr)
       else ret tt) ;;;
      work_loop E command verb gerund rest
    | FileNotFound =>
      messagebox showerror "Error" (not_found command) ;;;
      ret false
    | TimeoutExpired =>
      messagebox showerror "Error"
                 (lit "Timeout " ++ lit gerund ++ lit " work on " ++ format repo_path) ;;;
      work_loop E command verb gerund rest
    | Failed e => raise e
    end
  end.

(** The two methods differ in the command and in the words of their
    messages. *)
Definition work (E : env) (command verb gerund past : string) : M gui unit :=
  selected <- get_selected_repositories ;;
  match selected with
  | [] => messagebox showwarning "Warning" (lit "Please select at least one repository.")
  | _ :: _ =>
    finished <- work_loop E command verb gerund selected ;;
    if finished
    then messagebox showinfo "Success"
                    (lit past ++ lit " work on "
                         ++ Json.int_repr (Z.of_nat (List.length selected))
                         ++ lit " repository(ies).")
    else ret tt
  end.

Definition start_work (E : env) : M gui unit :=
  work E "startWork" "start" "starting" "Started".
Definition stop_work (E : env) : M gui unit :=
  work E "stopWork" "stop" "stopping" "Stopped".

(** [tabulate_work]: [asksaveasfilename] is what the file dialog returns
    when it is shown (empty when cancelled). *)
Definition tabulate_work (E : env) (asksaveasfilename : pystr) : M gui unit :=
  selected <- get_selected_repositories ;;
  match selected with
  | [] => messagebox showwarning "Warning" (lit "Please select at least one repository.")
  | _ :: _ =>
    dates <- validate_dates ;;
    match dates with
    | None => ret tt
    | Some (start_date, end_date) =>
      match asksaveasfilename with
      | [] => ret tt
      | output_file =>
        outcome <- on_world (run_command E
                               ([JStr (lit "tabulateWork"); JStr (lit "-o"); JStr output_file;
                                 JStr start_date; JStr end_date] ++ selected) 60) ;;
        match outcome with
        | Completed returncode stderr =>
          if negb (returncode =? 0)
          then messagebox showerror "Error"
                          (lit "Failed to generate work report:" ++ [10] ++ stderr)
          else messagebox showinfo "Success" (lit "Work report saved to " ++ output_file)
        | FileNotFound => messagebox showerror "Error" (not_found "tabulateWork")
        | TimeoutExpired => messagebox showerror "Error" (lit "Timeout generating work report")
        | Failed e => raise e
        end
      end
    end
  end.

Definition on_closing (E : env) : M gui unit := save_repositories E.

(** [WorkMonitorGUI.__init__]: [today] is
    [datetime.now().strftime("%Y-%m-%d")]. *)
Definition init (today : pystr) (w : world) : result unit * gui :=
  (load_repositories ;;; update_repo_list)
    {| repositories := JArr []; repo_tree := [];
       start_date_var := today; end_date_var := today; outside := w |}.

End Gui.

(** ** [SingleInstance]: the lock file

    Both programs wrap their main loop in [with SingleInstance(LOCK_FILE)].
    The operating system keeps, for the lock file, the process that holds
    the exclusive [flock] on it. *)

Module Lock.

Inductive front_end : Type := TkGui | FlaskServer.

Record os : Type := {
  holder : option Z;          (* the process that holds the lock *)
  lock_text : option pystr;   (* the text of the lock file; None: no such file *)
  can_open : bool;            (* whether open(lock_file, 'w') succeeds *)
  shown : list event          (* what has been shown and called so far *)
}.

Inductive entered : Type :=
| Entered                     (* __enter__ returned self *)
| SystemExit (code : Z).      (* sys.exit(code) *)

Definition log (e : event) (o : os) : os :=
  {| holder := holder o; lock_text := lock_text o; can_open := can_open o;
     shown := shown o ++ [e] |}.

(** The [except (IOError, OSError)] branch of [__enter__]. *)
Definition already_running (app : front_end) (lock_file : pystr) (o : os) : entered * os :=
  let o' :=
    match app with
    | TkGui =>
      log (EvDialog showerror (lit "Already Running")
                    (lit "monitorWork.py is already running." ++ [10]
                         ++ lit "Only one instance can run at a time.")) o
    | FlaskServer =>
      log (EvPrint (lit "Check if another instance is running or remove " ++ lock_file))
          (log (EvPrint (lit "Error: monitorWork_server.py is already running.")) o)
    end in
  (SystemExit 1, log (EvExit 1) o').

(** [SingleInstance.__enter__] in the process [pid]. *)
Definition enter (app : front_end) (lock_file : pystr) (pid : Z) (o : os) : entered * os :=
  if negb (can_open o) then already_running app lock_file o
  else
    (* open(self.lock_file, 'w') creates or truncates the file *)
    let o1 := {| holder := holder o; lock_text := Some []; can_open := can_open o;
                 shown := shown o |} in
    (* fcntl.flock(fd, LOCK_EX | LOCK_NB) *)
    let o2 := log (EvFlock lock_file) o1 in
    match holder o2 with
    | Some _ => already_running app lock_file o2
    | None =>
      (Entered, {| holder := Some pid; lock_text := Some (Json.int_repr pid);
                   can_open := can_open o2; shown := shown o2 |})
    end.

(** [SingleInstance.__exit__] *)
Definition exit (o : os) : os :=
  {| holder := None; lock_text := None; can_open := can_open o; shown := shown o |}.

(** [with SingleInstance(LOCK_FILE): app]: the exit status of the
    process and the state it leaves. *)
Definition main (app : front_end) (lock_file : pystr) (pid : Z) (body : os -> os) (o : os)
  : Z * os :=
  match enter app lock_file pid o with
  | (Entered, o') => (0, exit (body o'))
  | (SystemExit code, o') => (code, o')
  end.

End Lock.

(** ** Well-formed values

    The strings this program handles come from the JSON decoder, from the
    operating system and from Tk.  None of them yields a high surrogate
    directly followed by a low surrogate: the decoder joins such a pair
    into the character it encodes.  Such a pair is the one thing the JSON
    file does not give back as it was written. *)

Module Wf.

Definition code_pointb (c : Z) : bool := (0 <=? c) && (c <? 1114112).

Fixpoint pair_free (s : pystr) : bool :=
  match s with
  | [] => true
  | c :: r =>
    match r with
    | [] => true
    | d :: _ => negb (Json.is_high c && Json.is_low d) && pair_free r
    end
  end.

(** A string of code points without a surrogate pair. *)
Definition str_ok (s : pystr) : bool := forallb code_pointb s && pair_free s.

Fixpoint distinct_keys (keys : list pystr) : bool :=
  match keys with
  | [] => true
  | k :: rest => negb (existsb (str_eqb k) rest) && distinct_keys rest
  end.

(** A value made of [None], booleans, integers, well-formed strings,
    lists, and dicts with well-formed keys, each key once. *)
Fixpoint json_ok (v : json) : bool :=
  match v with
  | JNull | JBool _ | JInt _ => true
  | JFloat _ => false
  | JStr s => str_ok s
  | JArr items => forallb json_ok items
  | JObj members =>
    forallb (fun kv : pystr * json => let (k, x) := kv in str_ok k && json_ok x) members
    && distinct_keys (map fst members)
  end.

(** The text [t] starts with the escape of a low surrogate. *)
Definition low_escape_next (t : pystr) : bool :=
  match t with
  | b :: u :: k1 :: k2 :: k3 :: k4 :: _ =>
    (b =? 92) && (u =? 117)
    && match Json.decode_uXXXX k1 k2 k3 k4 with
       | Some u2 => Json.is_low u2
       | None => false
       end
  | _ => false
  end.

(** What may follow a number of the encoder: the end of the text, or a
    character that cannot continue the number. *)
Definition terminated (rest : pystr) : bool :=
  match rest with
  | [] => true
  | c :: _ => negb (Json.is_digit c || (c =? 46) || (c =? 101) || (c =? 69))
  end.

(** The first character of an encoded value: not white space, not a
    closing bracket. *)
Definition value_head (c : Z) : Prop :=
  c = 110 \/ c = 116 \/ c = 102 \/ c = 34 \/ c = 91 \/ c = 123 \/ c = 45
  \/ Json.is_digit c = true.

(** [scan] reads back every item of the list. *)
Definition reads_items (scan : pystr -> option (json * pystr)) (level : nat)
           (items : list json) : Prop :=
  Forall (fun x => json_ok x = true
                   /\ forall t, terminated t = true ->
                                scan (Json.iterencode level x ++ t) = Some (x, t)) items.

(** One line of an encoded dict. *)
Definition member_chunk (level : nat) (kv : pystr * json) : pystr :=
  let (k, v) := kv in Json.encode_basestring_ascii k ++ [58; 32] ++ Json.iterencode level v.

(** A scanner that consumes at least one character of every text of
    length at most [bound] it accepts. *)
Definition consumes (A : Type) (scan : pystr -> option (A * pystr)) (bound : nat) : Prop :=
  forall s v r, (List.length s <= bound)%nat -> scan s = Some (v, r) ->
                (List.length r < List.length s)%nat.

(** Two scanners that agree on the texts of length at most [bound]. *)
Definition agree (A : Type) (scan1 scan2 : pystr -> option (A * pystr)) (bound : nat) : Prop :=
  forall s, (List.length s <= bound)%nat -> scan1 s = scan2 s.

(** A character of a text decoded from UTF-8: a code point that is no
    surrogate. *)
Definition scalar (c : Z) : bool := code_pointb c && negb (Json.is_high c || Json.is_low c).

(** The text of a request, as Flask decodes it. *)
Definition text_ok (t : pystr) : bool := forallb scalar t.

(** The string does not start with a low surrogate. *)
Definition head_not_low (s : pystr) : bool :=
  match s with
  | [] => true
  | c :: _ => negb (Json.is_low c)
  end.

(** The text starts with a quote, a brace or a bracket. *)
Definition opens (s : pystr) : bool :=
  match s with
  | c :: _ => (c =? 34) || (c =? 123) || (c =? 91)
  | [] => false
  end.

(** What [scan] reads of a text it reads of the text followed by [q],
    when the value read is closed by a quote or bracket, or is followed
    by a character that ends a number. *)
Definition reads_on (scan : pystr -> option (json * pystr)) (q : pystr) : Prop :=
  scan [] = None
  /\ forall s v r, scan s = Some (v, r) ->
                   opens s = true \/ (r <> [] /\ terminated r = true) ->
                   scan (s ++ q) = Some (v, r ++ q).

End Wf.
Export Wf.

Ltac eqb_false :=
  repeat match goal with
         | H : ?a <> ?b |- context [?a =? ?b] =>
           rewrite (proj2 (Z.eqb_neq a b) H)
         end.


(** ** What the properties speak about *)

Module Spec.

(** The list the configuration file holds: what [load_repositories]
    returns. *)
Definition stored (w : world) (items : list json) : Prop :=
  fst (Server.load_repositories w) = Ret (JArr items).

(** The ['path'] of every entry, when every entry is a dict whose
    ['path'] is a string. *)
Fixpoint entry_paths (items : list json) : option (list pystr) :=
  match items with
  | [] => Some []
  | r :: rest =>
    match r with
    | JObj d =>
      match dict_lookup (lit "path") d, entry_paths rest with
      | Some (JStr p), Some ps => Some (p :: ps)
      | _, _ => None
      end
    | _ => None
    end
  end.

(** No two entries share the same ['path']. *)
Definition distinct_paths (items : list json) : Prop :=
  exists ps, entry_paths items = Some ps /\ NoDup ps.

(** A list of entries, each with its string ['path'], no path twice, made
    of well-formed values. *)
Definition repository_list (items : list json) : Prop :=
  forallb json_ok items = true /\ distinct_paths items.

(** The invariant of the configuration file. *)
Definition config_ok (w : world) : Prop :=
  exists items, stored w items /\ repository_list items.

(** The invariant of the window: its list in memory and the file. *)
Definition gui_ok (g : Gui.gui) : Prop :=
  (exists items, Gui.repositories g = JArr items /\ repository_list items)
  /\ config_ok (Gui.outside g).

(** Every string of the value is well formed (floats and repeated keys
    are allowed): what the JSON decoder yields for a request
    (see [loads_strings_ok]). *)
Fixpoint strings_ok (v : json) : bool :=
  match v with
  | JNull | JBool _ | JInt _ | JFloat _ => true
  | JStr s => str_ok s
  | JArr items => forallb strings_ok items
  | JObj members =>
    forallb (fun kv : pystr * json => let (k, x) := kv in str_ok k && strings_ok x) members
  end.

(** A member of a dict of a request. *)
Definition member_ok (kv : pystr * json) : bool :=
  let (k, x) := kv in str_ok k && strings_ok x.

(** A scanner that reads, from a text of scalar values, values whose
    strings are well formed, and leaves such a text. *)
Definition reads_strings (scan : pystr -> option (json * pystr)) : Prop :=
  forall s v r, text_ok s = true -> scan s = Some (v, r) ->
                strings_ok v = true /\ text_ok r = true.

Definition request_ok (req : Server.request) : Prop :=
  forall data, Server.request_json req = Ret data -> strings_ok data = true.

(** The path functions of the operating system keep strings well
    formed. *)
Definition env_ok (E : env) : Prop :=
  (forall p, str_ok p = true -> str_ok (abspath E p) = true)
  /\ (forall p, str_ok p = true -> str_ok (expanduser E p) = true).

(** What [batch_add_repositories] makes of one requested path: [None]
    when it is blank, else its absolute form. *)
Definition normalize (E : env) (raw : pystr) : option pystr :=
  match strip raw with
  | [] => None
  | c :: s => Some (abspath E (expanduser E (c :: s)))
  end.

Definition is_git (E : env) (path : pystr) : bool := isdir E (path_join path (lit ".git")).

(** The paths a batch appends to a list whose paths are [known]: the git
    repositories among them that are not known yet, each once, in the
    order of their first occurrence. *)
Fixpoint batch_new (E : env) (raws : list pystr) (known : list pystr) : list pystr :=
  match raws with
  | [] => []
  | raw :: rest =>
    match normalize E raw with
    | Some p =>
      if is_git E p && negb (existsb (str_eqb p) known)
      then p :: batch_new E rest (known ++ [p])
      else batch_new E rest known
    | None => batch_new E rest known
    end
  end.

(** The messages a batch reports: one for each requested path that is
    not a git repository. *)
Definition batch_errors (E : env) (raws : list pystr) : list pystr :=
  flat_map (fun raw =>
              match normalize E raw with
              | Some p =>
                if is_git E p then []
                else [lit "'" ++ p ++ lit "' is not a git repository"]
              | None => []
              end) raws.

(** The window with another world outside. *)
Definition with_outside (g : Gui.gui) (w : world) : Gui.gui :=
  {| Gui.repositories := Gui.repositories g; Gui.repo_tree := Gui.repo_tree g;
     Gui.start_date_var := Gui.start_date_var g; Gui.end_date_var := Gui.end_date_var g;
     Gui.outside := w |}.

(** The window with another list in memory. *)
Definition with_repositories (g : Gui.gui) (r : json) : Gui.gui :=
  {| Gui.repositories := r; Gui.repo_tree := Gui.repo_tree g;
     Gui.start_date_var := Gui.start_date_var g; Gui.end_date_var := Gui.end_date_var g;
     Gui.outside := Gui.outside g |}.


(** The schema of an entry: a string ['path'] and a boolean
    ['selected']. *)
Record entry : Type := {
  entry_path : pystr;
  entry_selected : bool
}.

Definition entry_json (e : entry) : json :=
  JObj [(lit "path", JStr (entry_path e)); (lit "selected", JBool (entry_selected e))].

(** A list that conforms to the schema, as the program holds it. *)
Definition schema_list (l : list entry) : json := JArr (map entry_json l).

(** The command lines passed to [subprocess.run], in the order of the
    calls. *)
Definition commands_run (evs : list event) : list (list pystr) :=
  flat_map (fun e => match e with
                     | EvRun argv _ => [argv]
                     | _ => []
                     end) evs.

(** A string without a null character. *)
Definition no_null (p : pystr) : bool := negb (existsb (Z.eqb 0) p).

(** A string that can be an argument of a command line: it holds no null
    character, and no surrogate other than those that stand for a
    byte. *)
Definition argument_ok (p : pystr) : bool :=
  no_null p && forallb (fun c => negb (is_surrogate c) || escapes_byte c) p.

(** The run of the command for the path ends with an exit code or with a
    time-out. *)
Definition ends (E : env) (command : string) (p : pystr) : bool :=
  match run E [lit command; p] with
  | Completed _ _ | TimeoutExpired => true
  | FileNotFound | Failed _ => false
  end.

(** The commands leave the configuration file alone. *)
Definition quiet (E : env) : Prop := forall argv f, leaves E argv f = f.

(** The world after [subprocess.run] was called with the command line
    [argv]. *)
Definition after_run (E : env) (argv : list pystr) (timeout : Z) (w : world) : world :=
  {| config := match run E argv with
               | FileNotFound => config w
               | _ => leaves E argv (config w)
               end;
     events := events w ++ [EvRun argv timeout] |}.

(** The configuration file after [save_repositories] was called with the
    list [v], from the file [f] before the call: the new text, the file as
    it was, or the part of the new text that got to it. *)
Definition saved (E : env) (v : json) (f : file) : file :=
  let text := Json.dumps (JObj [(lit "repositories", v)]) in
  match write_error E with
  | None => Text text
  | Some (CannotOpen _) => f
  | Some (CannotWrite reached _) => Text (firstn reached text)
  end.

(** The paths of the window's list that are selected are [paths]. *)
Definition selected_are (g : Gui.gui) (paths : list pystr) : Prop :=
  Gui.get_selected_repositories g = (Ret (map JStr paths), g).

(** What the second instance shows before it exits. *)
Definition already_running_notice (app : Lock.front_end) (lock_file : pystr) : list event :=
  match app with
  | Lock.TkGui =>
    [EvDialog showerror (lit "Already Running")
              (lit "monitorWork.py is already running." ++ [10]
                   ++ lit "Only one instance can run at a time.")]
  | Lock.FlaskServer =>
    [EvPrint (lit "Error: monitorWork_server.py is already running.");
     EvPrint (lit "Check if another instance is running or remove " ++ lock_file)]
  end.

(** The attempts to take the lock among the events. *)
Definition flock_calls (evs : list event) : nat :=
  List.length (filter (fun e => match e with EvFlock _ => true | _ => false end) evs).

(** The invalid-date message of both front ends. *)
Definition invalid_date : pystr := lit "Invalid date format. Please use YYYY-MM-DD format.".

(** ** The writers of the configuration file

    One step of the system: an endpoint of the server answers a request,
    or the user acts on the window (which is also started on the current
    file).  The paths a step receives are well-formed strings.  The
    endpoint [/api/repositories/update] is not among the steps: it
    stores the list the request carries. *)
Inductive writes : Gui.gui -> Gui.gui -> Prop :=
| server_add (E : env) (req : Server.request) (g : Gui.gui) :
    env_ok E -> request_ok req ->
    writes g (with_outside g (snd (Server.add_repository E req (Gui.outside g))))
| server_batch_add (E : env) (req : Server.request) (g : Gui.gui) :
    env_ok E -> request_ok req ->
    writes g (with_outside g (snd (Server.batch_add_repositories E req (Gui.outside g))))
| server_remove (E : env) (req : Server.request) (g : Gui.gui) :
    writes g (with_outside g (snd (Server.remove_repository E req (Gui.outside g))))
| server_clear (E : env) (g : Gui.gui) :
    writes g (with_outside g (snd (Server.clear_repositories E (Gui.outside g))))
| gui_start (today : pystr) (g : Gui.gui) :
    writes g (snd (Gui.init today (Gui.outside g)))
| gui_add (E : env) (askdirectory : pystr) (askstring : option pystr) (g : Gui.gui) :
    env_ok E -> str_ok askdirectory = true ->
    (forall s, askstring = Some s -> str_ok s = true) ->
    writes g (snd (Gui.add_repository E askdirectory askstring g))
| gui_remove (E : env) (selected_items : list nat) (g : Gui.gui) :
    writes g (snd (Gui.remove_repository E selected_items g))
| gui_select_all (E : env) (g : Gui.gui) :
    writes g (snd (Gui.select_all E g))
| gui_deselect_all (E : env) (g : Gui.gui) :
    writes g (snd (Gui.deselect_all E g))
| gui_click (E : env) (region : pystr) (item : option nat) (column : pystr) (g : Gui.gui) :
    writes g (snd (Gui.on_tree_click E region item column g))
| gui_close (E : env) (g : Gui.gui) :
    writes g (snd (Gui.on_closing E g)).

(** The states the system reaches from a machine without configuration
    file. *)
Inductive reachable : Gui.gui -> Prop :=
| reach_fresh (g : Gui.gui) :
    Gui.repositories g = JArr [] -> config (Gui.outside g) = Missing -> reachable g
| reach_step (g g' : Gui.gui) :
    reachable g -> writes g g' -> reachable g'.

End Spec.
Export Spec.

(** ** An environment to run examples in

    A small POSIX-like machine: the home directory is [/home/u], a path
    is absolute when it starts with a slash, and the directories that
    exist are listed. *)

Module Example.

Definition home_dir : pystr := lit "/home/u".

Definition machine (cwd : pystr) (dirs : list pystr)
           (commands : list pystr -> proc_result) (write_error : option write_failure) : env :=
  {| home := home_dir;
     abspath := fun p => if startswith p [47] then p
                         else match p with
                              | [] => cwd
                              | _ :: _ => cwd ++ 47 :: p
                              end;
     expanduser := fun p => match p with
                            | c :: rest =>
                              if c =? 126 then
                                match rest with
                                | [] => home_dir
                                | d :: _ => if d =? 47 then home_dir ++ rest else p
                                end
                              else p
                            | [] => p
                            end;
     path_exists := fun p => existsb (str_eqb p) dirs;
     isdir := fun p => existsb (str_eqb p) dirs;
     listdir := fun p => if existsb (str_eqb p) dirs then Some [] else None;
     listdir_error := lit "[Errno 13] Permission denied";
     write_error := write_error;
     run := commands;
     leaves := fun _ f => f |}.

(** No file yet, no event yet. *)
Definition fresh_world : world := {| config := Missing; events := [] |}.

Definition fresh_gui : Gui.gui :=
  {| Gui.repositories := JArr []; Gui.repo_tree := [];
     Gui.start_date_var := lit "2024-01-01"; Gui.end_date_var := lit "2024-01-01";
     Gui.outside := fresh_world |}.

(** A JSON request with the given body. *)
Definition post (body : json) : Server.request :=
  {| Server.is_json := true; Server.request_json := Ret body |}.

(** A machine on which [/home/u/proj] is a git repository and every
    command succeeds. *)
Definition laptop : env :=
  machine home_dir [lit "/home/u/proj"; lit "/home/u/proj/.git"]
          (fun _ => Completed 0 []) None.

Definition proj : pystr := lit "/home/u/proj".

(** [POST /api/repositories] with [{"path": "/home/u/proj"}] *)
Definition add_proj : Server.request := post (JObj [(lit "path", JStr proj)]).

(** The window next to a server that has added [/home/u/proj]. *)
Definition after_add : Gui.gui :=
  with_outside fresh_gui (snd (Server.add_repository laptop add_proj fresh_world)).

(** A machine without the commands [startWork], [stopWork] and
    [tabulateWork]. *)
Definition bare : env :=
  machine home_dir [lit "/home/u/proj"; lit "/home/u/proj/.git"]
          (fun _ => FileNotFound) None.

Definition other : pystr := lit "/home/u/other".

(** [{"repositories": ["/home/u/proj", "/home/u/other"]}] *)
Definition work_on_two : Server.request :=
  post (JObj [(lit "repositories", JArr [JStr proj; JStr other])]).

Definition selected_entry (path : pystr) : json :=
  JObj [(lit "path", JStr path); (lit "selected", JBool true)].

(** A window in which both repositories are selected. *)
Definition two_selected : Gui.gui :=
  {| Gui.repositories := JArr [selected_entry proj; selected_entry other];
     Gui.repo_tree := [(true, JStr proj); (true, JStr other)];
     Gui.start_date_var := lit "2024-01-01"; Gui.end_date_var := lit "2024-01-31";
     Gui.outside := fresh_world |}.



(** A path made of a high surrogate and a low surrogate, and the
    character the two encode together. *)
Definition pair_entry : entry := {| entry_path := [55357; 56832]; entry_selected := false |}.
Definition joined_entry : entry := {| entry_path := [128512]; entry_selected := false |}.

(** [DELETE /api/repositories] with the empty string as path, and with
    [{"path": "/home/u/other"}] *)
Definition remove_nothing : Server.request := post (JObj [(lit "path", JStr [])]).
Definition remove_other : Server.request := post (JObj [(lit "path", JStr other)]).

(** [POST /api/repositories/update] with the same entry twice *)
Definition update_twice : Server.request :=
  post (JObj [(lit "repositories", JArr [new_entry proj; new_entry proj])]).



(** The lock file of the window, held by the process 4242. *)
Definition lock_file : pystr := lit "/home/u/.workmonitor/monitorWork.lock".
Definition held : Lock.os :=
  {| Lock.holder := Some 4242; Lock.lock_text := Some (lit "4242");
     Lock.can_open := true; Lock.shown := [] |}.

(** [POST /api/work/tabulate] for [/home/u/proj] with the given start
    date, up to the end of January 2024. *)
Definition tabulate_from (start_date : pystr) : Server.request :=
  post (JObj [(lit "repositories", JArr [JStr proj]);
              (lit "startDate", JStr start_date);
              (lit "endDate", JStr (lit "2024-01-31"));
              (lit "outputFile", JStr (lit "/home/u/report.csv"))]).

(** The window with [/home/u/proj] selected and a start date written
    with slashes. *)
Definition slashes : Gui.gui :=
  {| Gui.repositories := JArr [selected_entry proj];
     Gui.repo_tree := [(true, JStr proj)];
     Gui.start_date_var := lit "01/02/2024"; Gui.end_date_var := lit "2024-01-31";
     Gui.outside := fresh_world |}.

(** The laptop with the server started in [/srv]. *)
Definition started_in_srv : env :=
  machine (lit "/srv") [lit "/srv"; lit "/home/u/proj"; lit "/home/u/proj/.git"]
          (fun _ => Completed 0 []) None.

(** [POST /api/repositories/scan] with the given folder *)
Definition scan (folder : pystr) : Server.request :=
  post (JObj [(lit "folderPath", JStr folder)]).


End Example.

From Stdlib Require Import Sorted Permutation.

(** ** The clock

    The window starts with both date fields set to
    [datetime.now().strftime("%Y-%m-%d")]. *)

Module Clock.

(** [strftime("%Y-%m-%d")] of the day [d] of the month [m] of the year
    [y], for the years from 1000 on, which every C library writes with
    their four digits. *)
Definition strftime (y m d : Z) : pystr :=
  [48 + y / 1000; 48 + y / 100 mod 10; 48 + y / 10 mod 10; 48 + y mod 10; 45;
   48 + m / 10; 48 + m mod 10; 45;
   48 + d / 10; 48 + d mod 10].

End Clock.

(** ** What the remaining properties speak of *)

Module Laws.

(** The window with other rows in its tree. *)
Definition with_tree (g : Gui.gui) (rows : list (bool * json)) : Gui.gui :=
  {| Gui.repositories := Gui.repositories g; Gui.repo_tree := rows;
     Gui.start_date_var := Gui.start_date_var g; Gui.end_date_var := Gui.end_date_var g;
     Gui.outside := Gui.outside g |}.

(** The world after [json.dump({'repositories': v}, f, indent=2)] went
    through. *)
Definition written (w : world) (v : json) : world :=
  {| config := Text (Json.dumps (JObj [(lit "repositories", v)])); events := events w |}.

(** The world after a write that stopped when [reached] characters of the
    text of [v] had got to the file. *)
Definition cut_short (w : world) (v : json) (reached : nat) : world :=
  {| config := Text (firstn reached (Json.dumps (JObj [(lit "repositories", v)])));
     events := events w |}.

(** The world after more events, the file untouched. *)
Definition logged (w : world) (evs : list event) : world :=
  {| config := config w; events := events w ++ evs |}.

(** The entry is a dict whose ['path'] is the string [p]. *)
Definition has_path (p : pystr) (r : json) : bool :=
  match r with
  | JObj d =>
    match dict_lookup (lit "path") d with
    | Some (JStr q) => str_eqb q p
    | _ => false
    end
  | _ => false
  end.

(** The entries with another path than [p], in their order. *)
Definition others (p : pystr) (items : list json) : list json :=
  filter (fun r => negb (has_path p r)) items.

(** A step that leaves the configuration file as it is. *)
Definition keeps_file {A} (m : M world A) : Prop :=
  forall w, config (snd (m w)) = config w.

(** A step of the window that leaves its list and the configuration file
    as they are. *)
Definition keeps_list {A} (m : M Gui.gui A) : Prop :=
  forall g, Gui.repositories (snd (m g)) = Gui.repositories g
            /\ config (Gui.outside (snd (m g))) = config (Gui.outside g).

(** A step of the window that leaves its list as it is. *)
Definition keeps_memory {A} (m : M Gui.gui A) : Prop :=
  forall g, Gui.repositories (snd (m g)) = Gui.repositories g.

(** The order of [sort(key=lambda x: x['name'])]. *)
Definition by_name (a b : pystr * pystr) : Prop := Server.str_leb (fst a) (fst b) = true.

(** The command ends with exit code 0 for the repository. *)
Definition succeeded (E : env) (command : string) (p : pystr) : bool :=
  match run E [lit command; p] with
  | Completed returncode _ => returncode =? 0
  | _ => false
  end.

(** The error the server reports for the repository, if any. *)
Definition failure (E : env) (command : string) (p : pystr) : list pystr :=
  match run E [lit command; p] with
  | Completed returncode stderr =>
    if returncode =? 0 then [] else [p ++ lit ": " ++ stderr]
  | TimeoutExpired => [p ++ lit ": Timeout"]
  | FileNotFound | Failed _ => []
  end.

(** The number [n] below 100 as one types it, without a leading zero. *)
Definition plain (n : Z) : pystr :=
  if n <? 10 then [48 + n] else [48 + n / 10; 48 + n mod 10].

(** A date typed with the four digits of its year and without leading
    zeros in the month and the day, as in [2024-1-5]. *)
Definition unpadded (y m d : Z) : pystr :=
  [48 + y / 1000; 48 + y / 100 mod 10; 48 + y / 10 mod 10; 48 + y mod 10; 45]
    ++ plain m ++ [45] ++ plain d.

(** The string is a day of the calendar for [strptime]. *)
Definition calendar_date (s : pystr) : Prop :=
  exists y m d, Datetime.strptime s = Some (y, m, d)
                /\ 1 <= y <= 9999 /\ 1 <= m <= 12 /\ 1 <= d <= Datetime.days_in_month y m.

(** The rows [update_repo_list] makes of a list that follows the schema:
    the mark and the path of each entry. *)
Definition rows_of (l : list entry) : list (bool * json) :=
  map (fun e => (entry_selected e, JStr (entry_path e))) l.

(** The window holds the list [l] and shows it. *)
Definition shows (g : Gui.gui) (l : list entry) : Prop :=
  Gui.repositories g = schema_list l /\ Gui.repo_tree g = rows_of l.

(** The list with every entry marked [v]. *)
Definition set_all (v : bool) (l : list entry) : list entry :=
  map (fun e => {| entry_path := entry_path e; entry_selected := v |}) l.

(** The list with the entry at position [i] marked [v]. *)
Fixpoint set_at (i : nat) (v : bool) (l : list entry) : list entry :=
  match l, i with
  | [], _ => []
  | e :: l', O => {| entry_path := entry_path e; entry_selected := v |} :: l'
  | e :: l', S i' => e :: set_at i' v l'
  end.

(** The paths shown in the rows at the positions [picked]. *)
Definition picked_paths (l : list entry) (picked : list nat) : list pystr :=
  flat_map (fun i => match nth_error l i with
                     | Some e => [entry_path e]
                     | None => []
                     end) picked.

(** The entries whose path is none of [paths]. *)
Definition without_paths (paths : list pystr) (l : list entry) : list entry :=
  filter (fun e => negb (existsb (str_eqb (entry_path e)) paths)) l.

(** The window with the given list in memory and on screen. *)
Definition showing (g : Gui.gui) (l : list entry) (w : world) : Gui.gui :=
  {| Gui.repositories := schema_list l; Gui.repo_tree := rows_of l;
     Gui.start_date_var := Gui.start_date_var g; Gui.end_date_var := Gui.end_date_var g;
     Gui.outside := w |}.

(** The dialog the window shows when the command fails for the
    repository, if it does. *)
Definition failure_dialog (E : env) (command verb gerund : string) (p : pystr) : list event :=
  match run E [lit command; p] with
  | Completed returncode stderr =>
    if returncode =? 0 then []
    else [EvDialog showerror (lit "Error")
                   (lit "Failed to " ++ lit verb ++ lit " work on " ++ p
                        ++ lit ":" ++ [10] ++ stderr)]
  | TimeoutExpired =>
    [EvDialog showerror (lit "Error") (lit "Timeout " ++ lit gerund ++ lit " work on " ++ p)]
  | FileNotFound | Failed _ => []
  end.

End Laws.
Export Laws.

Module Cases.

(** [POST /api/repositories] with a directory that is no git
    repository. *)
Definition not_a_repo : Server.request :=
  Example.post (JObj [(lit "path", JStr Example.other)]).

(** The laptop with a disk that takes no write. *)
Definition read_only_disk : env :=
  Example.machine Example.home_dir [lit "/home/u/proj"; lit "/home/u/proj/.git"]
                  (fun _ => Completed 0 [])
                  (Some (CannotOpen (lit "[Errno 30] Read-only file system"))).

(** The laptop with a disk that is full after ten characters of a
    write. *)
Definition full_disk : env :=
  Example.machine Example.home_dir [lit "/home/u/proj"; lit "/home/u/proj/.git"]
                  (fun _ => Completed 0 [])
                  (Some (CannotWrite 10 (lit "[Errno 28] No space left on device"))).

(** A configuration file that holds a JSON list. *)
Definition list_config : world := {| config := Text (lit "[]"); events := [] |}.


(** A home directory with two git repositories, a plain directory and a
    file, as [os.listdir] gives them. *)
Definition checkouts : env :=
  {| home := lit "/home/u";
     abspath := fun p => p;
     expanduser := fun p => p;
     path_exists := fun _ => true;
     isdir := fun p => existsb (str_eqb p)
                              [lit "/home/u"; lit "/home/u/web"; lit "/home/u/web/.git";
                               lit "/home/u/api"; lit "/home/u/api/.git"; lit "/home/u/notes"];
     listdir := fun p => if str_eqb p (lit "/home/u")
                         then Some [lit "web"; lit "notes"; lit "api"; lit "todo.txt"]
                         else None;
     listdir_error := lit "[Errno 2] No such file or directory";
     write_error := None;
     run := fun _ => Completed 0 [];
     leaves := fun _ f => f |}.

(** A machine on which [startWork] fails in [/home/u/other]. *)
Definition one_fails : env :=
  Example.machine Example.home_dir [lit "/home/u/proj"; lit "/home/u/proj/.git"]
                  (fun argv => if existsb (str_eqb Example.other) argv
                               then Completed 1 (lit "fatal: not a git repository")
                               else Completed 0 [])
                  None.

(** The list of [Example.two_selected]. *)
Definition two_entries : list entry :=
  [{| entry_path := Example.proj; entry_selected := true |};
   {| entry_path := Example.other; entry_selected := true |}].

(** A string between double quotes. *)
Definition quoted (s : string) : pystr := [34] ++ lit s ++ [34].

(** A configuration file written by hand, in one line: an object whose
    key [repositories] holds one entry, [/home/u/proj], selected. *)
Definition by_hand : world :=
  {| config := Text (lit "{" ++ quoted "repositories" ++ lit ": [{"
                         ++ quoted "path" ++ lit ": " ++ quoted "/home/u/proj" ++ lit ", "
                         ++ quoted "selected" ++ lit ": true}]}");
     events := [] |}.

(** [POST /api/repositories] with the path [~/proj], and
    [DELETE /api/repositories] with the given path. *)
Definition add_tilde : Server.request := Example.post (JObj [(lit "path", JStr (lit "~/proj"))]).
Definition remove_path (path : pystr) : Server.request :=
  Example.post (JObj [(lit "path", JStr path)]).

End Cases.

(** * Properties *)

(** ** Strings *)

Lemma str_eqb_eq (a b : pystr) : str_eqb a b = true <-> a = b.
Proof.
  revert b; induction a as [|x a IH]; intros [|y b]; simpl; split; intros H;
    try reflexivity; try discriminate.
  - apply andb_true_iff in H as [Hx Hab]. apply Z.eqb_eq in Hx. apply IH in Hab. congruence.
  - injection H as -> ->. rewrite Z.eqb_refl. simpl. now apply IH.
Qed.

Lemma str_eqb_refl (a : pystr) : str_eqb a a = true.
Proof. now apply str_eqb_eq. Qed.

Lemma str_eqb_neq (a b : pystr) : str_eqb a b = false <-> a <> b.
Proof.
  split.
  - intros H Heq. apply str_eqb_eq in Heq. congruence.
  - intros H. destruct (str_eqb a b) eqn:E; [|reflexivity].
    apply str_eqb_eq in E. contradiction.
Qed.

Lemma str_eqb_sym (a b : pystr) : str_eqb a b = str_eqb b a.
Proof.
  destruct (str_eqb a b) eqn:E.
  - apply str_eqb_eq in E. subst. now rewrite str_eqb_refl.
  - symmetry. apply str_eqb_neq. apply str_eqb_neq in E. congruence.
Qed.

(** ** The JSON encoder and decoder agree *)

Module JsonFacts.
Import Json.

Lemma hex_val_digit (d : Z) : 0 <= d < 16 -> hex_val (hex_digit d) = Some d.
Proof.
  intros H. unfold hex_val, hex_digit.
  destruct (Z.ltb_spec d 10).
  - replace ((48 <=? 48 + d) && (48 + d <=? 57)) with true
      by (symmetry; apply andb_true_iff; split; apply Z.leb_le; lia).
    f_equal. lia.
  - replace ((48 <=? 87 + d) && (87 + d <=? 57)) with false
      by (symmetry; apply andb_false_iff; right; apply Z.leb_gt; lia).
    replace ((97 <=? 87 + d) && (87 + d <=? 102)) with true
      by (symmetry; apply andb_true_iff; split; apply Z.leb_le; lia).
    f_equal. lia.
Qed.

Lemma decode_hex4 (n : Z) :
  0 <= n < 65536 ->
  exists h1 h2 h3 h4,
    hex4 n = [h1; h2; h3; h4] /\ decode_uXXXX h1 h2 h3 h4 = Some n.
Proof.
  intros H. unfold hex4. do 4 eexists. split; [reflexivity|].
  unfold decode_uXXXX.
  assert (H3 : 0 <= n / 4096 mod 16 < 16) by (apply Z.mod_pos_bound; lia).
  assert (H2 : 0 <= n / 256 mod 16 < 16) by (apply Z.mod_pos_bound; lia).
  assert (H1 : 0 <= n / 16 mod 16 < 16) by (apply Z.mod_pos_bound; lia).
  assert (H0 : 0 <= n mod 16 < 16) by (apply Z.mod_pos_bound; lia).
  rewrite !hex_val_digit by assumption.
  f_equal.
  pose proof (Z.div_mod n 16 ltac:(lia)) as E0.
  pose proof (Z.div_mod (n / 16) 16 ltac:(lia)) as E1.
  pose proof (Z.div_mod (n / 256) 16 ltac:(lia)) as E2.
  assert (D1 : n / 256 = n / 16 / 16) by (rewrite Z.div_div by lia; reflexivity).
  assert (D2 : n / 4096 = n / 256 / 16) by (rewrite Z.div_div by lia; reflexivity).
  assert (S : n / 4096 < 16) by (apply Z.div_lt_upper_bound; lia).
  assert (S0 : 0 <= n / 4096) by (apply Z.div_pos; lia).
  rewrite (Z.mod_small (n / 4096) 16) by lia.
  rewrite <- D2 in E2. rewrite <- D1 in E1. lia.
Qed.


Lemma lor_high_low (h x : Z) :
  0 <= x < 1024 -> Z.lor (h * 1024) x = h * 1024 + x.
Proof.
  intros Hx.
  assert (D : Z.land (h * 1024) x = 0).
  { apply Z.bits_inj'; intros i Hi. rewrite Z.land_spec, Z.bits_0.
    change 1024 with (2 ^ 10). rewrite <- Z.shiftl_mul_pow2 by lia.
    destruct (Z.ltb_spec i 10).
    - rewrite Z.shiftl_spec_low by lia. reflexivity.
    - destruct (Z.eq_dec x 0) as [->|Hne].
      + rewrite Z.bits_0. apply andb_false_r.
      + rewrite (Z.bits_above_log2 x i); [apply andb_false_r | lia |].
        apply Z.lt_le_trans with 10; [|lia]. apply Z.log2_lt_pow2; lia. }
  rewrite Z.add_nocarry_lxor by exact D.
  symmetry. apply Z.lxor_lor. exact D.
Qed.

Lemma surrogate_pair_value (c : Z) :
  65536 <= c < 1114112 ->
  let n := c - 65536 in
  let s1 := Z.lor 55296 (Z.land (Z.shiftr n 10) 1023) in
  let s2 := Z.lor 56320 (Z.land n 1023) in
  s1 = 55296 + n / 1024 /\ s2 = 56320 + n mod 1024.
Proof.
  intros H n s1 s2. subst s1 s2.
  assert (Hn : 0 <= n < 1048576) by (subst n; lia).
  assert (Hq : 0 <= n / 1024 < 1024).
  { split; [apply Z.div_pos; lia | apply Z.div_lt_upper_bound; lia]. }
  assert (Hr : 0 <= n mod 1024 < 1024) by (apply Z.mod_pos_bound; lia).
  rewrite Z.shiftr_div_pow2 by lia.
  change (2 ^ 10) with 1024.
  change 1023 with (Z.ones 10).
  rewrite !Z.land_ones by lia.
  change (2 ^ 10) with 1024.
  rewrite (Z.mod_small (n / 1024)) by lia.
  split.
  - change 55296 with (54 * 1024). now apply lor_high_low.
  - change 56320 with (55 * 1024). now apply lor_high_low.
Qed.

Lemma surrogate_pair_join (c : Z) :
  65536 <= c < 1114112 ->
  let n := c - 65536 in
  65536 + Z.lor (Z.shiftl (55296 + n / 1024 - 55296) 10) (56320 + n mod 1024 - 56320) = c.
Proof.
  intros H n.
  assert (Hn : 0 <= n < 1048576) by (subst n; lia).
  assert (Hr : 0 <= n mod 1024 < 1024) by (apply Z.mod_pos_bound; lia).
  replace (55296 + n / 1024 - 55296) with (n / 1024) by lia.
  replace (56320 + n mod 1024 - 56320) with (n mod 1024) by lia.
  rewrite Z.shiftl_mul_pow2 by lia. change (2 ^ 10) with 1024.
  rewrite lor_high_low by assumption.
  pose proof (Z.div_mod n 1024 ltac:(lia)). subst n. lia.
Qed.

Lemma push_scan_bad_escape (c k1 k2 k3 k4 : Z) (r : pystr) :
  decode_uXXXX k1 k2 k3 k4 = None ->
  push c (scanstring (92 :: 117 :: k1 :: k2 :: k3 :: k4 :: r)) = None.
Proof. intros H. simpl. rewrite H. reflexivity. Qed.

Lemma scanstring_escape (c : Z) (t : pystr) :
  code_pointb c = true ->
  (is_high c = true -> low_escape_next t = false) ->
  scanstring (escape c ++ t) = push c (scanstring t).
Proof.
  intros Hc Hnext. unfold code_pointb in Hc.
  apply andb_true_iff in Hc as [Hc0 Hc1]. apply Z.leb_le in Hc0. apply Z.ltb_lt in Hc1.
  unfold escape.
  destruct (Z.eqb_spec c 92) as [->|N92]; [reflexivity|].
  destruct (Z.eqb_spec c 34) as [->|N34]; [reflexivity|].
  destruct (Z.eqb_spec c 8) as [->|N8]; [reflexivity|].
  destruct (Z.eqb_spec c 12) as [->|N12]; [reflexivity|].
  destruct (Z.eqb_spec c 10) as [->|N10]; [reflexivity|].
  destruct (Z.eqb_spec c 13) as [->|N13]; [reflexivity|].
  destruct (Z.eqb_spec c 9) as [->|N9]; [reflexivity|].
  destruct ((32 <=? c) && (c <=? 126)) eqn:P.
  - apply andb_true_iff in P as [P1 P2]. apply Z.leb_le in P1.
    simpl. eqb_false.
    replace (c <? 32) with false by (symmetry; apply Z.ltb_ge; lia). reflexivity.
  - destruct (Z.ltb_spec c 65536) as [B|B].
    + destruct (decode_hex4 c ltac:(lia)) as (h1 & h2 & h3 & h4 & Eh & Ed).
      rewrite Eh. cbn [app scanstring]. cbn [Z.eqb Pos.eqb]. rewrite Ed.
      destruct (is_high c) eqn:Hi; [|reflexivity].
      specialize (Hnext eq_refl).
      destruct t as [|b [|u [|k1 [|k2 [|k3 [|k4 r3]]]]]]; try reflexivity.
      unfold low_escape_next in Hnext.
      destruct (Z.eqb_spec b 92) as [->|Nb]; [|reflexivity].
      destruct (Z.eqb_spec u 117) as [->|Nu]; [|reflexivity].
      cbn [andb] in *.
      destruct (decode_uXXXX k1 k2 k3 k4) as [u2|] eqn:E2.
      * rewrite Hnext. reflexivity.
      * symmetry. now apply push_scan_bad_escape.
    + pose proof (surrogate_pair_value c ltac:(lia)) as [E1 E2]. cbv zeta in E1, E2.
      pose proof (surrogate_pair_join c ltac:(lia)) as J. cbv zeta in J.
      rewrite E1, E2.
      set (n := c - 65536) in *.
      assert (Hn : 0 <= n < 1048576) by (subst n; lia).
      assert (Hq : 0 <= n / 1024 < 1024).
      { split; [apply Z.div_pos; lia | apply Z.div_lt_upper_bound; lia]. }
      assert (Hr : 0 <= n mod 1024 < 1024) by (apply Z.mod_pos_bound; lia).
      destruct (decode_hex4 (55296 + n / 1024) ltac:(lia)) as (h1 & h2 & h3 & h4 & Eh & Ed).
      destruct (decode_hex4 (56320 + n mod 1024) ltac:(lia)) as (l1 & l2 & l3 & l4 & El & Edl).
      rewrite Eh, El. cbn [app scanstring]. cbn [Z.eqb Pos.eqb andb]. rewrite Ed.
      replace (is_high (55296 + n / 1024)) with true
        by (symmetry; unfold is_high; apply andb_true_iff; split; apply Z.leb_le; lia).
      rewrite Edl.
      replace (is_low (56320 + n mod 1024)) with true
        by (symmetry; unfold is_low; apply andb_true_iff; split; apply Z.leb_le; lia).
      rewrite J. reflexivity.
Qed.

Lemma low_escape_next_escape (d : Z) (t : pystr) :
  code_pointb d = true -> is_low d = false ->
  low_escape_next (escape d ++ t) = false.
Proof.
  intros Hc Hl. unfold code_pointb in Hc.
  apply andb_true_iff in Hc as [Hc0 Hc1]. apply Z.leb_le in Hc0. apply Z.ltb_lt in Hc1.
  unfold escape.
  destruct (Z.eqb_spec d 92) as [->|N92];
    [repeat (destruct t as [|? t]; try reflexivity)|].
  destruct (Z.eqb_spec d 34) as [->|N34];
    [repeat (destruct t as [|? t]; try reflexivity)|].
  destruct (Z.eqb_spec d 8) as [->|N8];
    [repeat (destruct t as [|? t]; try reflexivity)|].
  destruct (Z.eqb_spec d 12) as [->|N12];
    [repeat (destruct t as [|? t]; try reflexivity)|].
  destruct (Z.eqb_spec d 10) as [->|N10];
    [repeat (destruct t as [|? t]; try reflexivity)|].
  destruct (Z.eqb_spec d 13) as [->|N13];
    [repeat (destruct t as [|? t]; try reflexivity)|].
  destruct (Z.eqb_spec d 9) as [->|N9];
    [repeat (destruct t as [|? t]; try reflexivity)|].
  destruct ((32 <=? d) && (d <=? 126)) eqn:P.
  - cbn [app]. unfold low_escape_next.
    do 5 (destruct t as [|? t]; try reflexivity).
    eqb_false. reflexivity.
  - destruct (Z.ltb_spec d 65536) as [B|B].
    + destruct (decode_hex4 d ltac:(lia)) as (h1 & h2 & h3 & h4 & Eh & Ed).
      rewrite Eh. cbn [app]. unfold low_escape_next. rewrite Ed, Hl. reflexivity.
    + pose proof (surrogate_pair_value d ltac:(lia)) as [E1 E2]. cbv zeta in E1, E2.
      rewrite E1, E2.
      set (n := d - 65536) in *.
      assert (Hn : 0 <= n < 1048576) by (subst n; lia).
      assert (Hq : 0 <= n / 1024 < 1024).
      { split; [apply Z.div_pos; lia | apply Z.div_lt_upper_bound; lia]. }
      destruct (decode_hex4 (55296 + n / 1024) ltac:(lia)) as (h1 & h2 & h3 & h4 & Eh & Ed).
      rewrite Eh. cbn [app]. unfold low_escape_next. rewrite Ed.
      replace (is_low (55296 + n / 1024)) with false
        by (symmetry; unfold is_low; apply andb_false_iff; left; apply Z.leb_gt; lia).
      reflexivity.
Qed.

Lemma low_escape_next_quote (rest : pystr) : low_escape_next (34 :: rest) = false.
Proof. do 5 (destruct rest as [|? rest]; try reflexivity). Qed.

Lemma scanstring_flat_escape (s rest : pystr) :
  str_ok s = true ->
  scanstring (flat_map escape s ++ 34 :: rest) = Some (s, rest).
Proof.
  unfold str_ok. induction s as [|c s IH]; intros H.
  - reflexivity.
  - apply andb_true_iff in H as [Hall Hpf].
    cbn [forallb] in Hall. apply andb_true_iff in Hall as [Hc Hall].
    cbn [flat_map]. rewrite <- app_assoc.
    rewrite scanstring_escape; [| exact Hc |].
    + rewrite IH; [reflexivity|].
      apply andb_true_iff; split; [exact Hall|].
      destruct s; [reflexivity|]. cbn [pair_free] in Hpf.
      now apply andb_true_iff in Hpf as [_ Hpf].
    + intros Hi. destruct s as [|d s]; [apply low_escape_next_quote|].
      cbn [pair_free] in Hpf. apply andb_true_iff in Hpf as [Hp _].
      rewrite Hi in Hp. cbn [andb] in Hp. apply negb_true_iff in Hp.
      cbn [forallb] in Hall. apply andb_true_iff in Hall as [Hd _].
      cbn [flat_map]. rewrite <- app_assoc.
      now apply low_escape_next_escape.
Qed.

(** A string written by the encoder is read back as it was. *)
Lemma scanstring_encode (s rest : pystr) :
  str_ok s = true ->
  exists body,
    encode_basestring_ascii s ++ rest = 34 :: body
    /\ scanstring body = Some (s, rest).
Proof.
  intros H. exists (flat_map escape s ++ 34 :: rest). split.
  - unfold encode_basestring_ascii. cbn [app]. now rewrite <- app_assoc.
  - now apply scanstring_flat_escape.
Qed.

(** *** Integers *)

Lemma span_digits_uint (u : Decimal.uint) (rest : pystr) :
  match rest with [] => True | c :: _ => is_digit c = false end ->
  span_digits (uint_chars u ++ rest) = (uint_chars u, rest).
Proof.
  intros Hrest. induction u; cbn [uint_chars app span_digits];
    try (cbn [is_digit Z.leb Z.compare Pos.compare Pos.compare_cont andb];
         rewrite IHu; reflexivity).
  destruct rest as [|c rest]; [reflexivity|]. cbn [span_digits]. now rewrite Hrest.
Qed.

Lemma uint_of_digits_chars (u : Decimal.uint) : uint_of_digits (uint_chars u) = u.
Proof. induction u; cbn; congruence. Qed.

Lemma to_uint_head (p : positive) :
  exists c cs,
    uint_chars (Pos.to_uint p) = c :: cs /\ is_digit c = true /\ c <> 48.
Proof.
  assert (N : Decimal.unorm (Pos.to_uint p) = Pos.to_uint p).
  { rewrite <- (DecimalPos.Unsigned.to_of (Pos.to_uint p)).
    now rewrite DecimalPos.Unsigned.of_to. }
  pose proof (DecimalPos.Unsigned.to_uint_nonzero p) as NZ.
  pose proof (DecimalPos.Unsigned.to_uint_nonnil p) as NN.
  destruct (Pos.to_uint p) as [|u|u|u|u|u|u|u|u|u|u] eqn:E;
    try (cbn [uint_chars]; do 2 eexists; split; [reflexivity|]; split;
         [reflexivity | discriminate]).
  - contradiction.
  - exfalso. rewrite DecimalFacts.unorm_D0 in N.
    destruct (Decimal.nzhead u) eqn:Hz;
      [ apply DecimalFacts.unorm_0 in Hz; rewrite Hz in N;
        injection N as <-; now apply NZ | .. ];
      (rewrite DecimalFacts.unorm_nzhead in N by (rewrite Hz; discriminate);
       now apply DecimalFacts.nzhead_nonzero in N).
Qed.

Lemma match_tail_terminated (rest : pystr) :
  terminated rest = true ->
  match_frac rest = ([], rest) /\ match_exp rest = ([], rest)
  /\ match rest with [] => True | c :: _ => is_digit c = false end.
Proof.
  intros H. destruct rest as [|c rest]; [now repeat split|].
  cbn [terminated] in H. apply negb_true_iff in H.
  apply orb_false_iff in H as [H He2]. apply orb_false_iff in H as [H He1].
  apply orb_false_iff in H as [Hd Hdot].
  unfold match_frac, match_exp. rewrite Hdot, He1, He2. now repeat split.
Qed.

Lemma scan_number_int (n : Z) (rest : pystr) :
  terminated rest = true ->
  scan_number (int_repr n ++ rest) = Some (JInt n, rest).
Proof.
  intros H. destruct (match_tail_terminated rest H) as (Hf & He & Hd).
  unfold int_repr. pose proof (DecimalZ.of_to n) as OT.
  destruct n as [|p|p]; cbn [Z.to_int] in *.
  - cbn [uint_chars app]. unfold scan_number. cbn [match_integer Z.eqb Pos.eqb].
    rewrite Hf, He. reflexivity.
  - destruct (to_uint_head p) as (c & cs & Ec & Dc & Nc).
    assert (S : span_digits (cs ++ rest) = (cs, rest)).
    { pose proof (span_digits_uint (Pos.to_uint p) rest Hd) as S.
      rewrite Ec in S. cbn [app span_digits] in S. rewrite Dc in S.
      destruct (span_digits (cs ++ rest)). now injection S as -> ->. }
    unfold scan_number, match_integer. rewrite Ec. cbn [app].
    replace (c =? 45) with false
      by (symmetry; apply Z.eqb_neq; intros ->; discriminate).
    rewrite (proj2 (Z.eqb_neq c 48) Nc), Dc, S, Hf, He.
    rewrite <- Ec, uint_of_digits_chars. now rewrite OT.
  - destruct (to_uint_head p) as (c & cs & Ec & Dc & Nc).
    assert (S : span_digits (cs ++ rest) = (cs, rest)).
    { pose proof (span_digits_uint (Pos.to_uint p) rest Hd) as S.
      rewrite Ec in S. cbn [app span_digits] in S. rewrite Dc in S.
      destruct (span_digits (cs ++ rest)). now injection S as -> ->. }
    unfold scan_number, match_integer. rewrite Ec. cbn [app Z.eqb Pos.eqb].
    rewrite (proj2 (Z.eqb_neq c 48) Nc), Dc, S, Hf, He.
    rewrite <- Ec, uint_of_digits_chars. now rewrite OT.
Qed.

(** *** White space and the first character of a value *)

Lemma skip_ws_head (t : pystr) :
  match t with [] => True | c :: _ => is_ws c = false end -> skip_ws t = t.
Proof. destruct t as [|c t]; [reflexivity|]. intros H. cbn. now rewrite H. Qed.

Lemma skip_ws_spaces (n : nat) (t : pystr) : skip_ws (repeat 32 n ++ t) = skip_ws t.
Proof. induction n; [reflexivity|]. cbn [repeat app skip_ws]. exact IHn. Qed.

Lemma skip_ws_newline_indent (level : nat) (t : pystr) :
  skip_ws (newline_indent level ++ t) = skip_ws t.
Proof. unfold newline_indent. cbn [app skip_ws]. cbn. apply skip_ws_spaces. Qed.

Lemma value_head_not_ws (c : Z) : value_head c -> is_ws c = false.
Proof.
  unfold value_head, is_digit, is_ws.
  intros [->|[->|[->|[->|[->|[->|[->|H]]]]]]]; try reflexivity.
  apply andb_true_iff in H as [H1 H2]. apply Z.leb_le in H1.
  repeat (apply orb_false_iff; split); apply Z.eqb_neq; lia.
Qed.

Lemma value_head_not_closing (c : Z) : value_head c -> c <> 93 /\ c <> 125.
Proof.
  unfold value_head, is_digit.
  intros [->|[->|[->|[->|[->|[->|[->|H]]]]]]]; try (split; discriminate).
  apply andb_true_iff in H as [H1 H2]. apply Z.leb_le in H1, H2. lia.
Qed.

Lemma int_repr_head (n : Z) :
  exists c cs, int_repr n = c :: cs /\ (c = 45 \/ is_digit c = true).
Proof.
  unfold int_repr. destruct n as [|p|p]; cbn [Z.to_int].
  - do 2 eexists. split; [reflexivity|]. now right.
  - destruct (to_uint_head p) as (c & cs & -> & D & _). eauto.
  - do 2 eexists. split; [reflexivity|]. now left.
Qed.

Lemma bracket_head (opening closing : Z) (level : nat) (chunks : list pystr) :
  exists cs, bracket opening closing level chunks = opening :: cs.
Proof. destruct chunks; cbn; eauto. Qed.

Lemma iterencode_head (level : nat) (v : json) :
  json_ok v = true ->
  exists c cs, iterencode level v = c :: cs /\ value_head c.
Proof.
  unfold value_head. destruct v as [|[|]|n|l|s|items|members]; cbn [iterencode]; intros H.
  - do 2 eexists; split; [reflexivity|]. tauto.
  - do 2 eexists; split; [reflexivity|]. tauto.
  - do 2 eexists; split; [reflexivity|]. tauto.
  - destruct (int_repr_head n) as (c & cs & -> & Hc). do 2 eexists; split; [reflexivity|].
    tauto.
  - discriminate.
  - do 2 eexists; split; [reflexivity|]. tauto.
  - destruct (bracket_head 91 93 level (map (iterencode (S level)) items)) as (cs & ->).
    do 2 eexists; split; [reflexivity|]. tauto.
  - match goal with |- context [bracket 123 125 level ?ch] =>
      destruct (bracket_head 123 125 level ch) as (cs & ->) end.
    do 2 eexists; split; [reflexivity|]. tauto.
Qed.

Lemma skip_ws_value (level : nat) (v : json) (t : pystr) :
  json_ok v = true -> skip_ws (iterencode level v ++ t) = iterencode level v ++ t.
Proof.
  intros H. destruct (iterencode_head level v H) as (c & cs & -> & Hc).
  apply skip_ws_head. cbn. now apply value_head_not_ws.
Qed.

(** *** Lengths: the text of a list is longer than each of its items and
    than their number *)

Lemma length_join_item (sep : pystr) (chunks : list pystr) (c : pystr) :
  In c chunks -> (List.length c <= List.length (join sep chunks))%nat.
Proof.
  induction chunks as [|x [|y chunks] IH]; intros Hin.
  - contradiction.
  - destruct Hin as [->|[]]. cbn. lia.
  - cbn [join]. rewrite !length_app. destruct Hin as [->|Hin]; [lia|].
    specialize (IH Hin). cbn [join] in IH. lia.
Qed.

Lemma length_join_count (sep : pystr) (chunks : list pystr) :
  (1 <= List.length sep)%nat ->
  (List.length chunks <= S (List.length (join sep chunks)))%nat.
Proof.
  intros Hs. induction chunks as [|x [|y chunks] IH].
  - cbn. lia.
  - cbn. lia.
  - cbn [join]. cbn [List.length] in *. rewrite !length_app. cbn [join] in IH. lia.
Qed.

Lemma json_ind' (P : json -> Prop) :
  P JNull ->
  (forall b, P (JBool b)) ->
  (forall n, P (JInt n)) ->
  (forall l, P (JFloat l)) ->
  (forall s, P (JStr s)) ->
  (forall items, Forall P items -> P (JArr items)) ->
  (forall members, Forall (fun kv => P (snd kv)) members -> P (JObj members)) ->
  forall v, P v.
Proof.
  intros HN HB HI HF HS HA HO.
  fix IH 1. intros [|b|n|l|s|items|members].
  - exact HN.
  - apply HB.
  - apply HI.
  - apply HF.
  - apply HS.
  - apply HA. induction items as [|x items IHitems]; constructor; [apply IH | exact IHitems].
  - apply HO. induction members as [|[k x] members IHm]; constructor;
      [apply IH | exact IHm].
Qed.

(** *** Dicts with distinct keys *)

Lemma existsb_str_eqb (k : pystr) (l : list pystr) :
  existsb (str_eqb k) l = true <-> In k l.
Proof.
  rewrite existsb_exists. split.
  - intros (x & Hx & E). apply str_eqb_eq in E. now subst.
  - intros H. exists k. split; [exact H | apply str_eqb_refl].
Qed.

Lemma distinct_keys_NoDup (l : list pystr) : distinct_keys l = true <-> NoDup l.
Proof.
  induction l as [|k l IH]; cbn [distinct_keys].
  - split; [constructor | reflexivity].
  - rewrite andb_true_iff, negb_true_iff, IH. split.
    + intros [H1 H2]. constructor; [|exact H2].
      intros Hin. apply existsb_str_eqb in Hin. congruence.
    + intros H. inversion H as [|? ? Hn Hd]; subst. split; [|exact Hd].
      destruct (existsb (str_eqb k) l) eqn:E; [|reflexivity].
      apply existsb_str_eqb in E. contradiction.
Qed.

Lemma dict_setitem_fresh (key : pystr) (value : json) (d : list (pystr * json)) :
  ~ In key (map fst d) -> dict_setitem key value d = d ++ [(key, value)].
Proof.
  induction d as [|[k v] d IH]; intros Hn; [reflexivity|].
  cbn [dict_setitem]. cbn [map fst In] in Hn.
  replace (str_eqb k key) with false
    by (symmetry; apply str_eqb_neq; intros ->; apply Hn; now left).
  cbn [app]. f_equal. apply IH. intros Hin. apply Hn. now right.
Qed.

Lemma dict_fold_distinct (members acc : list (pystr * json)) :
  NoDup (map fst (acc ++ members)) ->
  fold_left (fun d kv => dict_setitem (fst kv) (snd kv) d) members acc = acc ++ members.
Proof.
  revert acc. induction members as [|[k v] members IH]; intros acc H.
  - now rewrite app_nil_r.
  - cbn [fold_left fst snd].
    rewrite dict_setitem_fresh.
    + rewrite IH; rewrite <- app_assoc; [reflexivity | exact H].
    + rewrite map_app in H. cbn [map fst] in H.
      apply NoDup_remove_2 in H. intros Hin. apply H. apply in_or_app. now left.
Qed.

Lemma dict_of_pairs_distinct (members : list (pystr * json)) :
  distinct_keys (map fst members) = true -> dict_of_pairs members = members.
Proof.
  intros H. apply distinct_keys_NoDup in H. unfold dict_of_pairs.
  now rewrite dict_fold_distinct.
Qed.

(** *** Values *)

Lemma terminated_comma (t : pystr) : terminated (44 :: t) = true.
Proof. reflexivity. Qed.

Lemma terminated_newline (level : nat) (t : pystr) :
  terminated (newline_indent level ++ t) = true.
Proof. reflexivity. Qed.

Lemma array_items_join (scan : pystr -> option (json * pystr)) (level : nat)
      (x : json) (items : list json) (f : nat) (rest : pystr) :
  reads_items scan (S level) (x :: items) ->
  (List.length (x :: items) <= f)%nat ->
  array_items scan f
              (join (44 :: newline_indent (S level)) (map (iterencode (S level)) (x :: items))
                    ++ newline_indent level ++ 93 :: rest)
  = Some (x :: items, rest).
Proof.
  revert x f. induction items as [|y items IH]; intros x f Hall Hf.
  - inversion Hall as [|? ? [Hok Hx] _]; subst.
    destruct f as [|f]; [cbn in Hf; lia|].
    cbn [map join array_items].
    rewrite Hx by apply terminated_newline.
    rewrite skip_ws_newline_indent. cbn [skip_ws is_ws Z.eqb Pos.eqb orb].
    reflexivity.
  - inversion Hall as [|? ? [Hok Hx] Hrest]; subst.
    destruct f as [|f]; [cbn in Hf; lia|].
    cbn [map]. cbn [join]. rewrite <- !app_assoc. cbn [array_items].
    rewrite Hx by apply terminated_comma.
    cbn [app skip_ws is_ws Z.eqb Pos.eqb orb].
    rewrite skip_ws_newline_indent.
    change (iterencode (S level) y :: map (iterencode (S level)) items)
      with (map (iterencode (S level)) (y :: items)).
    assert (Hy : json_ok y = true) by (inversion Hrest as [|? ? [? _] _]; assumption).
    assert (Hskip : forall t,
               skip_ws (join (44 :: newline_indent (S level))
                             (map (iterencode (S level)) (y :: items)) ++ t)
               = join (44 :: newline_indent (S level))
                      (map (iterencode (S level)) (y :: items)) ++ t).
    { intros t. cbn [map]. destruct items.
      - cbn [map join]. now apply skip_ws_value.
      - cbn [map join]. rewrite <- app_assoc. now apply skip_ws_value. }
    rewrite Hskip. rewrite IH; [reflexivity | exact Hrest | cbn in *; lia].
Qed.

Lemma object_pairs_join (scan : pystr -> option (json * pystr)) (level : nat)
      (m : pystr * json) (members : list (pystr * json)) (f : nat) (rest : pystr) :
  Forall (fun kv => str_ok (fst kv) = true) (m :: members) ->
  reads_items scan (S level) (map snd (m :: members)) ->
  (List.length (m :: members) <= f)%nat ->
  object_pairs scan f
               (join (44 :: newline_indent (S level)) (map (member_chunk (S level)) (m :: members))
                     ++ newline_indent level ++ 125 :: rest)
  = Some (m :: members, rest).
Proof.
  revert m f. induction members as [|m' members IH]; intros [k v] f Hkeys Hall Hf.
  - inversion Hall as [|? ? [Hok Hx] _]; subst.
    inversion Hkeys as [|? ? Hk _]; subst. cbn [fst] in Hk.
    destruct f as [|f]; [cbn in Hf; lia|].
    cbn [map join member_chunk]. rewrite <- !app_assoc.
    destruct (scanstring_encode k ([58; 32] ++ iterencode (S level) v
                                            ++ newline_indent level ++ 125 :: rest) Hk)
      as (body & -> & Hs).
    cbn [object_pairs Z.eqb Pos.eqb]. rewrite Hs.
    cbn [app skip_ws is_ws Z.eqb Pos.eqb orb].
    rewrite skip_ws_value by exact Hok.
    rewrite Hx by apply terminated_newline.
    rewrite skip_ws_newline_indent. cbn [skip_ws is_ws Z.eqb Pos.eqb orb].
    reflexivity.
  - inversion Hall as [|? ? [Hok Hx] Hrest]; subst.
    inversion Hkeys as [|? ? Hk Hkrest]; subst. cbn [fst] in Hk.
    destruct f as [|f]; [cbn in Hf; lia|].
    cbn [map]. cbn [join]. cbn [member_chunk]. rewrite <- !app_assoc.
    match goal with |- object_pairs _ _ (encode_basestring_ascii k ++ ?t) = _ =>
      destruct (scanstring_encode k t Hk) as (body & -> & Hs) end.
    cbn [object_pairs Z.eqb Pos.eqb]. rewrite Hs.
    cbn [app skip_ws is_ws Z.eqb Pos.eqb orb].
    rewrite skip_ws_value by exact Hok.
    rewrite Hx by apply terminated_comma.
    cbn [app skip_ws is_ws Z.eqb Pos.eqb orb].
    rewrite skip_ws_newline_indent.
    change (member_chunk (S level) m' :: map (member_chunk (S level)) members)
      with (map (member_chunk (S level)) (m' :: members)).
    assert (Hskip : forall t,
               skip_ws (join (44 :: newline_indent (S level))
                             (map (member_chunk (S level)) (m' :: members)) ++ t)
               = join (44 :: newline_indent (S level))
                      (map (member_chunk (S level)) (m' :: members)) ++ t).
    { intros t. destruct m' as [k' v']. cbn [map].
      destruct members; cbn [map join member_chunk]; unfold encode_basestring_ascii;
        reflexivity. }
    rewrite Hskip. rewrite IH; [reflexivity | exact Hkrest | exact Hrest | cbn in *; lia].
Qed.

(** What the encoder writes for a well-formed value, the decoder reads
    back, whatever the indentation and whatever follows. *)
Lemma scan_once_iterencode (v : json) :
  json_ok v = true ->
  forall level fuel rest,
    terminated rest = true ->
    (List.length (iterencode level v) <= fuel)%nat ->
    scan_once fuel (iterencode level v ++ rest) = Some (v, rest).
Proof.
  induction v as [|b|n|l|s|items IH|members IH] using json_ind';
    intros Hok level fuel rest Hrest Hfuel.
  - destruct fuel as [|k]; [cbn in Hfuel; lia|]. reflexivity.
  - destruct fuel as [|k]; [destruct b; cbn in Hfuel; lia|]. destruct b; reflexivity.
  - cbn [iterencode] in *.
    destruct (int_repr_head n) as (c & cs & E & Hc).
    destruct fuel as [|k]; [rewrite E in Hfuel; cbn in Hfuel; lia|].
    pose proof (scan_number_int n rest Hrest) as Hn. rewrite E in *.
    cbn [app scan_once] in *.
    assert (N : c <> 34 /\ c <> 123 /\ c <> 91 /\ c <> 110 /\ c <> 116 /\ c <> 102).
    { destruct Hc as [->|Hd]; [repeat split; discriminate|].
      unfold is_digit in Hd. apply andb_true_iff in Hd as [H1 H2].
      apply Z.leb_le in H1, H2. lia. }
    destruct N as (N1 & N2 & N3 & N4 & N5 & N6). eqb_false. now rewrite Hn.
  - discriminate.
  - cbn [iterencode json_ok] in *.
    destruct fuel as [|k]; [unfold encode_basestring_ascii in Hfuel; cbn in Hfuel; lia|].
    destruct (scanstring_encode s rest Hok) as (body & -> & Hs).
    cbn [scan_once Z.eqb Pos.eqb]. now rewrite Hs.
  - cbn [iterencode json_ok] in *.
    destruct items as [|x items].
    + destruct fuel as [|k]; [cbn in Hfuel; lia|]. reflexivity.
    + destruct fuel as [|k]; [cbn in Hfuel; lia|].
      cbn [bracket map] in *.
      change (iterencode (S level) x :: map (iterencode (S level)) items)
        with (map (iterencode (S level)) (x :: items)) in *.
      set (sep := 44 :: newline_indent (S level)) in *.
      set (chunks := map (iterencode (S level)) (x :: items)) in *.
      assert (Hlen : (List.length (join sep chunks) + 2 <= k)%nat).
      { cbn [List.length] in Hfuel. rewrite !length_app in Hfuel.
        unfold newline_indent in Hfuel. cbn [List.length] in Hfuel. lia. }
      cbn [app scan_once Z.eqb Pos.eqb]. rewrite <- !app_assoc.
      rewrite skip_ws_newline_indent.
      assert (Hx : json_ok x = true).
      { cbn [forallb] in Hok. now apply andb_true_iff in Hok as [? _]. }
      destruct (iterencode_head (S level) x Hx) as (c & cs & Ec & Hc).
      assert (Hj : exists js, join sep chunks = c :: js).
      { subst chunks. cbn [map]. destruct items; cbn [map join]; rewrite Ec;
          cbn [app]; eauto. }
      destruct Hj as (js & Ej).
      pose proof (value_head_not_ws c Hc) as Hws.
      pose proof (value_head_not_closing c Hc) as [H93 _].
      assert (Hgo : array_items (scan_once k) k
                                (join sep chunks ++ newline_indent level ++ [93] ++ rest)
                    = Some (x :: items, rest)).
      { subst sep chunks. apply array_items_join.
        - unfold reads_items. rewrite Forall_forall in *. intros y Hy. split.
          + rewrite forallb_forall in Hok. now apply Hok.
          + intros t Ht. apply IH; [exact Hy | | exact Ht |].
            * rewrite forallb_forall in Hok. now apply Hok.
            * pose proof (length_join_item (44 :: newline_indent (S level))
                            (map (iterencode (S level)) (x :: items))
                            (iterencode (S level) y)
                            (in_map _ _ _ Hy)). lia.
        - pose proof (length_join_count (44 :: newline_indent (S level))
                        (map (iterencode (S level)) (x :: items))
                        ltac:(cbn; lia)) as Hc'.
          rewrite length_map in Hc'. lia. }
      rewrite Ej in *. cbn [app skip_ws] in *. rewrite Hws.
      eqb_false. now rewrite Hgo.
  - cbn [iterencode json_ok] in *.
    apply andb_true_iff in Hok as [Hok Hkeys].
    destruct members as [|m members].
    + destruct fuel as [|k]; [cbn in Hfuel; lia|]. reflexivity.
    + destruct fuel as [|k]; [cbn in Hfuel; lia|].
      match type of Hfuel with context [map ?f (m :: members)] =>
        change f with (member_chunk (S level)) in * end.
      cbn [bracket map] in *.
      change (member_chunk (S level) m :: map (member_chunk (S level)) members)
        with (map (member_chunk (S level)) (m :: members)) in *.
      set (sep := 44 :: newline_indent (S level)) in *.
      set (chunks := map (member_chunk (S level)) (m :: members)) in *.
      assert (Hlen : (List.length (join sep chunks) + 2 <= k)%nat).
      { cbn [List.length] in Hfuel. rewrite !length_app in Hfuel.
        unfold newline_indent in Hfuel. cbn [List.length] in Hfuel. lia. }
      cbn [app scan_once Z.eqb Pos.eqb]. rewrite <- !app_assoc.
      rewrite skip_ws_newline_indent.
      assert (Hj : exists js, join sep chunks = 34 :: js).
      { subst chunks. destruct m as [k0 v0]. cbn [map].
        destruct members; cbn [map join member_chunk]; unfold encode_basestring_ascii;
          cbn [app]; eauto. }
      destruct Hj as (js & Ej).
      assert (Hgo : object_pairs (scan_once k) k
                                 (join sep chunks ++ newline_indent level ++ [125] ++ rest)
                    = Some (m :: members, rest)).
      { subst sep chunks. apply object_pairs_join.
        - rewrite Forall_forall. intros [k0 v0] Hin. rewrite forallb_forall in Hok.
          specialize (Hok _ Hin). cbn in Hok. now apply andb_true_iff in Hok as [? _].
        - unfold reads_items. rewrite Forall_forall in *. intros y Hy.
          apply in_map_iff in Hy as ([k0 v0] & <- & Hin). cbn [snd].
          rewrite forallb_forall in Hok. pose proof (Hok _ Hin) as Hkv. cbn in Hkv.
          apply andb_true_iff in Hkv as [Hk0 Hv0]. split; [exact Hv0|].
          intros t Ht. apply (IH _ Hin); [exact Hv0 | exact Ht |].
          pose proof (length_join_item (44 :: newline_indent (S level))
                        (map (member_chunk (S level)) (m :: members))
                        (member_chunk (S level) (k0, v0))
                        (in_map _ _ _ Hin)) as Hl.
          cbn [member_chunk] in Hl. rewrite !length_app in Hl. cbn [snd]. lia.
        - pose proof (length_join_count (44 :: newline_indent (S level))
                        (map (member_chunk (S level)) (m :: members))
                        ltac:(cbn; lia)) as Hc'.
          rewrite length_map in Hc'. lia. }
      rewrite Ej in *. cbn [app skip_ws is_ws Z.eqb Pos.eqb orb] in *.
      rewrite Hgo. now rewrite dict_of_pairs_distinct.
Qed.

(** [json.loads(json.dumps(v, indent=2)) == v] for a well-formed [v]. *)
Lemma loads_dumps (v : json) : json_ok v = true -> loads (dumps v) = Some v.
Proof.
  intros H. unfold loads, dumps.
  pose proof (skip_ws_value 0 v [] H) as Hs. rewrite app_nil_r in Hs. rewrite Hs.
  pose proof (scan_once_iterencode v H 0 (S (List.length (iterencode 0 v))) []
                                   eq_refl ltac:(lia)) as R.
  rewrite app_nil_r in R. now rewrite R.
Qed.

(** *** The fuel of the decoder

    [scan_once] is given the length of the text as fuel.  More fuel never
    changes its answer, so [None] always stands for a text that is not
    JSON, never for a decoder that gave up. *)

Lemma push_inv (c : Z) (x : option (pystr * pystr)) (a r : pystr) :
  push c x = Some (a, r) -> exists a', x = Some (a', r) /\ a = c :: a'.
Proof.
  destruct x as [[a' r']|]; cbn; [|discriminate].
  intros H. injection H as <- <-. eauto.
Qed.

Lemma scanstring_consumes_upto (n : nat) (s content r : pystr) :
  (List.length s <= n)%nat ->
  scanstring s = Some (content, r) -> (List.length r < List.length s)%nat.
Proof.
  revert s content r.
  induction n as [|n IH]; intros s content r Hn H.
  - destruct s; [discriminate | cbn in Hn; lia].
  - assert (Step : forall c t a, (List.length t <= n)%nat ->
                                 push c (scanstring t) = Some (a, r) ->
                                 (List.length r < List.length t)%nat).
    { intros c t a Ht Hp. apply push_inv in Hp as (a' & Hs & _). eapply IH; eassumption. }
    destruct s as [|c s]; [discriminate|]. cbn [List.length] in *.
    cbn [scanstring] in H.
    destruct (c =? 34); [injection H as _ <-; lia|].
    destruct (c =? 92).
    + destruct s as [|esc r1]; [discriminate|]. cbn [List.length] in *.
      destruct (esc =? 117).
      * destruct r1 as [|h1 [|h2 [|h3 [|h4 r2]]]]; try discriminate.
        cbn [List.length] in *.
        destruct (decode_uXXXX h1 h2 h3 h4) as [uni|]; [|discriminate].
        assert (Hr2 : forall a, push uni (scanstring r2) = Some (a, r) ->
                                (List.length r < List.length r2)%nat)
          by (intros a Hp; apply (Step uni r2 a); [lia | exact Hp]).
        destruct (is_high uni).
        -- destruct r2 as [|b [|u [|k1 [|k2 [|k3 [|k4 r3]]]]]];
             try (specialize (Hr2 _ H); cbn [List.length] in *; lia).
           destruct ((b =? 92) && (u =? 117)).
           ++ destruct (decode_uXXXX k1 k2 k3 k4) as [uni2|]; [|discriminate].
              destruct (is_low uni2).
              ** apply Step in H; cbn [List.length] in *; lia.
              ** specialize (Hr2 _ H). cbn [List.length] in *. lia.
           ++ specialize (Hr2 _ H). cbn [List.length] in *. lia.
        -- specialize (Hr2 _ H). lia.
      * destruct (backslash esc); [|discriminate].
        apply Step in H; lia.
    + destruct (c <? 32); [discriminate|].
      apply Step in H; lia.
Qed.

Lemma scanstring_consumes (s content r : pystr) :
  scanstring s = Some (content, r) -> (List.length r < List.length s)%nat.
Proof. now apply (scanstring_consumes_upto (List.length s)). Qed.

Lemma skip_ws_length (s : pystr) : (List.length (skip_ws s) <= List.length s)%nat.
Proof.
  induction s as [|c s IH]; [reflexivity|]. cbn [skip_ws].
  destruct (is_ws c); cbn [List.length]; lia.
Qed.

Lemma span_digits_length (s ds r : pystr) :
  span_digits s = (ds, r) -> (List.length r <= List.length s)%nat.
Proof.
  revert ds r. induction s as [|c s IH]; intros ds r H; cbn [span_digits] in H.
  - injection H as <- <-. reflexivity.
  - destruct (is_digit c).
    + destruct (span_digits s) as [ds' r'] eqn:E. injection H as <- <-.
      specialize (IH _ _ eq_refl). cbn [List.length]. lia.
    + injection H as <- <-. reflexivity.
Qed.

Lemma match_frac_length (s f r : pystr) :
  match_frac s = (f, r) -> (List.length r <= List.length s)%nat.
Proof.
  unfold match_frac. destruct s as [|c s]; [intros H; injection H as <- <-; reflexivity|].
  destruct (c =? 46); [|intros H; injection H as <- <-; reflexivity].
  destruct (span_digits s) as [ds r'] eqn:E. apply span_digits_length in E.
  destruct ds; intros H; injection H as <- <-; cbn [List.length]; lia.
Qed.

Lemma match_exp_length (s e r : pystr) :
  match_exp s = (e, r) -> (List.length r <= List.length s)%nat.
Proof.
  unfold match_exp. destruct s as [|c s]; [intros H; injection H as <- <-; reflexivity|].
  destruct ((c =? 101) || (c =? 69)); [|intros H; injection H as <- <-; reflexivity].
  assert (Hs : forall sign r1,
             (match s with
              | c0 :: r' => if (c0 =? 45) || (c0 =? 43) then ([c0], r') else ([], s)
              | [] => ([], s)
              end) = (sign, r1) -> (List.length r1 <= List.length s)%nat).
  { intros sign r1 H. destruct s as [|c0 s']; [injection H as <- <-; reflexivity|].
    destruct ((c0 =? 45) || (c0 =? 43)); injection H as <- <-; cbn [List.length]; lia. }
  destruct (match s with
            | c0 :: r' => if (c0 =? 45) || (c0 =? 43) then ([c0], r') else ([], s)
            | [] => ([], s)
            end) as [sign r1] eqn:E1.
  specialize (Hs sign r1 eq_refl).
  destruct (span_digits r1) as [ds r'] eqn:E. apply span_digits_length in E.
  destruct ds; intros H; injection H as <- <-; cbn [List.length]; lia.
Qed.

Lemma scan_number_consumes (s : pystr) (v : json) (r : pystr) :
  scan_number s = Some (v, r) -> (List.length r < List.length s)%nat.
Proof.
  unfold scan_number.
  destruct (match_integer s) as [[[neg integer] r0]|] eqn:Ei; [|discriminate].
  assert (H0 : (List.length r0 < List.length s)%nat).
  { unfold match_integer in Ei.
    assert (Hd : forall s1, (List.length s1 <= List.length s)%nat ->
                            match s1 with
                            | d :: r =>
                              if d =? 48 then Some (neg, [48], r)
                              else if is_digit d
                                   then let (ds, rest) := span_digits r in
                                        Some (neg, d :: ds, rest)
                                   else None
                            | [] => None
                            end = Some (neg, integer, r0) ->
                            (List.length r0 < List.length s)%nat).
    { intros s1 Hl H. destruct s1 as [|d r1]; [discriminate|]. cbn [List.length] in Hl.
      destruct (d =? 48); [injection H as _ <-; lia|].
      destruct (is_digit d); [|discriminate].
      destruct (span_digits r1) as [ds rest] eqn:E. apply span_digits_length in E.
      injection H as _ <-. lia. }
    destruct s as [|c s']; [discriminate|].
    destruct (c =? 45).
    - destruct s' as [|d r1]; [discriminate|].
      assert (Hn : neg = true).
      { destruct (d =? 48); [now injection Ei|]. destruct (is_digit d); [|discriminate].
        destruct (span_digits r1). now injection Ei. }
      subst neg. apply (Hd (d :: r1)); [cbn [List.length]; lia | exact Ei].
    - assert (Hn : neg = false).
      { destruct (c =? 48); [now injection Ei|]. destruct (is_digit c); [|discriminate].
        destruct (span_digits s'). now injection Ei. }
      subst neg. apply (Hd (c :: s')); [lia | exact Ei]. }
  destruct (match_frac r0) as [frac r1] eqn:Ef. apply match_frac_length in Ef.
  destruct (match_exp r1) as [exp r2] eqn:Ee. apply match_exp_length in Ee.
  destruct frac, exp; intros H; injection H as _ <-; lia.
Qed.

Lemma strip_prefix_length (p s r : pystr) :
  strip_prefix p s = Some r -> List.length s = (List.length p + List.length r)%nat.
Proof.
  revert s. induction p as [|a p IH]; intros s H.
  - cbn in H. now injection H as <-.
  - destruct s as [|c s]; [discriminate|]. cbn [strip_prefix] in H.
    destruct (c =? a); [|discriminate]. apply IH in H. cbn [List.length]. lia.
Qed.

Lemma scan_constant_consumes (name : string) (v0 : json) (s : pystr) (v : json) (r : pystr) :
  (1 <= List.length (lit name))%nat ->
  scan_constant name v0 s = Some (v, r) -> (List.length r < List.length s)%nat.
Proof.
  intros Hn. unfold scan_constant.
  destruct (strip_prefix (lit name) s) eqn:E; [|discriminate].
  intros H. injection H as _ <-. apply strip_prefix_length in E. lia.
Qed.

Lemma consumes_nil (A : Type) (scan : pystr -> option (A * pystr)) (bound : nat) :
  consumes A scan bound -> scan [] = None.
Proof.
  intros H. destruct (scan []) as [[v r]|] eqn:E; [|reflexivity].
  apply H in E; cbn in *; lia.
Qed.

Lemma array_items_consumes (scan : pystr -> option (json * pystr)) (bound f : nat) :
  consumes json scan bound -> consumes (list json) (array_items scan f) bound.
Proof.
  intros Hc. induction f as [|f IH]; intros s vs r Hs H; [discriminate|].
  cbn [array_items] in H.
  destruct (scan s) as [[value r0]|] eqn:E; [|discriminate].
  apply Hc in E; [|exact Hs].
  pose proof (skip_ws_length r0) as L0.
  destruct (skip_ws r0) as [|c r'] eqn:Er; [discriminate|]. cbn [List.length] in L0.
  destruct (c =? 93); [injection H as _ <-; lia|].
  destruct (c =? 44); [|discriminate].
  destruct (array_items scan f (skip_ws r')) as [[values r'']|] eqn:Ea; [|discriminate].
  injection H as _ <-.
  pose proof (skip_ws_length r') as L1.
  apply IH in Ea; lia.
Qed.

Lemma array_items_agree (scan1 scan2 : pystr -> option (json * pystr)) (bound : nat) :
  agree json scan1 scan2 bound -> consumes json scan1 bound ->
  forall f1 f2 s,
    (List.length s <= bound)%nat -> (List.length s <= f1)%nat -> (List.length s <= f2)%nat ->
    array_items scan1 f1 s = array_items scan2 f2 s.
Proof.
  intros Ha Hc. induction f1 as [|f1 IH]; intros f2 s Hb H1 H2.
  - destruct s; [|cbn in H1; lia]. destruct f2; [reflexivity|].
    cbn [array_items]. rewrite <- Ha by exact Hb.
    now rewrite (consumes_nil _ _ _ Hc).
  - destruct f2 as [|f2].
    + destruct s; [|cbn in H2; lia]. cbn [array_items].
      now rewrite (consumes_nil _ _ _ Hc).
    + cbn [array_items]. rewrite <- Ha by exact Hb.
      destruct (scan1 s) as [[value r0]|] eqn:E; [|reflexivity].
      apply Hc in E; [|exact Hb].
      pose proof (skip_ws_length r0) as L0.
      destruct (skip_ws r0) as [|c r'] eqn:Er; [reflexivity|]. cbn [List.length] in L0.
      destruct (c =? 93); [reflexivity|].
      destruct (c =? 44); [|reflexivity].
      pose proof (skip_ws_length r') as L1.
      rewrite (IH f2 (skip_ws r')) by lia. reflexivity.
Qed.

Lemma object_pairs_consumes (scan : pystr -> option (json * pystr)) (bound f : nat) :
  consumes json scan bound -> consumes (list (pystr * json)) (object_pairs scan f) bound.
Proof.
  intros Hc. induction f as [|f IH]; intros s vs r Hs H; [discriminate|].
  cbn [object_pairs] in H.
  destruct s as [|q s1]; [discriminate|]. cbn [List.length] in *.
  destruct (q =? 34); [|discriminate].
  destruct (scanstring s1) as [[key r0]|] eqn:Ek; [|discriminate].
  apply scanstring_consumes in Ek.
  pose proof (skip_ws_length r0) as L0.
  destruct (skip_ws r0) as [|colon r1] eqn:Er; [discriminate|]. cbn [List.length] in L0.
  destruct (colon =? 58); [|discriminate].
  pose proof (skip_ws_length r1) as L1.
  destruct (scan (skip_ws r1)) as [[value r2]|] eqn:E; [|discriminate].
  apply Hc in E; [|lia].
  pose proof (skip_ws_length r2) as L2.
  destruct (skip_ws r2) as [|c r3] eqn:Er2; [discriminate|]. cbn [List.length] in L2.
  destruct (c =? 125); [injection H as _ <-; lia|].
  destruct (c =? 44); [|discriminate].
  destruct (object_pairs scan f (skip_ws r3)) as [[pairs r4]|] eqn:Ea; [|discriminate].
  injection H as _ <-.
  pose proof (skip_ws_length r3) as L3.
  apply IH in Ea; lia.
Qed.

Lemma object_pairs_agree (scan1 scan2 : pystr -> option (json * pystr)) (bound : nat) :
  agree json scan1 scan2 bound -> consumes json scan1 bound ->
  forall f1 f2 s,
    (List.length s <= bound)%nat -> (List.length s <= f1)%nat -> (List.length s <= f2)%nat ->
    object_pairs scan1 f1 s = object_pairs scan2 f2 s.
Proof.
  intros Ha Hc. induction f1 as [|f1 IH]; intros f2 s Hb H1 H2.
  - destruct s; [|cbn in H1; lia]. destruct f2; reflexivity.
  - destruct f2 as [|f2].
    + destruct s; [reflexivity | cbn in H2; lia].
    + cbn [object_pairs].
      destruct s as [|q s1]; [reflexivity|]. cbn [List.length] in *.
      destruct (q =? 34); [|reflexivity].
      destruct (scanstring s1) as [[key r0]|] eqn:Ek; [|reflexivity].
      apply scanstring_consumes in Ek.
      pose proof (skip_ws_length r0) as L0.
      destruct (skip_ws r0) as [|colon r1] eqn:Er; [reflexivity|]. cbn [List.length] in L0.
      destruct (colon =? 58); [|reflexivity].
      pose proof (skip_ws_length r1) as L1.
      rewrite <- Ha by lia.
      destruct (scan1 (skip_ws r1)) as [[value r2]|] eqn:E; [|reflexivity].
      apply Hc in E; [|lia].
      pose proof (skip_ws_length r2) as L2.
      destruct (skip_ws r2) as [|c r3] eqn:Er2; [reflexivity|]. cbn [List.length] in L2.
      destruct (c =? 125); [reflexivity|].
      destruct (c =? 44); [|reflexivity].
      pose proof (skip_ws_length r3) as L3.
      rewrite (IH f2 (skip_ws r3)) by lia. reflexivity.
Qed.

Lemma scan_once_consumes_agree (n : nat) :
  consumes json (scan_once n) n
  /\ forall m, (n <= m)%nat -> agree json (scan_once n) (scan_once m) n.
Proof.
  induction n as [|n [IHc IHa]].
  - split.
    + intros s v r _ H. discriminate.
    + intros m _ s Hs. destruct s; [|cbn in Hs; lia]. destruct m; reflexivity.
  - assert (IHc' : forall b, (b <= n)%nat -> consumes json (scan_once n) b).
    { intros b Hb s v r Hs. apply IHc. lia. }
    split.
    + intros s v r Hs H. destruct s as [|c s]; [discriminate|].
      cbn [List.length] in *. cbn [scan_once] in H.
      destruct (c =? 34).
      { destruct (scanstring s) as [[content rest]|] eqn:E; [|discriminate].
        injection H as _ <-. apply scanstring_consumes in E. lia. }
      destruct (c =? 123).
      { pose proof (skip_ws_length s) as L.
        destruct (skip_ws s) as [|c' r'] eqn:Es; [discriminate|]. cbn [List.length] in L.
        destruct (c' =? 125); [injection H as _ <-; lia|].
        destruct (object_pairs (scan_once n) n (c' :: r')) as [[pairs rest]|] eqn:E;
          [|discriminate].
        injection H as _ <-.
        apply (object_pairs_consumes _ n n IHc) in E; cbn [List.length] in *; lia. }
      destruct (c =? 91).
      { pose proof (skip_ws_length s) as L.
        destruct (skip_ws s) as [|c' r'] eqn:Es; [discriminate|]. cbn [List.length] in L.
        destruct (c' =? 93); [injection H as _ <-; lia|].
        destruct (array_items (scan_once n) n (c' :: r')) as [[values rest]|] eqn:E;
          [|discriminate].
        injection H as _ <-.
        apply (array_items_consumes _ n n IHc) in E; cbn [List.length] in *; lia. }
      assert (Hk : forall name v0 v r, scan_constant name v0 (c :: s) = Some (v, r) ->
                                       (1 <= List.length (lit name))%nat ->
                                       (List.length r < S (List.length s))%nat).
      { intros name v0 v' r' Hsc Hl.
        apply (scan_constant_consumes name v0 (c :: s) v' r' Hl Hsc). }
      destruct (if c =? 110 then scan_constant "null" JNull (c :: s)
                else if c =? 116 then scan_constant "true" (JBool true) (c :: s)
                     else if c =? 102 then scan_constant "false" (JBool false) (c :: s)
                          else None) as [res|] eqn:Ec.
      { injection H as ->.
        destruct (c =? 110); [apply Hk in Ec; [exact Ec | cbn; lia]|].
        destruct (c =? 116); [apply Hk in Ec; [exact Ec | cbn; lia]|].
        destruct (c =? 102); [apply Hk in Ec; [exact Ec | cbn; lia]|].
        discriminate. }
      destruct (scan_number (c :: s)) as [res|] eqn:En.
      { injection H as ->. now apply scan_number_consumes in En. }
      destruct (c =? 78); [apply Hk in H; [exact H | cbn; lia]|].
      destruct (c =? 73); [apply Hk in H; [exact H | cbn; lia]|].
      destruct (c =? 45); [apply Hk in H; [exact H | cbn; lia]|].
      discriminate.
    + intros m Hm s Hs. destruct m as [|m]; [lia|].
      destruct s as [|c s]; [reflexivity|]. cbn [List.length] in Hs.
      cbn [scan_once].
      destruct (c =? 34); [reflexivity|].
      pose proof (skip_ws_length s) as L.
      destruct (c =? 123).
      { destruct (skip_ws s) as [|c' r'] eqn:Es; [reflexivity|]. cbn [List.length] in L.
        destruct (c' =? 125); [reflexivity|].
        rewrite (object_pairs_agree (scan_once n) (scan_once m) n
                                    (IHa m ltac:(lia)) IHc n m (c' :: r'));
          cbn [List.length]; try lia. reflexivity. }
      destruct (c =? 91).
      { destruct (skip_ws s) as [|c' r'] eqn:Es; [reflexivity|]. cbn [List.length] in L.
        destruct (c' =? 93); [reflexivity|].
        rewrite (array_items_agree (scan_once n) (scan_once m) n
                                   (IHa m ltac:(lia)) IHc n m (c' :: r'));
          cbn [List.length]; try lia. reflexivity. }
      reflexivity.
Qed.

(** With the length of the text as fuel the decoder has enough. *)
Lemma scan_once_fuel (n : nat) (s : pystr) :
  (List.length s <= n)%nat -> scan_once n s = scan_once (List.length s) s.
Proof.
  intros H. symmetry.
  destruct (scan_once_consumes_agree (List.length s)) as [_ Ha].
  apply (Ha n H s). lia.
Qed.

End JsonFacts.
Import JsonFacts.

(** ** A text cut short is not read

    What the decoder has read of a text ending in a closing quote or
    bracket, it reads in the same way when more text follows.  Hence no
    proper prefix of a written dict is read as a value: the closing brace
    would be left over. *)

Module TruncationFacts.
Import Json.

Lemma skip_ws_app (s q : pystr) (c : Z) (r : pystr) :
  skip_ws s = c :: r -> skip_ws (s ++ q) = c :: r ++ q.
Proof.
  induction s as [|a s IH]; [discriminate|]. cbn [skip_ws app].
  destruct (is_ws a); [exact IH|]. intros H. injection H as <- <-. reflexivity.
Qed.

Lemma scanstring_more_upto (n : nat) (q s content r : pystr) :
  (List.length s <= n)%nat ->
  scanstring s = Some (content, r) -> scanstring (s ++ q) = Some (content, r ++ q).
Proof.
  revert s content r.
  induction n as [|n IH]; intros s content r Hn H.
  - destruct s; [discriminate | cbn in Hn; lia].
  - assert (Step : forall c t a, (List.length t <= n)%nat ->
                                 push c (scanstring t) = Some (a, r) ->
                                 push c (scanstring (t ++ q)) = Some (a, r ++ q)).
    { intros c t a Ht Hp. apply push_inv in Hp as (a' & Hs & ->).
      now rewrite (IH _ _ _ Ht Hs). }
    destruct s as [|c s]; [discriminate|]. cbn [List.length] in Hn.
    cbn [scanstring] in H. cbn [app scanstring].
    destruct (c =? 34); [injection H as <- <-; reflexivity|].
    destruct (c =? 92).
    + destruct s as [|esc r1]; [discriminate|]. cbn [List.length] in Hn. cbn [app].
      destruct (esc =? 117).
      * destruct r1 as [|h1 [|h2 [|h3 [|h4 r2]]]]; try discriminate.
        cbn [List.length] in Hn. cbn [app].
        destruct (decode_uXXXX h1 h2 h3 h4) as [uni|]; [|discriminate].
        assert (Hr2 : forall a, push uni (scanstring r2) = Some (a, r) ->
                                push uni (scanstring (r2 ++ q)) = Some (a, r ++ q))
          by (intros a Hp; apply Step; [lia | exact Hp]).
        destruct (is_high uni); [|now apply Hr2].
        destruct r2 as [|b [|u [|k1 [|k2 [|k3 [|k4 r3]]]]]].
        7: { cbn [app]. cbn [List.length] in Hn.
             destruct ((b =? 92) && (u =? 117)); [|now apply Hr2].
             destruct (decode_uXXXX k1 k2 k3 k4) as [uni2|]; [|discriminate].
             destruct (is_low uni2); [|now apply Hr2].
             apply Step; [lia | exact H]. }
        all: pose proof (Hr2 _ H) as Hq; cbn [app] in *.
        all: do 6 (try (destruct q as [|? q]; cbn [app] in *; [exact Hq|])).
        all: match goal with
             | |- (if (?b =? 92) && (?u =? 117) then _ else _) = _ =>
               destruct (Z.eqb_spec b 92) as [->|]; [|exact Hq];
                 destruct (Z.eqb_spec u 117) as [->|]; [|exact Hq]
             end.
        all: simpl in H; discriminate.
      * destruct (backslash esc); [|discriminate]. apply Step; [lia | exact H].
    + destruct (c <? 32); [discriminate|]. apply Step; [lia | exact H].
Qed.

Lemma scanstring_more (q s content r : pystr) :
  scanstring s = Some (content, r) -> scanstring (s ++ q) = Some (content, r ++ q).
Proof. now apply (scanstring_more_upto (List.length s)). Qed.


Lemma span_digits_more (q s ds r : pystr) :
  span_digits s = (ds, r) -> r <> [] -> span_digits (s ++ q) = (ds, r ++ q).
Proof.
  revert ds r. induction s as [|c s IH]; intros ds r H Hr; cbn [span_digits] in H.
  - injection H as <- <-. contradiction.
  - cbn [app span_digits]. destruct (is_digit c).
    + destruct (span_digits s) as [ds' r'] eqn:E. injection H as <- <-.
      now rewrite (IH _ _ eq_refl Hr).
    + injection H as <- <-. reflexivity.
Qed.

Lemma match_integer_more (q s : pystr) (neg : bool) (integer r : pystr) :
  match_integer s = Some (neg, integer, r) -> r <> [] ->
  match_integer (s ++ q) = Some (neg, integer, r ++ q).
Proof.
  assert (Hd : forall neg0 s1,
             match s1 with
             | d :: r0 =>
               if d =? 48 then Some (neg0, [48], r0)
               else if is_digit d
                    then let (ds, rest) := span_digits r0 in Some (neg0, d :: ds, rest)
                    else None
             | [] => None
             end = Some (neg, integer, r) -> r <> [] ->
             match s1 ++ q with
             | d :: r0 =>
               if d =? 48 then Some (neg0, [48], r0)
               else if is_digit d
                    then let (ds, rest) := span_digits r0 in Some (neg0, d :: ds, rest)
                    else None
             | [] => None
             end = Some (neg, integer, r ++ q)).
  { intros neg0 s1 H Hr. destruct s1 as [|d r0]; [discriminate|]. cbn [app].
    destruct (d =? 48); [injection H as <- <- <-; reflexivity|].
    destruct (is_digit d); [|discriminate].
    destruct (span_digits r0) as [ds rest] eqn:E. injection H as <- <- <-.
    now rewrite (span_digits_more q r0 ds rest E Hr). }
  unfold match_integer. intros H Hr.
  destruct s as [|c s]; [discriminate|]. cbn [app].
  destruct (c =? 45).
  - now apply (Hd true s).
  - now apply (Hd false (c :: s)).
Qed.

Lemma match_frac_more (q s f r : pystr) :
  match_frac s = (f, r) -> r <> [] -> (forall t, r <> 46 :: t) ->
  match_frac (s ++ q) = (f, r ++ q).
Proof.
  unfold match_frac. intros H Hr Hdot.
  destruct s as [|c s]; [injection H as <- <-; contradiction|]. cbn [app].
  destruct (Z.eqb_spec c 46) as [->|N].
  - destruct (span_digits s) as [[|d ds] rest] eqn:E.
    + injection H as <- <-. exfalso. now apply (Hdot s).
    + injection H as <- <-. now rewrite (span_digits_more q s _ _ E Hr).
  - injection H as <- <-. reflexivity.
Qed.

Lemma match_exp_more (q s e r : pystr) :
  match_exp s = (e, r) -> r <> [] -> terminated r = true ->
  match_exp (s ++ q) = (e, r ++ q).
Proof.
  unfold match_exp. intros H Hr Ht.
  destruct s as [|c s]; [injection H as <- <-; contradiction|]. cbn [app].
  destruct ((c =? 101) || (c =? 69)) eqn:Ec.
  - assert (Hbad : terminated (c :: s) = false).
    { cbn [terminated]. apply negb_false_iff.
      apply orb_true_iff in Ec as [Ec|Ec]; rewrite Ec; now rewrite ?orb_true_r. }
    destruct s as [|c1 s1].
    + cbn [span_digits] in H. injection H as <- <-. congruence.
    + cbn [app]. destruct ((c1 =? 45) || (c1 =? 43)).
      * destruct (span_digits s1) as [[|d ds] rest] eqn:E.
        -- injection H as <- <-. congruence.
        -- injection H as <- <-. now rewrite (span_digits_more q s1 _ _ E Hr).
      * destruct (span_digits (c1 :: s1)) as [[|d ds] rest] eqn:E.
        -- injection H as <- <-. congruence.
        -- injection H as <- <-.
           change (c1 :: s1 ++ q) with ((c1 :: s1) ++ q).
           now rewrite (span_digits_more q (c1 :: s1) _ _ E Hr).
  - injection H as <- <-. reflexivity.
Qed.

Lemma scan_number_more (q s : pystr) (v : json) (r : pystr) :
  scan_number s = Some (v, r) -> r <> [] -> terminated r = true ->
  scan_number (s ++ q) = Some (v, r ++ q).
Proof.
  unfold scan_number. intros H Hr Ht.
  destruct (match_integer s) as [[[neg integer] r0]|] eqn:Ei; [|discriminate].
  destruct (match_frac r0) as [frac r1] eqn:Ef.
  destruct (match_exp r1) as [exp r2] eqn:Ee.
  assert (Hr2 : r2 = r) by (destruct frac, exp; now injection H).
  subst r2.
  assert (Hr1 : r1 <> []).
  { intros ->. cbn in Ee. injection Ee as _ <-. contradiction. }
  assert (Hdot : forall t, r1 <> 46 :: t).
  { intros t ->. cbn in Ee. injection Ee as _ <-. discriminate. }
  assert (Hr0 : r0 <> []).
  { intros ->. cbn in Ef. injection Ef as _ <-. contradiction. }
  rewrite (match_integer_more q s neg integer r0 Ei Hr0).
  rewrite (match_frac_more q r0 frac r1 Ef Hr1 Hdot).
  rewrite (match_exp_more q r1 exp r Ee Hr Ht).
  destruct frac, exp; injection H as <-; reflexivity.
Qed.

Lemma strip_prefix_more (q p s r : pystr) :
  strip_prefix p s = Some r -> strip_prefix p (s ++ q) = Some (r ++ q).
Proof.
  revert s. induction p as [|a p IH]; intros s H.
  - cbn in *. now injection H as <-.
  - destruct s as [|c s]; [discriminate|]. cbn [strip_prefix app] in *.
    destruct (c =? a); [now apply IH | discriminate].
Qed.

Lemma scan_constant_more (q : pystr) (name : string) (v0 : json) (s : pystr)
      (v : json) (r : pystr) :
  scan_constant name v0 s = Some (v, r) -> scan_constant name v0 (s ++ q) = Some (v, r ++ q).
Proof.
  unfold scan_constant. intros H.
  destruct (strip_prefix (lit name) s) as [r'|] eqn:E; [|discriminate].
  injection H as <- <-. now rewrite (strip_prefix_more q _ _ _ E).
Qed.

Lemma skip_ws_terminated (r : pystr) (c : Z) (r' : pystr) :
  skip_ws r = c :: r' -> terminated [c] = true -> r <> [] /\ terminated r = true.
Proof.
  intros H Hc. destruct r as [|a r]; [discriminate|]. split; [discriminate|].
  cbn [skip_ws] in H. destruct (is_ws a) eqn:Ea.
  - unfold is_ws in Ea. cbn [terminated]. unfold is_digit.
    repeat (apply orb_true_iff in Ea as [Ea|Ea]); apply Z.eqb_eq in Ea; subst a; reflexivity.
  - injection H as -> _. exact Hc.
Qed.

Lemma array_items_more (scan : pystr -> option (json * pystr)) (q : pystr) :
  reads_on scan q ->
  forall fuel s values r,
    array_items scan fuel s = Some (values, r) ->
    array_items scan fuel (s ++ q) = Some (values, r ++ q).
Proof.
  intros [Hnil Hmore]. induction fuel as [|k IH]; intros s values r H; [discriminate|].
  cbn [array_items] in *.
  destruct (scan s) as [[value r1]|] eqn:Es; [|discriminate].
  destruct (skip_ws r1) as [|c r'] eqn:Ew; [discriminate|].
  assert (Hc : (c =? 93) || (c =? 44) = true).
  { destruct (c =? 93); [reflexivity|]. destruct (c =? 44); [reflexivity | discriminate]. }
  assert (Ht : terminated [c] = true).
  { apply orb_true_iff in Hc as [Hc|Hc]; apply Z.eqb_eq in Hc; subst c; reflexivity. }
  rewrite (Hmore s value r1 Es (or_intror (skip_ws_terminated r1 c r' Ew Ht))).
  rewrite (skip_ws_app r1 q c r' Ew).
  destruct (c =? 93); [injection H as <- <-; reflexivity|].
  destruct (c =? 44); [|discriminate].
  destruct (array_items scan k (skip_ws r')) as [[values' r'']|] eqn:Ea; [|discriminate].
  injection H as <- <-.
  destruct (skip_ws r') as [|c2 r2] eqn:Ew2.
  - destruct k; [discriminate|]. cbn [array_items] in Ea. rewrite Hnil in Ea. discriminate.
  - rewrite (skip_ws_app r' q c2 r2 Ew2).
    change (c2 :: r2 ++ q) with ((c2 :: r2) ++ q). now rewrite (IH _ _ _ Ea).
Qed.

Lemma object_pairs_more (scan : pystr -> option (json * pystr)) (q : pystr) :
  reads_on scan q ->
  forall fuel s pairs r,
    object_pairs scan fuel s = Some (pairs, r) ->
    object_pairs scan fuel (s ++ q) = Some (pairs, r ++ q).
Proof.
  intros [Hnil Hmore]. induction fuel as [|k IH]; intros s pairs r H; [discriminate|].
  cbn [object_pairs] in *.
  destruct s as [|c0 s1]; [discriminate|]. cbn [app].
  destruct (c0 =? 34); [|discriminate].
  destruct (scanstring s1) as [[key r0]|] eqn:Ek; [|discriminate].
  rewrite (scanstring_more q s1 key r0 Ek).
  destruct (skip_ws r0) as [|colon r1] eqn:Ew0; [discriminate|].
  rewrite (skip_ws_app r0 q colon r1 Ew0).
  destruct (colon =? 58); [|discriminate].
  destruct (scan (skip_ws r1)) as [[value r2]|] eqn:Es; [|discriminate].
  destruct (skip_ws r1) as [|c1 r1'] eqn:Ew1; [rewrite Hnil in Es; discriminate|].
  rewrite (skip_ws_app r1 q c1 r1' Ew1).
  destruct (skip_ws r2) as [|c r3] eqn:Ew2; [discriminate|].
  assert (Hc : (c =? 125) || (c =? 44) = true).
  { destruct (c =? 125); [reflexivity|]. destruct (c =? 44); [reflexivity | discriminate]. }
  assert (Ht : terminated [c] = true).
  { apply orb_true_iff in Hc as [Hc|Hc]; apply Z.eqb_eq in Hc; subst c; reflexivity. }
  change (c1 :: r1' ++ q) with ((c1 :: r1') ++ q).
  rewrite (Hmore _ value r2 Es (or_intror (skip_ws_terminated r2 c r3 Ew2 Ht))).
  rewrite (skip_ws_app r2 q c r3 Ew2).
  destruct (c =? 125); [injection H as <- <-; reflexivity|].
  destruct (c =? 44); [|discriminate].
  destruct (object_pairs scan k (skip_ws r3)) as [[pairs' r4]|] eqn:Eo; [|discriminate].
  injection H as <- <-.
  destruct (skip_ws r3) as [|c2 r3'] eqn:Ew3.
  - destruct k; discriminate.
  - rewrite (skip_ws_app r3 q c2 r3' Ew3).
    change (c2 :: r3' ++ q) with ((c2 :: r3') ++ q). now rewrite (IH _ _ _ Eo).
Qed.

Lemma scan_number_head (c : Z) (s : pystr) :
  c <> 45 -> is_digit c = false -> scan_number (c :: s) = None.
Proof.
  intros N D. unfold scan_number, match_integer.
  rewrite (proj2 (Z.eqb_neq c 45) N), D.
  destruct (Z.eqb_spec c 48) as [->|]; [discriminate|]. reflexivity.
Qed.

Lemma scan_once_more (q : pystr) (fuel : nat) : reads_on (scan_once fuel) q.
Proof.
  induction fuel as [|k IH].
  - split; [reflexivity|]. intros s v r H. discriminate.
  - split; [reflexivity|]. intros s v r H Hs.
    destruct s as [|c s]; [discriminate|]. cbn [app scan_once] in *.
    destruct (Z.eqb_spec c 34) as [->|N34].
    { destruct (scanstring s) as [[content rest]|] eqn:E; [|discriminate].
      injection H as <- <-. now rewrite (scanstring_more q s content rest E). }
    destruct (Z.eqb_spec c 123) as [->|N123].
    { destruct (skip_ws s) as [|c' r'] eqn:Ew; [discriminate|].
      rewrite (skip_ws_app s q c' r' Ew).
      destruct (c' =? 125); [injection H as <- <-; reflexivity|].
      destruct (object_pairs (scan_once k) k (c' :: r')) as [[pairs rest]|] eqn:E;
        [|discriminate].
      injection H as <- <-.
      change (c' :: r' ++ q) with ((c' :: r') ++ q).
      now rewrite (object_pairs_more (scan_once k) q IH k _ _ _ E). }
    destruct (Z.eqb_spec c 91) as [->|N91].
    { destruct (skip_ws s) as [|c' r'] eqn:Ew; [discriminate|].
      rewrite (skip_ws_app s q c' r' Ew).
      destruct (c' =? 93); [injection H as <- <-; reflexivity|].
      destruct (array_items (scan_once k) k (c' :: r')) as [[values rest]|] eqn:E;
        [|discriminate].
      injection H as <- <-.
      change (c' :: r' ++ q) with ((c' :: r') ++ q).
      now rewrite (array_items_more (scan_once k) q IH k _ _ _ E). }
    assert (Hr : r <> [] /\ terminated r = true).
    { destruct Hs as [Hs|Hs]; [|exact Hs]. cbn [opens] in Hs.
      rewrite (proj2 (Z.eqb_neq c 34) N34), (proj2 (Z.eqb_neq c 123) N123),
        (proj2 (Z.eqb_neq c 91) N91) in Hs. discriminate. }
    destruct Hr as [Hr Ht].
    change (c :: s ++ q) with ((c :: s) ++ q).
    assert (Hconst : forall name v0,
               scan_constant name v0 (c :: s) = Some (v, r) ->
               scan_constant name v0 ((c :: s) ++ q) = Some (v, r ++ q))
      by (intros name v0; apply scan_constant_more).
    destruct (Z.eqb_spec c 110) as [->|N110].
    { destruct (scan_constant "null" JNull (110 :: s)) as [res|] eqn:E.
      - injection H as ->. now rewrite (Hconst _ _ E).
      - rewrite scan_number_head in H by (try discriminate; reflexivity). discriminate. }
    destruct (Z.eqb_spec c 116) as [->|N116].
    { destruct (scan_constant "true" (JBool true) (116 :: s)) as [res|] eqn:E.
      - injection H as ->. now rewrite (Hconst _ _ E).
      - rewrite scan_number_head in H by (try discriminate; reflexivity). discriminate. }
    destruct (Z.eqb_spec c 102) as [->|N102].
    { destruct (scan_constant "false" (JBool false) (102 :: s)) as [res|] eqn:E.
      - injection H as ->. now rewrite (Hconst _ _ E).
      - rewrite scan_number_head in H by (try discriminate; reflexivity). discriminate. }
    destruct (scan_number (c :: s)) as [res|] eqn:En.
    { injection H as ->. now rewrite (scan_number_more q (c :: s) v r En Hr Ht). }
    destruct (Z.eqb_spec c 78) as [->|N78].
    { cbn [app]. rewrite scan_number_head by (try discriminate; reflexivity).
      now apply Hconst. }
    destruct (Z.eqb_spec c 73) as [->|N73].
    { cbn [app]. rewrite scan_number_head by (try discriminate; reflexivity).
      now apply Hconst. }
    destruct (Z.eqb_spec c 45) as [->|N45]; [|discriminate].
    pose proof (Hconst _ _ H) as Hq.
    unfold scan_constant in H.
    destruct s as [|c2 s]; [discriminate|]. simpl in H.
    destruct (Z.eqb_spec c2 73) as [->|]; [|discriminate].
    cbn [app]. replace (scan_number (45 :: 73 :: s ++ q)) with (@None (json * pystr))
      by reflexivity.
    exact Hq.
Qed.

Lemma skip_ws_nil_last (r : pystr) (c : Z) : is_ws c = false -> skip_ws (r ++ [c]) <> [].
Proof.
  intros Hc. induction r as [|a r IH]; cbn [app skip_ws].
  - rewrite Hc. discriminate.
  - destruct (is_ws a); [exact IH | discriminate].
Qed.

(** No proper prefix of a text that starts with a quote, a brace or a
    bracket, is read as a value and ends with a character other than
    white space, is read as a value. *)
Lemma loads_prefix (p q : pystr) (v : json) (t0 : pystr) (c : Z) :
  q <> [] -> opens (p ++ q) = true -> p ++ q = t0 ++ [c] -> is_ws c = false ->
  loads (p ++ q) = Some v -> loads p = None.
Proof.
  intros Hq Ho Hlast Hc Hv.
  destruct (loads p) as [v'|] eqn:Hp; [exfalso | reflexivity].
  assert (Hhead : forall s, opens s = true -> skip_ws s = s).
  { intros [|a s] Hs; [discriminate|]. cbn [opens] in Hs. cbn [skip_ws].
    replace (is_ws a) with false; [reflexivity|]. symmetry. unfold is_ws.
    repeat (apply orb_true_iff in Hs as [Hs|Hs]); apply Z.eqb_eq in Hs; subst a;
      reflexivity. }
  destruct p as [|a p]; [discriminate|].
  assert (Hop : opens (a :: p) = true) by exact Ho.
  unfold loads in Hp, Hv. rewrite (Hhead _ Hop) in Hp. rewrite (Hhead _ Ho) in Hv.
  destruct (scan_once (S (List.length (a :: p))) (a :: p)) as [[obj rest]|] eqn:Es;
    [|discriminate].
  destruct (skip_ws rest) as [|x xs] eqn:Er; [|discriminate].
  set (F := S (List.length ((a :: p) ++ q))) in *.
  assert (EsF : scan_once F (a :: p) = Some (obj, rest)).
  { rewrite scan_once_fuel in Es by lia.
    rewrite scan_once_fuel by (subst F; rewrite length_app; lia). exact Es. }
  destruct (scan_once_more q F) as [_ Hmore].
  rewrite (Hmore (a :: p) obj rest EsF (or_introl Hop)) in Hv.
  destruct (skip_ws (rest ++ q)) as [|y ys] eqn:Erq; [|discriminate].
  assert (Hq' : exists q', q = q' ++ [c]).
  { exists (removelast q). rewrite (app_removelast_last 0 Hq) in Hlast.
    rewrite app_assoc in Hlast. apply app_inj_tail in Hlast as [_ Hl].
    rewrite <- Hl. now apply app_removelast_last. }
  destruct Hq' as [q' ->]. rewrite app_assoc in Erq.
  now apply (skip_ws_nil_last (rest ++ q') c Hc).
Qed.

(** After a write that stopped early the file is not read: the first
    [n] characters of the text of a dict are no JSON text. *)
Lemma loads_truncated (key : pystr) (v : json) (n : nat) :
  json_ok (JObj [(key, v)]) = true ->
  (n < List.length (dumps (JObj [(key, v)])))%nat ->
  loads (firstn n (dumps (JObj [(key, v)]))) = None.
Proof.
  intros Hok Hn. set (t := dumps (JObj [(key, v)])) in *.
  assert (Ht : exists t0, t = 123 :: t0 ++ [125]).
  { subst t. unfold dumps. cbn [iterencode map bracket].
    eexists. cbn [app]. f_equal. rewrite !app_assoc. reflexivity. }
  destruct Ht as [t0 Ht].
  apply (loads_prefix (firstn n t) (skipn n t) (JObj [(key, v)]) (123 :: t0) 125).
  - intros Hs. pose proof (length_skipn n t) as L. rewrite Hs in L.
    cbn [List.length] in L. lia.
  - rewrite firstn_skipn, Ht. reflexivity.
  - rewrite firstn_skipn. exact Ht.
  - reflexivity.
  - rewrite firstn_skipn. subst t. now apply loads_dumps.
Qed.

End TruncationFacts.
Import TruncationFacts.

(** ** The configuration file *)

Lemma load_snd (w : world) : snd (Server.load_repositories w) = w.
Proof. reflexivity. Qed.

Lemma load_stored (w : world) (items : list json) :
  stored w items -> Server.load_repositories w = (Ret (JArr items), w).
Proof.
  unfold stored. intros H.
  rewrite (surjective_pairing (Server.load_repositories w)), H. reflexivity.
Qed.

Lemma load_config (w w' : world) :
  config w' = config w ->
  fst (Server.load_repositories w') = fst (Server.load_repositories w).
Proof. unfold Server.load_repositories. cbn. now intros ->. Qed.

Lemma config_ok_config (w w' : world) :
  config w' = config w -> config_ok w -> config_ok w'.
Proof.
  intros E (items & Hs & Hl). exists items. split; [|exact Hl].
  unfold stored. now rewrite (load_config w w' E).
Qed.

Lemma json_ok_document (v : json) :
  json_ok v = true -> json_ok (JObj [(lit "repositories", v)]) = true.
Proof. intros H. cbn. now rewrite H. Qed.

(** After [json.dump({'repositories': v}, f, indent=2)] the file holds
    [v]. *)
Lemma stored_written (items : list json) (evs : list event) :
  forallb json_ok items = true ->
  stored {| config := Text (Json.dumps (JObj [(lit "repositories", JArr items)]));
            events := evs |} items.
Proof.
  intros H. unfold stored, Server.load_repositories. cbn [config fst].
  rewrite JsonFacts.loads_dumps by (apply json_ok_document; exact H).
  reflexivity.
Qed.

Lemma config_ok_written (items : list json) (evs : list event) :
  repository_list items ->
  config_ok {| config := Text (Json.dumps (JObj [(lit "repositories", JArr items)]));
               events := evs |}.
Proof.
  intros H. exists items. split; [|exact H]. apply stored_written. apply H.
Qed.

(** [save_repositories] returns, and leaves the file as [saved] says. *)
Lemma save_result (E : env) (v : json) (w : world) :
  exists ok evs,
    Server.save_repositories E v w
    = (Ret ok, {| config := saved E v (config w); events := events w ++ evs |}).
Proof.
  unfold Server.save_repositories, saved. destruct (write_error E) as [[msg|reached msg]|].
  - do 2 eexists. reflexivity.
  - do 2 eexists. reflexivity.
  - exists true, []. cbn. now rewrite app_nil_r.
Qed.

(** A write that stopped early loses the list: nothing is read from what
    it leaves. *)
Lemma stored_cut (v : json) (reached : nat) (evs : list event) :
  json_ok v = true ->
  (reached < List.length (Json.dumps (JObj [(lit "repositories", v)])))%nat ->
  stored {| config := Text (firstn reached (Json.dumps (JObj [(lit "repositories", v)])));
            events := evs |} [].
Proof.
  intros Hok Hn. unfold stored, Server.load_repositories. cbn [config fst].
  rewrite loads_truncated; [reflexivity | now apply json_ok_document | exact Hn].
Qed.

(** After a save of a list of entries the file holds a list of entries:
    the one saved, the one it held, or none. *)
Lemma config_ok_saved (E : env) (items : list json) (w w' : world) :
  config_ok w -> repository_list items -> config w' = saved E (JArr items) (config w) ->
  config_ok w'.
Proof.
  intros Hw Hl Hc. unfold saved in Hc.
  destruct (write_error E) as [[msg|reached msg]|].
  - now apply (config_ok_config w).
  - destruct (Nat.lt_ge_cases
                reached (List.length (Json.dumps (JObj [(lit "repositories", JArr items)]))))
      as [Hlt|Hge].
    + exists []. split;
        [|split; [reflexivity | exists []; split; [reflexivity | constructor]]].
      unfold stored.
      rewrite (load_config
                 {| config := Text (firstn reached
                                           (Json.dumps (JObj [(lit "repositories",
                                                               JArr items)])));
                    events := [] |} w' Hc).
      apply (stored_cut (JArr items) reached []); [apply Hl | exact Hlt].
    + rewrite firstn_all2 in Hc by exact Hge.
      apply (config_ok_config
               {| config := Text (Json.dumps (JObj [(lit "repositories", JArr items)]));
                  events := [] |} w' Hc).
      now apply (config_ok_written items []).
  - apply (config_ok_config
             {| config := Text (Json.dumps (JObj [(lit "repositories", JArr items)]));
                events := [] |} w' Hc).
    now apply (config_ok_written items []).
Qed.

Lemma config_ok_save (E : env) (items : list json) (w : world) :
  config_ok w -> repository_list items ->
  config_ok (snd (Server.save_repositories E (JArr items) w)).
Proof.
  intros Hw Hl. destruct (save_result E (JArr items) w) as (ok & evs & ->).
  now apply (config_ok_saved E items w).
Qed.

(** ** Paths of entries *)

Lemma any_path_is_paths (path : pystr) (items : list json) (ps : list pystr) :
  entry_paths items = Some ps ->
  any_path_is path items = Ret (existsb (str_eqb path) ps).
Proof.
  revert ps. induction items as [|r items IH]; intros ps H.
  - injection H as <-. reflexivity.
  - cbn [entry_paths] in H. destruct r as [| | | | | |d]; try discriminate.
    destruct (dict_lookup (lit "path") d) as [[| | | |p| |]|] eqn:Ed; try discriminate.
    destruct (entry_paths items) as [ps'|]; [|discriminate]. injection H as <-.
    cbn [any_path_is py_getitem]. rewrite Ed. cbn [and_then py_eq existsb].
    rewrite (str_eqb_sym path p). destruct (str_eqb p path); [reflexivity|].
    now apply IH.
Qed.

Lemma entry_paths_app (a b : list json) (pa pb : list pystr) :
  entry_paths a = Some pa -> entry_paths b = Some pb ->
  entry_paths (a ++ b) = Some (pa ++ pb).
Proof.
  revert pa. induction a as [|r a IH]; intros pa Ha Hb.
  - injection Ha as <-. exact Hb.
  - cbn [entry_paths app] in *. destruct r as [| | | | | |d]; try discriminate.
    destruct (dict_lookup (lit "path") d) as [[| | | |p| |]|]; try discriminate.
    destruct (entry_paths a) as [pa'|]; [|discriminate]. injection Ha as <-.
    now rewrite (IH pa' eq_refl Hb).
Qed.

Lemma entry_paths_new (path : pystr) : entry_paths [new_entry path] = Some [path].
Proof. reflexivity. Qed.

Lemma repository_list_append (items : list json) (ps : list pystr) (path : pystr) :
  repository_list items -> entry_paths items = Some ps ->
  str_ok path = true -> ~ In path ps ->
  repository_list (items ++ [new_entry path]).
Proof.
  intros (Hok & ps' & Hp' & Hnd) Hp Hs Hn.
  rewrite Hp in Hp'. injection Hp' as <-. split.
  - rewrite forallb_app, Hok. cbn. now rewrite Hs.
  - exists (ps ++ [path]). split.
    + apply entry_paths_app; [exact Hp | apply entry_paths_new].
    + apply NoDup_app; [exact Hnd | repeat constructor; intros [] | ].
      intros x Hx [<-|[]]. contradiction.
Qed.

Lemma repository_list_nil : repository_list [].
Proof. split; [reflexivity|]. exists []. split; [reflexivity | constructor]. Qed.

(** ** Well-formed strings stay well formed *)

Lemma pair_free_app (a b : pystr) :
  pair_free (a ++ b) = true -> pair_free a = true /\ pair_free b = true.
Proof.
  induction a as [|c a IH]; intros H.
  - now split.
  - destruct a as [|d a].
    + cbn [app] in H. split; [reflexivity|].
      destruct b; [reflexivity|]. cbn [pair_free] in H.
      now apply andb_true_iff in H as [_ H].
    + change (pair_free (c :: d :: (a ++ b)) = true) in H. cbn [pair_free] in H.
      apply andb_true_iff in H as [H1 H2].
      destruct (IH H2) as [Ha Hb]. split; [|exact Hb].
      cbn [pair_free]. now rewrite H1.
Qed.

Lemma str_ok_app (a b : pystr) :
  str_ok (a ++ b) = true -> str_ok a = true /\ str_ok b = true.
Proof.
  unfold str_ok. rewrite forallb_app. intros H.
  apply andb_true_iff in H as [H1 H2]. apply andb_true_iff in H1 as [Ha Hb].
  apply pair_free_app in H2 as [Pa Pb]. now rewrite Ha, Hb, Pa, Pb.
Qed.

Lemma lstrip_suffix (s : pystr) : exists a, s = a ++ lstrip s.
Proof.
  induction s as [|c s [a IH]].
  - now exists [].
  - cbn [lstrip]. destruct (isspace c).
    + exists (c :: a). cbn [app]. now f_equal.
    + now exists [].
Qed.

Lemma rstrip_prefix (s : pystr) : exists b, s = rstrip s ++ b.
Proof.
  unfold rstrip. destruct (lstrip_suffix (rev s)) as [a H].
  exists (rev a). rewrite <- rev_app_distr, <- H. now rewrite rev_involutive.
Qed.

Lemma str_ok_strip (s : pystr) : str_ok s = true -> str_ok (strip s) = true.
Proof.
  intros H. unfold strip.
  destruct (lstrip_suffix s) as [a Ha]. rewrite Ha in H.
  apply str_ok_app in H as [_ H].
  destruct (rstrip_prefix (lstrip s)) as [b Hb]. rewrite Hb in H.
  now apply str_ok_app in H as [H _].
Qed.

Lemma strings_ok_lookup (key : pystr) (d : list (pystr * json)) (v : json) :
  strings_ok (JObj d) = true -> dict_lookup key d = Some v -> strings_ok v = true.
Proof.
  cbn [strings_ok]. induction d as [|[k x] d IH]; intros H L; [discriminate|].
  cbn [forallb] in H. apply andb_true_iff in H as [Hkx Hd].
  apply andb_true_iff in Hkx as [_ Hx].
  cbn [dict_lookup] in L. destruct (str_eqb k key).
  - now injection L as <-.
  - now apply IH.
Qed.

(** ** The strings of a request

    Flask decodes the body of a request from UTF-8, so that its text
    holds no surrogate; the only surrogates of the decoded value come from
    escapes, and the decoder joins a high one with the low one that
    follows it.  Hence no string of a request holds a surrogate pair. *)

Module DecoderFacts.
Import Json.

Lemma hex_val_range (c a : Z) : hex_val c = Some a -> 0 <= a < 16.
Proof.
  unfold hex_val.
  destruct ((48 <=? c) && (c <=? 57)) eqn:E1.
  { intros H. injection H as <-. apply andb_true_iff in E1 as [A B]. lia. }
  destruct ((97 <=? c) && (c <=? 102)) eqn:E2.
  { intros H. injection H as <-. apply andb_true_iff in E2 as [A B]. lia. }
  destruct ((65 <=? c) && (c <=? 70)) eqn:E3; [|discriminate].
  intros H. injection H as <-. apply andb_true_iff in E3 as [A B]. lia.
Qed.

Lemma decode_uXXXX_range (h1 h2 h3 h4 u : Z) :
  decode_uXXXX h1 h2 h3 h4 = Some u -> 0 <= u < 65536.
Proof.
  unfold decode_uXXXX.
  destruct (hex_val h1) as [a|] eqn:A; [|discriminate].
  destruct (hex_val h2) as [b|] eqn:B; [|discriminate].
  destruct (hex_val h3) as [c|] eqn:C; [|discriminate].
  destruct (hex_val h4) as [d|] eqn:D; [|discriminate].
  intros H. injection H as <-.
  apply hex_val_range in A, B, C, D. lia.
Qed.

Lemma joined_scalar (hi lo : Z) :
  is_high hi = true -> is_low lo = true ->
  65536 <= 65536 + Z.lor (Z.shiftl (hi - 55296) 10) (lo - 56320) < 1114112.
Proof.
  unfold is_high, is_low. intros H L.
  apply andb_true_iff in H as [H1 H2]. apply andb_true_iff in L as [L1 L2].
  rewrite Z.shiftl_mul_pow2 by lia. change (2 ^ 10) with 1024.
  rewrite lor_high_low by lia. lia.
Qed.

Lemma str_ok_cons (c : Z) (s : pystr) :
  code_pointb c = true -> str_ok s = true ->
  is_high c = false \/ head_not_low s = true ->
  str_ok (c :: s) = true.
Proof.
  unfold str_ok. intros Hc Hs Hpair.
  apply andb_true_iff in Hs as [Hall Hfree].
  cbn [forallb]. rewrite Hc, Hall. cbn [andb].
  destruct s as [|d s]; [reflexivity|].
  cbn [pair_free]. cbn [pair_free] in Hfree. rewrite Hfree, andb_true_r.
  destruct Hpair as [-> | Hd]; [reflexivity|].
  cbn [head_not_low] in Hd. apply negb_true_iff in Hd. rewrite Hd. now rewrite andb_false_r.
Qed.

Lemma text_ok_tail (pre r : pystr) : text_ok (pre ++ r) = true -> text_ok r = true.
Proof. unfold text_ok. rewrite forallb_app. intros H. now apply andb_true_iff in H. Qed.

Lemma backslash_scalar (esc ch : Z) : backslash esc = Some ch -> scalar ch = true.
Proof.
  unfold backslash.
  repeat match goal with
         | |- (if ?b then _ else _) = _ -> _ => destruct b
         end; intros H; try discriminate; injection H as <-; reflexivity.
Qed.

Lemma scalar_code_point (c : Z) : scalar c = true -> code_pointb c = true.
Proof. unfold scalar. intros H. now apply andb_true_iff in H. Qed.

Lemma scalar_not_high (c : Z) : scalar c = true -> is_high c = false.
Proof.
  unfold scalar. intros H. apply andb_true_iff in H as [_ H].
  apply negb_true_iff, orb_false_iff in H. apply H.
Qed.

Lemma scalar_not_low (c : Z) : scalar c = true -> is_low c = false.
Proof.
  unfold scalar. intros H. apply andb_true_iff in H as [_ H].
  apply negb_true_iff, orb_false_iff in H. apply H.
Qed.

(** What [scanstring] makes of a text of scalar values: a string without
    a surrogate pair, whose first character is a low surrogate only when
    the text starts with the escape of one. *)
Lemma scanstring_str_ok_upto (n : nat) (s content r : pystr) :
  (List.length s <= n)%nat -> text_ok s = true ->
  scanstring s = Some (content, r) ->
  str_ok content = true /\ text_ok r = true
  /\ (low_escape_next s = false -> head_not_low content = true).
Proof.
  revert s content r.
  induction n as [|n IH]; intros s content r Hn Hs H.
  - destruct s; [discriminate | cbn in Hn; lia].
  - destruct s as [|c s]; [discriminate|]. cbn [List.length] in Hn.
    cbn [text_ok forallb] in Hs. apply andb_true_iff in Hs as [Hc Hs].
    fold (text_ok s) in Hs.
    cbn [scanstring] in H.
    destruct (c =? 34) eqn:Eq.
    { injection H as <- <-. repeat split; auto. }
    destruct (c =? 92) eqn:Eb.
    + destruct s as [|esc r1]; [discriminate|]. cbn [List.length] in Hn.
      cbn [text_ok forallb] in Hs. apply andb_true_iff in Hs as [Hesc Hr1].
      fold (text_ok r1) in Hr1.
      destruct (esc =? 117) eqn:Eu.
      * destruct r1 as [|h1 [|h2 [|h3 [|h4 r2]]]]; try discriminate.
        cbn [List.length] in Hn.
        assert (Hr2 : text_ok r2 = true) by (apply (text_ok_tail [h1; h2; h3; h4]); exact Hr1).
        destruct (decode_uXXXX h1 h2 h3 h4) as [uni|] eqn:Eh; [|discriminate].
        assert (Huni : code_pointb uni = true).
        { apply decode_uXXXX_range in Eh. unfold code_pointb.
          apply andb_true_iff. split; [apply Z.leb_le | apply Z.ltb_lt]; lia. }
        assert (Hhead : low_escape_next (c :: esc :: h1 :: h2 :: h3 :: h4 :: r2) = false ->
                        is_low uni = false).
        { cbn [low_escape_next]. rewrite Eb, Eu, Eh. cbn [andb]. auto. }
        (* the escape stands for itself *)
        assert (Hplain : forall a, low_escape_next r2 = false ->
                                   push uni (scanstring r2) = Some (a, r) ->
                                   str_ok a = true /\ text_ok r = true
                                   /\ (low_escape_next (c :: esc :: h1 :: h2 :: h3 :: h4 :: r2)
                                       = false -> head_not_low a = true)).
        { intros a Hnext Hp. apply push_inv in Hp as (a' & Hsc & ->).
          destruct (IH r2 a' r ltac:(lia) Hr2 Hsc) as (Ha' & Hr & Hh).
          split; [|split; [exact Hr|]].
          - apply str_ok_cons; auto.
          - intros Hl. cbn [head_not_low]. now rewrite (Hhead Hl). }
        destruct (is_high uni) eqn:Ehigh.
        -- destruct r2 as [|b [|u [|k1 [|k2 [|k3 [|k4 r3]]]]]];
             try (apply Hplain; [reflexivity | exact H]).
           destruct ((b =? 92) && (u =? 117)) eqn:Ebu.
           ++ destruct (decode_uXXXX k1 k2 k3 k4) as [uni2|] eqn:Ek; [|discriminate].
              destruct (is_low uni2) eqn:Elow.
              ** apply push_inv in H as (a' & Hsc & ->).
                 assert (Hr3 : text_ok r3 = true)
                   by (apply (text_ok_tail [b; u; k1; k2; k3; k4]); exact Hr2).
                 cbn [List.length] in Hn.
                 destruct (IH r3 a' r ltac:(lia) Hr3 Hsc) as (Ha' & Hr & _).
                 pose proof (joined_scalar uni uni2 Ehigh Elow) as Hj.
                 split; [|split; [exact Hr|]].
                 --- apply str_ok_cons; auto.
                     +++ unfold code_pointb. apply andb_true_iff.
                         split; [apply Z.leb_le | apply Z.ltb_lt]; lia.
                     +++ left. unfold is_high. apply andb_false_iff. right.
                         apply Z.leb_gt. lia.
                 --- intros _. cbn [head_not_low]. apply negb_true_iff.
                     unfold is_low. apply andb_false_iff. right. apply Z.leb_gt. lia.
              ** apply Hplain; [|exact H].
                 cbn [low_escape_next]. rewrite Ebu, Ek. exact Elow.
           ++ apply Hplain; [|exact H]. cbn [low_escape_next]. now rewrite Ebu.
        -- apply push_inv in H as (a' & Hsc & ->).
           destruct (IH r2 a' r ltac:(lia) Hr2 Hsc) as (Ha' & Hr & _).
           split; [|split; [exact Hr|]].
           ++ apply str_ok_cons; auto.
           ++ intros Hl. cbn [head_not_low]. now rewrite (Hhead Hl).
      * destruct (backslash esc) as [ch|] eqn:Ebs; [|discriminate].
        apply push_inv in H as (a' & Hsc & ->).
        destruct (IH r1 a' r ltac:(lia) Hr1 Hsc) as (Ha' & Hr & _).
        apply backslash_scalar in Ebs.
        split; [|split; [exact Hr|]].
        -- apply str_ok_cons; [now apply scalar_code_point | exact Ha' |].
           left. now apply scalar_not_high.
        -- intros _. cbn [head_not_low]. now rewrite (scalar_not_low ch Ebs).
    + destruct (c <? 32); [discriminate|].
      apply push_inv in H as (a' & Hsc & ->).
      destruct (IH s a' r ltac:(lia) Hs Hsc) as (Ha' & Hr & _).
      split; [|split; [exact Hr|]].
      * apply str_ok_cons; [now apply scalar_code_point | exact Ha' |].
        left. now apply scalar_not_high.
      * intros _. cbn [head_not_low]. now rewrite (scalar_not_low c Hc).
Qed.

Lemma scanstring_str_ok (s content r : pystr) :
  text_ok s = true -> scanstring s = Some (content, r) ->
  str_ok content = true /\ text_ok r = true.
Proof.
  intros Hs H.
  destruct (scanstring_str_ok_upto (List.length s) s content r (le_n _) Hs H) as (A & B & _).
  now split.
Qed.

Lemma skip_ws_suffix (s : pystr) : exists pre, s = pre ++ skip_ws s.
Proof.
  induction s as [|c s [pre IH]]; [now exists []|].
  cbn [skip_ws]. destruct (is_ws c); [|now exists []].
  exists (c :: pre). cbn [app]. now f_equal.
Qed.

Lemma text_ok_skip_ws (s : pystr) : text_ok s = true -> text_ok (skip_ws s) = true.
Proof.
  intros H. destruct (skip_ws_suffix s) as [pre E]. rewrite E in H.
  now apply text_ok_tail in H.
Qed.

Lemma span_digits_app (s ds r : pystr) : span_digits s = (ds, r) -> s = ds ++ r.
Proof.
  revert ds r. induction s as [|c s IH]; intros ds r H; cbn [span_digits] in H.
  - now injection H as <- <-.
  - destruct (is_digit c).
    + destruct (span_digits s) as [ds' r'] eqn:E. injection H as <- <-.
      cbn [app]. f_equal. now apply IH.
    + now injection H as <- <-.
Qed.

Lemma match_frac_app (s f r : pystr) : match_frac s = (f, r) -> s = f ++ r.
Proof.
  unfold match_frac. destruct s as [|c s]; [now intros [= <- <-]|].
  destruct (c =? 46) eqn:Ec; [|now intros [= <- <-]].
  destruct (span_digits s) as [[|d ds] rest] eqn:E; intros [= <- <-]; [reflexivity|].
  apply Z.eqb_eq in Ec as ->. apply span_digits_app in E. now rewrite E.
Qed.

Lemma match_exp_app (s e r : pystr) : match_exp s = (e, r) -> s = e ++ r.
Proof.
  unfold match_exp. destruct s as [|c s]; [now intros [= <- <-]|].
  destruct ((c =? 101) || (c =? 69)); [|now intros [= <- <-]].
  destruct (match s with
            | [] => ([], s)
            | c0 :: r' => if (c0 =? 45) || (c0 =? 43) then ([c0], r') else ([], s)
            end) as [sign r1] eqn:Es.
  assert (Hs : s = sign ++ r1).
  { destruct s as [|c0 s']; [now injection Es as <- <-|].
    destruct ((c0 =? 45) || (c0 =? 43)); now injection Es as <- <-. }
  destruct (span_digits r1) as [[|d ds] rest] eqn:E; intros [= <- <-]; [reflexivity|].
  apply span_digits_app in E. rewrite Hs, E. cbn [app]. now rewrite <- app_assoc.
Qed.

Lemma match_integer_suffix (s : pystr) (neg : bool) (integer r : pystr) :
  match_integer s = Some (neg, integer, r) -> exists pre, s = pre ++ r.
Proof.
  unfold match_integer.
  destruct (match s with
            | [] => (false, s)
            | c :: r0 => if c =? 45 then (true, r0) else (false, s)
            end) as [n s1] eqn:Es.
  assert (Hs : exists pre, s = pre ++ s1).
  { destruct s as [|c s']; [injection Es as <- <-; now exists []|].
    destruct (c =? 45); injection Es as <- <-; [now exists [c] | now exists []]. }
  destruct Hs as [pre ->].
  destruct s1 as [|d r0]; [discriminate|].
  destruct (d =? 48).
  - intros [= <- <- <-]. exists (pre ++ [d]). now rewrite <- app_assoc.
  - destruct (is_digit d); [|discriminate].
    destruct (span_digits r0) as [ds rest] eqn:E. intros [= <- <- <-].
    apply span_digits_app in E. exists (pre ++ d :: ds). rewrite E, <- app_assoc. reflexivity.
Qed.

Lemma scan_number_suffix (s : pystr) (v : json) (r : pystr) :
  scan_number s = Some (v, r) -> strings_ok v = true /\ exists pre, s = pre ++ r.
Proof.
  unfold scan_number.
  destruct (match_integer s) as [[[neg integer] r0]|] eqn:Ei; [|discriminate].
  destruct (match_frac r0) as [frac r1] eqn:Ef.
  destruct (match_exp r1) as [exp r2] eqn:Ee.
  apply match_integer_suffix in Ei as [pre ->].
  apply match_frac_app in Ef as ->. apply match_exp_app in Ee as ->.
  intros H. assert (Hr : r = r2 /\ strings_ok v = true).
  { destruct frac, exp; injection H as <- <-; now split. }
  destruct Hr as [-> Hv]. split; [exact Hv|].
  exists (pre ++ frac ++ exp). now rewrite <- !app_assoc.
Qed.

Lemma strip_prefix_app (p s r : pystr) : strip_prefix p s = Some r -> s = p ++ r.
Proof.
  revert s. induction p as [|a p IH]; intros s H; cbn [strip_prefix] in H.
  - now injection H as <-.
  - destruct s as [|c s]; [discriminate|].
    destruct (c =? a) eqn:E; [|discriminate].
    apply Z.eqb_eq in E as ->. cbn [app]. f_equal. now apply IH.
Qed.

Lemma scan_constant_suffix (name : string) (v0 : json) (s : pystr) (v : json) (r : pystr) :
  scan_constant name v0 s = Some (v, r) -> v = v0 /\ exists pre, s = pre ++ r.
Proof.
  unfold scan_constant. destruct (strip_prefix (lit name) s) as [r0|] eqn:E; [|discriminate].
  intros [= <- <-]. split; [reflexivity|]. apply strip_prefix_app in E. eauto.
Qed.


Lemma text_ok_cons (c : Z) (s : pystr) : text_ok (c :: s) = true -> text_ok s = true.
Proof. apply (text_ok_tail [c]). Qed.

Lemma array_items_strings (scan : pystr -> option (json * pystr)) :
  reads_strings scan ->
  forall fuel s values r,
    text_ok s = true -> array_items scan fuel s = Some (values, r) ->
    forallb strings_ok values = true /\ text_ok r = true.
Proof.
  intros Hscan. induction fuel as [|k IH]; intros s values r Hs H; [discriminate|].
  cbn [array_items] in H.
  destruct (scan s) as [[value r0]|] eqn:E; [|discriminate].
  destruct (Hscan s value r0 Hs E) as [Hv Hr0].
  apply text_ok_skip_ws in Hr0.
  destruct (skip_ws r0) as [|c r']; [discriminate|].
  apply text_ok_cons in Hr0.
  destruct (c =? 93).
  - injection H as <- <-. cbn [forallb]. now rewrite Hv.
  - destruct (c =? 44); [|discriminate].
    destruct (array_items scan k (skip_ws r')) as [[values' r'']|] eqn:E'; [|discriminate].
    injection H as <- <-.
    destruct (IH (skip_ws r') values' r'' (text_ok_skip_ws r' Hr0) E') as [Hvs Hr].
    cbn [forallb]. now rewrite Hv, Hvs.
Qed.

Lemma object_pairs_strings (scan : pystr -> option (json * pystr)) :
  reads_strings scan ->
  forall fuel s pairs r,
    text_ok s = true -> object_pairs scan fuel s = Some (pairs, r) ->
    forallb member_ok pairs = true /\ text_ok r = true.
Proof.
  intros Hscan. induction fuel as [|k IH]; intros s pairs r Hs H; [discriminate|].
  cbn [object_pairs] in H.
  destruct s as [|q s1]; [discriminate|].
  apply text_ok_cons in Hs.
  destruct (q =? 34); [|discriminate].
  destruct (scanstring s1) as [[key r0]|] eqn:Ek; [|discriminate].
  destruct (scanstring_str_ok s1 key r0 Hs Ek) as [Hkey Hr0].
  apply text_ok_skip_ws in Hr0.
  destruct (skip_ws r0) as [|colon r1]; [discriminate|].
  apply text_ok_cons in Hr0.
  destruct (colon =? 58); [|discriminate].
  destruct (scan (skip_ws r1)) as [[value r2]|] eqn:Ev; [|discriminate].
  destruct (Hscan _ value r2 (text_ok_skip_ws r1 Hr0) Ev) as [Hv Hr2].
  apply text_ok_skip_ws in Hr2.
  destruct (skip_ws r2) as [|c r3]; [discriminate|].
  apply text_ok_cons in Hr2.
  destruct (c =? 125).
  - injection H as <- <-. cbn [forallb member_ok]. now rewrite Hkey, Hv.
  - destruct (c =? 44); [|discriminate].
    destruct (object_pairs scan k (skip_ws r3)) as [[pairs' r4]|] eqn:E'; [|discriminate].
    injection H as <- <-.
    destruct (IH (skip_ws r3) pairs' r4 (text_ok_skip_ws r3 Hr2) E') as [Hps Hr].
    cbn [forallb member_ok]. now rewrite Hkey, Hv, Hps.
Qed.

Lemma dict_setitem_members (key : pystr) (value : json) (d : list (pystr * json)) :
  str_ok key = true -> strings_ok value = true -> forallb member_ok d = true ->
  forallb member_ok (dict_setitem key value d) = true.
Proof.
  intros Hk Hv. induction d as [|[k v] d IH]; intros Hd.
  - cbn. now rewrite Hk, Hv.
  - cbn [dict_setitem]. cbn [forallb member_ok] in Hd.
    apply andb_true_iff in Hd as [Hkv Hd]. apply andb_true_iff in Hkv as [Hk' Hv'].
    destruct (str_eqb k key); cbn [forallb member_ok].
    + now rewrite Hk', Hv, Hd.
    + now rewrite Hk', Hv', (IH Hd).
Qed.

Lemma dict_of_pairs_members (pairs : list (pystr * json)) :
  forallb member_ok pairs = true -> forallb member_ok (dict_of_pairs pairs) = true.
Proof.
  unfold dict_of_pairs.
  assert (G : forall d, forallb member_ok d = true -> forallb member_ok pairs = true ->
                        forallb member_ok
                                (fold_left (fun d kv => dict_setitem (fst kv) (snd kv) d) pairs d)
                        = true).
  { induction pairs as [|[k v] pairs IH]; intros d Hd Hp; [exact Hd|].
    cbn [fold_left fst snd]. cbn [forallb member_ok] in Hp.
    apply andb_true_iff in Hp as [Hkv Hp]. apply andb_true_iff in Hkv as [Hk Hv].
    apply IH; [now apply dict_setitem_members | exact Hp]. }
  now apply G.
Qed.

Lemma scan_once_strings (fuel : nat) : reads_strings (scan_once fuel).
Proof.
  induction fuel as [|k IH]; intros s v r Hs H; [discriminate|].
  cbn [scan_once] in H.
  destruct s as [|c s']; [discriminate|].
  pose proof (text_ok_cons c s' Hs) as Hs'.
  destruct (c =? 34).
  { destruct (scanstring s') as [[content rest]|] eqn:E; [|discriminate].
    injection H as <- <-. now apply scanstring_str_ok in E. }
  destruct (c =? 123).
  { apply text_ok_skip_ws in Hs'.
    destruct (skip_ws s') as [|c' r']; [discriminate|].
    destruct (c' =? 125).
    - injection H as <- <-. split; [reflexivity | now apply text_ok_cons in Hs'].
    - destruct (object_pairs (scan_once k) k (c' :: r')) as [[pairs rest]|] eqn:E;
        [|discriminate].
      injection H as <- <-.
      destruct (object_pairs_strings _ IH k _ pairs rest Hs' E) as [Hp Hr].
      split; [|exact Hr]. cbn [strings_ok]. now apply dict_of_pairs_members. }
  destruct (c =? 91).
  { apply text_ok_skip_ws in Hs'.
    destruct (skip_ws s') as [|c' r']; [discriminate|].
    destruct (c' =? 93).
    - injection H as <- <-. split; [reflexivity | now apply text_ok_cons in Hs'].
    - destruct (array_items (scan_once k) k (c' :: r')) as [[values rest]|] eqn:E;
        [|discriminate].
      injection H as <- <-.
      now destruct (array_items_strings _ IH k _ values rest Hs' E) as [Hp Hr]. }
  assert (Hconst : forall name v0, strings_ok v0 = true ->
                                   scan_constant name v0 (c :: s') = Some (v, r) ->
                                   strings_ok v = true /\ text_ok r = true).
  { intros name v0 Hv0 Hc. apply scan_constant_suffix in Hc as [-> [pre E]].
    split; [exact Hv0|]. rewrite E in Hs. now apply text_ok_tail in Hs. }
  destruct (if c =? 110 then scan_constant "null" JNull (c :: s')
            else if c =? 116 then scan_constant "true" (JBool true) (c :: s')
                 else if c =? 102 then scan_constant "false" (JBool false) (c :: s')
                      else None) as [res|] eqn:E.
  { injection H as ->.
    destruct (c =? 110); [now apply (Hconst "null"%string JNull)|].
    destruct (c =? 116); [now apply (Hconst "true"%string (JBool true))|].
    destruct (c =? 102); [now apply (Hconst "false"%string (JBool false))|].
    discriminate. }
  destruct (scan_number (c :: s')) as [res|] eqn:En.
  { injection H as ->. apply scan_number_suffix in En as [Hv [pre Ep]].
    split; [exact Hv|]. rewrite Ep in Hs. now apply text_ok_tail in Hs. }
  destruct (c =? 78); [now apply (Hconst "NaN"%string (JFloat (lit "NaN")))|].
  destruct (c =? 73); [now apply (Hconst "Infinity"%string (JFloat (lit "Infinity")))|].
  destruct (c =? 45); [now apply (Hconst "-Infinity"%string (JFloat (lit "-Infinity")))|].
  discriminate.
Qed.

(** What the decoder yields for a text of scalar values holds no
    surrogate pair. *)
Lemma loads_strings_ok (t : pystr) (v : json) :
  text_ok t = true -> Json.loads t = Some v -> strings_ok v = true.
Proof.
  intros Ht. unfold loads.
  destruct (scan_once (S (List.length (skip_ws t))) (skip_ws t)) as [[obj rest]|] eqn:E;
    [|discriminate].
  destruct (skip_ws rest); [|discriminate]. intros [= <-].
  now destruct (scan_once_strings _ _ obj rest (text_ok_skip_ws t Ht) E).
Qed.

End DecoderFacts.
Import DecoderFacts.

(** The string a request carries under a key, stripped, is well formed. *)
Lemma request_string_ok (data : json) (key : string) (raw : json) (stripped : pystr) :
  strings_ok data = true ->
  py_get data key (JStr []) = Ret raw -> py_strip raw = Ret stripped ->
  str_ok stripped = true.
Proof.
  intros Hd Hg Hs. destruct raw; try discriminate. cbn in Hs. injection Hs as <-.
  apply str_ok_strip.
  destruct data as [| | | | | |d]; try discriminate. cbn [py_get] in Hg.
  injection Hg as Hg. unfold dict_get in Hg.
  destruct (dict_lookup (lit key) d) as [v|] eqn:L.
  - subst v. now apply (strings_ok_lookup _ _ _ Hd L).
  - now injection Hg as <-.
Qed.

(** ** The writers of the server keep the configuration file in order *)

Ltac lifted H :=
  unfold bind at 1, lift at 1;
  match goal with
  | |- context [match ?r with Ret _ => _ | Raise _ => _ end] => destruct r eqn:H
  end.

Lemma config_ok_events (w : world) (evs : list event) :
  config_ok w -> config_ok {| config := config w; events := evs |}.
Proof. now apply config_ok_config. Qed.

Lemma add_repository_config_ok (E : env) (req : Server.request) (w : world) :
  env_ok E -> request_ok req -> config_ok w ->
  config_ok (snd (Server.add_repository E req w)).
Proof.
  intros [Habs Hexp] Hreq Hw.
  pose proof (config_ok_events w) as Hev.
  unfold Server.add_repository, try_except.
  destruct (Server.is_json req); cbn [negb]; [|exact Hw].
  lifted Ereq; [|now apply Hev].
  destruct (truthy a); cbn [negb]; [|exact Hw].
  lifted Eget; [|now apply Hev].
  lifted Estrip; [|now apply Hev].
  pose proof (request_string_ok _ _ _ _ (Hreq _ Ereq) Eget Estrip) as Hok.
  destruct a1 as [|c stripped]; [exact Hw|].
  set (path := abspath E (expanduser E (c :: stripped))).
  assert (Hpath : str_ok path = true) by (apply Habs, Hexp, Hok).
  destruct (isdir E (path_join path (lit ".git"))); cbn [negb]; [|exact Hw].
  destruct Hw as (items & Hst & Hl).
  unfold bind at 1. rewrite (load_stored w items Hst).
  unfold bind at 1, lift at 1. cbn [py_iter].
  destruct Hl as (Hjson & ps & Hps & Hnd).
  unfold bind at 1, lift at 1. rewrite (any_path_is_paths path items ps Hps).
  destruct (existsb (str_eqb path) ps) eqn:Ein.
  - cbn. exists items. split; [exact Hst|]. split; [exact Hjson|]. now exists ps.
  - unfold bind at 1, lift at 1. cbn [py_append].
    assert (Hnew : repository_list (items ++ [new_entry path])).
    { apply (repository_list_append items ps); try assumption.
      - split; [exact Hjson|]. now exists ps.
      - intros Hin. apply existsb_str_eqb in Hin. congruence. }
    assert (Hw : config_ok w).
    { exists items. split; [exact Hst|]. split; [exact Hjson|]. now exists ps. }
    unfold bind at 1.
    destruct (save_result E (JArr (items ++ [new_entry path])) w) as (ok & evs & ->).
    now apply (config_ok_saved E (items ++ [new_entry path]) w).
Qed.

(** The entries [without_path] keeps are entries of the list, in their
    order. *)
Lemma without_path_paths (path : json) (items : list json) (ps : list pystr) :
  entry_paths items = Some ps ->
  exists kept ps',
    without_path path items = Ret kept
    /\ entry_paths kept = Some ps'
    /\ (forall x, In x kept -> In x items)
    /\ (NoDup ps -> NoDup ps')
    /\ (forall x, In x ps' -> In x ps).
Proof.
  revert ps. induction items as [|r items IH]; intros ps H.
  - injection H as <-. exists [], []. repeat split; auto.
  - cbn [entry_paths] in H. destruct r as [| | | | | |d]; try discriminate.
    destruct (dict_lookup (lit "path") d) as [[| | | |p| |]|] eqn:Ed; try discriminate.
    destruct (entry_paths items) as [ps0|] eqn:E0; [|discriminate]. injection H as <-.
    destruct (IH ps0 eq_refl) as (kept & ps' & Hk & Hp & Hin & Hnd & Hsub).
    cbn [without_path py_getitem]. rewrite Ed. cbn [and_then]. rewrite Hk. cbn [and_then].
    destruct (py_eq (JStr p) path).
    + exists kept, ps'. repeat split; auto.
      * intros x Hx. right. now apply Hin.
      * intros Hn. inversion Hn. auto.
      * intros x Hx. right. now apply Hsub.
    + exists (JObj d :: kept), (p :: ps'). repeat split.
      * cbn [entry_paths]. now rewrite Ed, Hp.
      * intros x [<-|Hx]; [now left | right; now apply Hin].
      * intros Hn. inversion Hn as [|? ? Hni Hn']. subst. constructor; auto.
      * intros x [<-|Hx]; [now left | right; now apply Hsub].
Qed.

Lemma forallb_sub (A : Type) (f : A -> bool) (l l' : list A) :
  (forall x, In x l' -> In x l) -> forallb f l = true -> forallb f l' = true.
Proof.
  intros Hsub H. rewrite forallb_forall in *. intros x Hx. apply H. now apply Hsub.
Qed.

Lemma remove_repository_config_ok (E : env) (req : Server.request) (w : world) :
  config_ok w -> config_ok (snd (Server.remove_repository E req w)).
Proof.
  intros Hw. pose proof (config_ok_events w) as Hev.
  unfold Server.remove_repository.
  lifted Ereq; [|exact Hw].
  lifted Eget; [|exact Hw].
  destruct (truthy a0); cbn [negb]; [|exact Hw].
  destruct Hw as (items & Hst & Hjson & ps & Hps & Hnd).
  unfold bind at 1. rewrite (load_stored w items Hst).
  unfold bind at 1, lift at 1. cbn [py_iter].
  destruct (without_path_paths a0 items ps Hps) as (kept & ps' & Hk & Hp & Hin & Hn & _).
  unfold bind at 1, lift at 1. rewrite Hk.
  unfold bind at 1.
  assert (Hkept : repository_list kept).
  { split; [now apply (forallb_sub _ _ items)|]. exists ps'. auto. }
  assert (Hw : config_ok w).
  { exists items. split; [exact Hst|]. split; [exact Hjson|]. now exists ps. }
  destruct (save_result E (JArr kept) w) as (ok & evs & ->).
  now apply (config_ok_saved E kept w).
Qed.

Lemma clear_repositories_config_ok (E : env) (w : world) :
  config_ok w -> config_ok (snd (Server.clear_repositories E w)).
Proof.
  intros Hw.
  assert (H1 : config_ok (snd (Server.save_repositories E (JArr []) w)))
    by (apply config_ok_save; [exact Hw | apply repository_list_nil]).
  unfold Server.clear_repositories, try_except.
  unfold bind at 1.
  destruct (Server.save_repositories E (JArr []) w) as [[b|e] w1] eqn:Es; cbn [snd] in H1.
  - unfold bind at 1. destruct H1 as (items & Hst & Hl).
    rewrite (load_stored w1 items Hst).
    unfold bind at 1, lift at 1. cbn [py_len].
    assert (Hw1 : config_ok w1) by (exists items; auto).
    destruct (0 <? List.length items)%nat; exact Hw1.
  - cbn. now apply (config_ok_config w1).
Qed.

(** ** Batches of paths *)

Lemma path_set_paths (items : list json) (ps : list pystr) :
  entry_paths items = Some ps -> Server.path_set items = Ret (map JStr ps).
Proof.
  revert ps. induction items as [|r items IH]; intros ps H.
  - injection H as <-. reflexivity.
  - cbn [entry_paths] in H. destruct r as [| | | | | |d]; try discriminate.
    destruct (dict_lookup (lit "path") d) as [[| | | |p| |]|] eqn:Ed; try discriminate.
    destruct (entry_paths items) as [ps0|]; [|discriminate]. injection H as <-.
    cbn [Server.path_set py_getitem]. rewrite Ed. cbn [and_then py_hashable].
    rewrite (IH ps0 eq_refl). reflexivity.
Qed.

Lemma set_mem_str (p : pystr) (known : list pystr) :
  set_mem (JStr p) (map JStr known) = existsb (str_eqb p) known.
Proof.
  unfold set_mem. induction known as [|k known IH]; [reflexivity|].
  cbn [map existsb]. now rewrite IH.
Qed.

(** On a list of strings the loop of [batch_add_repositories] appends
    [batch_new] and reports [batch_errors]. *)
Lemma batch_loop_strings (E : env) (raws : list pystr) :
  forall (items : list json) (known : list pystr) (added : Z) (errors : list pystr),
    Server.batch_loop E (map JStr raws) (JArr items) (map JStr known) added errors
    = Ret (JArr (items ++ map new_entry (batch_new E raws known)),
           added + Z.of_nat (List.length (batch_new E raws known)),
           errors ++ batch_errors E raws).
Proof.
  induction raws as [|raw raws IH]; intros items known added errors.
  - cbn. now rewrite !app_nil_r, Z.add_0_r.
  - cbn [map Server.batch_loop py_strip and_then batch_new batch_errors flat_map].
    unfold normalize, is_git. destruct (strip raw) as [|c s] eqn:Es.
    + rewrite IH. reflexivity.
    + set (p := abspath E (expanduser E (c :: s))).
      destruct (isdir E (path_join p (lit ".git"))); cbn [negb andb].
      * rewrite set_mem_str. destruct (existsb (str_eqb p) known); cbn [negb].
        -- rewrite IH. reflexivity.
        -- cbn [py_append and_then].
           change (map JStr known ++ [JStr p]) with (map JStr known ++ map JStr [p]).
           rewrite <- map_app, IH. cbn [map List.length app].
           rewrite <- app_assoc. cbn [app]. do 2 f_equal. f_equal. lia.
      * rewrite IH. rewrite <- app_assoc. reflexivity.
Qed.

(** The loop returns only when every requested path is a string. *)
Lemma batch_loop_returns (E : env) (paths : list json) :
  forall repositories existing added errors out,
    Server.batch_loop E paths repositories existing added errors = Ret out ->
    exists raws, paths = map JStr raws.
Proof.
  induction paths as [|raw paths IH]; intros repositories existing added errors out H.
  - now exists [].
  - cbn [Server.batch_loop] in H.
    destruct raw as [| | | |s| |]; try discriminate.
    cbn [py_strip and_then] in H.
    assert (Hrec : exists raws, paths = map JStr raws).
    { destruct (strip s); [now apply IH in H|].
      destruct (negb (isdir E _)); [now apply IH in H|].
      destruct (set_mem _ existing); [now apply IH in H|].
      destruct (py_append repositories _); [|discriminate].
      cbn [and_then] in H. now apply IH in H. }
    destruct Hrec as [raws ->]. now exists (s :: raws).
Qed.

Lemma normalize_ok (E : env) (raw p : pystr) :
  env_ok E -> str_ok raw = true -> normalize E raw = Some p -> str_ok p = true.
Proof.
  intros [Habs Hexp] Hraw. unfold normalize.
  pose proof (str_ok_strip raw Hraw) as Hs.
  destruct (strip raw); [discriminate|]. intros H. injection H as <-.
  now apply Habs, Hexp.
Qed.

Lemma batch_new_ok (E : env) (raws : list pystr) :
  env_ok E -> forallb str_ok raws = true ->
  forall known, forallb str_ok (batch_new E raws known) = true.
Proof.
  intros HE. induction raws as [|raw raws IH]; intros Hraws known; [reflexivity|].
  cbn [forallb] in Hraws. apply andb_true_iff in Hraws as [Hraw Hraws].
  cbn [batch_new]. destruct (normalize E raw) as [p|] eqn:En; [|now apply IH].
  destruct (is_git E p && negb (existsb (str_eqb p) known)); [|now apply IH].
  cbn [forallb]. rewrite (normalize_ok E raw p HE Hraw En). now apply IH.
Qed.

Lemma batch_new_NoDup (E : env) (raws : list pystr) :
  forall known, NoDup known -> NoDup (known ++ batch_new E raws known).
Proof.
  induction raws as [|raw raws IH]; intros known Hk; [now rewrite app_nil_r|].
  cbn [batch_new]. destruct (normalize E raw) as [p|]; [|now apply IH].
  destruct (is_git E p); cbn [andb]; [|now apply IH].
  destruct (existsb (str_eqb p) known) eqn:Ein; cbn [negb]; [now apply IH|].
  change (p :: batch_new E raws (known ++ [p]))
    with ([p] ++ batch_new E raws (known ++ [p])).
  rewrite app_assoc. apply IH.
  apply NoDup_app; [exact Hk | repeat constructor; intros [] |].
  intros x Hx [<-|[]]. apply existsb_str_eqb in Hx. congruence.
Qed.



Lemma entry_paths_new_entries (news : list pystr) :
  entry_paths (map new_entry news) = Some news.
Proof.
  induction news as [|p news IH]; [reflexivity|].
  cbn [map]. change (new_entry p :: map new_entry news)
    with ([new_entry p] ++ map new_entry news).
  now rewrite (entry_paths_app _ _ [p] news (entry_paths_new p) IH).
Qed.

Lemma json_ok_new_entries (news : list pystr) :
  forallb str_ok news = true -> forallb json_ok (map new_entry news) = true.
Proof.
  induction news as [|p news IH]; [reflexivity|]. cbn [forallb map].
  intros H. apply andb_true_iff in H as [Hp Hn]. rewrite (IH Hn).
  cbn. now rewrite Hp.
Qed.

Lemma repository_list_batch (E : env) (raws : list pystr) (items : list json)
      (ps : list pystr) :
  env_ok E -> forallb str_ok raws = true ->
  repository_list items -> entry_paths items = Some ps ->
  repository_list (items ++ map new_entry (batch_new E raws ps)).
Proof.
  intros HE Hraws (Hjson & ps' & Hps' & Hnd) Hps.
  rewrite Hps in Hps'. injection Hps' as <-. split.
  - rewrite forallb_app, Hjson. apply json_ok_new_entries. now apply batch_new_ok.
  - exists (ps ++ batch_new E raws ps). split.
    + apply entry_paths_app; [exact Hps | apply entry_paths_new_entries].
    + now apply batch_new_NoDup.
Qed.

Lemma py_get_strings_ok (data : json) (key : string) (default v : json) :
  strings_ok data = true -> strings_ok default = true ->
  py_get data key default = Ret v -> strings_ok v = true.
Proof.
  intros Hd Hdef Hg. destruct data as [| | | | | |d]; try discriminate.
  cbn [py_get] in Hg. injection Hg as Hg. unfold dict_get in Hg.
  destruct (dict_lookup (lit key) d) as [x|] eqn:L.
  - subst x. now apply (strings_ok_lookup _ _ _ Hd L).
  - now subst v.
Qed.

Lemma strings_ok_strs (raws : list pystr) :
  forallb strings_ok (map JStr raws) = forallb str_ok raws.
Proof. induction raws as [|r raws IH]; [reflexivity|]. cbn [map forallb strings_ok]. now rewrite IH. Qed.

Lemma batch_add_repositories_config_ok (E : env) (req : Server.request) (w : world) :
  env_ok E -> request_ok req -> config_ok w ->
  config_ok (snd (Server.batch_add_repositories E req w)).
Proof.
  intros HE Hreq Hw. pose proof (config_ok_events w) as Hev.
  unfold Server.batch_add_repositories, try_except.
  destruct (Server.is_json req); cbn [negb]; [|exact Hw].
  lifted Ereq; [|now apply Hev].
  destruct (truthy a); cbn [negb]; [|exact Hw].
  lifted Eget; [|now apply Hev].
  pose proof (py_get_strings_ok a "paths" (JArr []) a0 (Hreq _ Ereq) eq_refl Eget)
    as Hpaths.
  destruct a0 as [| | | | |paths|]; try exact Hw.
  destruct Hw as (items & Hst & Hjson & ps & Hps & Hnd).
  assert (Hl : repository_list items) by (split; [exact Hjson | now exists ps]).
  assert (Hw : config_ok w) by (exists items; auto).
  unfold bind at 1. rewrite (load_stored w items Hst).
  unfold bind at 1, lift at 1. cbn [py_iter].
  unfold bind at 1, lift at 1. rewrite (path_set_paths items ps Hps).
  unfold bind at 1, lift at 1.
  destruct (Server.batch_loop E paths (JArr items) (map JStr ps) 0 []) as [out|e] eqn:Eloop;
    [|now apply Hev].
  destruct (batch_loop_returns _ _ _ _ _ _ _ Eloop) as [raws ->].
  rewrite batch_loop_strings in Eloop. injection Eloop as <-.
  cbn [strings_ok] in Hpaths. rewrite strings_ok_strs in Hpaths.
  pose proof (repository_list_batch E raws items ps HE Hpaths Hl Hps) as Hnew.
  unfold bind at 1.
  destruct (save_result E (JArr (items ++ map new_entry (batch_new E raws ps))) w)
    as (ok & evs & ->).
  now apply (config_ok_saved E (items ++ map new_entry (batch_new E raws ps)) w).
Qed.

(** ** Running a computation step by step *)

Lemma bind_get (S A : Type) (k : S -> M S A) (s : S) : bind get k s = k s s.
Proof. reflexivity. Qed.

Lemma bind_lift (S A B : Type) (r : result A) (k : A -> M S B) (s : S) :
  bind (lift r) k s = match r with Ret a => k a s | Raise e => (Raise e, s) end.
Proof. unfold bind, lift. now destruct r. Qed.

Lemma bind_ret (S A B : Type) (a : A) (k : A -> M S B) (s : S) : bind (ret a) k s = k a s.
Proof. reflexivity. Qed.

Lemma bind_assoc (S A B C : Type) (m : M S A) (k : A -> M S B) (h : B -> M S C) (s : S) :
  bind (bind m k) h s = bind m (fun a => bind (k a) h) s.
Proof. unfold bind. destruct (m s) as [[a|e] s']; reflexivity. Qed.

(** ** The writers of the window keep its list and the file in order *)

Lemma bind_set_repositories (A : Type) (r : json) (k : unit -> M Gui.gui A) (g : Gui.gui) :
  bind (Gui.set_repositories r) k g = k tt (with_repositories g r).
Proof. reflexivity. Qed.

Lemma gui_ok_intro (g : Gui.gui) (items : list json) :
  Gui.repositories g = JArr items -> repository_list items -> config_ok (Gui.outside g) ->
  gui_ok g.
Proof. intros H1 H2 H3. split; [now exists items | exact H3]. Qed.

(** A dialog changes neither the list nor the file. *)
Lemma messagebox_keeps (kind : dialog) (title : string) (message : pystr) (g : Gui.gui) :
  gui_ok g -> gui_ok (snd (Gui.messagebox kind title message g)).
Proof.
  intros [Hm Hc]. split; [exact Hm|]. cbn. now apply config_ok_events.
Qed.

(** [update_repo_list] changes the rows of the tree only. *)
Lemma update_repo_list_keeps (g : Gui.gui) :
  gui_ok g -> gui_ok (snd (Gui.update_repo_list g)).
Proof.
  intros [Hm Hc]. unfold Gui.update_repo_list.
  unfold bind at 1. cbn [Gui.set_tree]. rewrite bind_get. rewrite bind_lift.
  cbn [Gui.repositories]. destruct (py_iter (Gui.repositories g)) as [items|e].
  - destruct (Gui.tree_rows items) as [rows [e|]]; cbn; now split.
  - cbn. now split.
Qed.

(** The window's [save_repositories] returns, and leaves the file as
    [saved] says. *)
Lemma gui_save_result (E : env) (g : Gui.gui) :
  exists evs,
    Gui.save_repositories E g
    = (Ret tt,
       with_outside g {| config := saved E (Gui.repositories g) (config (Gui.outside g));
                         events := events (Gui.outside g) ++ evs |}).
Proof.
  unfold Gui.save_repositories, saved. rewrite bind_get.
  destruct (write_error E) as [[msg|reached msg]|].
  - eexists. reflexivity.
  - eexists. reflexivity.
  - exists []. cbn. rewrite app_nil_r. reflexivity.
Qed.

Lemma gui_save_keeps (E : env) (g : Gui.gui) :
  gui_ok g -> gui_ok (snd (Gui.save_repositories E g)).
Proof.
  intros [(items & Hm & Hl) Hc]. destruct (gui_save_result E g) as (evs & ->).
  cbn [snd]. split; [now exists items|]. rewrite Hm.
  now apply (config_ok_saved E items (Gui.outside g)).
Qed.

Lemma gui_save_then_update (E : env) (g : Gui.gui) :
  gui_ok g -> gui_ok (snd ((Gui.save_repositories E ;;; Gui.update_repo_list) g)).
Proof.
  intros H. apply (gui_save_keeps E) in H. unfold bind.
  destruct (Gui.save_repositories E g) as [[[]|e] g1]; cbn [snd] in *.
  - now apply update_repo_list_keeps.
  - exact H.
Qed.

Lemma gui_add_repository_ok (E : env) (askdirectory : pystr) (askstring : option pystr)
      (g : Gui.gui) :
  env_ok E -> str_ok askdirectory = true ->
  (forall s, askstring = Some s -> str_ok s = true) ->
  gui_ok g -> gui_ok (snd (Gui.add_repository E askdirectory askstring g)).
Proof.
  intros [Habs _] Hdir Hstr Hg. unfold Gui.add_repository.
  assert (Hans : forall s, match askdirectory with
                           | [] => askstring
                           | _ :: _ => Some askdirectory
                           end = Some s -> str_ok s = true).
  { intros s. destruct askdirectory; [apply Hstr|]. intros H. now injection H as <-. }
  destruct (match askdirectory with [] => askstring | _ :: _ => Some askdirectory end)
    as [[|c answer]|]; [exact Hg | | exact Hg].
  specialize (Hans _ eq_refl).
  set (path := abspath E (c :: answer)).
  assert (Hpath : str_ok path = true) by now apply Habs.
  destruct (isdir E (path_join path (lit ".git"))); cbn [negb];
    [|now apply messagebox_keeps].
  rewrite bind_get. rewrite bind_lift.
  destruct Hg as [(items & Hm & Hjson & ps & Hps & Hnd) Hc].
  assert (Hl : repository_list items) by (split; [exact Hjson | now exists ps]).
  rewrite Hm. cbn [py_iter]. rewrite bind_lift.
  rewrite (any_path_is_paths path items ps Hps).
  destruct (existsb (str_eqb path) ps) eqn:Ein.
  - apply messagebox_keeps. now apply (gui_ok_intro g items).
  - rewrite bind_lift. cbn [py_append]. rewrite bind_set_repositories.
    apply gui_save_then_update.
    apply (gui_ok_intro _ (items ++ [new_entry path])); [reflexivity | | exact Hc].
    apply (repository_list_append items ps); try assumption.
    intros Hin. apply existsb_str_eqb in Hin. congruence.
Qed.

Lemma remove_loop_keeps (selected_items : list nat) :
  forall g, gui_ok g -> gui_ok (snd (Gui.remove_loop selected_items g)).
Proof.
  induction selected_items as [|item rest IH]; intros g Hg; [exact Hg|].
  cbn [Gui.remove_loop]. rewrite bind_get.
  destruct (nth_error (Gui.repo_tree g) item) as [[mark path]|]; [|now apply IH].
  destruct Hg as [(items & Hm & Hjson & ps & Hps & Hnd) Hc].
  rewrite bind_lift, Hm. cbn [py_iter]. rewrite bind_lift.
  destruct (without_path_paths path items ps Hps) as (kept & ps' & Hk & Hp & Hin & Hn & _).
  rewrite Hk. rewrite bind_set_repositories. apply IH.
  apply (gui_ok_intro _ kept); [reflexivity | | exact Hc].
  split; [now apply (forallb_sub _ _ items)|]. exists ps'. auto.
Qed.

Lemma gui_remove_repository_ok (E : env) (selected_items : list nat) (g : Gui.gui) :
  gui_ok g -> gui_ok (snd (Gui.remove_repository E selected_items g)).
Proof.
  intros Hg. unfold Gui.remove_repository.
  destruct selected_items as [|item rest]; [now apply messagebox_keeps|].
  pose proof (remove_loop_keeps (item :: rest) g Hg) as H.
  unfold bind at 1.
  destruct (Gui.remove_loop (item :: rest) g) as [[[]|e] g1]; cbn [snd] in H.
  - now apply gui_save_then_update.
  - exact H.
Qed.

(** Setting a key of a dict *)

Lemma dict_lookup_setitem_other (key key' : pystr) (value : json) (d : list (pystr * json)) :
  key <> key' ->
  dict_lookup key (dict_setitem key' value d) = dict_lookup key d.
Proof.
  intros Hne. induction d as [|[k v] d IH].
  - cbn. now replace (str_eqb key' key) with false
      by (symmetry; apply str_eqb_neq; congruence).
  - cbn [dict_setitem]. destruct (str_eqb k key') eqn:E.
    + cbn [dict_lookup]. apply str_eqb_eq in E. subst k.
      now replace (str_eqb key' key) with false
        by (symmetry; apply str_eqb_neq; congruence).
    + cbn [dict_lookup]. now rewrite IH.
Qed.

Lemma dict_setitem_keys (key : pystr) (value : json) (d : list (pystr * json)) :
  map fst (dict_setitem key value d) = map fst d
  \/ (~ In key (map fst d) /\ map fst (dict_setitem key value d) = map fst d ++ [key]).
Proof.
  induction d as [|[k v] d IH].
  - right. split; [intros [] | reflexivity].
  - cbn [dict_setitem]. destruct (str_eqb k key) eqn:E.
    + left. reflexivity.
    + apply str_eqb_neq in E. cbn [map fst]. destruct IH as [->|[Hn ->]].
      * now left.
      * right. split; [|reflexivity]. intros [H|H]; [congruence | contradiction].
Qed.

Lemma json_ok_setitem (key : pystr) (value : json) (d : list (pystr * json)) :
  str_ok key = true -> json_ok value = true -> json_ok (JObj d) = true ->
  json_ok (JObj (dict_setitem key value d)) = true.
Proof.
  intros Hk Hv. cbn [json_ok]. intros H. apply andb_true_iff in H as [Hall Hkeys].
  apply andb_true_iff. split.
  - clear Hkeys. induction d as [|[k v] d IH].
    + cbn. now rewrite Hk, Hv.
    + cbn [forallb] in Hall. apply andb_true_iff in Hall as [Hkv Hd].
      cbn [dict_setitem]. destruct (str_eqb k key).
      * cbn [forallb]. apply andb_true_iff in Hkv as [Hk' _].
        now rewrite Hk', Hv, Hd.
      * cbn [forallb]. now rewrite Hkv, IH.
  - apply distinct_keys_NoDup. apply distinct_keys_NoDup in Hkeys.
    destruct (dict_setitem_keys key value d) as [->|[Hn ->]]; [exact Hkeys|].
    apply NoDup_app; [exact Hkeys | repeat constructor; intros [] |].
    intros x Hx [<-|[]]. contradiction.
Qed.

(** An entry with its mark set is the same entry of a repository list. *)
Lemma marked_entry (r : json) (value : bool) (p : pystr) :
  json_ok r = true -> entry_paths [r] = Some [p] ->
  exists r', py_setitem r "selected" (JBool value) = Ret r'
             /\ json_ok r' = true /\ entry_paths [r'] = Some [p].
Proof.
  intros Hok Hp. destruct r as [| | | | | |d]; try discriminate.
  eexists. split; [reflexivity|]. split.
  - now apply json_ok_setitem.
  - cbn [entry_paths] in *. rewrite dict_lookup_setitem_other by discriminate.
    exact Hp.
Qed.

Lemma entry_paths_cons (r : json) (items : list json) (ps : list pystr) :
  entry_paths (r :: items) = Some ps ->
  exists p ps', ps = p :: ps' /\ entry_paths [r] = Some [p] /\ entry_paths items = Some ps'.
Proof.
  cbn [entry_paths]. destruct r as [| | | | | |d]; try discriminate.
  destruct (dict_lookup (lit "path") d) as [[| | | |p| |]|]; try discriminate.
  destruct (entry_paths items) as [ps'|]; [|discriminate].
  intros H. injection H as <-. now exists p, ps'.
Qed.

Lemma entry_paths_cons_intro (r : json) (items : list json) (p : pystr) (ps : list pystr) :
  entry_paths [r] = Some [p] -> entry_paths items = Some ps ->
  entry_paths (r :: items) = Some (p :: ps).
Proof. intros H1 H2. apply (entry_paths_app [r] items [p] ps H1 H2). Qed.

Lemma mark_all_list (value : bool) (items : list json) (ps : list pystr) :
  forallb json_ok items = true -> entry_paths items = Some ps ->
  exists items', Gui.mark_all value items = (items', None)
                 /\ forallb json_ok items' = true /\ entry_paths items' = Some ps.
Proof.
  revert ps. induction items as [|r items IH]; intros ps Hok Hp.
  - exists []. now repeat split.
  - cbn [forallb] in Hok. apply andb_true_iff in Hok as [Hr Hitems].
    destruct (entry_paths_cons _ _ _ Hp) as (p & ps' & -> & Hp1 & Hp2).
    destruct (marked_entry r value p Hr Hp1) as (r' & Hs & Hr' & Hp').
    destruct (IH ps' Hitems Hp2) as (items' & Hm & Hok' & Hps').
    exists (r' :: items'). cbn [Gui.mark_all]. rewrite Hs, Hm. split; [reflexivity|].
    split; [cbn [forallb]; now rewrite Hr', Hok' | now apply entry_paths_cons_intro].
Qed.

Lemma gui_select_ok (E : env) (value : bool) (g : Gui.gui) :
  gui_ok g -> gui_ok (snd (Gui.select E value g)).
Proof.
  intros [(items & Hm & Hjson & ps & Hps & Hnd) Hc]. unfold Gui.select.
  rewrite bind_get, bind_lift, Hm. cbn [py_iter].
  destruct (mark_all_list value items ps Hjson Hps) as (items' & -> & Hok' & Hps').
  unfold Gui.store_items. rewrite bind_assoc, bind_get, Hm, bind_set_repositories.
  apply gui_save_then_update.
  apply (gui_ok_intro _ items'); [reflexivity | | exact Hc].
  split; [exact Hok' | now exists ps].
Qed.

Lemma set_selected_list (path : json) (value : bool) (items : list json) (ps : list pystr) :
  forallb json_ok items = true -> entry_paths items = Some ps ->
  exists items', Gui.set_selected path value items = (items', None)
                 /\ forallb json_ok items' = true /\ entry_paths items' = Some ps.
Proof.
  revert ps. induction items as [|r items IH]; intros ps Hok Hp.
  - exists []. now repeat split.
  - cbn [forallb] in Hok. apply andb_true_iff in Hok as [Hr Hitems].
    destruct (entry_paths_cons _ _ _ Hp) as (p & ps' & -> & Hp1 & Hp2).
    destruct (marked_entry r value p Hr Hp1) as (r' & Hs & Hr' & Hp').
    destruct (IH ps' Hitems Hp2) as (items' & Hm & Hok' & Hps').
    cbn [Gui.set_selected].
    assert (Hget : py_getitem r "path" = Ret (JStr p)).
    { destruct r as [| | | | | |d]; try discriminate. cbn [entry_paths] in Hp1.
      cbn [py_getitem].
      destruct (dict_lookup (lit "path") d) as [[| | | |q| |]|]; try discriminate.
      now injection Hp1 as ->. }
    rewrite Hget. destruct (py_eq (JStr p) path).
    + rewrite Hs. exists (r' :: items). split; [reflexivity|].
      split; [cbn [forallb]; now rewrite Hr', Hitems | now apply entry_paths_cons_intro].
    + rewrite Hm. exists (r :: items'). split; [reflexivity|].
      split; [cbn [forallb]; now rewrite Hr, Hok' | now apply entry_paths_cons_intro].
Qed.

Lemma gui_on_tree_click_ok (E : env) (region : pystr) (item : option nat) (column : pystr)
      (g : Gui.gui) :
  gui_ok g -> gui_ok (snd (Gui.on_tree_click E region item column g)).
Proof.
  intros Hg. unfold Gui.on_tree_click.
  destruct (str_eqb region (lit "cell")); [|exact Hg].
  destruct item as [i|]; [|exact Hg].
  destruct (str_eqb column (lit "#1")); [|exact Hg].
  rewrite bind_get.
  destruct (nth_error (Gui.repo_tree g) i) as [[current_state path]|]; [|exact Hg].
  destruct Hg as [(items & Hm & Hjson & ps & Hps & Hnd) Hc].
  unfold bind at 1. cbn [Gui.set_tree]. rewrite bind_lift. cbn [Gui.repositories].
  rewrite Hm. cbn [py_iter].
  destruct (set_selected_list path (negb current_state) items ps Hjson Hps)
    as (items' & -> & Hok' & Hps').
  unfold Gui.store_items. rewrite bind_assoc, bind_get. cbn [Gui.repositories].
  rewrite bind_set_repositories.
  apply gui_save_keeps.
  apply (gui_ok_intro _ items'); [reflexivity | | exact Hc].
  split; [exact Hok' | now exists ps].
Qed.

(** Starting the window on a file in order gives a window in order. *)
Lemma gui_init_ok (today : pystr) (w : world) :
  config_ok w -> gui_ok (snd (Gui.init today w)).
Proof.
  intros Hw. pose proof Hw as (items & Hst & Hl). unfold Gui.init.
  unfold bind at 1. unfold Gui.load_repositories at 1. rewrite bind_get.
  cbn [Gui.outside].
  unfold stored, Server.load_repositories in Hst. cbn [fst] in Hst.
  assert (Hgo : forall g0, Gui.outside g0 = w ->
                           gui_ok (snd (Gui.update_repo_list (with_repositories g0 (JArr items))))).
  { intros g0 H0. apply update_repo_list_keeps.
    apply (gui_ok_intro _ items); [reflexivity | exact Hl | cbn; now rewrite H0]. }
  destruct (config w) as [| |t|e].
  - injection Hst as <-. now apply Hgo.
  - injection Hst as <-. now apply Hgo.
  - destruct (Json.loads t) as [data|].
    + rewrite bind_lift, Hst. now apply Hgo.
    + injection Hst as <-. now apply Hgo.
  - discriminate.
Qed.

(** ** C1: the paths of the stored list *)

Lemma writes_keep_gui_ok (g g' : Gui.gui) : gui_ok g -> writes g g' -> gui_ok g'.
Proof.
  intros Hg Hstep. pose proof Hg as [Hm Hc].
  destruct Hstep.
  - split; [exact Hm | now apply add_repository_config_ok].
  - split; [exact Hm | now apply batch_add_repositories_config_ok].
  - split; [exact Hm | now apply remove_repository_config_ok].
  - split; [exact Hm | now apply clear_repositories_config_ok].
  - now apply gui_init_ok.
  - now apply gui_add_repository_ok.
  - now apply gui_remove_repository_ok.
  - now apply gui_select_ok.
  - now apply gui_select_ok.
  - now apply gui_on_tree_click_ok.
  - now apply gui_save_keeps.
Qed.

Lemma fresh_gui_ok (g : Gui.gui) :
  Gui.repositories g = JArr [] -> config (Gui.outside g) = Missing -> gui_ok g.
Proof.
  intros Hm Hc. apply (gui_ok_intro g []); [exact Hm | apply repository_list_nil |].
  exists []. split; [|apply repository_list_nil].
  unfold stored, Server.load_repositories. cbn. now rewrite Hc.
Qed.

(** C1, as amended: in every state reached through the writers other than
    the update endpoint (add, batch-add, remove and clear of the server;
    start, add, remove, select, deselect, click and close of the window)
    the configuration file holds a list in which no two entries share the
    same ['path'], and so does the window. *)
Theorem reachable_paths_distinct (g : Gui.gui) :
  reachable g ->
  (exists items, stored (Gui.outside g) items /\ distinct_paths items)
  /\ (exists items, Gui.repositories g = JArr items /\ distinct_paths items).
Proof.
  intros H.
  assert (Hok : gui_ok g).
  { induction H as [g Hm Hc | g g' _ IH Hstep].
    - now apply fresh_gui_ok.
    - now apply (writes_keep_gui_ok g g'). }
  destruct Hok as [(items & Hm & _ & Hd) (stored_items & Hs & _ & Hd')].
  split; [now exists stored_items | now exists items].
Qed.

Lemma pair_free_join (a : pystr) (c : Z) (b : pystr) :
  pair_free a = true -> pair_free (c :: b) = true -> Json.is_low c = false ->
  pair_free (a ++ c :: b) = true.
Proof.
  intros Ha Hb Hc. induction a as [|x a IH]; [exact Hb|].
  destruct a as [|y a].
  - cbn [app]. change (pair_free (x :: c :: b)) with
      (negb (Json.is_high x && Json.is_low c) && pair_free (c :: b)).
    now rewrite Hc, andb_false_r, Hb.
  - change (pair_free (x :: y :: a) = true) with
      (negb (Json.is_high x && Json.is_low y) && pair_free (y :: a) = true) in Ha.
    apply andb_true_iff in Ha as [Hxy Ha].
    change (pair_free ((x :: y :: a) ++ c :: b)) with
      (negb (Json.is_high x && Json.is_low y) && pair_free ((y :: a) ++ c :: b)).
    now rewrite Hxy, IH.
Qed.

Lemma str_ok_join (a : pystr) (c : Z) (b : pystr) :
  str_ok a = true -> str_ok (c :: b) = true -> Json.is_low c = false ->
  str_ok (a ++ c :: b) = true.
Proof.
  unfold str_ok. intros Ha Hb Hc.
  apply andb_true_iff in Ha as [Ha1 Ha2]. apply andb_true_iff in Hb as [Hb1 Hb2].
  rewrite forallb_app, Ha1, Hb1. now apply pair_free_join.
Qed.

Lemma str_ok_slash (p : pystr) : str_ok p = true -> str_ok (47 :: p) = true.
Proof.
  unfold str_ok. intros H. apply andb_true_iff in H as [H1 H2].
  cbn [forallb]. rewrite H1. destruct p; [reflexivity|].
  change (pair_free (47 :: z :: p)) with
    (negb (Json.is_high 47 && Json.is_low z) && pair_free (z :: p)).
  now rewrite H2.
Qed.

(** The example machines keep strings well formed. *)
Lemma machine_env_ok (cwd : pystr) (dirs : list pystr)
      (commands : list pystr -> proc_result) (write_error : option write_failure) :
  str_ok cwd = true -> env_ok (Example.machine cwd dirs commands write_error).
Proof.
  intros Hcwd. split; intros p Hp; cbn [abspath expanduser Example.machine].
  - destruct (startswith p [47]); [exact Hp|].
    destruct p as [|c p]; [exact Hcwd|].
    apply str_ok_join; [exact Hcwd | now apply str_ok_slash | reflexivity].
  - destruct p as [|c p]; [exact Hp|].
    destruct (c =? 126); [|exact Hp].
    destruct p as [|d p]; [reflexivity|].
    destruct (Z.eqb_spec d 47) as [->|Hd]; [|exact Hp].
    apply str_ok_join; [reflexivity | | reflexivity].
    now apply (str_ok_app [c]) in Hp as [_ Hp].
Qed.

Lemma laptop_env_ok : env_ok Example.laptop.
Proof. now apply machine_env_ok. Qed.

Lemma post_strings_ok (body : json) :
  strings_ok body = true -> request_ok (Example.post body).
Proof. intros H data E. cbn in E. now injection E as <-. Qed.

Lemma after_add_reachable : reachable Example.after_add.
Proof.
  apply (reach_step Example.fresh_gui).
  - now apply reach_fresh.
  - apply server_add; [apply laptop_env_ok | now apply post_strings_ok].
Qed.

Lemma reachable_paths_distinct_witness :
  reachable Example.after_add
  /\ ((exists items, stored (Gui.outside Example.after_add) items /\ distinct_paths items)
      /\ (exists items, Gui.repositories Example.after_add = JArr items
                        /\ distinct_paths items)).
Proof.
  split; [exact after_add_reachable|].
  exact (reachable_paths_distinct Example.after_add after_add_reachable).
Defined.

(** C1, as stated, fails for the update endpoint: asked to store a list
    that names [/home/u/proj] twice, it stores it. *)
Lemma update_stores_duplicates :
  config_ok Example.fresh_world
  /\ stored (snd (Server.update_repositories Example.laptop Example.update_twice
                                             Example.fresh_world))
            [new_entry Example.proj; new_entry Example.proj]
  /\ ~ distinct_paths [new_entry Example.proj; new_entry Example.proj].
Proof.
  split; [|split].
  - exists []. split; [reflexivity | apply repository_list_nil].
  - vm_compute. reflexivity.
  - intros (ps & Hps & Hnd). cbn in Hps. injection Hps as <-.
    inversion Hnd as [|? ? Hn _]. apply Hn. now left.
Qed.

(** ** C2: batches of commands *)

Lemma commands_run_app (a b : list event) :
  commands_run (a ++ b) = commands_run a ++ commands_run b.
Proof. unfold commands_run. apply flat_map_app. Qed.

Lemma commands_run_runs (command : string) (paths : list pystr) :
  commands_run (map (fun p => EvRun [lit command; p] 30) paths)
  = map (fun p => [lit command; p]) paths.
Proof. induction paths as [|p paths IH]; [reflexivity|]. cbn. now f_equal. Qed.

Lemma encode_error_none (p : pystr) :
  forallb (fun c => negb (is_surrogate c) || escapes_byte c) p = true ->
  forall pos, encode_error pos p = None.
Proof.
  induction p as [|c p IH]; intros H pos; [reflexivity|].
  cbn [forallb] in H. apply andb_true_iff in H as [Hc Hp].
  cbn [encode_error].
  replace (is_surrogate c && negb (escapes_byte c)) with false
    by (destruct (is_surrogate c), (escapes_byte c); try reflexivity; discriminate).
  now apply IH.
Qed.

Lemma encode_error_some (p : pystr) :
  forallb (fun c => negb (is_surrogate c) || escapes_byte c) p = false ->
  forall pos, exists e, encode_error pos p = Some e.
Proof.
  induction p as [|c p IH]; intros H pos; [discriminate|].
  cbn [forallb] in H. cbn [encode_error].
  destruct (is_surrogate c), (escapes_byte c); cbn [negb orb andb] in *;
    try (now apply IH); eexists; reflexivity.
Qed.

(** A string is passed to a command when it is [argument_ok], and makes
    [subprocess.run] raise when it is not. *)
Lemma fsencode_argument (p : pystr) :
  (argument_ok p = true -> fsencode (JStr p) = Ret p)
  /\ (argument_ok p = false -> exists e, fsencode (JStr p) = Raise e).
Proof.
  unfold argument_ok, no_null, fsencode. cbn [py_fspath and_then]. split; intros H.
  - apply andb_true_iff in H as [Hn Hs]. apply negb_true_iff in Hn.
    now rewrite (encode_error_none p Hs 0), Hn.
  - destruct (forallb (fun c => negb (is_surrogate c) || escapes_byte c) p) eqn:Hs.
    + rewrite andb_true_r in H. apply negb_false_iff in H.
      rewrite (encode_error_none p Hs 0), H. eexists. reflexivity.
    + destruct (encode_error_some p Hs 0) as [e ->]. eexists. reflexivity.
Qed.

Lemma fsencode_command (command : string) :
  (command = "startWork" \/ command = "stopWork")%string ->
  fsencode (JStr (lit command)) = Ret (lit command).
Proof. intros [-> | ->]; reflexivity. Qed.

(** One call of [subprocess.run] with arguments that can be passed. *)
Lemma run_command_args (E : env) (argv : list json) (args : list pystr) (timeout : Z)
      (w : world) :
  fsencode_all argv = Ret args ->
  run_command E argv timeout w = (Ret (run E args), after_run E args timeout w).
Proof.
  intros H. unfold run_command, after_run. rewrite bind_lift, H.
  unfold bind at 1. cbn [emit]. now destruct (run E args).
Qed.

Lemma run_command_pair (E : env) (command : string) (p : pystr) (w : world) :
  (command = "startWork" \/ command = "stopWork")%string -> argument_ok p = true ->
  run_command E [JStr (lit command); JStr p] 30 w
  = (Ret (run E [lit command; p]), after_run E [lit command; p] 30 w).
Proof.
  intros Hc Hp. apply run_command_args. cbn [fsencode_all].
  rewrite (fsencode_command command Hc), (proj1 (fsencode_argument p) Hp). reflexivity.
Qed.

(** A call of [subprocess.run] with an argument that cannot be passed
    raises before any command is started. *)
Lemma run_command_bad_argument (E : env) (command : string) (p : pystr) (w : world) :
  (command = "startWork" \/ command = "stopWork")%string -> argument_ok p = false ->
  exists e, run_command E [JStr (lit command); JStr p] 30 w = (Raise e, w).
Proof.
  intros Hc Hp. destruct (proj2 (fsencode_argument p) Hp) as [e He]. exists e.
  unfold run_command. rewrite bind_lift. cbn [fsencode_all].
  rewrite (fsencode_command command Hc), He. reflexivity.
Qed.

(** The loop of the server over repositories for which the command ends:
    it goes on with the repositories that follow. *)
Lemma server_work_loop_ends (E : env) (command : string) (before rest : list pystr) :
  (command = "startWork" \/ command = "stopWork")%string ->
  forallb argument_ok before = true -> forallb (ends E command) before = true ->
  forall results errors w,
  exists results' errors' w',
    Server.work_loop E command (map JStr (before ++ rest)) results errors w
    = Server.work_loop E command (map JStr rest) results' errors' w'
    /\ events w' = events w ++ map (fun p => EvRun [lit command; p] 30) before
    /\ (forall m, In m errors -> In m errors')
    /\ (forall p, In p before -> run E [lit command; p] = TimeoutExpired ->
                  In (p ++ lit ": Timeout") errors').
Proof.
  intros Hc. induction before as [|p before IH]; intros Ha He results errors w.
  - exists results, errors, w. cbn. rewrite app_nil_r. repeat split; auto. intros p [].
  - cbn [forallb] in Ha, He. apply andb_true_iff in Ha as [Hp Ha].
    apply andb_true_iff in He as [Hep He].
    cbn [app map Server.work_loop]. unfold bind at 1.
    rewrite (run_command_pair E command p w Hc Hp).
    set (w1 := after_run E [lit command; p] 30 w).
    assert (Hev : forall evs, events w1 ++ evs
                              = events w ++ EvRun [lit command; p] 30 :: evs)
      by (intros; cbn; now rewrite <- app_assoc).
    unfold ends in Hep.
    destruct (run E [lit command; p]) as [rc stderr| | |e] eqn:Er; try discriminate.
    + destruct (negb (rc =? 0)).
      * destruct (IH Ha He results (errors ++ [format (JStr p) ++ lit ": " ++ stderr]) w1)
          as (r' & e' & w' & -> & Hevs & Hkeep & Hto).
        exists r', e', w'. split; [reflexivity|]. split; [now rewrite Hevs, Hev|]. split.
        -- intros m Hm. apply Hkeep. apply in_or_app. now left.
        -- intros q [<-|Hq] Hq'; [congruence | now apply Hto].
      * destruct (IH Ha He (results ++ [JStr p]) errors w1)
          as (r' & e' & w' & -> & Hevs & Hkeep & Hto).
        exists r', e', w'. split; [reflexivity|]. split; [now rewrite Hevs, Hev|]. split.
        -- exact Hkeep.
        -- intros q [<-|Hq] Hq'; [congruence | now apply Hto].
    + destruct (IH Ha He results (errors ++ [format (JStr p) ++ lit ": Timeout"]) w1)
        as (r' & e' & w' & -> & Hevs & Hkeep & Hto).
      exists r', e', w'. split; [reflexivity|]. split; [now rewrite Hevs, Hev|]. split.
      * intros m Hm. apply Hkeep. apply in_or_app. now left.
      * intros q [<-|Hq] Hq'; [|now apply Hto].
        apply Hkeep. apply in_or_app. right. now left.
Qed.

Lemma gui_run_command_pair (E : env) (command : string) (p : pystr) (g : Gui.gui) :
  (command = "startWork" \/ command = "stopWork")%string -> argument_ok p = true ->
  Gui.on_world (run_command E [JStr (lit command); JStr p] 30) g
  = (Ret (run E [lit command; p]),
     with_outside g (after_run E [lit command; p] 30 (Gui.outside g))).
Proof.
  intros Hc Hp. unfold Gui.on_world.
  now rewrite (run_command_pair E command p (Gui.outside g) Hc Hp).
Qed.

(** The loop of the window over repositories for which the command
    ends. *)
Lemma gui_work_loop_ends (E : env) (command verb gerund : string) (before rest : list pystr) :
  (command = "startWork" \/ command = "stopWork")%string ->
  forallb argument_ok before = true -> forallb (ends E command) before = true ->
  forall g,
  exists g',
    Gui.work_loop E command verb gerund (map JStr (before ++ rest)) g
    = Gui.work_loop E command verb gerund (map JStr rest) g'
    /\ commands_run (events (Gui.outside g'))
       = commands_run (events (Gui.outside g)) ++ map (fun p => [lit command; p]) before
    /\ (forall e, In e (events (Gui.outside g)) -> In e (events (Gui.outside g')))
    /\ (forall p, In p before -> run E [lit command; p] = TimeoutExpired ->
                  In (EvDialog showerror (lit "Error")
                               (lit "Timeout " ++ lit gerund ++ lit " work on " ++ p))
                     (events (Gui.outside g'))).
Proof.
  intros Hc. induction before as [|p before IH]; intros Ha He g.
  - exists g. cbn. rewrite app_nil_r. repeat split; auto. intros p [].
  - cbn [forallb] in Ha, He. apply andb_true_iff in Ha as [Hp Ha].
    apply andb_true_iff in He as [Hep He].
    cbn [app map Gui.work_loop]. unfold bind at 1.
    rewrite (gui_run_command_pair E command p g Hc Hp).
    set (g1 := with_outside g _).
    assert (H1 : commands_run (events (Gui.outside g1))
                 = commands_run (events (Gui.outside g)) ++ [[lit command; p]])
      by (cbn; now rewrite commands_run_app).
    assert (K1 : forall e, In e (events (Gui.outside g)) -> In e (events (Gui.outside g1)))
      by (intros e Hin; cbn; apply in_or_app; now left).
    assert (Hdone : forall g2,
               commands_run (events (Gui.outside g2))
               = commands_run (events (Gui.outside g)) ++ [[lit command; p]] ->
               (forall e, In e (events (Gui.outside g1)) ->
                          In e (events (Gui.outside g2))) ->
               (run E [lit command; p] = TimeoutExpired ->
                In (EvDialog showerror (lit "Error")
                             (lit "Timeout " ++ lit gerund ++ lit " work on " ++ p))
                   (events (Gui.outside g2))) ->
               exists g',
                 Gui.work_loop E command verb gerund (map JStr (before ++ rest)) g2
                 = Gui.work_loop E command verb gerund (map JStr rest) g'
                 /\ commands_run (events (Gui.outside g'))
                    = commands_run (events (Gui.outside g))
                                   ++ map (fun p => [lit command; p]) (p :: before)
                 /\ (forall e, In e (events (Gui.outside g)) ->
                               In e (events (Gui.outside g')))
                 /\ (forall q, In q (p :: before) -> run E [lit command; q] = TimeoutExpired ->
                               In (EvDialog showerror (lit "Error")
                                            (lit "Timeout " ++ lit gerund ++ lit " work on " ++ q))
                                  (events (Gui.outside g')))).
    { intros g2 R2 K2 T2.
      destruct (IH Ha He g2) as (g' & Hl & Hr & Hk & Ht).
      exists g'. split; [exact Hl|]. split; [|split].
      - rewrite Hr, R2, <- app_assoc. reflexivity.
      - intros e Hin. now apply Hk, K2, K1.
      - intros q [<-|Hq] Hto; [|now apply Ht]. now apply Hk, T2. }
    assert (Hdialog : forall d,
               commands_run [d] = [] ->
               commands_run (events (Gui.outside g1) ++ [d])
               = commands_run (events (Gui.outside g)) ++ [[lit command; p]]).
    { intros d Hd. rewrite commands_run_app, Hd, app_nil_r. exact H1. }
    unfold ends in Hep.
    destruct (run E [lit command; p]) as [rc stderr| | |e] eqn:Er; try discriminate.
    + destruct (negb (rc =? 0)).
      * unfold bind at 1. cbn [Gui.messagebox Gui.on_world emit fst snd].
        apply Hdone; [now apply Hdialog | | discriminate].
        intros e Hin. cbn. apply in_or_app. now left.
      * unfold bind at 1. cbn [ret].
        apply Hdone; [exact H1 | auto | discriminate].
    + unfold bind at 1. cbn [Gui.messagebox Gui.on_world emit fst snd].
      apply Hdone; [now apply Hdialog | |].
      * intros e Hin. cbn. apply in_or_app. now left.
      * intros _. cbn. apply in_or_app. right. now left.
Qed.

Lemma server_work_request (E : env) (command : string) (req : Server.request)
      (paths : list pystr) (w : world) :
  Server.request_json req = Ret (JObj [(lit "repositories", JArr (map JStr paths))]) ->
  paths <> [] ->
  Server.work E command req w
  = (out <- Server.work_loop E command (map JStr paths) [] [] ;;
     match out with
     | inl resp => ret resp
     | inr (results, errors) =>
       ret (Server.jsonify
              (JObj [(lit "success", JInt (Z.of_nat (List.length results)));
                     (lit "errors", JArr (map JStr errors));
                     (lit "results", JArr results)]) 200)
     end) w.
Proof.
  intros Hreq Hne. unfold Server.work. rewrite bind_lift, Hreq.
  rewrite bind_lift. cbn [py_get]. unfold dict_get. cbn [dict_lookup].
  rewrite str_eqb_refl.
  destruct paths as [|p paths]; [contradiction|]. cbn [map truthy negb].
  rewrite bind_lift. reflexivity.
Qed.

Lemma gui_work_selected (E : env) (command verb gerund past : string) (g : Gui.gui)
      (paths : list pystr) :
  selected_are g paths -> paths <> [] ->
  Gui.work E command verb gerund past g
  = (finished <- Gui.work_loop E command verb gerund (map JStr paths) ;;
     if finished
     then Gui.messagebox showinfo "Success"
                         (lit past ++ lit " work on "
                              ++ Json.int_repr (Z.of_nat (List.length (map JStr paths)))
                              ++ lit " repository(ies).")
     else ret tt) g.
Proof.
  intros Hsel Hne. unfold Gui.work. unfold bind at 1. rewrite Hsel.
  destruct paths as [|p paths]; [contradiction|]. reflexivity.
Qed.

(** What the call for one repository makes of the batch when it does not
    end: [inl] the error reported when the command is not found, [inr]
    the exception that leaves the handler. *)
Lemma call_that_stops (E : env) (command : string) (p : pystr) :
  argument_ok p && ends E command p = false ->
  (argument_ok p = true /\ run E [lit command; p] = FileNotFound)
  \/ (argument_ok p = true /\ exists e, run E [lit command; p] = Failed e)
  \/ argument_ok p = false.
Proof.
  unfold ends. destruct (argument_ok p); [|auto]. cbn [andb].
  destruct (run E [lit command; p]) as [rc stderr| | |e]; try discriminate; eauto.
Qed.

(** The loop of the server at a repository for which the call does not
    end. *)
Lemma server_work_loop_stops (E : env) (command : string) (p : pystr) (after : list pystr) :
  (command = "startWork" \/ command = "stopWork")%string ->
  argument_ok p && ends E command p = false ->
  forall results errors w,
  exists out w',
    Server.work_loop E command (map JStr (p :: after)) results errors w = (out, w')
    /\ events w' = events w ++ (if argument_ok p then [EvRun [lit command; p] 30] else [])
    /\ (run E [lit command; p] = FileNotFound -> argument_ok p = true ->
        out = Ret (inl (Server.error (Server.not_found command) 500)))
    /\ (run E [lit command; p] <> FileNotFound \/ argument_ok p = false ->
        exists e, out = Raise e).
Proof.
  intros Hc Hstop results errors w. cbn [map Server.work_loop]. unfold bind at 1.
  destruct (call_that_stops E command p Hstop) as [[Hp Hr] | [[Hp [e Hr]] | Hp]].
  - rewrite (run_command_pair E command p w Hc Hp), Hr, Hp.
    do 2 eexists. split; [reflexivity|]. split; [reflexivity|]. split; [reflexivity|].
    intros [H|H]; congruence.
  - rewrite (run_command_pair E command p w Hc Hp), Hr, Hp.
    do 2 eexists. split; [reflexivity|]. split; [reflexivity|]. split.
    + intros H. congruence.
    + intros _. now exists e.
  - destruct (run_command_bad_argument E command p w Hc Hp) as [e ->]. rewrite Hp.
    do 2 eexists. split; [reflexivity|]. split; [now rewrite app_nil_r|]. split.
    + intros _ H. congruence.
    + intros _. now exists e.
Qed.

(** The loop of the window at a repository for which the call does not
    end. *)
Lemma gui_work_loop_stops (E : env) (command verb gerund : string) (p : pystr)
      (after : list pystr) :
  (command = "startWork" \/ command = "stopWork")%string ->
  argument_ok p && ends E command p = false ->
  forall g,
  exists out g',
    Gui.work_loop E command verb gerund (map JStr (p :: after)) g = (out, g')
    /\ commands_run (events (Gui.outside g'))
       = commands_run (events (Gui.outside g))
                      ++ (if argument_ok p then [[lit command; p]] else [])
    /\ (run E [lit command; p] = FileNotFound -> argument_ok p = true ->
        out = Ret false
        /\ In (EvDialog showerror (lit "Error") (Gui.not_found command))
              (events (Gui.outside g')))
    /\ (run E [lit command; p] <> FileNotFound \/ argument_ok p = false ->
        exists e, out = Raise e).
Proof.
  intros Hc Hstop g. cbn [map Gui.work_loop]. unfold bind at 1.
  destruct (call_that_stops E command p Hstop) as [[Hp Hr] | [[Hp [e Hr]] | Hp]].
  - rewrite (gui_run_command_pair E command p g Hc Hp), Hr, Hp.
    do 2 eexists. split; [reflexivity|]. split; [|split].
    + cbn. rewrite !commands_run_app. cbn. now rewrite app_nil_r.
    + intros _ _. split; [reflexivity|]. cbn. apply in_or_app. right. now left.
    + intros [H|H]; congruence.
  - rewrite (gui_run_command_pair E command p g Hc Hp), Hr, Hp.
    do 2 eexists. split; [reflexivity|]. split; [|split].
    + cbn. now rewrite commands_run_app.
    + intros H. congruence.
    + intros _. now exists e.
  - destruct (run_command_bad_argument E command p (Gui.outside g) Hc Hp) as [e He].
    unfold Gui.on_world. rewrite He, Hp.
    do 2 eexists. split; [reflexivity|]. split; [|split].
    + cbn. now rewrite app_nil_r.
    + intros _ H. congruence.
    + intros _. now exists e.
Qed.

(** C2, as amended: in a batch of [startWork] or [stopWork] over a
    non-empty list of paths, as long as the call for a repository ends
    with an exit code or a time-out, the batch goes on with the next
    repository: when every call ends so, the command is attempted for
    every repository, in order, and each time-out is reported (in the
    [errors] of the server's response, in a dialog of the window).  The
    first call that does not end so stops the batch: when the command is
    not found, that one error is reported (a 500 response, one dialog) and
    the repositories that follow are never attempted; when
    [subprocess.run] raises anything else (the path cannot be passed as
    an argument, the command may not be executed, its output is not
    text), the exception leaves the handler and nothing is reported. *)
Theorem batch_continues_unless_missing (E : env) (command : string) (paths : list pystr) :
  (command = "startWork" \/ command = "stopWork")%string ->
  paths <> [] ->
  (forallb argument_ok paths = true -> forallb (ends E command) paths = true ->
   (forall req w,
       Server.request_json req = Ret (JObj [(lit "repositories", JArr (map JStr paths))]) ->
       commands_run (events (snd (Server.work E command req w)))
       = commands_run (events w) ++ map (fun p => [lit command; p]) paths
       /\ exists n errors results,
           fst (Server.work E command req w)
           = Ret (Server.jsonify (JObj [(lit "success", JInt n);
                                        (lit "errors", JArr (map JStr errors));
                                        (lit "results", JArr results)]) 200)
           /\ forall p, In p paths -> run E [lit command; p] = TimeoutExpired ->
                        In (p ++ lit ": Timeout") errors)
   /\ (forall verb gerund past g,
          selected_are g paths ->
          commands_run (events (Gui.outside (snd (Gui.work E command verb gerund past g))))
          = commands_run (events (Gui.outside g)) ++ map (fun p => [lit command; p]) paths
          /\ forall p, In p paths -> run E [lit command; p] = TimeoutExpired ->
                       In (EvDialog showerror (lit "Error")
                                    (lit "Timeout " ++ lit gerund ++ lit " work on " ++ p))
                          (events (Gui.outside (snd (Gui.work E command verb gerund past g))))))
  /\ (forall before p after,
         paths = before ++ p :: after ->
         forallb argument_ok before = true -> forallb (ends E command) before = true ->
         argument_ok p && ends E command p = false ->
         let attempted := before ++ (if argument_ok p then [p] else []) in
         (forall req w,
             Server.request_json req
             = Ret (JObj [(lit "repositories", JArr (map JStr paths))]) ->
             commands_run (events (snd (Server.work E command req w)))
             = commands_run (events w) ++ map (fun q => [lit command; q]) attempted
             /\ (run E [lit command; p] = FileNotFound -> argument_ok p = true ->
                 fst (Server.work E command req w)
                 = Ret (Server.error (Server.not_found command) 500))
             /\ (run E [lit command; p] <> FileNotFound \/ argument_ok p = false ->
                 exists e, fst (Server.work E command req w) = Raise e))
         /\ (forall verb gerund past g,
                selected_are g paths ->
                commands_run (events (Gui.outside (snd (Gui.work E command verb gerund past g))))
                = commands_run (events (Gui.outside g))
                               ++ map (fun q => [lit command; q]) attempted
                /\ (run E [lit command; p] = FileNotFound -> argument_ok p = true ->
                    fst (Gui.work E command verb gerund past g) = Ret tt
                    /\ In (EvDialog showerror (lit "Error") (Gui.not_found command))
                          (events (Gui.outside (snd (Gui.work E command verb gerund past g)))))
                /\ (run E [lit command; p] <> FileNotFound \/ argument_ok p = false ->
                    exists e, fst (Gui.work E command verb gerund past g) = Raise e))).
Proof.
  intros Hc Hne. split.
  - intros Ha He. split.
    + intros req w Hreq. rewrite (server_work_request E command req paths w Hreq Hne).
      destruct (server_work_loop_ends E command paths [] Hc Ha He [] [] w)
        as (results & errors & w' & Hl & Hev & _ & Hto).
      rewrite app_nil_r in Hl. unfold bind. rewrite Hl. cbn [map Server.work_loop ret fst snd].
      split.
      * now rewrite Hev, commands_run_app, commands_run_runs.
      * now exists (Z.of_nat (List.length results)), errors, results.
    + intros verb gerund past g Hsel.
      rewrite (gui_work_selected E command verb gerund past g paths Hsel Hne).
      destruct (gui_work_loop_ends E command verb gerund paths [] Hc Ha He g)
        as (g' & Hl & Hr & _ & Hto).
      rewrite app_nil_r in Hl. unfold bind. rewrite Hl.
      cbn [map Gui.work_loop ret Gui.messagebox Gui.on_world emit fst snd Gui.outside events].
      split.
      * rewrite commands_run_app, Hr. cbn. now rewrite app_nil_r.
      * intros p Hp Ht. apply in_or_app. left. now apply Hto.
  - intros before p after Hpaths Ha He Hstop attempted. split.
    + intros req w Hreq. rewrite (server_work_request E command req paths w Hreq Hne).
      destruct (server_work_loop_ends E command before (p :: after) Hc Ha He [] [] w)
        as (results & errors & w' & Hl & Hev & _ & _).
      destruct (server_work_loop_stops E command p after Hc Hstop results errors w')
        as (out & w'' & Hs & Hev' & Hmissing & Hraise).
      unfold bind. rewrite Hpaths, Hl, Hs. subst attempted. split; [|split].
      * assert (Hw : forall k : Server.response + list json * list pystr
                               -> M world Server.response,
                   (forall a x, snd (k a x) = x) ->
                   snd (match out with
                        | Ret a => k a w''
                        | Raise e => (Raise e, w'')
                        end) = w'').
        { intros k Hk. destruct out; [apply Hk | reflexivity]. }
        rewrite Hw by (intros [resp|[r e]] x; reflexivity).
        rewrite Hev', Hev, map_app, !commands_run_app, commands_run_runs.
        rewrite <- app_assoc. do 2 f_equal. now destruct (argument_ok p).
      * intros Hr Hp. now rewrite (Hmissing Hr Hp).
      * intros H. destruct (Hraise H) as [e ->]. now exists e.
    + intros verb gerund past g Hsel.
      rewrite (gui_work_selected E command verb gerund past g paths Hsel Hne).
      destruct (gui_work_loop_ends E command verb gerund before (p :: after) Hc Ha He g)
        as (g' & Hl & Hr & _ & _).
      destruct (gui_work_loop_stops E command verb gerund p after Hc Hstop g')
        as (out & g'' & Hs & Hr' & Hmissing & Hraise).
      unfold bind. rewrite Hpaths, Hl, Hs. subst attempted. split; [|split].
      * assert (Hw : commands_run
                       (events
                          (Gui.outside
                             (snd (match out with
                                   | Ret finished =>
                                     (if finished
                                      then Gui.messagebox
                                             showinfo "Success"
                                             (lit past ++ lit " work on "
                                                  ++ Json.int_repr
                                                       (Z.of_nat
                                                          (List.length
                                                             (map JStr (before ++ p :: after))))
                                                  ++ lit " repository(ies).")
                                      else ret tt) g''
                                   | Raise e => (Raise e, g'')
                                   end))))
                     = commands_run (events (Gui.outside g''))).
        { destruct out as [[|]|e]; try reflexivity.
          cbn [Gui.messagebox Gui.on_world emit snd Gui.outside events].
          rewrite commands_run_app. cbn. now rewrite app_nil_r. }
        rewrite Hw, Hr', Hr, map_app, <- app_assoc. do 2 f_equal.
        now destruct (argument_ok p).
      * intros Hrun Hp. destruct (Hmissing Hrun Hp) as [-> Hd]. split; [reflexivity|].
        exact Hd.
      * intros H. destruct (Hraise H) as [e ->]. now exists e.
Qed.

Lemma batch_continues_unless_missing_witness :
  (("startWork" = "startWork" \/ "startWork" = "stopWork")%string
   /\ [Example.proj; Example.other] <> []
   /\ forallb argument_ok [Example.proj; Example.other] = true
   /\ forallb (ends Example.laptop "startWork") [Example.proj; Example.other] = true
   /\ argument_ok Example.proj && ends Example.bare "startWork" Example.proj = false)
  /\ commands_run
       (events (snd (Server.work Example.laptop "startWork" Example.work_on_two
                                 Example.fresh_world)))
     = [[lit "startWork"; Example.proj]; [lit "startWork"; Example.other]]
  /\ fst (Server.work Example.bare "startWork" Example.work_on_two Example.fresh_world)
     = Ret (Server.error (Server.not_found "startWork") 500).
Proof.
  assert (H1 : ("startWork" = "startWork" \/ "startWork" = "stopWork")%string)
    by (left; reflexivity).
  assert (H2 : [Example.proj; Example.other] <> []) by discriminate.
  split; [split; [exact H1 | split; [exact H2 | repeat split]]|]. split.
  - destruct (batch_continues_unless_missing Example.laptop "startWork"
                [Example.proj; Example.other] H1 H2) as [Hends _].
    destruct (Hends eq_refl eq_refl) as [Hserver _].
    destruct (Hserver Example.work_on_two Example.fresh_world eq_refl) as [Hruns _].
    exact Hruns.
  - destruct (batch_continues_unless_missing Example.bare "startWork"
                [Example.proj; Example.other] H1 H2) as [_ Hstops].
    destruct (Hstops [] Example.proj [Example.other] eq_refl eq_refl eq_refl eq_refl)
      as [Hserver _].
    destruct (Hserver Example.work_on_two Example.fresh_world eq_refl) as (_ & Hmissing & _).
    exact (Hmissing eq_refl eq_refl).
Defined.

(** C2, as stated, fails when the command is missing: the batch stops at
    the first repository and the second is never attempted, in the server
    and in the window. *)
Lemma missing_command_stops_batch :
  run Example.bare [lit "startWork"; Example.proj] = FileNotFound
  /\ commands_run
       (events (snd (Server.start_work Example.bare Example.work_on_two
                                       Example.fresh_world)))
     = [[lit "startWork"; Example.proj]]
  /\ selected_are Example.two_selected [Example.proj; Example.other]
  /\ commands_run
       (events (Gui.outside (snd (Gui.start_work Example.bare Example.two_selected))))
     = [[lit "startWork"; Example.proj]].
Proof. repeat split. Qed.

(** ** C3: a configuration file that gives no list *)




(** ** C6: save, then load *)

Lemma json_ok_schema (l : list entry) :
  forallb (fun e => str_ok (entry_path e)) l = true ->
  forallb json_ok (map entry_json l) = true.
Proof.
  induction l as [|e l IH]; [reflexivity|]. cbn [forallb map].
  intros H. apply andb_true_iff in H as [He Hl]. rewrite (IH Hl).
  cbn. now rewrite He.
Qed.

(** C6, as amended: a list that conforms to the schema and whose paths
    hold no high surrogate directly followed by a low surrogate is read
    back from the configuration file as it was saved, in the server and in
    the window (the file being writable). *)
Theorem save_then_load (E : env) (l : list entry) :
  forallb (fun e => str_ok (entry_path e)) l = true ->
  write_error E = None ->
  (forall w,
      fst (Server.save_repositories E (schema_list l) w) = Ret true
      /\ fst (Server.load_repositories (snd (Server.save_repositories E (schema_list l) w)))
         = Ret (schema_list l))
  /\ (forall g,
         Gui.repositories g = schema_list l ->
         Gui.repositories
           (snd ((Gui.save_repositories E ;;; Gui.load_repositories) g))
         = schema_list l).
Proof.
  intros Hl Hw. pose proof (json_ok_schema l Hl) as Hok. split.
  - intros w. unfold schema_list, Server.save_repositories. rewrite Hw.
    split; [reflexivity|]. cbn [bind write_config ret snd]. now apply stored_written.
  - intros g Hg. unfold bind at 1. unfold Gui.save_repositories. rewrite bind_get, Hw.
    cbn [Gui.on_world write_config]. unfold Gui.load_repositories. rewrite bind_get.
    cbn [Gui.outside config]. rewrite Hg. unfold schema_list.
    rewrite loads_dumps by now apply json_ok_document.
    reflexivity.
Qed.

Lemma save_then_load_witness :
  (forallb (fun e => str_ok (entry_path e)) [Example.joined_entry] = true
   /\ write_error Example.laptop = None)
  /\ fst (Server.load_repositories
            (snd (Server.save_repositories Example.laptop
                                           (schema_list [Example.joined_entry])
                                           Example.fresh_world)))
     = Ret (schema_list [Example.joined_entry]).
Proof.
  split; [split; reflexivity|].
  destruct (save_then_load Example.laptop [Example.joined_entry] eq_refl eq_refl)
    as [Hserver _].
  exact (proj2 (Hserver Example.fresh_world)).
Defined.

(** C6, as stated, fails for a path that holds a high surrogate directly
    followed by a low surrogate: the file writes them as two escapes, and
    the decoder reads two such escapes as one character. *)
Lemma surrogate_pair_not_read_back :
  fst (Server.save_repositories Example.laptop (schema_list [Example.pair_entry])
                                Example.fresh_world) = Ret true
  /\ fst (Server.load_repositories
            (snd (Server.save_repositories Example.laptop
                                           (schema_list [Example.pair_entry])
                                           Example.fresh_world)))
     = Ret (schema_list [Example.joined_entry])
  /\ schema_list [Example.joined_entry] <> schema_list [Example.pair_entry].
Proof.
  split; [reflexivity|]. split; [vm_compute; reflexivity | discriminate].
Qed.

(** ** C5: adding a path that is in the list *)





(** What the file holds after a save of the list it held. *)
Lemma saved_same_list (E : env) (items : list json) (w w' : world) :
  stored w items -> config w' = saved E (JArr items) (config w) ->
  (write_error E = None -> forallb json_ok items = true -> stored w' items)
  /\ (forall msg, write_error E = Some (CannotOpen msg) -> config w' = config w).
Proof.
  intros Hst Hc. unfold saved in Hc. split.
  - intros Hw Hok. rewrite Hw in Hc. unfold stored.
    rewrite (load_config
               {| config := Text (Json.dumps (JObj [(lit "repositories", JArr items)]));
                  events := [] |} w' Hc).
    now apply stored_written.
  - intros msg Hw. now rewrite Hw in Hc.
Qed.



Lemma proj_list : repository_list [new_entry Example.proj].
Proof.
  split; [reflexivity|]. exists [Example.proj]. split; [reflexivity|].
  repeat constructor. intros [].
Qed.

(** ** C8: removing a path that is not in the list *)

Lemma without_path_absent (path : json) (items : list json) (ps : list pystr) :
  entry_paths items = Some ps ->
  (forall q, In q ps -> py_eq (JStr q) path = false) ->
  without_path path items = Ret items.
Proof.
  revert ps. induction items as [|r items IH]; intros ps Hps Hno; [reflexivity|].
  destruct (entry_paths_cons _ _ _ Hps) as (p & ps' & -> & Hp1 & Hp2).
  cbn [without_path].
  assert (Hget : py_getitem r "path" = Ret (JStr p)).
  { destruct r as [| | | | | |d]; try discriminate. cbn [entry_paths] in Hp1.
    cbn [py_getitem].
    destruct (dict_lookup (lit "path") d) as [[| | | |q| |]|]; try discriminate.
    now injection Hp1 as ->. }
  rewrite Hget. cbn [and_then].
  rewrite (IH ps' Hp2) by (intros q Hq; apply Hno; now right).
  cbn [and_then]. now rewrite (Hno p (or_introl eq_refl)).
Qed.

Lemma server_remove_absent (E : env) (items : list json) (ps : list pystr)
      (req : Server.request) (d : list (pystr * json)) (p : pystr) (w : world) :
  entry_paths items = Some ps -> stored w items ->
  Server.request_json req = Ret (JObj d) ->
  dict_lookup (lit "path") d = Some (JStr p) -> p <> [] -> ~ In p ps ->
  exists w',
    Server.remove_repository E req w
    = (Ret (Server.jsonify (JObj [(lit "repositories", JArr items)]) 200), w')
    /\ config w' = saved E (JArr items) (config w).
Proof.
  intros Hps Hst Hreq Hd Hne Hnot.
  unfold Server.remove_repository. rewrite bind_lift, Hreq.
  rewrite bind_lift. cbn [py_get]. unfold dict_get. rewrite Hd.
  destruct p as [|c p]; [contradiction|]. cbn [truthy negb].
  unfold bind at 1. rewrite (load_stored w items Hst).
  rewrite bind_lift. cbn [py_iter]. rewrite bind_lift.
  rewrite (without_path_absent (JStr (c :: p)) items ps Hps).
  - unfold bind at 1.
    destruct (save_result E (JArr items) w) as (ok & evs & ->).
    eexists. split; reflexivity.
  - intros q Hq. cbn [py_eq]. apply str_eqb_neq. intros ->. contradiction.
Qed.

Lemma remove_loop_absent (items : list json) (ps : list pystr) (selected_items : list nat) :
  entry_paths items = Some ps ->
  forall g,
    Gui.repositories g = JArr items ->
    (forall i mark path, In i selected_items ->
                         nth_error (Gui.repo_tree g) i = Some (mark, path) ->
                         forall q, In q ps -> py_eq (JStr q) path = false) ->
    Gui.remove_loop selected_items g = (Ret tt, g).
Proof.
  intros Hps. induction selected_items as [|i rest IH]; intros g Hm Hno; [reflexivity|].
  cbn [Gui.remove_loop]. rewrite bind_get.
  destruct (nth_error (Gui.repo_tree g) i) as [[mark path]|] eqn:En.
  - rewrite bind_lift, Hm. cbn [py_iter]. rewrite bind_lift.
    rewrite (without_path_absent path items ps Hps)
      by (apply (Hno i mark path); [now left | exact En]).
    rewrite bind_set_repositories.
    assert (Hg : with_repositories g (JArr items) = g)
      by (destruct g; cbn in *; now subst).
    rewrite Hg. apply IH; [exact Hm|].
    intros j m p Hj. apply Hno. now right.
  - apply IH; [exact Hm|]. intros j m p Hj. apply Hno. now right.
Qed.

Lemma update_repo_list_result (g : Gui.gui) :
  exists res rows,
    Gui.update_repo_list g
    = (res, {| Gui.repositories := Gui.repositories g; Gui.repo_tree := rows;
               Gui.start_date_var := Gui.start_date_var g;
               Gui.end_date_var := Gui.end_date_var g;
               Gui.outside := Gui.outside g |}).
Proof.
  unfold Gui.update_repo_list. unfold bind at 1. cbn [Gui.set_tree].
  rewrite bind_get, bind_lift. cbn [Gui.repositories].
  destruct (py_iter (Gui.repositories g)) as [items|e]; [|do 2 eexists; reflexivity].
  destruct (Gui.tree_rows items) as [rows [e|]]; do 2 eexists; reflexivity.
Qed.

Lemma gui_save_update_list (E : env) (items : list json) (g : Gui.gui) :
  Gui.repositories g = JArr items ->
  Gui.repositories (snd ((Gui.save_repositories E ;;; Gui.update_repo_list) g)) = JArr items
  /\ config (Gui.outside (snd ((Gui.save_repositories E ;;; Gui.update_repo_list) g)))
     = saved E (JArr items) (config (Gui.outside g)).
Proof.
  intros Hm. destruct (gui_save_result E g) as (evs & Hs).
  unfold bind. rewrite Hs.
  destruct (update_repo_list_result
              (with_outside g {| config := saved E (Gui.repositories g)
                                                 (config (Gui.outside g));
                                 events := events (Gui.outside g) ++ evs |}))
    as (res & rows & ->).
  cbn [snd Gui.repositories Gui.outside with_outside config]. rewrite Hm. now split.
Qed.

(** C8, as amended: removing a non-empty path that matches the ['path']
    of no entry leaves the list as it is and succeeds, for every list
    whose entries have a string as ['path']: the DELETE endpoint answers
    200 with the unchanged list, and the window keeps its list.  Both
    write the unchanged list to the file again: the file holds the same
    list when the write succeeds, and is left as it was when it cannot be
    opened.  A DELETE request whose path is empty, or that has no path, is
    answered 400 ['Path is required'] and changes nothing. *)
Theorem remove_of_absent_path (E : env) (items : list json) (ps : list pystr) :
  entry_paths items = Some ps ->
  (forall req d p w,
      stored w items -> Server.request_json req = Ret (JObj d) ->
      dict_lookup (lit "path") d = Some (JStr p) -> p <> [] -> ~ In p ps ->
      fst (Server.remove_repository E req w)
      = Ret (Server.jsonify (JObj [(lit "repositories", JArr items)]) 200)
      /\ (write_error E = None -> forallb json_ok items = true ->
          stored (snd (Server.remove_repository E req w)) items)
      /\ (forall msg, write_error E = Some (CannotOpen msg) ->
                      config (snd (Server.remove_repository E req w)) = config w))
  /\ (forall g selected_items,
         Gui.repositories g = JArr items -> stored (Gui.outside g) items ->
         (forall i mark path, In i selected_items ->
                              nth_error (Gui.repo_tree g) i = Some (mark, path) ->
                              forall q, In q ps -> py_eq (JStr q) path = false) ->
         Gui.repositories (snd (Gui.remove_repository E selected_items g)) = JArr items
         /\ (write_error E = None -> forallb json_ok items = true ->
             stored (Gui.outside (snd (Gui.remove_repository E selected_items g))) items)
         /\ (forall msg, write_error E = Some (CannotOpen msg) ->
                         config (Gui.outside (snd (Gui.remove_repository E selected_items g)))
                         = config (Gui.outside g)))
  /\ (forall req d w,
         Server.request_json req = Ret (JObj d) ->
         dict_get (lit "path") (JStr []) d = JStr [] ->
         Server.remove_repository E req w
         = (Ret (Server.error (lit "Path is required") 400), w)).
Proof.
  intros Hps. split; [|split].
  - intros req d p w Hst Hreq Hd Hne Hnot.
    destruct (server_remove_absent E items ps req d p w Hps Hst Hreq Hd Hne Hnot)
      as (w' & -> & Hc).
    split; [reflexivity|]. cbn [snd]. now apply (saved_same_list E items w w').
  - intros g selected_items Hm Hst Hno.
    destruct selected_items as [|i rest].
    + cbn. split; [exact Hm|]. split; [intros _ _; exact Hst | reflexivity].
    + assert (Heq : Gui.remove_repository E (i :: rest) g
                    = (Gui.save_repositories E ;;; Gui.update_repo_list) g).
      { unfold Gui.remove_repository. unfold bind at 1.
        now rewrite (remove_loop_absent items ps (i :: rest) Hps g Hm Hno). }
      rewrite Heq. destruct (gui_save_update_list E items g Hm) as [H1 H2].
      split; [exact H1|]. now apply (saved_same_list E items (Gui.outside g)).
  - intros req d w Hreq Hd. unfold Server.remove_repository.
    rewrite bind_lift, Hreq, bind_lift. cbn [py_get]. now rewrite Hd.
Qed.

Lemma remove_of_absent_path_witness :
  (entry_paths [new_entry Example.proj] = Some [Example.proj]
   /\ stored (Gui.outside Example.after_add) [new_entry Example.proj]
   /\ ~ In Example.other [Example.proj])
  /\ fst (Server.remove_repository Example.laptop Example.remove_other
                                   (Gui.outside Example.after_add))
     = Ret (Server.jsonify (JObj [(lit "repositories", JArr [new_entry Example.proj])]) 200)
  /\ stored (snd (Server.remove_repository Example.laptop Example.remove_other
                                           (Gui.outside Example.after_add)))
            [new_entry Example.proj]
  /\ Server.remove_repository Example.laptop Example.remove_nothing
                              (Gui.outside Example.after_add)
     = (Ret (Server.error (lit "Path is required") 400), Gui.outside Example.after_add).
Proof.
  assert (H1 : stored (Gui.outside Example.after_add) [new_entry Example.proj])
    by (vm_compute; reflexivity).
  assert (H2 : ~ In Example.other [Example.proj])
    by (intros [H|[]]; discriminate H).
  split; [split; [reflexivity | split; [exact H1 | exact H2]]|].
  destruct (remove_of_absent_path Example.laptop [new_entry Example.proj] [Example.proj]
                                  eq_refl) as (Hserver & _ & Hempty).
  destruct (Hserver Example.remove_other [(lit "path", JStr Example.other)] Example.other
                    (Gui.outside Example.after_add) H1 eq_refl eq_refl
                    ltac:(discriminate) H2) as (Hanswer & Hfile & _).
  split; [exact Hanswer|]. split; [exact (Hfile eq_refl eq_refl)|].
  exact (Hempty Example.remove_nothing [(lit "path", JStr [])]
                (Gui.outside Example.after_add) eq_refl eq_refl).
Defined.

(** C8, as stated, fails for the empty path: it matches no entry, and the
    DELETE endpoint answers with an error. *)
Lemma remove_of_empty_path_is_an_error :
  stored (Gui.outside Example.after_add) [new_entry Example.proj]
  /\ ~ In [] [Example.proj]
  /\ Server.remove_repository Example.laptop Example.remove_nothing
                              (Gui.outside Example.after_add)
     = (Ret (Server.error (lit "Path is required") 400), Gui.outside Example.after_add).
Proof.
  split; [vm_compute; reflexivity|]. split; [|reflexivity].
  intros [H|[]]. discriminate H.
Qed.

(** ** C9: a batch, and the same batch again *)





(** ** C7: the lock is held *)

(** C7: when another process holds the lock, [__enter__] shows the
    notification of its front end (a dialog of the window, two printed
    lines of the server) and calls [sys.exit(1)]; the lock is asked for
    at most once and stays with its holder, and the program guarded by
    the lock ends with status 1 without running. *)
Theorem held_lock_is_fatal (app : Lock.front_end) (lock_file : pystr) (pid q : Z)
        (o : Lock.os) :
  Lock.holder o = Some q ->
  exists attempt o',
    Lock.enter app lock_file pid o = (Lock.SystemExit 1, o')
    /\ Lock.shown o'
       = Lock.shown o ++ attempt ++ already_running_notice app lock_file ++ [EvExit 1]
    /\ (flock_calls attempt <= 1)%nat
    /\ Lock.holder o' = Some q
    /\ forall body, Lock.main app lock_file pid body o = (1, o').
Proof.
  intros Hq.
  exists (if Lock.can_open o then [EvFlock lock_file] else []).
  unfold Lock.main, Lock.enter.
  destruct (Lock.can_open o) eqn:Hopen; cbn [negb].
  - cbn [Lock.log Lock.holder]. rewrite Hq.
    eexists. split; [reflexivity|].
    destruct app; cbn; rewrite <- ?app_assoc; repeat split; auto.
  - eexists. split; [reflexivity|].
    destruct app; cbn; rewrite <- ?app_assoc; repeat split; auto.
Qed.

Lemma held_lock_is_fatal_witness :
  Lock.holder Example.held = Some 4242
  /\ Lock.enter Lock.TkGui Example.lock_file 4243 Example.held
     = (Lock.SystemExit 1,
        {| Lock.holder := Some 4242; Lock.lock_text := Some [];
           Lock.can_open := true;
           Lock.shown := [EvFlock Example.lock_file;
                          EvDialog showerror (lit "Already Running")
                                   (lit "monitorWork.py is already running." ++ [10]
                                        ++ lit "Only one instance can run at a time.");
                          EvExit 1] |}).
Proof.
  split; [reflexivity|].
  destruct (held_lock_is_fatal Lock.TkGui Example.lock_file 4243 4242 Example.held eq_refl)
    as (attempt & o' & Henter & _).
  rewrite Henter. vm_compute in Henter. injection Henter as <-. reflexivity.
Defined.

(** ** C4: dates that do not parse *)

Lemma dates_valid_strings (s e : pystr) :
  Server.dates_valid (JStr s) (JStr e)
  = Ret (match Datetime.strptime s, Datetime.strptime e with
         | Some _, Some _ => true
         | _, _ => false
         end).
Proof.
  unfold Server.dates_valid. cbn [Server.py_strptime and_then].
  destruct (Datetime.strptime s); reflexivity.
Qed.

(** C4, as amended: when the start date or the end date does not parse,
    neither front end runs a command.  The server answers 400 and leaves
    the world as it was; its message is the invalid-date one as soon as
    repositories are named and both dates are non-empty strings.  The
    window, which parses what is left of its two fields once stripped,
    shows one dialog and does nothing else; the dialog is the
    invalid-date error as soon as a repository is selected. *)
Theorem bad_date_runs_no_command (E : env) (s e : pystr) :
  Datetime.strptime s = None \/ Datetime.strptime e = None ->
  (forall req d w,
      Server.request_json req = Ret (JObj d) ->
      dict_get (lit "startDate") (JStr []) d = JStr s ->
      dict_get (lit "endDate") (JStr []) d = JStr e ->
      exists msg,
        Server.tabulate_work E req w = (Ret (Server.error msg 400), w)
        /\ (truthy (dict_get (lit "repositories") (JArr []) d) = true ->
            s <> [] -> e <> [] -> msg = invalid_date))
  /\ (forall asksaveasfilename g paths,
         selected_are g paths ->
         strip (Gui.start_date_var g) = s -> strip (Gui.end_date_var g) = e ->
         exists kind title msg,
           Gui.tabulate_work E asksaveasfilename g = Gui.messagebox kind title msg g
           /\ commands_run (events (Gui.outside
                                      (snd (Gui.tabulate_work E asksaveasfilename g))))
              = commands_run (events (Gui.outside g))
           /\ (paths <> [] ->
               kind = showerror /\ title = "Error"%string /\ msg = invalid_date)).
Proof.
  intros Hbad. split.
  - intros req d w Hreq Hs He. unfold Server.tabulate_work.
    rewrite bind_lift, Hreq. cbn [py_get]. rewrite !bind_lift, Hs, He.
    destruct (truthy (dict_get (lit "repositories") (JArr []) d)); cbn [negb].
    + destruct s as [|c s].
      { eexists. split; [reflexivity|]. intros _ H. now contradiction H. }
      destruct e as [|c' e].
      { eexists. split; [reflexivity|]. intros _ _ H. now contradiction H. }
      cbn [truthy negb orb]. rewrite bind_lift, dates_valid_strings.
      exists invalid_date. split; [|reflexivity].
      destruct Hbad as [-> | H]; [reflexivity|].
      rewrite H. now destruct (Datetime.strptime (c :: s)).
    + eexists. split; [reflexivity|]. discriminate.
  - intros ask g paths Hsel Hs He.
    assert (Hbox : exists kind title msg,
               Gui.tabulate_work E ask g = Gui.messagebox kind title msg g
               /\ (paths <> [] ->
                   kind = showerror /\ title = "Error"%string /\ msg = invalid_date)).
    { unfold Gui.tabulate_work. unfold bind at 1. rewrite Hsel.
      destruct paths as [|p paths]; cbn [map].
      - exists showwarning, "Warning"%string, (lit "Please select at least one repository.").
        split; [reflexivity|]. intros H. now contradiction H.
      - assert (Hv : Gui.validate_dates g
                     = (Gui.messagebox showerror "Error" invalid_date ;;; ret None) g).
        { unfold Gui.validate_dates. rewrite bind_get, Hs, He.
          destruct Hbad as [-> | H]; [reflexivity|].
          rewrite H. now destruct (Datetime.strptime s). }
        exists showerror, "Error"%string, invalid_date.
        split; [|now intros _]. unfold bind at 1. rewrite Hv. reflexivity. }
    destruct Hbox as (kind & title & msg & Heq & Hmsg).
    exists kind, title, msg. rewrite Heq. split; [reflexivity|]. split; [|exact Hmsg].
    unfold Gui.messagebox, Gui.on_world, emit. cbn [snd Gui.outside events].
    rewrite commands_run_app. apply app_nil_r.
Qed.

Lemma bad_date_runs_no_command_witness :
  (Datetime.strptime (lit "01/02/2024") = None
   \/ Datetime.strptime (lit "2024-01-31") = None)
  /\ Server.tabulate_work Example.laptop (Example.tabulate_from (lit "01/02/2024"))
                          Example.fresh_world
     = (Ret (Server.error invalid_date 400), Example.fresh_world)
  /\ Gui.tabulate_work Example.laptop (lit "/home/u/report.csv") Example.slashes
     = Gui.messagebox showerror "Error" invalid_date Example.slashes.
Proof.
  assert (Hbad : Datetime.strptime (lit "01/02/2024") = None
                 \/ Datetime.strptime (lit "2024-01-31") = None)
    by (left; vm_compute; reflexivity).
  split; [exact Hbad|].
  destruct (bad_date_runs_no_command Example.laptop (lit "01/02/2024") (lit "2024-01-31") Hbad)
    as [Hserver Hgui].
  split.
  - destruct (Hserver (Example.tabulate_from (lit "01/02/2024"))
                      [(lit "repositories", JArr [JStr Example.proj]);
                       (lit "startDate", JStr (lit "01/02/2024"));
                       (lit "endDate", JStr (lit "2024-01-31"));
                       (lit "outputFile", JStr (lit "/home/u/report.csv"))]
                      Example.fresh_world eq_refl eq_refl eq_refl)
      as (msg & Heq & Hmsg).
    rewrite Heq, Hmsg; [reflexivity | reflexivity | discriminate | discriminate].
  - destruct (Hgui (lit "/home/u/report.csv") Example.slashes [Example.proj]
                   eq_refl eq_refl eq_refl)
      as (kind & title & msg & Heq & _ & Hmsg).
    destruct Hmsg as (-> & -> & ->); [discriminate|]. exact Heq.
Defined.

(** C4, as stated, fails for the empty string, which does not parse: the
    server answers that the dates are required, not that their format is
    invalid. *)
Lemma empty_date_is_required_not_invalid :
  Datetime.strptime [] = None
  /\ Server.tabulate_work Example.laptop (Example.tabulate_from []) Example.fresh_world
     = (Ret (Server.error (lit "Start date and end date are required") 400),
        Example.fresh_world)
  /\ lit "Start date and end date are required" <> invalid_date.
Proof. split; [reflexivity|]. split; [reflexivity | discriminate]. Qed.

(** ** C10: scanning outside the home directory *)

(** C10, as amended: a JSON request whose folder path, once stripped, is
    not empty and whose absolute, user-expanded form does not start with
    the home directory is answered 403 [Access denied]; a request whose
    folder path is blank (empty once stripped) is answered 400
    [Folder path is required]; in both cases the world is left as it was:
    no directory is listed. *)
Theorem scan_outside_home_denied (E : env) (req : Server.request)
        (d : list (pystr * json)) (raw : pystr) (w : world) :
  Server.is_json req = true ->
  Server.request_json req = Ret (JObj d) ->
  dict_lookup (lit "folderPath") d = Some (JStr raw) ->
  (strip raw <> [] ->
   startswith (abspath E (expanduser E (strip raw))) (home E) = false ->
   Server.scan_repositories E req w
   = (Ret (Server.error (lit "Access denied: Cannot scan outside home directory") 403), w))
  /\ (strip raw = [] ->
      Server.scan_repositories E req w
      = (Ret (Server.error (lit "Folder path is required") 400), w)).
Proof.
  intros Hj Hreq Hd.
  assert (Ht : truthy (JObj d) = true) by (destruct d; [discriminate | reflexivity]).
  unfold Server.scan_repositories, try_except. rewrite Hj. cbn [negb].
  rewrite bind_lift, Hreq, Ht. cbn [negb]. rewrite bind_lift. cbn [py_get].
  unfold dict_get. rewrite Hd. rewrite bind_lift. cbn [py_strip]. split.
  - intros Hne Hout. destruct (strip raw) as [|c s] eqn:Hs; [now contradiction Hne|].
    rewrite Hout. reflexivity.
  - intros ->. reflexivity.
Qed.

Lemma scan_outside_home_denied_witness :
  (strip (lit " /etc ") <> []
   /\ startswith (abspath Example.laptop (expanduser Example.laptop (strip (lit " /etc "))))
                 (home Example.laptop) = false
   /\ strip (lit "   ") = [])
  /\ Server.scan_repositories Example.laptop (Example.scan (lit " /etc ")) Example.fresh_world
     = (Ret (Server.error (lit "Access denied: Cannot scan outside home directory") 403),
        Example.fresh_world)
  /\ Server.scan_repositories Example.laptop (Example.scan (lit "   ")) Example.fresh_world
     = (Ret (Server.error (lit "Folder path is required") 400), Example.fresh_world).
Proof.
  split; [split; [discriminate | split; reflexivity]|]. split.
  - apply (scan_outside_home_denied Example.laptop (Example.scan (lit " /etc "))
             [(lit "folderPath", JStr (lit " /etc "))] (lit " /etc ") Example.fresh_world
             eq_refl eq_refl eq_refl); [discriminate | reflexivity].
  - apply (scan_outside_home_denied Example.laptop (Example.scan (lit "   "))
             [(lit "folderPath", JStr (lit "   "))] (lit "   ") Example.fresh_world
             eq_refl eq_refl eq_refl). reflexivity.
Defined.

(** C10, as stated, fails for the empty folder path on a server started
    in [/srv]: its absolute form is [/srv], outside the home directory,
    and the request is answered 400 [Folder path is required], not 403. *)
Lemma blank_folder_is_required_not_denied :
  abspath Example.started_in_srv (expanduser Example.started_in_srv []) = lit "/srv"
  /\ startswith (abspath Example.started_in_srv (expanduser Example.started_in_srv []))
                (home Example.started_in_srv) = false
  /\ Server.scan_repositories Example.started_in_srv (Example.scan []) Example.fresh_world
     = (Ret (Server.error (lit "Folder path is required") 400), Example.fresh_world).
Proof. split; [reflexivity|]. split; reflexivity. Qed.

(** * Further properties of the code *)

Lemma server_save_written (E : env) (v : json) (w : world) :
  write_error E = None -> Server.save_repositories E v w = (Ret true, written w v).
Proof. intros H. unfold Server.save_repositories. now rewrite H. Qed.

Lemma server_save_failed (E : env) (msg : pystr) (v : json) (w : world) :
  write_error E = Some (CannotOpen msg) ->
  Server.save_repositories E v w
  = (Ret false, logged w [EvPrint (lit "Error saving repositories: " ++ msg)]).
Proof. intros H. unfold Server.save_repositories. now rewrite H. Qed.

Lemma server_save_cut (E : env) (reached : nat) (msg : pystr) (v : json) (w : world) :
  write_error E = Some (CannotWrite reached msg) ->
  Server.save_repositories E v w
  = (Ret false, logged (cut_short w v reached)
                       [EvPrint (lit "Error saving repositories: " ++ msg)]).
Proof. intros H. unfold Server.save_repositories. now rewrite H. Qed.

Lemma gui_save_written (E : env) (g : Gui.gui) :
  write_error E = None ->
  Gui.save_repositories E g = (Ret tt, with_outside g (written (Gui.outside g) (Gui.repositories g))).
Proof. intros H. unfold Gui.save_repositories. rewrite bind_get, H. reflexivity. Qed.

Lemma gui_save_failed (E : env) (msg : pystr) (g : Gui.gui) :
  write_error E = Some (CannotOpen msg) ->
  Gui.save_repositories E g
  = (Ret tt, with_outside g (logged (Gui.outside g)
                                    [EvDialog showerror (lit "Error")
                                              (lit "Failed to save repositories: " ++ msg)])).
Proof. intros H. unfold Gui.save_repositories. rewrite bind_get, H. reflexivity. Qed.

Lemma gui_save_cut (E : env) (reached : nat) (msg : pystr) (g : Gui.gui) :
  write_error E = Some (CannotWrite reached msg) ->
  Gui.save_repositories E g
  = (Ret tt, with_outside g (logged (cut_short (Gui.outside g) (Gui.repositories g) reached)
                                    [EvDialog showerror (lit "Error")
                                              (lit "Failed to save repositories: " ++ msg)])).
Proof. intros H. unfold Gui.save_repositories. rewrite bind_get, H. reflexivity. Qed.

(** What is read from the file a write has left when it stopped early:
    nothing. *)
Lemma stored_cut_short (w : world) (v : json) (reached : nat) (evs : list event) :
  json_ok v = true ->
  (reached < List.length (Json.dumps (JObj [(lit "repositories", v)])))%nat ->
  stored (logged (cut_short w v reached) evs) [].
Proof. intros Hok Hn. now apply stored_cut. Qed.

Lemma tree_rows_paths (items : list json) (ps : list pystr) :
  entry_paths items = Some ps ->
  exists rows, Gui.tree_rows items = (rows, None) /\ map snd rows = map JStr ps.
Proof.
  revert ps. induction items as [|r items IH]; intros ps H.
  - injection H as <-. now exists [].
  - apply entry_paths_cons in H as (p & ps' & -> & Hr & Hrest).
    destruct (IH ps' Hrest) as (rows & Hrows & Hmap).
    destruct r as [| | | | | |d]; try discriminate.
    cbn [entry_paths] in Hr.
    destruct (dict_lookup (lit "path") d) as [[| | | |q| |]|] eqn:L; try discriminate.
    injection Hr as ->.
    cbn [Gui.tree_rows py_get py_getitem and_then]. rewrite L, Hrows.
    eexists. split; [reflexivity|]. cbn [map snd]. now rewrite Hmap.
Qed.

Lemma update_repo_list_rows (g : Gui.gui) (items : list json) (rows : list (bool * json)) :
  Gui.repositories g = JArr items -> Gui.tree_rows items = (rows, None) ->
  Gui.update_repo_list g = (Ret tt, with_tree g rows).
Proof.
  intros Hm Hrows. unfold Gui.update_repo_list. unfold bind at 1. cbn [Gui.set_tree].
  rewrite bind_get, bind_lift. cbn [Gui.repositories]. rewrite Hm. cbn [py_iter].
  rewrite Hrows. unfold with_tree. rewrite Hm. reflexivity.
Qed.

Lemma any_path_is_absent (path : pystr) (items : list json) (ps : list pystr) :
  entry_paths items = Some ps -> ~ In path ps -> any_path_is path items = Ret false.
Proof.
  intros Hps Hn. rewrite (any_path_is_paths path items ps Hps). f_equal.
  destruct (existsb (str_eqb path) ps) eqn:Ex; [|reflexivity].
  apply existsb_exists in Ex as (q & Hq & Heq). apply str_eqb_eq in Heq. now subst.
Qed.

(** What [add_repository] of the server does with a new git repository,
    up to the write. *)
Lemma server_add_appends (E : env) (items : list json) (ps : list pystr) (p : pystr)
      (req : Server.request) (d : list (pystr * json)) (raw : pystr) (w : world) :
  stored w items -> entry_paths items = Some ps -> ~ In p ps -> is_git E p = true ->
  Server.is_json req = true -> Server.request_json req = Ret (JObj d) ->
  dict_lookup (lit "path") d = Some (JStr raw) ->
  strip raw <> [] -> abspath E (expanduser E (strip raw)) = p ->
  Server.add_repository E req w
  = (Server.save_repositories E (JArr (items ++ [new_entry p])) ;;;
     ret (Server.jsonify (JObj [(lit "repositories", JArr (items ++ [new_entry p]))]) 200)) w.
Proof.
  intros Hst Hps Hnew Hgit Hj Hreq Hd Hne Hp'. unfold is_git in Hgit.
  unfold Server.add_repository, try_except. rewrite Hj. cbn [negb].
  rewrite bind_lift, Hreq.
  assert (Ht : truthy (JObj d) = true) by (destruct d; [discriminate | reflexivity]).
  rewrite Ht. cbn [negb]. rewrite bind_lift. cbn [py_get]. unfold dict_get. rewrite Hd.
  rewrite bind_lift. cbn [py_strip].
  destruct (strip raw) as [|c s]; [now contradiction Hne|].
  rewrite Hp', Hgit. cbn [negb].
  unfold bind at 1. rewrite (load_stored w items Hst).
  rewrite bind_lift. cbn [py_iter]. rewrite bind_lift.
  rewrite (any_path_is_absent p items ps Hps Hnew).
  rewrite bind_lift. cbn [py_append]. unfold bind.
  destruct (save_result E (JArr (items ++ [new_entry p])) w) as (ok & evs & ->).
  reflexivity.
Qed.

(** ** Adding, removing, clearing and replacing the list *)

(** X1: adding a git repository whose path is not in the list appends
    one entry for it, not selected, after the entries there were.  The
    server answers 200 with the new list and the file holds it; the
    window has it in memory, in the file and in its tree. *)
Theorem add_of_new_repository (E : env) (items : list json) (ps : list pystr) (p : pystr) :
  repository_list items -> entry_paths items = Some ps ->
  ~ In p ps -> is_git E p = true -> str_ok p = true -> write_error E = None ->
  (forall req d raw w,
      stored w items ->
      Server.is_json req = true -> Server.request_json req = Ret (JObj d) ->
      dict_lookup (lit "path") d = Some (JStr raw) ->
      strip raw <> [] -> abspath E (expanduser E (strip raw)) = p ->
      Server.add_repository E req w
      = (Ret (Server.jsonify (JObj [(lit "repositories", JArr (items ++ [new_entry p]))]) 200),
         written w (JArr (items ++ [new_entry p])))
      /\ stored (written w (JArr (items ++ [new_entry p]))) (items ++ [new_entry p]))
  /\ (forall (g : Gui.gui) (askdirectory : pystr) (askstring : option pystr)
             (c : Z) (path : pystr),
         Gui.repositories g = JArr items ->
         match askdirectory with [] => askstring | _ :: _ => Some askdirectory end
         = Some (c :: path) ->
         abspath E (c :: path) = p ->
         exists rows,
           Gui.tree_rows (items ++ [new_entry p]) = (rows, None)
           /\ Gui.add_repository E askdirectory askstring g
              = (Ret tt,
                 {| Gui.repositories := JArr (items ++ [new_entry p]);
                    Gui.repo_tree := rows;
                    Gui.start_date_var := Gui.start_date_var g;
                    Gui.end_date_var := Gui.end_date_var g;
                    Gui.outside := written (Gui.outside g) (JArr (items ++ [new_entry p])) |})
           /\ stored (written (Gui.outside g) (JArr (items ++ [new_entry p])))
                     (items ++ [new_entry p])).
Proof.
  intros Hl Hps Hnew Hgit Hp Hw.
  assert (Hl' : repository_list (items ++ [new_entry p]))
    by now apply (repository_list_append items ps).
  assert (Hst' : forall w, stored (written w (JArr (items ++ [new_entry p])))
                                  (items ++ [new_entry p]))
    by (intros w; apply stored_written; apply Hl').
  split.
  - intros req d raw w Hst Hj Hreq Hd Hne Hp'. split; [|apply Hst'].
    rewrite (server_add_appends E items ps p req d raw w Hst Hps Hnew Hgit Hj Hreq Hd Hne Hp').
    unfold bind. rewrite (server_save_written E _ w Hw). reflexivity.
  - intros g askdirectory askstring c path Hm Hans Hp'.
    assert (Hps' : entry_paths (items ++ [new_entry p]) = Some (ps ++ [p]))
      by (apply entry_paths_app; [exact Hps | apply entry_paths_new]).
    destruct (tree_rows_paths _ _ Hps') as (rows & Hrows & _).
    exists rows. split; [exact Hrows|]. split; [|apply Hst'].
    unfold Gui.add_repository. rewrite Hans, Hp'.
    unfold is_git in Hgit. rewrite Hgit. cbn [negb].
    rewrite bind_get, bind_lift, Hm. cbn [py_iter]. rewrite bind_lift.
    rewrite (any_path_is_absent p items ps Hps Hnew).
    rewrite bind_lift. cbn [py_append]. rewrite bind_set_repositories.
    unfold bind at 1. rewrite (gui_save_written E _ Hw).
    rewrite (update_repo_list_rows _ (items ++ [new_entry p]) rows); [reflexivity | reflexivity | exact Hrows].
Qed.

Lemma load_written (v : json) (w : world) :
  json_ok v = true -> Server.load_repositories (written w v) = (Ret v, written w v).
Proof.
  intros H. unfold Server.load_repositories, written. cbn [config].
  rewrite JsonFacts.loads_dumps by (apply json_ok_document; exact H).
  reflexivity.
Qed.

Lemma stored_logged (w : world) (evs : list event) (items : list json) :
  stored w items -> stored (logged w evs) items.
Proof. unfold stored. intros H. now rewrite (load_config w (logged w evs) eq_refl). Qed.

(** X2: a directory without [.git] is not added.  The server answers 400
    and names the path, whatever the configuration file holds, and leaves
    the world as it was; the window shows one error and changes nothing
    else. *)
Theorem add_of_non_git_path (E : env) (p : pystr) :
  is_git E p = false ->
  (forall req d raw w,
      Server.is_json req = true -> Server.request_json req = Ret (JObj d) ->
      dict_lookup (lit "path") d = Some (JStr raw) ->
      strip raw <> [] -> abspath E (expanduser E (strip raw)) = p ->
      Server.add_repository E req w
      = (Ret (Server.error (lit "'" ++ p ++ lit "' is not a git repository") 400), w))
  /\ (forall (g : Gui.gui) (askdirectory : pystr) (askstring : option pystr)
             (c : Z) (path : pystr),
         match askdirectory with [] => askstring | _ :: _ => Some askdirectory end
         = Some (c :: path) ->
         abspath E (c :: path) = p ->
         Gui.add_repository E askdirectory askstring g
         = (Ret tt,
            with_outside g (logged (Gui.outside g)
                                   [EvDialog showerror (lit "Error")
                                             (lit "'" ++ p ++ lit "' is not a git repository.")]))).
Proof.
  intros Hgit. unfold is_git in Hgit. split.
  - intros req d raw w Hj Hreq Hd Hne Hp.
    unfold Server.add_repository, try_except. rewrite Hj. cbn [negb].
    rewrite bind_lift, Hreq.
    assert (Ht : truthy (JObj d) = true) by (destruct d; [discriminate | reflexivity]).
    rewrite Ht. cbn [negb]. rewrite bind_lift. cbn [py_get]. unfold dict_get. rewrite Hd.
    rewrite bind_lift. cbn [py_strip].
    destruct (strip raw) as [|c s]; [now contradiction Hne|].
    rewrite Hp, Hgit. reflexivity.
  - intros g askdirectory askstring c path Hans Hp.
    unfold Gui.add_repository. rewrite Hans, Hp, Hgit. reflexivity.
Qed.

(** X3: when the configuration file cannot be written, adding a new
    repository still looks like a success.  The server prints the error
    and answers 200 with the longer list; the window shows the error, and
    keeps the new entry in memory and in its tree.  When the file cannot
    be opened it is left as it was, without the new entry.  When the write
    stops after the file was opened, the file holds the part of the new
    text that was written, and if that is not all of it, the next load
    gives the empty list: the entries the file held are lost. *)
Theorem failed_save_goes_unreported (E : env) (items : list json) (ps : list pystr)
        (p : pystr) :
  entry_paths items = Some ps -> ~ In p ps -> is_git E p = true ->
  let added := JArr (items ++ [new_entry p]) in
  let answer := Server.jsonify (JObj [(lit "repositories", added)]) 200 in
  let printed msg := EvPrint (lit "Error saving repositories: " ++ msg) in
  let shown msg := EvDialog showerror (lit "Error") (lit "Failed to save repositories: " ++ msg) in
  (forall msg,
      write_error E = Some (CannotOpen msg) ->
      (forall req d raw w,
          stored w items ->
          Server.is_json req = true -> Server.request_json req = Ret (JObj d) ->
          dict_lookup (lit "path") d = Some (JStr raw) ->
          strip raw <> [] -> abspath E (expanduser E (strip raw)) = p ->
          Server.add_repository E req w = (Ret answer, logged w [printed msg])
          /\ stored (logged w [printed msg]) items)
      /\ (forall (g : Gui.gui) (askdirectory : pystr) (askstring : option pystr)
                 (c : Z) (path : pystr),
             Gui.repositories g = JArr items ->
             match askdirectory with [] => askstring | _ :: _ => Some askdirectory end
             = Some (c :: path) ->
             abspath E (c :: path) = p ->
             exists rows,
               Gui.add_repository E askdirectory askstring g
               = (Ret tt,
                  {| Gui.repositories := added;
                     Gui.repo_tree := rows;
                     Gui.start_date_var := Gui.start_date_var g;
                     Gui.end_date_var := Gui.end_date_var g;
                     Gui.outside := logged (Gui.outside g) [shown msg] |})))
  /\ (forall reached msg,
         write_error E = Some (CannotWrite reached msg) ->
         (forall req d raw w,
             stored w items ->
             Server.is_json req = true -> Server.request_json req = Ret (JObj d) ->
             dict_lookup (lit "path") d = Some (JStr raw) ->
             strip raw <> [] -> abspath E (expanduser E (strip raw)) = p ->
             Server.add_repository E req w
             = (Ret answer, logged (cut_short w added reached) [printed msg])
             /\ (json_ok added = true ->
                 (reached < List.length (Json.dumps (JObj [(lit "repositories", added)])))%nat ->
                 stored (logged (cut_short w added reached) [printed msg]) []))
         /\ (forall (g : Gui.gui) (askdirectory : pystr) (askstring : option pystr)
                    (c : Z) (path : pystr),
                Gui.repositories g = JArr items ->
                match askdirectory with [] => askstring | _ :: _ => Some askdirectory end
                = Some (c :: path) ->
                abspath E (c :: path) = p ->
                exists rows,
                  Gui.add_repository E askdirectory askstring g
                  = (Ret tt,
                     {| Gui.repositories := added;
                        Gui.repo_tree := rows;
                        Gui.start_date_var := Gui.start_date_var g;
                        Gui.end_date_var := Gui.end_date_var g;
                        Gui.outside := logged (cut_short (Gui.outside g) added reached)
                                              [shown msg] |}))).
Proof.
  intros Hps Hnew Hgit added answer printed shown.
  pose proof Hgit as Hgit'. unfold is_git in Hgit.
  assert (Hps' : entry_paths (items ++ [new_entry p]) = Some (ps ++ [p]))
    by (apply entry_paths_app; [exact Hps | apply entry_paths_new]).
  destruct (tree_rows_paths _ _ Hps') as (rows & Hrows & _).
  assert (Hgui : forall (g : Gui.gui) (askdirectory : pystr) (askstring : option pystr)
                        (c : Z) (path : pystr),
             Gui.repositories g = JArr items ->
             match askdirectory with [] => askstring | _ :: _ => Some askdirectory end
             = Some (c :: path) ->
             abspath E (c :: path) = p ->
             Gui.add_repository E askdirectory askstring g
             = (Gui.save_repositories E ;;; Gui.update_repo_list)
                 (with_repositories g added)).
  { intros g askdirectory askstring c path Hm Hans Hp'.
    unfold Gui.add_repository. rewrite Hans, Hp', Hgit. cbn [negb].
    rewrite bind_get, bind_lift, Hm. cbn [py_iter]. rewrite bind_lift.
    rewrite (any_path_is_absent p items ps Hps Hnew).
    rewrite bind_lift. cbn [py_append]. now rewrite bind_set_repositories. }
  split.
  - intros msg Hw. split.
    + intros req d raw w Hst Hj Hreq Hd Hne Hp'. split; [|now apply stored_logged].
      rewrite (server_add_appends E items ps p req d raw w Hst Hps Hnew Hgit' Hj Hreq Hd
                                  Hne Hp').
      unfold bind. rewrite (server_save_failed E msg _ w Hw). reflexivity.
    + intros g askdirectory askstring c path Hm Hans Hp'. exists rows.
      rewrite (Hgui g askdirectory askstring c path Hm Hans Hp').
      unfold bind at 1. rewrite (gui_save_failed E msg _ Hw).
      rewrite (update_repo_list_rows _ (items ++ [new_entry p]) rows);
        [reflexivity | reflexivity | exact Hrows].
  - intros reached msg Hw. split.
    + intros req d raw w Hst Hj Hreq Hd Hne Hp'. split.
      * rewrite (server_add_appends E items ps p req d raw w Hst Hps Hnew Hgit' Hj Hreq Hd
                                    Hne Hp').
        unfold bind. rewrite (server_save_cut E reached msg _ w Hw). reflexivity.
      * intros Hok Hn. now apply stored_cut_short.
    + intros g askdirectory askstring c path Hm Hans Hp'. exists rows.
      rewrite (Hgui g askdirectory askstring c path Hm Hans Hp').
      unfold bind at 1. rewrite (gui_save_cut E reached msg _ Hw).
      rewrite (update_repo_list_rows _ (items ++ [new_entry p]) rows);
        [reflexivity | reflexivity | exact Hrows].
Qed.

Lemma without_path_others (p : pystr) (items : list json) (ps : list pystr) :
  entry_paths items = Some ps ->
  without_path (JStr p) items = Ret (others p items)
  /\ entry_paths (others p items) = Some (filter (fun q => negb (str_eqb q p)) ps).
Proof.
  revert ps. induction items as [|r items IH]; intros ps H.
  - injection H as <-. now split.
  - apply entry_paths_cons in H as (q & ps' & -> & Hr & Hrest).
    destruct (IH ps' Hrest) as [Hw Hp].
    destruct r as [| | | | | |d]; try discriminate.
    pose proof Hr as Hr'. cbn [entry_paths] in Hr.
    destruct (dict_lookup (lit "path") d) as [[| | | |q'| |]|] eqn:L; try discriminate.
    injection Hr as ->.
    unfold others in *. cbn [without_path py_getitem and_then filter has_path].
    rewrite L, Hw. cbn [and_then py_eq].
    destruct (str_eqb q p); cbn [negb]; [now split|].
    split; [reflexivity|]. now apply entry_paths_cons_intro.
Qed.

Lemma length_filter_neq (p : pystr) (ps : list pystr) :
  NoDup ps -> In p ps ->
  S (List.length (filter (fun q => negb (str_eqb q p)) ps)) = List.length ps.
Proof.
  induction ps as [|q ps IH]; intros Hnd Hin; [contradiction|].
  inversion Hnd as [|? ? Hq Hnd']; subst. cbn [filter].
  destruct (str_eqb q p) eqn:Eq; cbn [negb List.length].
  - apply str_eqb_eq in Eq. subst q. f_equal.
    clear IH Hin Hnd Hnd'. induction ps as [|x ps IH]; [reflexivity|].
    cbn [filter]. destruct (str_eqb x p) eqn:Ex.
    + apply str_eqb_eq in Ex. subst. exfalso. apply Hq. now left.
    + cbn [negb List.length]. f_equal. apply IH. intros H. apply Hq. now right.
  - f_equal. apply IH; [exact Hnd'|]. destruct Hin as [->|H]; [|exact H].
    rewrite str_eqb_refl in Eq. discriminate.
Qed.

Lemma entry_paths_length (items : list json) (ps : list pystr) :
  entry_paths items = Some ps -> List.length ps = List.length items.
Proof.
  revert ps. induction items as [|r items IH]; intros ps H.
  - now injection H as <-.
  - apply entry_paths_cons in H as (q & ps' & -> & _ & Hrest).
    cbn [List.length]. f_equal. now apply IH.
Qed.

(** What [remove_repository] of the server does with a non-empty path,
    up to the write. *)
Lemma server_remove_others (E : env) (items : list json) (ps : list pystr) (p : pystr)
      (req : Server.request) (d : list (pystr * json)) (w : world) :
  stored w items -> entry_paths items = Some ps -> p <> [] ->
  Server.request_json req = Ret (JObj d) ->
  dict_lookup (lit "path") d = Some (JStr p) ->
  Server.remove_repository E req w
  = (Server.save_repositories E (JArr (others p items)) ;;;
     ret (Server.jsonify (JObj [(lit "repositories", JArr (others p items))]) 200)) w.
Proof.
  intros Hst Hps Hne Hreq Hd.
  destruct (without_path_others p items ps Hps) as [Hwo _].
  unfold Server.remove_repository. rewrite bind_lift, Hreq. cbn [py_get].
  rewrite bind_lift. unfold dict_get. rewrite Hd.
  destruct p as [|c p]; [now contradiction Hne|]. cbn [truthy negb].
  unfold bind at 1. rewrite (load_stored w items Hst).
  rewrite bind_lift. cbn [py_iter]. rewrite bind_lift, Hwo. reflexivity.
Qed.

(** X4: [DELETE /api/repositories] with a non-empty path drops exactly
    the entries with that path, compared as it was sent, and keeps the
    others in their order; the file holds what is left, and a list that
    had the path is one entry shorter. *)
Theorem remove_of_present_path (E : env) (items : list json) (ps : list pystr) (p : pystr) :
  repository_list items -> entry_paths items = Some ps ->
  write_error E = None -> p <> [] ->
  forall req d w,
    stored w items -> Server.request_json req = Ret (JObj d) ->
    dict_lookup (lit "path") d = Some (JStr p) ->
    Server.remove_repository E req w
    = (Ret (Server.jsonify (JObj [(lit "repositories", JArr (others p items))]) 200),
       written w (JArr (others p items)))
    /\ stored (written w (JArr (others p items))) (others p items)
    /\ entry_paths (others p items) = Some (filter (fun q => negb (str_eqb q p)) ps)
    /\ (In p ps -> S (List.length (others p items)) = List.length items).
Proof.
  intros Hl Hps Hw Hne req d w Hst Hreq Hd.
  destruct (without_path_others p items ps Hps) as [Hwo Hps'].
  split; [|split; [|split; [exact Hps'|]]].
  - rewrite (server_remove_others E items ps p req d w Hst Hps Hne Hreq Hd).
    unfold bind. rewrite (server_save_written E _ w Hw). reflexivity.
  - apply stored_written. destruct Hl as [Hok _].
    apply (forallb_sub _ json_ok items); [|exact Hok].
    intros x Hx. unfold others in Hx. now apply filter_In in Hx.
  - intros Hin. destruct Hl as (_ & ps0 & Hps0 & Hnd). rewrite Hps in Hps0.
    injection Hps0 as <-.
    rewrite <- (entry_paths_length _ _ Hps), <- (entry_paths_length _ _ Hps').
    now apply length_filter_neq.
Qed.

(** X5: clearing writes the empty list, whatever the file held, and says
    so.  When the file cannot be opened and still holds entries, the
    endpoint reads them back and answers 500.  When the write stops after
    the file was opened, the endpoint reads nothing back and answers 200
    with the same message, although the save has failed. *)
Theorem clear_empties_the_list (E : env) (w : world) :
  let cleared :=
    Server.jsonify (JObj [(lit "repositories", JArr []);
                          (lit "message", JStr (lit "All repositories cleared"))]) 200 in
  (write_error E = None ->
   Server.clear_repositories E w = (Ret cleared, written w (JArr []))
   /\ stored (written w (JArr [])) [])
  /\ (forall msg items,
         write_error E = Some (CannotOpen msg) -> stored w items -> items <> [] ->
         Server.clear_repositories E w
         = (Ret (Server.error (lit "Failed to clear repositories") 500),
            logged w [EvPrint (lit "Error saving repositories: " ++ msg)])
         /\ stored (logged w [EvPrint (lit "Error saving repositories: " ++ msg)]) items)
  /\ (forall reached msg,
         write_error E = Some (CannotWrite reached msg) ->
         Server.clear_repositories E w
         = (Ret cleared,
            logged (cut_short w (JArr []) reached)
                   [EvPrint (lit "Error saving repositories: " ++ msg)])
         /\ stored (logged (cut_short w (JArr []) reached)
                           [EvPrint (lit "Error saving repositories: " ++ msg)]) []).
Proof.
  intros cleared. split; [|split].
  - intros Hw. split; [|now apply stored_written].
    unfold Server.clear_repositories, try_except. unfold bind at 1.
    rewrite (server_save_written E _ w Hw). unfold bind at 1.
    rewrite (load_written (JArr []) w eq_refl). reflexivity.
  - intros msg items Hw Hst Hne.
    pose proof (stored_logged w [EvPrint (lit "Error saving repositories: " ++ msg)] items Hst)
      as Hst'.
    split; [|exact Hst'].
    unfold Server.clear_repositories, try_except. unfold bind at 1.
    rewrite (server_save_failed E msg _ w Hw). unfold bind at 1.
    rewrite (load_stored _ items Hst'). rewrite bind_lift. cbn [py_len].
    destruct items as [|r items]; [now contradiction Hne|]. reflexivity.
  - intros reached msg Hw.
    assert (Hst : stored (logged (cut_short w (JArr []) reached)
                                 [EvPrint (lit "Error saving repositories: " ++ msg)]) []).
    { destruct (Nat.lt_ge_cases
                  reached (List.length (Json.dumps (JObj [(lit "repositories", JArr [])]))))
        as [Hlt|Hge].
      - now apply stored_cut_short.
      - unfold stored, Server.load_repositories, logged, cut_short. cbn [config fst].
        rewrite firstn_all2 by exact Hge. reflexivity. }
    split; [|exact Hst].
    unfold Server.clear_repositories, try_except. unfold bind at 1.
    rewrite (server_save_cut E reached msg _ w Hw). unfold bind at 1.
    rewrite (load_stored _ [] Hst). reflexivity.
Qed.


(** X7: a configuration file that holds JSON other than an object is not
    recovered from: [data.get] raises [AttributeError], which no handler
    of [load_repositories] catches.  Listing the repositories raises,
    adding one answers 500, and the window cannot start. *)
Theorem load_of_non_object_raises (w : world) (t : pystr) (v : json) :
  config w = Text t -> Json.loads t = Some v -> (forall d, v <> JObj d) ->
  Server.load_repositories w = (Raise (no_attribute v "get"), w)
  /\ Server.get_repositories w = (Raise (no_attribute v "get"), w)
  /\ (forall today, fst (Gui.init today w) = Raise (no_attribute v "get"))
  /\ (forall E req d raw,
         Server.is_json req = true -> Server.request_json req = Ret (JObj d) ->
         dict_lookup (lit "path") d = Some (JStr raw) -> strip raw <> [] ->
         is_git E (abspath E (expanduser E (strip raw))) = true ->
         Server.add_repository E req w
         = (Ret (Server.error (lit "Server error: " ++ exn_str (no_attribute v "get")) 500),
            logged w [EvTraceback (no_attribute v "get")])).
Proof.
  intros Hc Hl Hv.
  assert (Hget : py_get v "repositories" (JArr []) = Raise (no_attribute v "get")).
  { destruct v; try reflexivity. now contradiction (Hv members). }
  assert (Hload : Server.load_repositories w = (Raise (no_attribute v "get"), w)).
  { unfold Server.load_repositories. now rewrite Hc, Hl, Hget. }
  split; [exact Hload|]. split; [|split].
  - unfold Server.get_repositories. unfold bind at 1. now rewrite Hload.
  - intros today. unfold Gui.init. unfold bind at 1. unfold Gui.load_repositories.
    rewrite bind_get. cbn [Gui.outside]. rewrite Hc, Hl, bind_lift, Hget. reflexivity.
  - intros E req d raw Hj Hreq Hd Hne Hgit. unfold is_git in Hgit.
    unfold Server.add_repository, try_except. rewrite Hj. cbn [negb].
    rewrite bind_lift, Hreq.
    assert (Ht : truthy (JObj d) = true) by (destruct d; [discriminate | reflexivity]).
    rewrite Ht. cbn [negb]. rewrite bind_lift. cbn [py_get]. unfold dict_get. rewrite Hd.
    rewrite bind_lift. cbn [py_strip].
    destruct (strip raw) as [|c s]; [now contradiction Hne|].
    rewrite Hgit. cbn [negb]. unfold bind at 1. rewrite Hload. reflexivity.
Qed.



Lemma add_of_new_repository_witness :
  (repository_list [] /\ ~ In Example.proj [] /\ is_git Example.laptop Example.proj = true
   /\ str_ok Example.proj = true /\ stored Example.fresh_world [])
  /\ Server.add_repository Example.laptop Example.add_proj Example.fresh_world
     = (Ret (Server.jsonify (JObj [(lit "repositories", JArr [new_entry Example.proj])]) 200),
        written Example.fresh_world (JArr [new_entry Example.proj])).
Proof.
  split.
  { split; [exact repository_list_nil|]. split; [intros []|]. repeat split. }
  destruct (add_of_new_repository Example.laptop [] [] Example.proj
              repository_list_nil eq_refl (fun H => H) eq_refl eq_refl eq_refl)
    as [Hserver _].
  apply (Hserver Example.add_proj [(lit "path", JStr Example.proj)] Example.proj);
    [reflexivity | reflexivity | reflexivity | reflexivity | discriminate | reflexivity].
Defined.

Lemma add_of_non_git_path_witness :
  is_git Example.laptop Example.other = false
  /\ Server.add_repository Example.laptop Cases.not_a_repo Example.fresh_world
     = (Ret (Server.error (lit "'/home/u/other' is not a git repository") 400),
        Example.fresh_world).
Proof.
  split; [reflexivity|].
  destruct (add_of_non_git_path Example.laptop Example.other eq_refl) as [Hserver _].
  apply (Hserver Cases.not_a_repo [(lit "path", JStr Example.other)] Example.other);
    [reflexivity | reflexivity | reflexivity | discriminate | reflexivity].
Defined.

Lemma failed_save_goes_unreported_witness :
  (write_error Cases.read_only_disk
   = Some (CannotOpen (lit "[Errno 30] Read-only file system"))
   /\ write_error Cases.full_disk
      = Some (CannotWrite 10 (lit "[Errno 28] No space left on device"))
   /\ is_git Cases.read_only_disk Example.proj = true
   /\ stored (Gui.outside Example.after_add) [new_entry Example.proj]
   /\ ~ In Example.other [Example.proj])
  /\ Server.add_repository Cases.read_only_disk Example.add_proj Example.fresh_world
     = (Ret (Server.jsonify (JObj [(lit "repositories", JArr [new_entry Example.proj])]) 200),
        logged Example.fresh_world
               [EvPrint (lit "Error saving repositories: [Errno 30] Read-only file system")])
  /\ stored (snd (Server.add_repository
                    (Example.machine Example.home_dir
                                     [lit "/home/u/other"; lit "/home/u/other/.git"]
                                     (fun _ => Completed 0 [])
                                     (Some (CannotWrite 10
                                              (lit "[Errno 28] No space left on device"))))
                    (Example.post (JObj [(lit "path", JStr Example.other)]))
                    (Gui.outside Example.after_add)))
            [].
Proof.
  assert (Hst : stored (Gui.outside Example.after_add) [new_entry Example.proj])
    by (vm_compute; reflexivity).
  assert (Hno : ~ In Example.other [Example.proj]) by (intros [H|[]]; discriminate H).
  split; [split; [reflexivity | split; [reflexivity | split; [reflexivity | now split]]]|].
  split.
  - destruct (failed_save_goes_unreported Cases.read_only_disk [] [] Example.proj
                                          eq_refl (fun H => H) eq_refl)
      as [Hopen _].
    destruct (Hopen (lit "[Errno 30] Read-only file system") eq_refl) as [Hserver _].
    apply (Hserver Example.add_proj [(lit "path", JStr Example.proj)] Example.proj);
      [reflexivity | reflexivity | reflexivity | reflexivity | discriminate | reflexivity].
  - set (E := Example.machine Example.home_dir
                              [lit "/home/u/other"; lit "/home/u/other/.git"]
                              (fun _ => Completed 0 [])
                              (Some (CannotWrite 10
                                       (lit "[Errno 28] No space left on device")))).
    destruct (failed_save_goes_unreported E [new_entry Example.proj] [Example.proj]
                                          Example.other eq_refl Hno eq_refl)
      as [_ Hcut].
    destruct (Hcut 10%nat (lit "[Errno 28] No space left on device") eq_refl) as [Hserver _].
    destruct (Hserver (Example.post (JObj [(lit "path", JStr Example.other)]))
                      [(lit "path", JStr Example.other)] Example.other
                      (Gui.outside Example.after_add)
                      Hst eq_refl eq_refl eq_refl ltac:(discriminate) eq_refl)
      as [Heq Hlost].
    rewrite Heq. cbn [snd]. apply Hlost; [reflexivity | vm_compute; lia].
Defined.

Lemma remove_of_present_path_witness :
  (repository_list [new_entry Example.proj]
   /\ stored (Gui.outside Example.after_add) [new_entry Example.proj])
  /\ Server.remove_repository Example.laptop
                              (Example.post (JObj [(lit "path", JStr Example.proj)]))
                              (Gui.outside Example.after_add)
     = (Ret (Server.jsonify (JObj [(lit "repositories", JArr [])]) 200),
        written (Gui.outside Example.after_add) (JArr [])).
Proof.
  assert (Hst : stored (Gui.outside Example.after_add) [new_entry Example.proj])
    by (vm_compute; reflexivity).
  split; [split; [exact proj_list | exact Hst]|].
  apply (remove_of_present_path Example.laptop [new_entry Example.proj] [Example.proj]
           Example.proj proj_list eq_refl eq_refl ltac:(discriminate)
           (Example.post (JObj [(lit "path", JStr Example.proj)]))
           [(lit "path", JStr Example.proj)] (Gui.outside Example.after_add)
           Hst eq_refl eq_refl).
Defined.

Lemma clear_empties_the_list_witness :
  (write_error Example.laptop = None
   /\ write_error Cases.full_disk
      = Some (CannotWrite 10 (lit "[Errno 28] No space left on device")))
  /\ Server.clear_repositories Example.laptop (Gui.outside Example.after_add)
     = (Ret (Server.jsonify (JObj [(lit "repositories", JArr []);
                                   (lit "message", JStr (lit "All repositories cleared"))]) 200),
        written (Gui.outside Example.after_add) (JArr []))
  /\ fst (Server.clear_repositories Cases.full_disk (Gui.outside Example.after_add))
     = Ret (Server.jsonify (JObj [(lit "repositories", JArr []);
                                  (lit "message", JStr (lit "All repositories cleared"))]) 200).
Proof.
  split; [split; reflexivity|]. split.
  - destruct (clear_empties_the_list Example.laptop (Gui.outside Example.after_add))
      as [H _].
    exact (proj1 (H eq_refl)).
  - destruct (clear_empties_the_list Cases.full_disk (Gui.outside Example.after_add))
      as (_ & _ & H).
    destruct (H 10%nat (lit "[Errno 28] No space left on device") eq_refl) as [-> _].
    reflexivity.
Defined.


Lemma load_of_non_object_raises_witness :
  (config Cases.list_config = Text (lit "[]") /\ Json.loads (lit "[]") = Some (JArr []))
  /\ Server.get_repositories Cases.list_config
     = (Raise (Exn AttributeError (lit "'list' object has no attribute 'get'")), Cases.list_config).
Proof.
  split; [split; reflexivity|].
  destruct (load_of_non_object_raises Cases.list_config (lit "[]") (JArr []) eq_refl eq_refl
                                      ltac:(discriminate))
    as (_ & H & _).
  exact H.
Defined.


(** ** What leaves the configuration file alone *)

Lemma keeps_ret (A : Type) (a : A) : keeps_file (ret a).
Proof. now intros w. Qed.

Lemma keeps_raise (A : Type) (e : exn) : keeps_file (@raise world A e).
Proof. now intros w. Qed.

Lemma keeps_lift (A : Type) (r : result A) : keeps_file (lift r).
Proof. now intros w. Qed.

Lemma keeps_emit (e : event) : keeps_file (emit e).
Proof. now intros w. Qed.

Lemma keeps_bind (A B : Type) (m : M world A) (k : A -> M world B) :
  keeps_file m -> (forall a, keeps_file (k a)) -> keeps_file (bind m k).
Proof.
  intros Hm Hk w. unfold bind. specialize (Hm w).
  destruct (m w) as [[a|e] w']; cbn [snd] in *; [|exact Hm].
  now rewrite (Hk a w').
Qed.

Lemma keeps_try (A : Type) (m : M world A) (handler : exn -> M world A) :
  keeps_file m -> (forall e, keeps_file (handler e)) -> keeps_file (try_except m handler).
Proof.
  intros Hm Hh w. unfold try_except. specialize (Hm w).
  destruct (m w) as [[a|e] w']; cbn [snd] in *; [exact Hm|].
  now rewrite (Hh e w').
Qed.

Lemma keeps_load : keeps_file Server.load_repositories.
Proof. now intros w. Qed.

Ltac keeps :=
  repeat first
         [ apply keeps_ret | apply keeps_raise | apply keeps_lift | apply keeps_emit
         | apply keeps_load
         | apply keeps_bind; [|intros ?]
         | apply keeps_try; [|intros ?]
         | match goal with
           | |- keeps_file (if ?b then _ else _) => destruct b
           | |- keeps_file (match ?x with _ => _ end) => destruct x
           | |- keeps_file (let (_, _) := ?x in _) => destruct x
           end ].

Lemma keeps_touch (E : env) (args : list pystr) :
  quiet E -> keeps_file (touch_config (leaves E args)).
Proof. intros HQ w. apply HQ. Qed.

Lemma keeps_run_command (E : env) (argv : list json) (timeout : Z) :
  quiet E -> keeps_file (run_command E argv timeout).
Proof. intros HQ. unfold run_command. keeps; now apply keeps_touch. Qed.

Lemma keeps_server_error (prefix : string) (e : exn) : keeps_file (Server.server_error prefix e).
Proof. unfold Server.server_error. keeps. Qed.

Lemma keeps_scan (E : env) (req : Server.request) : keeps_file (Server.scan_repositories E req).
Proof.
  unfold Server.scan_repositories. apply keeps_try; [|apply keeps_server_error]. cbv zeta. keeps.
Qed.

Lemma keeps_get : keeps_file Server.get_repositories.
Proof. unfold Server.get_repositories. keeps. Qed.

Lemma keeps_work_loop (E : env) (command : string) (items : list json) :
  quiet E ->
  forall results errors, keeps_file (Server.work_loop E command items results errors).
Proof.
  intros HQ.
  induction items as [|repo_path rest IH]; intros results errors; cbn [Server.work_loop].
  - keeps.
  - apply keeps_bind; [now apply keeps_run_command|]. intros outcome.
    destruct outcome as [returncode stderr| | |e]; [|keeps|apply IH|keeps].
    destruct (negb (returncode =? 0)); apply IH.
Qed.

Lemma keeps_work (E : env) (command : string) (req : Server.request) :
  quiet E -> keeps_file (Server.work E command req).
Proof.
  intros HQ. unfold Server.work. keeps. now apply keeps_work_loop.
Qed.

Lemma keeps_tabulate (E : env) (req : Server.request) :
  quiet E -> keeps_file (Server.tabulate_work E req).
Proof.
  intros HQ. unfold Server.tabulate_work. keeps; now apply keeps_touch.
Qed.

Lemma list_ret (A : Type) (a : A) : keeps_list (ret a).
Proof. now intros g. Qed.

Lemma list_raise (A : Type) (e : exn) : keeps_list (@raise Gui.gui A e).
Proof. now intros g. Qed.

Lemma list_lift (A : Type) (r : result A) : keeps_list (lift r).
Proof. now intros g. Qed.

Lemma list_get : keeps_list (@Sys.get Gui.gui).
Proof. now intros g. Qed.

Lemma list_bind (A B : Type) (m : M Gui.gui A) (k : A -> M Gui.gui B) :
  keeps_list m -> (forall a, keeps_list (k a)) -> keeps_list (bind m k).
Proof.
  intros Hm Hk g. unfold bind. specialize (Hm g).
  destruct (m g) as [[a|e] g']; cbn [snd] in *; [|exact Hm].
  destruct Hm as [H1 H2]. destruct (Hk a g') as [K1 K2]. split; congruence.
Qed.

Lemma list_on_world (A : Type) (m : M world A) : keeps_file m -> keeps_list (Gui.on_world m).
Proof.
  intros Hm g. unfold Gui.on_world. specialize (Hm (Gui.outside g)).
  destruct (m (Gui.outside g)) as [r w]. cbn [snd Gui.repositories Gui.outside] in *.
  now split.
Qed.

Lemma list_messagebox (kind : dialog) (title : string) (message : pystr) :
  keeps_list (Gui.messagebox kind title message).
Proof. apply list_on_world, keeps_emit. Qed.

Ltac keeps_in_window :=
  repeat first
         [ apply list_ret | apply list_raise | apply list_lift | apply list_get
         | apply list_messagebox
         | apply list_bind; [|intros ?]
         | match goal with
           | |- keeps_list (if ?b then _ else _) => destruct b
           | |- keeps_list (match ?x with _ => _ end) => destruct x
           end ].

Lemma list_work_loop (E : env) (command verb gerund : string) (selected : list json) :
  quiet E -> keeps_list (Gui.work_loop E command verb gerund selected).
Proof.
  intros HQ. induction selected as [|repo_path rest IH]; cbn [Gui.work_loop].
  - apply list_ret.
  - apply list_bind; [now apply list_on_world, keeps_run_command|]. intros outcome.
    destruct outcome as [returncode stderr| | |e].
    + apply list_bind; [|intros _; exact IH]. keeps_in_window.
    + keeps_in_window.
    + apply list_bind; [apply list_messagebox | intros _; exact IH].
    + apply list_raise.
Qed.

Lemma list_selected : keeps_list Gui.get_selected_repositories.
Proof. unfold Gui.get_selected_repositories. keeps_in_window. Qed.

Lemma list_work (E : env) (command verb gerund past : string) :
  quiet E -> keeps_list (Gui.work E command verb gerund past).
Proof.
  intros HQ. unfold Gui.work.
  apply list_bind; [apply list_selected|]. intros selected.
  destruct selected as [|p rest]; [apply list_messagebox|].
  apply list_bind; [now apply list_work_loop|]. intros finished. keeps_in_window.
Qed.

Lemma list_validate_dates : keeps_list Gui.validate_dates.
Proof. unfold Gui.validate_dates. cbv zeta. keeps_in_window. Qed.

Lemma list_tabulate (E : env) (asksaveasfilename : pystr) :
  quiet E -> keeps_list (Gui.tabulate_work E asksaveasfilename).
Proof.
  intros HQ. unfold Gui.tabulate_work.
  apply list_bind; [apply list_selected|]. intros selected.
  destruct selected as [|p rest]; [apply list_messagebox|].
  apply list_bind; [apply list_validate_dates|]. intros [[start_date end_date]|];
    [|apply list_ret].
  destruct asksaveasfilename as [|c output_file]; [apply list_ret|].
  apply list_bind; [now apply list_on_world, keeps_run_command|]. intros outcome.
  keeps_in_window.
Qed.

(** In the window nothing but its own methods changes the list in
    memory. *)
Lemma memory_ret (A : Type) (a : A) : keeps_memory (ret a).
Proof. now intros g. Qed.

Lemma memory_raise (A : Type) (e : exn) : keeps_memory (@raise Gui.gui A e).
Proof. now intros g. Qed.

Lemma memory_bind (A B : Type) (m : M Gui.gui A) (k : A -> M Gui.gui B) :
  keeps_memory m -> (forall a, keeps_memory (k a)) -> keeps_memory (bind m k).
Proof.
  intros Hm Hk g. unfold bind. specialize (Hm g).
  destruct (m g) as [[a|e] g']; cbn [snd] in *; [|exact Hm].
  now rewrite (Hk a g').
Qed.

Lemma memory_on_world (A : Type) (m : M world A) : keeps_memory (Gui.on_world m).
Proof. intros g. unfold Gui.on_world. now destruct (m (Gui.outside g)). Qed.

Lemma memory_list (A : Type) (m : M Gui.gui A) : keeps_list m -> keeps_memory m.
Proof. intros H g. apply H. Qed.

Ltac keeps_in_memory :=
  repeat first
         [ apply memory_ret | apply memory_raise | apply memory_on_world
         | apply memory_bind; [|intros ?]
         | match goal with
           | |- keeps_memory (if ?b then _ else _) => destruct b
           | |- keeps_memory (match ?x with _ => _ end) => destruct x
           end ].

Lemma memory_work_loop (E : env) (command verb gerund : string) (selected : list json) :
  keeps_memory (Gui.work_loop E command verb gerund selected).
Proof.
  induction selected as [|repo_path rest IH]; cbn [Gui.work_loop].
  - apply memory_ret.
  - apply memory_bind; [apply memory_on_world|]. intros outcome.
    destruct outcome as [returncode stderr| | |e].
    + apply memory_bind; [|intros _; exact IH]. unfold Gui.messagebox. keeps_in_memory.
    + unfold Gui.messagebox. keeps_in_memory.
    + apply memory_bind; [apply memory_on_world | intros _; exact IH].
    + apply memory_raise.
Qed.

Lemma memory_work (E : env) (command verb gerund past : string) :
  keeps_memory (Gui.work E command verb gerund past).
Proof.
  unfold Gui.work.
  apply memory_bind; [apply memory_list, list_selected|]. intros selected.
  destruct selected as [|p rest]; [apply memory_on_world|].
  apply memory_bind; [apply memory_work_loop|]. intros finished.
  unfold Gui.messagebox. keeps_in_memory.
Qed.

Lemma memory_tabulate (E : env) (asksaveasfilename : pystr) :
  keeps_memory (Gui.tabulate_work E asksaveasfilename).
Proof.
  unfold Gui.tabulate_work.
  apply memory_bind; [apply memory_list, list_selected|]. intros selected.
  destruct selected as [|p rest]; [apply memory_on_world|].
  apply memory_bind; [apply memory_list, list_validate_dates|].
  intros [[start_date end_date]|]; [|apply memory_ret].
  destruct asksaveasfilename as [|c output_file]; [apply memory_ret|].
  apply memory_bind; [apply memory_on_world|]. intros outcome.
  unfold Gui.messagebox. keeps_in_memory.
Qed.

(** X9: scanning a folder and listing the repositories never write the
    configuration file, and in the window the three work operations
    never change the list in memory, whatever the request and however the
    commands end.  The work operations write nothing to the
    configuration file themselves: when the commands they run leave that
    file alone, it is afterwards as it was. *)
Theorem work_and_scan_keep_the_file (E : env) :
  (forall req w,
      config (snd (Server.scan_repositories E req w)) = config w
      /\ config (snd (Server.get_repositories w)) = config w)
  /\ (forall asksaveasfilename,
         keeps_memory (Gui.start_work E) /\ keeps_memory (Gui.stop_work E)
         /\ keeps_memory (Gui.tabulate_work E asksaveasfilename))
  /\ (quiet E ->
      (forall req w,
          config (snd (Server.start_work E req w)) = config w
          /\ config (snd (Server.stop_work E req w)) = config w
          /\ config (snd (Server.tabulate_work E req w)) = config w)
      /\ (forall asksaveasfilename,
             keeps_list (Gui.start_work E) /\ keeps_list (Gui.stop_work E)
             /\ keeps_list (Gui.tabulate_work E asksaveasfilename))).
Proof.
  split; [|split].
  - intros req w. split; [apply keeps_scan | apply keeps_get].
  - intros ask. split; [apply memory_work|]. split; [apply memory_work | apply memory_tabulate].
  - intros HQ. split.
    + intros req w. split; [now apply keeps_work|].
      split; [now apply keeps_work | now apply keeps_tabulate].
    + intros ask. split; [now apply list_work|].
      split; [now apply list_work | now apply list_tabulate].
Qed.

Lemma work_and_scan_keep_the_file_witness :
  quiet Example.laptop
  /\ config (snd (Server.start_work Example.laptop Example.work_on_two
                                    (Gui.outside Example.after_add)))
     = config (Gui.outside Example.after_add).
Proof.
  assert (HQ : quiet Example.laptop) by (intros argv f; reflexivity).
  split; [exact HQ|].
  destruct (work_and_scan_keep_the_file Example.laptop) as (_ & _ & H).
  destruct (H HQ) as [Hserver _].
  exact (proj1 (Hserver Example.work_on_two (Gui.outside Example.after_add))).
Defined.

(** ** The listing of a scanned folder *)

Lemma str_leb_total (a b : pystr) : Server.str_leb a b = false -> Server.str_leb b a = true.
Proof.
  revert b. induction a as [|x a IH]; intros [|y b]; cbn [Server.str_leb]; try discriminate;
    try reflexivity.
  intros H. apply orb_false_iff in H as [H1 H2].
  apply Z.ltb_ge in H1.
  destruct (Z.eqb_spec x y) as [->|Hne].
  - cbn [andb] in H2. rewrite (IH b H2), Z.eqb_refl. apply orb_true_r.
  - assert (Hlt : (y <? x) = true) by (apply Z.ltb_lt; lia). now rewrite Hlt.
Qed.

Lemma insert_by_name_perm (x : pystr * pystr) (l : list (pystr * pystr)) :
  Permutation (Server.insert_by_name x l) (x :: l).
Proof.
  induction l as [|y l IH]; cbn [Server.insert_by_name]; [reflexivity|].
  destruct (Server.str_leb (fst y) (fst x)); [|reflexivity].
  rewrite IH. apply perm_swap.
Qed.

Lemma insert_by_name_head (x y : pystr * pystr) (l : list (pystr * pystr)) :
  by_name y x -> HdRel by_name y l -> HdRel by_name y (Server.insert_by_name x l).
Proof.
  intros Hyx Hl. destruct l as [|z l]; cbn [Server.insert_by_name].
  - now constructor.
  - destruct (Server.str_leb (fst z) (fst x)); constructor; [|exact Hyx].
    now inversion Hl.
Qed.

Lemma insert_by_name_sorted (x : pystr * pystr) (l : list (pystr * pystr)) :
  Sorted by_name l -> Sorted by_name (Server.insert_by_name x l).
Proof.
  induction l as [|y l IH]; intros Hl; cbn [Server.insert_by_name].
  - repeat constructor.
  - inversion Hl as [|? ? Hs Hh]; subst.
    destruct (Server.str_leb (fst y) (fst x)) eqn:E.
    + constructor; [now apply IH|]. now apply insert_by_name_head.
    + constructor; [exact Hl|]. constructor. now apply str_leb_total.
Qed.

Lemma sort_by_name_sorted_perm (l : list (pystr * pystr)) :
  Sorted by_name (Server.sort_by_name l) /\ Permutation (Server.sort_by_name l) l.
Proof.
  unfold Server.sort_by_name.
  assert (G : forall acc, Sorted by_name acc ->
                          Sorted by_name (fold_left (fun acc x => Server.insert_by_name x acc) l acc)
                          /\ Permutation
                               (fold_left (fun acc x => Server.insert_by_name x acc) l acc)
                               (acc ++ l)).
  { induction l as [|x l IH]; intros acc Hacc; cbn [fold_left].
    - split; [exact Hacc|]. now rewrite app_nil_r.
    - destruct (IH (Server.insert_by_name x acc) (insert_by_name_sorted x acc Hacc))
        as [Hs Hp].
      split; [exact Hs|]. rewrite Hp, insert_by_name_perm.
      apply (Permutation_middle acc l x). }
  destruct (G [] (Sorted_nil _)) as [Hs Hp]. now split.
Qed.

Lemma startswith_app (a s : pystr) : startswith (a ++ s) a = true.
Proof.
  induction a as [|c a IH]; cbn [app startswith]; [now destruct s|].
  now rewrite Z.eqb_refl, IH.
Qed.

(** X10: a folder whose absolute path extends the home path as a string
    (a directory under home, but also a sibling whose name starts like
    it) is listed once, and the answer holds, sorted by name, exactly the
    entries of the folder that are directories with a [.git] directory
    inside. *)
Theorem scan_lists_git_repositories (E : env) (req : Server.request)
        (d : list (pystr * json)) (raw suffix : pystr) (items : list pystr) (w : world) :
  Server.is_json req = true -> Server.request_json req = Ret (JObj d) ->
  dict_lookup (lit "folderPath") d = Some (JStr raw) -> strip raw <> [] ->
  let folder := abspath E (expanduser E (strip raw)) in
  folder = home E ++ suffix ->
  path_exists E folder = true -> isdir E folder = true -> listdir E folder = Some items ->
  exists repos,
    Server.scan_repositories E req w
    = (Ret (Server.jsonify
              (JObj [(lit "folderPath", JStr folder);
                     (lit "repositories",
                      JArr (map (fun r => JObj [(lit "name", JStr (fst r));
                                                (lit "path", JStr (snd r))]) repos))])
              200),
       logged w [EvListdir folder])
    /\ Sorted by_name repos
    /\ Permutation repos
                   (map (fun item => (item, path_join folder item))
                        (filter (fun item => isdir E (path_join folder item)
                                             && is_git E (path_join folder item)) items)).
Proof.
  intros Hj Hreq Hd Hne folder Hhome Hex Hdir Hls.
  assert (Hsw : startswith folder (home E) = true)
    by (rewrite Hhome; apply startswith_app).
  clear Hhome.
  destruct (sort_by_name_sorted_perm
              (map (fun item => (item, path_join folder item))
                   (filter (fun item => isdir E (path_join folder item)
                                        && is_git E (path_join folder item)) items)))
    as [Hs Hp].
  eexists. split; [|split; [exact Hs | exact Hp]].
  unfold Server.scan_repositories, try_except. rewrite Hj. cbn [negb].
  rewrite bind_lift, Hreq.
  assert (Ht : truthy (JObj d) = true) by (destruct d; [discriminate | reflexivity]).
  rewrite Ht. cbn [negb]. rewrite bind_lift. cbn [py_get]. unfold dict_get. rewrite Hd.
  rewrite bind_lift. cbn [py_strip]. subst folder.
  destruct (strip raw) as [|c s]; [now contradiction Hne|].
  cbv zeta. rewrite Hsw. cbn [negb].
  rewrite Hex, Hdir. cbn [negb]. unfold bind at 1. cbn [emit]. rewrite Hls. reflexivity.
Qed.

Lemma scan_lists_git_repositories_witness :
  (strip (lit "/home/u") <> [] /\ lit "/home/u" = home Cases.checkouts ++ []
   /\ listdir Cases.checkouts (lit "/home/u")
      = Some [lit "web"; lit "notes"; lit "api"; lit "todo.txt"])
  /\ exists repos,
      Server.scan_repositories Cases.checkouts (Example.scan (lit "/home/u"))
                               Example.fresh_world
      = (Ret (Server.jsonify
                (JObj [(lit "folderPath", JStr (lit "/home/u"));
                       (lit "repositories",
                        JArr (map (fun r => JObj [(lit "name", JStr (fst r));
                                                  (lit "path", JStr (snd r))]) repos))])
                200),
         logged Example.fresh_world [EvListdir (lit "/home/u")])
      /\ Sorted by_name repos
      /\ Permutation repos [(lit "web", lit "/home/u/web"); (lit "api", lit "/home/u/api")].
Proof.
  split; [split; [discriminate | split; reflexivity]|].
  exact (scan_lists_git_repositories
           Cases.checkouts (Example.scan (lit "/home/u"))
           [(lit "folderPath", JStr (lit "/home/u"))] (lit "/home/u") []
           [lit "web"; lit "notes"; lit "api"; lit "todo.txt"] Example.fresh_world
           eq_refl eq_refl eq_refl ltac:(discriminate) eq_refl eq_refl eq_refl eq_refl).
Defined.

(** ** What the work endpoints answer *)

Lemma server_work_loop_outcomes (E : env) (command : string) (paths : list pystr) :
  (command = "startWork" \/ command = "stopWork")%string ->
  forallb argument_ok paths = true -> forallb (ends E command) paths = true ->
  forall results errors w,
  exists w',
    Server.work_loop E command (map JStr paths) results errors w
    = (Ret (inr (results ++ map JStr (filter (succeeded E command) paths),
                 errors ++ flat_map (failure E command) paths)), w')
    /\ events w' = events w ++ map (fun p => EvRun [lit command; p] 30) paths.
Proof.
  intros Hc. induction paths as [|p paths IH]; intros Ha He results errors w.
  - exists w. cbn. now rewrite !app_nil_r.
  - cbn [forallb] in Ha, He. apply andb_true_iff in Ha as [Hp Ha].
    apply andb_true_iff in He as [Hep He].
    cbn [map Server.work_loop filter flat_map]. unfold bind at 1.
    rewrite (run_command_pair E command p w Hc Hp).
    set (w1 := after_run E [lit command; p] 30 w).
    assert (Hev : forall evs, events w1 ++ evs
                              = events w ++ EvRun [lit command; p] 30 :: evs)
      by (intros; cbn; now rewrite <- app_assoc).
    unfold succeeded at 1, failure at 1. unfold ends in Hep.
    destruct (run E [lit command; p]) as [rc stderr| | |e] eqn:Er; try discriminate.
    + destruct (rc =? 0); cbn [negb].
      * destruct (IH Ha He (results ++ [JStr p]) errors w1) as (w' & -> & Hevs).
        exists w'. split; [|now rewrite Hevs, Hev]. cbn [map app].
        now rewrite <- !app_assoc.
      * destruct (IH Ha He results (errors ++ [format (JStr p) ++ lit ": " ++ stderr]) w1)
          as (w' & -> & Hevs).
        exists w'. split; [|now rewrite Hevs, Hev]. cbn [format app].
        now rewrite <- !app_assoc.
    + destruct (IH Ha He results (errors ++ [format (JStr p) ++ lit ": Timeout"]) w1)
        as (w' & -> & Hevs).
      exists w'. split; [|now rewrite Hevs, Hev]. cbn [format app].
      now rewrite <- !app_assoc.
Qed.

Lemma outcomes_count (E : env) (command : string) (paths : list pystr) :
  forallb (ends E command) paths = true ->
  (List.length (filter (succeeded E command) paths)
   + List.length (flat_map (failure E command) paths) = List.length paths)%nat.
Proof.
  induction paths as [|p paths IH]; intros He; [reflexivity|].
  cbn [forallb] in He. apply andb_true_iff in He as [Hep He].
  specialize (IH He). cbn [filter flat_map]. rewrite length_app.
  unfold succeeded at 1, failure at 1. unfold ends in Hep.
  destruct (run E [lit command; p]) as [rc stderr| | |e]; try discriminate.
  - destruct (rc =? 0); cbn [List.length]; lia.
  - cbn [List.length]. lia.
Qed.

(** X11: when every path of the request can be passed as an argument and
    every run of the command ends with an exit code or a time-out,
    [start_work] and [stop_work] of the server run the command once for
    each repository, in order, and answer 200 with every repository
    accounted for once: the ones for which the command ended with exit
    code 0 under ['results'], in the order of the request and counted by
    ['success'], and one error for each of the others, its standard error
    or [Timeout]. *)
Theorem work_accounts_for_every_repository (E : env) (command : string)
        (paths : list pystr) :
  (command = "startWork" \/ command = "stopWork")%string ->
  paths <> [] ->
  forallb argument_ok paths = true -> forallb (ends E command) paths = true ->
  forall req d w,
    Server.request_json req = Ret (JObj d) ->
    dict_lookup (lit "repositories") d = Some (JArr (map JStr paths)) ->
    fst (Server.work E command req w)
    = Ret (Server.jsonify
             (JObj [(lit "success",
                     JInt (Z.of_nat (List.length (filter (succeeded E command) paths))));
                    (lit "errors", JArr (map JStr (flat_map (failure E command) paths)));
                    (lit "results", JArr (map JStr (filter (succeeded E command) paths)))])
             200)
    /\ events (snd (Server.work E command req w))
       = events w ++ map (fun p => EvRun [lit command; p] 30) paths
    /\ (List.length (filter (succeeded E command) paths)
        + List.length (flat_map (failure E command) paths) = List.length paths)%nat.
Proof.
  intros Hc Hne Ha He req d w Hreq Hd.
  assert (Heq : exists w',
             Server.work E command req w
             = (Ret (Server.jsonify
                       (JObj [(lit "success",
                               JInt (Z.of_nat
                                       (List.length (filter (succeeded E command) paths))));
                              (lit "errors",
                               JArr (map JStr (flat_map (failure E command) paths)));
                              (lit "results",
                               JArr (map JStr (filter (succeeded E command) paths)))])
                       200), w')
             /\ events w' = events w ++ map (fun p => EvRun [lit command; p] 30) paths).
  { unfold Server.work. rewrite bind_lift, Hreq. rewrite bind_lift. cbn [py_get].
    unfold dict_get. rewrite Hd.
    destruct paths as [|p paths]; [now contradiction Hne|].
    cbn [map truthy negb]. rewrite bind_lift. cbn [py_iter]. unfold bind at 1.
    change (JStr p :: map JStr paths) with (map JStr (p :: paths)).
    destruct (server_work_loop_outcomes E command (p :: paths) Hc Ha He [] [] w)
      as (w' & -> & Hev).
    exists w'. split; [|exact Hev]. cbn [app ret]. now rewrite length_map. }
  destruct Heq as (w' & -> & Hev). split; [reflexivity|]. split; [exact Hev|].
  now apply outcomes_count.
Qed.

Lemma work_accounts_for_every_repository_witness :
  (forallb argument_ok [Example.proj; Example.other] = true
   /\ forallb (ends Cases.one_fails "startWork") [Example.proj; Example.other] = true)
  /\ fst (Server.start_work Cases.one_fails Example.work_on_two Example.fresh_world)
     = Ret (Server.jsonify
              (JObj [(lit "success", JInt 1);
                     (lit "errors",
                      JArr [JStr (lit "/home/u/other: fatal: not a git repository")]);
                     (lit "results", JArr [JStr Example.proj])])
              200).
Proof.
  split; [split; reflexivity|].
  exact (proj1 (work_accounts_for_every_repository
                  Cases.one_fails "startWork" [Example.proj; Example.other]
                  (or_introl eq_refl) ltac:(discriminate) eq_refl eq_refl
                  Example.work_on_two
                  [(lit "repositories", JArr [JStr Example.proj; JStr Example.other])]
                  Example.fresh_world eq_refl eq_refl)).
Defined.

(** ** Dates *)

Lemma digit_value_range (c v : Z) :
  Datetime.digit_value c = Some v -> 48 <= c /\ 0 <= v <= 9.
Proof.
  unfold Datetime.digit_value.
  destruct (find (fun z => (z <=? c) && (c <? z + 10)) Datetime.digit_zeros) as [z|] eqn:F;
    [|discriminate].
  intros H. injection H as <-.
  apply find_some in F as [Hin Hz]. apply andb_true_iff in Hz as [H1 H2].
  apply Z.leb_le in H1. apply Z.ltb_lt in H2.
  assert (Hall : forallb (fun z => 48 <=? z) Datetime.digit_zeros = true) by reflexivity.
  rewrite forallb_forall in Hall. specialize (Hall z Hin). apply Z.leb_le in Hall. lia.
Qed.

Lemma in_range_bounds (lo hi c : Z) :
  Datetime.in_range lo hi c = true -> 48 + lo <= c <= 48 + hi.
Proof. unfold Datetime.in_range. intros H. apply andb_true_iff in H as [A B]. lia. Qed.

Lemma match_Y_range (s : pystr) (y : Z) (r : pystr) :
  Datetime.match_Y s = Some (y, r) ->
  0 <= y <= 9999 /\ exists a b c d, s = a :: b :: c :: d :: r /\ 48 <= a /\ 48 <= b
                                    /\ 48 <= c /\ 48 <= d.
Proof.
  unfold Datetime.match_Y. destruct s as [|a [|b [|c [|d r']]]]; try discriminate.
  destruct (Datetime.digit_value a) as [x|] eqn:A; [|discriminate].
  destruct (Datetime.digit_value b) as [y'|] eqn:B; [|discriminate].
  destruct (Datetime.digit_value c) as [z|] eqn:C; [|discriminate].
  destruct (Datetime.digit_value d) as [t|] eqn:D; [|discriminate].
  intros H. injection H as <- <-.
  apply digit_value_range in A, B, C, D. split; [lia|].
  exists a, b, c, d. repeat split; lia.
Qed.

Lemma match_m_range (s : pystr) (m : Z) (r : pystr) :
  Datetime.match_m s = Some (m, r) ->
  1 <= m <= 12 /\ exists pre, s = pre ++ r /\ forallb (fun c => 45 <=? c) pre = true.
Proof.
  unfold Datetime.match_m. destruct s as [|a r0]; [discriminate|].
  assert (Hone : match r0 with
                 | 45 :: r' => if Datetime.in_range 1 9 a then Some (a - 48, r') else None
                 | _ => None
                 end = Some (m, r) ->
                 1 <= m <= 12 /\ exists pre, a :: r0 = pre ++ r
                                             /\ forallb (fun c => 45 <=? c) pre = true).
  { destruct r0 as [|h r']; [discriminate|].
    destruct (Z.eqb_spec h 45) as [->|Hne].
    - destruct (Datetime.in_range 1 9 a) eqn:Ha; [|discriminate].
      intros H. injection H as <- <-. apply in_range_bounds in Ha.
      split; [lia|]. exists [a; 45]. split; [reflexivity|].
      cbn. replace (45 <=? a) with true by (symmetry; apply Z.leb_le; lia). reflexivity.
    - destruct h as [|h|h]; try discriminate.
      do 6 (destruct h as [h|h|]; try discriminate). now contradiction Hne. }
  destruct r0 as [|b [|h r']]; try exact Hone.
  destruct (Z.eqb_spec h 45) as [->|Hne].
  - destruct ((a =? 49) && Datetime.in_range 0 2 b) eqn:E1.
    { clear Hone. intros H.
      assert (Hm : Some (10 + (b - 48), r') = Some (m, r)) by exact H.
      clear H. assert (Hmr : m = 10 + (b - 48) /\ r = r') by (split; congruence).
      destruct Hmr as [-> ->]. clear Hm. apply andb_true_iff in E1 as [A B].
      apply Z.eqb_eq in A. apply in_range_bounds in B. subst a.
      split; [lia|]. exists [49; b; 45]. split; [reflexivity|].
      cbn. replace (45 <=? b) with true by (symmetry; apply Z.leb_le; lia). reflexivity. }
    destruct ((a =? 48) && Datetime.in_range 1 9 b) eqn:E2.
    { clear Hone. intros H.
      assert (Hm : Some (b - 48, r') = Some (m, r)) by exact H.
      clear H. assert (Hmr : m = b - 48 /\ r = r') by (split; congruence).
      destruct Hmr as [-> ->]. clear Hm. apply andb_true_iff in E2 as [A B].
      apply Z.eqb_eq in A. apply in_range_bounds in B. subst a.
      split; [lia|]. exists [48; b; 45]. split; [reflexivity|].
      cbn. replace (45 <=? b) with true by (symmetry; apply Z.leb_le; lia). reflexivity. }
    exact Hone.
  - assert (Hnone : match h :: r' with
                    | b0 :: 45 :: r'0 =>
                      if (a =? 49) && Datetime.in_range 0 2 b0 then Some (10 + (b0 - 48), r'0)
                      else if (a =? 48) && Datetime.in_range 1 9 b0 then Some (b0 - 48, r'0)
                           else None
                    | _ => None
                    end = None -> True) by auto.
    clear Hnone. revert Hone.
    destruct h as [|h|h]; try (intros Hone; exact Hone).
    do 6 (destruct h as [h|h|]; try (intros Hone; exact Hone)).
    now contradiction Hne.
Qed.

Lemma match_d_range (s : pystr) (d : Z) (r : pystr) :
  Datetime.match_d s = Some (d, r) ->
  1 <= d <= 31 /\ exists pre, s = pre ++ r /\ forallb (fun c => 32 <=? c) pre = true.
Proof.
  unfold Datetime.match_d. destruct s as [|a r0]; [discriminate|].
  assert (Hleb : forall c, 32 <= c -> (32 <=? c) = true) by (intros; now apply Z.leb_le).
  assert (Hone : forall rest, Datetime.in_range 1 9 a = true ->
                              1 <= a - 48 <= 31
                              /\ exists pre, a :: rest = pre ++ rest
                                             /\ forallb (fun c => 32 <=? c) pre = true).
  { intros rest Ha. apply in_range_bounds in Ha. split; [lia|].
    exists [a]. split; [reflexivity|]. cbn. rewrite Hleb by lia. reflexivity. }
  assert (Htwo : forall b rest v, 32 <= a -> 48 <= b -> 1 <= v <= 31 ->
                                  1 <= v <= 31
                                  /\ exists pre, a :: b :: rest = pre ++ rest
                                                 /\ forallb (fun c => 32 <=? c) pre = true).
  { intros b rest v Ha Hb Hv. split; [exact Hv|].
    exists [a; b]. split; [reflexivity|]. cbn. rewrite !Hleb by lia. reflexivity. }
  destruct r0 as [|b r'].
  - destruct (Datetime.in_range 1 9 a) eqn:Ha; [|discriminate].
    intros H. assert (Hdr : d = a - 48 /\ r = []) by (split; congruence).
    destruct Hdr as [-> ->]. now apply Hone.
  - destruct ((a =? 51) && Datetime.in_range 0 1 b) eqn:E1.
    { intros H. assert (Hdr : d = 30 + (b - 48) /\ r = r') by (split; congruence).
      destruct Hdr as [-> ->]. apply andb_true_iff in E1 as [A B].
      apply Z.eqb_eq in A. apply in_range_bounds in B. apply Htwo; lia. }
    destruct (Datetime.in_range 1 2 a) eqn:E2.
    { apply in_range_bounds in E2.
      destruct (Datetime.digit_value b) as [v|] eqn:Dv.
      - intros H. assert (Hdr : d = 10 * (a - 48) + v /\ r = r') by (split; congruence).
        destruct Hdr as [-> ->]. apply digit_value_range in Dv. apply Htwo; lia.
      - intros H. assert (Hdr : d = a - 48 /\ r = b :: r') by (split; congruence).
        destruct Hdr as [-> ->]. apply Hone. unfold Datetime.in_range.
        apply andb_true_iff. split; apply Z.leb_le; lia. }
    destruct ((a =? 48) && Datetime.in_range 1 9 b) eqn:E3.
    { intros H. assert (Hdr : d = b - 48 /\ r = r') by (split; congruence).
      destruct Hdr as [-> ->]. apply andb_true_iff in E3 as [A B].
      apply Z.eqb_eq in A. apply in_range_bounds in B. apply Htwo; lia. }
    destruct (Datetime.in_range 1 9 a) eqn:E4.
    { intros H. assert (Hdr : d = a - 48 /\ r = b :: r') by (split; congruence).
      destruct Hdr as [-> ->]. now apply Hone. }
    destruct ((a =? 32) && Datetime.in_range 1 9 b) eqn:E5; [|discriminate].
    intros H. assert (Hdr : d = b - 48 /\ r = r') by (split; congruence).
    destruct Hdr as [-> ->]. apply andb_true_iff in E5 as [A B].
    apply Z.eqb_eq in A. apply in_range_bounds in B. apply Htwo; lia.
Qed.

Lemma no_null_from (lo : Z) (s : pystr) :
  0 < lo -> forallb (fun c => lo <=? c) s = true -> no_null s = true.
Proof.
  intros Hlo H. unfold no_null. apply negb_true_iff.
  destruct (existsb (Z.eqb 0) s) eqn:Ex; [|reflexivity].
  apply existsb_exists in Ex as (c & Hc & Hz). apply Z.eqb_eq in Hz. subst c.
  rewrite forallb_forall in H. specialize (H 0 Hc). apply Z.leb_le in H. lia.
Qed.

Lemma no_null_app (a b : pystr) : no_null a = true -> no_null b = true -> no_null (a ++ b) = true.
Proof.
  unfold no_null. intros Ha Hb. rewrite existsb_app.
  apply negb_true_iff in Ha, Hb. now rewrite Ha, Hb.
Qed.

(** What [strptime] accepts is a day of the calendar, written without a
    null character. *)
Lemma strptime_sound (s : pystr) (y m d : Z) :
  Datetime.strptime s = Some (y, m, d) ->
  1 <= y <= 9999 /\ 1 <= m <= 12 /\ 1 <= d <= Datetime.days_in_month y m
  /\ no_null s = true.
Proof.
  unfold Datetime.strptime.
  destruct (Datetime.match_Y s) as [[y0 r0]|] eqn:EY; [|discriminate].
  destruct r0 as [|h r1]; [discriminate|].
  destruct (Z.eqb_spec h 45) as [->|Hne].
  2:{ destruct h as [|h|h]; try discriminate.
      do 6 (destruct h as [h|h|]; try discriminate). now contradiction Hne. }
  destruct (Datetime.match_m r1) as [[m0 r2]|] eqn:EM; [|discriminate].
  destruct (Datetime.match_d r2) as [[d0 r3]|] eqn:ED; [|discriminate].
  destruct r3; [|discriminate].
  destruct ((1 <=? y0) && (d0 <=? Datetime.days_in_month y0 m0)) eqn:Ec; [|discriminate].
  intros H. assert (Hy : y0 = y /\ m0 = m /\ d0 = d) by (repeat split; congruence).
  destruct Hy as (-> & -> & ->). clear H.
  apply andb_true_iff in Ec as [Hy1 Hd1]. apply Z.leb_le in Hy1, Hd1.
  apply match_Y_range in EY as (Hy & a & b & c & e & -> & Ha & Hb & Hc & He).
  apply match_m_range in EM as (Hm & pm & -> & Hpm).
  apply match_d_range in ED as (Hd & pd & -> & Hpd).
  split; [lia|]. split; [exact Hm|]. split; [lia|].
  rewrite app_nil_r.
  change (a :: b :: c :: e :: 45 :: pm ++ pd) with ([a; b; c; e; 45] ++ pm ++ pd).
  apply no_null_app; [|apply no_null_app].
  - apply (no_null_from 45); [lia|]. cbn.
    now rewrite !(proj2 (Z.leb_le _ _)) by lia.
  - now apply (no_null_from 45).
  - now apply (no_null_from 32).
Qed.

Lemma digit_value_ascii (k : Z) : 0 <= k <= 9 -> Datetime.digit_value (48 + k) = Some k.
Proof.
  intros Hk. unfold Datetime.digit_value, Datetime.digit_zeros. cbn [find].
  replace ((48 <=? 48 + k) && (48 + k <? 48 + 10)) with true
    by (symmetry; apply andb_true_iff; split; [apply Z.leb_le | apply Z.ltb_lt]; lia).
  f_equal. lia.
Qed.

Lemma match_Y_digits (y : Z) (r : pystr) :
  0 <= y <= 9999 ->
  Datetime.match_Y (48 + y / 1000 :: 48 + y / 100 mod 10 :: 48 + y / 10 mod 10
                       :: 48 + y mod 10 :: r)
  = Some (y, r).
Proof.
  intros Hy. unfold Datetime.match_Y.
  rewrite !digit_value_ascii by (Z.to_euclidean_division_equations; lia).
  do 2 f_equal. Z.to_euclidean_division_equations. lia.
Qed.

Lemma match_m_padded (m : Z) (r : pystr) :
  1 <= m <= 12 -> Datetime.match_m (48 + m / 10 :: 48 + m mod 10 :: 45 :: r) = Some (m, r).
Proof.
  intros Hm. destruct m as [|p|p]; try lia.
  repeat (destruct p as [p|p|]; try lia); reflexivity.
Qed.

Lemma match_m_plain (m d : Z) :
  1 <= m <= 12 -> 1 <= d <= 31 ->
  Datetime.match_m (plain m ++ 45 :: plain d) = Some (m, plain d).
Proof.
  intros Hm Hd. destruct m as [|p|p]; try lia. destruct d as [|q|q]; try lia.
  repeat (destruct p as [p|p|]; try lia);
    repeat (destruct q as [q|q|]; try lia); reflexivity.
Qed.

Lemma match_d_padded (d : Z) :
  1 <= d <= 31 -> Datetime.match_d [48 + d / 10; 48 + d mod 10] = Some (d, []).
Proof.
  intros Hd. destruct d as [|p|p]; try lia.
  repeat (destruct p as [p|p|]; try lia); reflexivity.
Qed.

Lemma match_d_plain (d : Z) : 1 <= d <= 31 -> Datetime.match_d (plain d) = Some (d, []).
Proof.
  intros Hd. destruct d as [|p|p]; try lia.
  repeat (destruct p as [p|p|]; try lia); reflexivity.
Qed.

Lemma days_in_month_bound (y m : Z) : Datetime.days_in_month y m <= 31.
Proof.
  unfold Datetime.days_in_month.
  destruct (m =? 2); [destruct (Datetime.is_leap y); lia|].
  destruct ((m =? 4) || (m =? 6) || (m =? 9) || (m =? 11)); lia.
Qed.

Lemma strptime_strftime (y m d : Z) :
  1 <= y <= 9999 -> 1 <= m <= 12 -> 1 <= d <= Datetime.days_in_month y m ->
  Datetime.strptime (Clock.strftime y m d) = Some (y, m, d).
Proof.
  intros Hy Hm Hd. pose proof (days_in_month_bound y m) as Hb.
  unfold Datetime.strptime, Clock.strftime.
  rewrite match_Y_digits by lia. rewrite match_m_padded by exact Hm.
  rewrite match_d_padded by lia.
  replace ((1 <=? y) && (d <=? Datetime.days_in_month y m)) with true
    by (symmetry; apply andb_true_iff; split; apply Z.leb_le; lia).
  reflexivity.
Qed.

Lemma strptime_unpadded (y m d : Z) :
  1 <= y <= 9999 -> 1 <= m <= 12 -> 1 <= d <= Datetime.days_in_month y m ->
  Datetime.strptime (unpadded y m d) = Some (y, m, d).
Proof.
  intros Hy Hm Hd. pose proof (days_in_month_bound y m) as Hb.
  unfold Datetime.strptime, unpadded. cbn [app].
  rewrite match_Y_digits by lia. rewrite match_m_plain by lia.
  rewrite match_d_plain by lia.
  replace ((1 <=? y) && (d <=? Datetime.days_in_month y m)) with true
    by (symmetry; apply andb_true_iff; split; apply Z.leb_le; lia).
  reflexivity.
Qed.

Lemma isspace_digit (c : Z) : 48 <= c <= 57 -> isspace c = false.
Proof.
  intros Hc. unfold isspace.
  repeat match goal with
         | |- context [?a <=? ?b] => destruct (Z.leb_spec a b); try lia
         | |- context [?a =? ?b] => destruct (Z.eqb_spec a b); try lia
         end.
  all: reflexivity.
Qed.

Lemma strip_strftime (y m d : Z) :
  1 <= y <= 9999 -> 1 <= d <= 31 -> strip (Clock.strftime y m d) = Clock.strftime y m d.
Proof.
  intros Hy Hd. unfold strip, rstrip, Clock.strftime.
  cbn [lstrip]. rewrite isspace_digit by (Z.to_euclidean_division_equations; lia).
  cbn [rev app lstrip]. rewrite isspace_digit by (Z.to_euclidean_division_equations; lia).
  reflexivity.
Qed.

Lemma init_dates (today : pystr) (w : world) :
  Gui.start_date_var (snd (Gui.init today w)) = today
  /\ Gui.end_date_var (snd (Gui.init today w)) = today.
Proof.
  unfold Gui.init. unfold bind.
  set (g0 := {| Gui.repositories := JArr []; Gui.repo_tree := [];
                Gui.start_date_var := today; Gui.end_date_var := today;
                Gui.outside := w |}).
  assert (Hload : exists r v, Gui.load_repositories g0 = (r, with_repositories g0 v)).
  { unfold Gui.load_repositories. rewrite bind_get.
    destruct (config (Gui.outside g0)) as [| |t|e0]; try (do 2 eexists; reflexivity).
    destruct (Json.loads t) as [data|]; [|do 2 eexists; reflexivity].
    rewrite bind_lift.
    destruct (py_get data "repositories" (JArr [])) as [v|e]; [do 2 eexists; reflexivity|].
    exists (Raise e), (JArr []). reflexivity. }
  destruct Hload as (r & v & ->).
  destruct r as [[]|e]; [|now split].
  destruct (update_repo_list_result (with_repositories g0 v)) as (res & rows & ->).
  now split.
Qed.

(** X12: the dates that pass the validation of [tabulate_work] are days
    of the calendar: a year from 1 to 9999, a month from 1 to 12 and a
    day that the month has in that year; the window checks its fields
    once stripped and hands on those stripped strings. *)
Theorem accepted_dates_are_calendar_dates :
  (forall s e, Server.dates_valid (JStr s) (JStr e) = Ret true ->
               calendar_date s /\ calendar_date e)
  /\ (forall g s e,
         fst (Gui.validate_dates g) = Ret (Some (s, e)) ->
         s = strip (Gui.start_date_var g) /\ e = strip (Gui.end_date_var g)
         /\ calendar_date s /\ calendar_date e).
Proof.
  assert (Hcal : forall s y m d, Datetime.strptime s = Some (y, m, d) -> calendar_date s).
  { intros s y m d H. exists y, m, d. split; [exact H|].
    apply strptime_sound in H as (Hy & Hm & Hd & _). now repeat split. }
  split.
  - intros s e. rewrite dates_valid_strings.
    destruct (Datetime.strptime s) as [[[y m] d]|] eqn:Es; [|discriminate].
    destruct (Datetime.strptime e) as [[[y' m'] d']|] eqn:Ee; [|discriminate].
    intros _. split; eapply Hcal; eassumption.
  - intros g s e. unfold Gui.validate_dates. rewrite bind_get.
    destruct (Datetime.strptime (strip (Gui.start_date_var g))) as [[[y m] d]|] eqn:Es;
      [|discriminate].
    destruct (Datetime.strptime (strip (Gui.end_date_var g))) as [[[y' m'] d']|] eqn:Ee;
      [|discriminate].
    cbn [ret fst]. intros H. assert (Hse : s = strip (Gui.start_date_var g)
                                           /\ e = strip (Gui.end_date_var g))
      by (split; congruence).
    destruct Hse as [-> ->]. repeat split; eapply Hcal; eassumption.
Qed.

Lemma accepted_dates_are_calendar_dates_witness :
  Server.dates_valid (JStr (lit "2024-02-29")) (JStr (lit "2024-3-1")) = Ret true
  /\ calendar_date (lit "2024-02-29") /\ calendar_date (lit "2024-3-1").
Proof.
  split; [reflexivity|].
  exact (proj1 accepted_dates_are_calendar_dates (lit "2024-02-29") (lit "2024-3-1") eq_refl).
Defined.

(** X13: [strptime] reads back the date [strftime] writes, so that a
    window that has just started passes its own validation with the two
    default dates; and a date typed without the leading zeros of month
    and day is accepted as well. *)
Theorem dates_with_or_without_padding (y m d : Z) :
  1000 <= y <= 9999 -> 1 <= m <= 12 -> 1 <= d <= Datetime.days_in_month y m ->
  Datetime.strptime (Clock.strftime y m d) = Some (y, m, d)
  /\ Datetime.strptime (unpadded y m d) = Some (y, m, d)
  /\ (forall w,
         Gui.validate_dates (snd (Gui.init (Clock.strftime y m d) w))
         = (Ret (Some (Clock.strftime y m d, Clock.strftime y m d)),
            snd (Gui.init (Clock.strftime y m d) w))).
Proof.
  intros Hy Hm Hd. pose proof (days_in_month_bound y m) as Hb.
  assert (Hp : Datetime.strptime (Clock.strftime y m d) = Some (y, m, d))
    by (apply strptime_strftime; lia).
  split; [exact Hp|]. split; [apply strptime_unpadded; lia|].
  intros w. destruct (init_dates (Clock.strftime y m d) w) as [Hs He].
  unfold Gui.validate_dates. rewrite bind_get, Hs, He.
  rewrite strip_strftime by lia. rewrite Hp. reflexivity.
Qed.

Lemma dates_with_or_without_padding_witness :
  (1000 <= 2024 <= 9999 /\ 1 <= 2 <= 12 /\ 1 <= 29 <= Datetime.days_in_month 2024 2)
  /\ Datetime.strptime (lit "2024-02-29") = Some (2024, 2, 29)
  /\ Datetime.strptime (lit "2024-2-29") = Some (2024, 2, 29).
Proof.
  assert (H : 1000 <= 2024 <= 9999 /\ 1 <= 2 <= 12
              /\ 1 <= 29 <= Datetime.days_in_month 2024 2)
    by (vm_compute; repeat split; discriminate).
  split; [exact H|].
  destruct H as (Hy & Hm & Hd).
  destruct (dates_with_or_without_padding 2024 2 29 Hy Hm Hd) as (H1 & H2 & _).
  split; [exact H1 | exact H2].
Defined.

(** ** Reports *)

Lemma fsencode_all_strings (args : list pystr) :
  forallb argument_ok args = true -> fsencode_all (map JStr args) = Ret args.
Proof.
  induction args as [|a args IH]; intros H; [reflexivity|].
  cbn [forallb] in H. apply andb_true_iff in H as [Ha Hargs].
  cbn [map fsencode_all].
  rewrite (proj1 (fsencode_argument a) Ha), (IH Hargs). reflexivity.
Qed.

Lemma run_command_strings (E : env) (args : list pystr) (timeout : Z) (w : world) :
  forallb argument_ok args = true ->
  run_command E (map JStr args) timeout w = (Ret (run E args), after_run E args timeout w).
Proof. intros H. apply run_command_args. now apply fsencode_all_strings. Qed.

(** X14: without a selection nothing is run.  The server answers 400 [No
    repositories selected] to a request of [start_work], [stop_work] or
    [tabulate_work] whose ['repositories'] is missing or empty, and leaves
    the world as it was; the window, with no entry selected, shows one
    warning and does nothing else. *)
Theorem nothing_selected_nothing_run (E : env) :
  (forall req d w,
      Server.request_json req = Ret (JObj d) ->
      truthy (dict_get (lit "repositories") (JArr []) d) = false ->
      Server.start_work E req w = (Ret (Server.error (lit "No repositories selected") 400), w)
      /\ Server.stop_work E req w = (Ret (Server.error (lit "No repositories selected") 400), w)
      /\ Server.tabulate_work E req w
         = (Ret (Server.error (lit "No repositories selected") 400), w))
  /\ (forall g asksaveasfilename,
         selected_are g [] ->
         Gui.start_work E g
         = Gui.messagebox showwarning "Warning" (lit "Please select at least one repository.") g
         /\ Gui.stop_work E g
            = Gui.messagebox showwarning "Warning"
                             (lit "Please select at least one repository.") g
         /\ Gui.tabulate_work E asksaveasfilename g
            = Gui.messagebox showwarning "Warning"
                             (lit "Please select at least one repository.") g).
Proof.
  split.
  - intros req d w Hreq Hd.
    assert (Hwork : forall command,
               Server.work E command req w
               = (Ret (Server.error (lit "No repositories selected") 400), w)).
    { intros command. unfold Server.work. rewrite bind_lift, Hreq. rewrite bind_lift.
      cbn [py_get]. now rewrite Hd. }
    split; [apply Hwork|]. split; [apply Hwork|].
    unfold Server.tabulate_work. rewrite bind_lift, Hreq. rewrite !bind_lift.
    cbn [py_get]. rewrite !bind_lift. now rewrite Hd.
  - intros g ask Hsel.
    assert (Hwork : forall command verb gerund past,
               Gui.work E command verb gerund past g
               = Gui.messagebox showwarning "Warning"
                                (lit "Please select at least one repository.") g).
    { intros. unfold Gui.work. unfold bind at 1. now rewrite Hsel. }
    split; [apply Hwork|]. split; [apply Hwork|].
    unfold Gui.tabulate_work. unfold bind at 1. now rewrite Hsel.
Qed.

Lemma nothing_selected_nothing_run_witness :
  (Server.request_json (Example.post (JObj [(lit "repositories", JArr [])]))
   = Ret (JObj [(lit "repositories", JArr [])])
   /\ selected_are Example.fresh_gui [])
  /\ Server.start_work Example.bare (Example.post (JObj [(lit "repositories", JArr [])]))
                       Example.fresh_world
     = (Ret (Server.error (lit "No repositories selected") 400), Example.fresh_world)
  /\ Gui.start_work Example.bare Example.fresh_gui
     = Gui.messagebox showwarning "Warning" (lit "Please select at least one repository.")
                      Example.fresh_gui.
Proof.
  split; [split; reflexivity|].
  destruct (nothing_selected_nothing_run Example.bare) as [Hserver Hgui].
  split.
  - exact (proj1 (Hserver (Example.post (JObj [(lit "repositories", JArr [])]))
                         [(lit "repositories", JArr [])] Example.fresh_world
                         eq_refl eq_refl)).
  - exact (proj1 (Hgui Example.fresh_gui [] eq_refl)).
Defined.

(** X15: with repositories, two dates that parse, an output file and
    arguments that can all be passed to a command, [tabulate_work] calls
    [subprocess.run] once, with
    [tabulateWork -o <file> <start> <end> <repositories...>] and a
    time-out of 60 seconds.  The server makes the file name absolute and
    answers 200 when the exit code is 0, 500 with the standard error for
    another exit code, and 500 as well when the command is not found or
    times out; the window passes the file name as the dialog gave it and
    the dates as typed, stripped, and shows one dialog for each of these
    outcomes.  Any other exception of [subprocess.run] is not caught: it
    leaves the handler, and the window shows no dialog. *)
Theorem tabulate_runs_one_command (E : env) (s e out : pystr) (paths : list pystr) :
  Datetime.strptime s <> None -> Datetime.strptime e <> None ->
  out <> [] -> paths <> [] ->
  (forall req d w,
      Server.request_json req = Ret (JObj d) ->
      dict_lookup (lit "repositories") d = Some (JArr (map JStr paths)) ->
      dict_lookup (lit "startDate") d = Some (JStr s) ->
      dict_lookup (lit "endDate") d = Some (JStr e) ->
      dict_lookup (lit "outputFile") d = Some (JStr out) ->
      let file := abspath E (expanduser E out) in
      let argv := [lit "tabulateWork"; lit "-o"; file; s; e] ++ paths in
      forallb argument_ok argv = true ->
      exists answer,
        Server.tabulate_work E req w = (answer, after_run E argv 60 w)
        /\ (forall stderr,
               run E argv = Completed 0 stderr ->
               answer
               = Ret (Server.jsonify
                        (JObj [(lit "success", JBool true);
                               (lit "outputFile", JStr file);
                               (lit "message", JStr (lit "Work report saved to " ++ file))])
                        200))
        /\ (forall returncode stderr,
               run E argv = Completed returncode stderr -> returncode <> 0 ->
               answer
               = Ret (Server.error (lit "Failed to generate work report: " ++ stderr) 500))
        /\ (run E argv = FileNotFound ->
            answer = Ret (Server.error (Server.not_found "tabulateWork") 500))
        /\ (run E argv = TimeoutExpired ->
            answer = Ret (Server.error (lit "Timeout generating work report") 500))
        /\ (forall x, run E argv = Failed x -> answer = Raise x))
  /\ (forall g,
         selected_are g paths ->
         strip (Gui.start_date_var g) = s -> strip (Gui.end_date_var g) = e ->
         let argv := [lit "tabulateWork"; lit "-o"; out; s; e] ++ paths in
         forallb argument_ok argv = true ->
         exists outcome shown,
           Gui.tabulate_work E out g
           = (outcome,
              with_outside g (logged (after_run E argv 60 (Gui.outside g)) shown))
           /\ (forall stderr,
                  run E argv = Completed 0 stderr ->
                  outcome = Ret tt
                  /\ shown = [EvDialog showinfo (lit "Success")
                                       (lit "Work report saved to " ++ out)])
           /\ (forall returncode stderr,
                  run E argv = Completed returncode stderr -> returncode <> 0 ->
                  outcome = Ret tt
                  /\ shown = [EvDialog showerror (lit "Error")
                                       (lit "Failed to generate work report:"
                                            ++ [10] ++ stderr)])
           /\ (run E argv = FileNotFound ->
               outcome = Ret tt
               /\ shown = [EvDialog showerror (lit "Error") (Gui.not_found "tabulateWork")])
           /\ (run E argv = TimeoutExpired ->
               outcome = Ret tt
               /\ shown = [EvDialog showerror (lit "Error")
                                    (lit "Timeout generating work report")])
           /\ (forall x, run E argv = Failed x -> outcome = Raise x /\ shown = [])).
Proof.
  intros Hs He Hout Hne.
  destruct (Datetime.strptime s) as [[[y m] d0]|] eqn:Es; [|now contradiction Hs].
  destruct (Datetime.strptime e) as [[[y' m'] d1]|] eqn:Ee; [|now contradiction He].
  split.
  - intros req d w Hreq Hrep Hsd Hed Hof file argv Hargs.
    assert (Hrun : Server.tabulate_work E req w
                   = (outcome <- run_command E (map JStr argv) 60 ;;
                      match outcome with
                      | Completed returncode stderr =>
                        if negb (returncode =? 0)
                        then ret (Server.error (lit "Failed to generate work report: "
                                                    ++ stderr) 500)
                        else ret (Server.jsonify
                                    (JObj [(lit "success", JBool true);
                                           (lit "outputFile", JStr file);
                                           (lit "message",
                                            JStr (lit "Work report saved to " ++ file))]) 200)
                      | FileNotFound => ret (Server.error (Server.not_found "tabulateWork") 500)
                      | TimeoutExpired =>
                        ret (Server.error (lit "Timeout generating work report") 500)
                      | Failed x => raise x
                      end) w).
    { unfold Server.tabulate_work. rewrite bind_lift, Hreq. rewrite !bind_lift.
      cbn [py_get]. rewrite !bind_lift. unfold dict_get. rewrite Hrep, Hsd, Hed, Hof.
      destruct paths as [|p paths]; [now contradiction Hne|].
      destruct s as [|c s]; [discriminate|]. destruct e as [|c' e]; [discriminate|].
      destruct out as [|c'' out]; [now contradiction Hout|].
      cbn [map truthy negb orb]. rewrite bind_lift, dates_valid_strings, Es, Ee.
      cbn [negb]. rewrite bind_lift. cbn [py_fspath]. rewrite bind_lift.
      cbn [Server.list_concat]. reflexivity. }
    rewrite Hrun. unfold bind at 1. rewrite (run_command_strings E argv 60 w Hargs).
    destruct (run E argv) as [rc stderr| | |x] eqn:Er.
    + destruct (Z.eqb_spec rc 0) as [->|Hrc]; cbn [negb].
      * eexists. split; [reflexivity|]. split; [reflexivity|].
        split; [intros rc' stderr' H Hrc'; congruence|].
        repeat split; intros; discriminate.
      * eexists. split; [reflexivity|]. split; [intros stderr' H; congruence|].
        split; [intros rc' stderr' H _; congruence|].
        repeat split; intros; discriminate.
    + eexists. split; [reflexivity|]. split; [intros; discriminate|].
      split; [intros; discriminate|]. split; [reflexivity|].
      split; intros; discriminate.
    + eexists. split; [reflexivity|]. split; [intros; discriminate|].
      split; [intros; discriminate|]. split; [intros; discriminate|].
      split; [reflexivity | intros; discriminate].
    + eexists. split; [reflexivity|]. split; [intros; discriminate|].
      split; [intros; discriminate|]. split; [intros; discriminate|].
      split; [intros; discriminate | intros x' H; congruence].
  - intros g Hsel Hsd Hed argv Hargs.
    assert (Hv : Gui.validate_dates g = (Ret (Some (s, e)), g)).
    { unfold Gui.validate_dates. rewrite bind_get, Hsd, Hed, Es, Ee. reflexivity. }
    set (w1 := after_run E argv 60 (Gui.outside g)).
    assert (Hrun : Gui.on_world (run_command E (map JStr argv) 60) g
                   = (Ret (run E argv), with_outside g w1)).
    { unfold Gui.on_world. now rewrite (run_command_strings E argv 60 _ Hargs). }
    assert (Hbox : forall kind title message,
               Gui.messagebox kind title message (with_outside g w1)
               = (Ret tt, with_outside g (logged w1 [EvDialog kind (lit title) message])))
      by reflexivity.
    assert (Hnone : with_outside g w1 = with_outside g (logged w1 [])).
    { unfold logged. rewrite app_nil_r. now destruct w1. }
    assert (Heq : Gui.tabulate_work E out g
                  = (outcome <- Gui.on_world (run_command E (map JStr argv) 60) ;;
                     match outcome with
                     | Completed returncode stderr =>
                       if negb (returncode =? 0)
                       then Gui.messagebox showerror "Error"
                                           (lit "Failed to generate work report:"
                                                ++ [10] ++ stderr)
                       else Gui.messagebox showinfo "Success"
                                           (lit "Work report saved to " ++ out)
                     | FileNotFound =>
                       Gui.messagebox showerror "Error" (Gui.not_found "tabulateWork")
                     | TimeoutExpired =>
                       Gui.messagebox showerror "Error" (lit "Timeout generating work report")
                     | Failed x => raise x
                     end) g).
    { unfold Gui.tabulate_work. unfold bind at 1. rewrite Hsel.
      destruct paths as [|p paths]; [now contradiction Hne|]. cbn [map].
      unfold bind at 1. rewrite Hv.
      destruct out as [|c out]; [now contradiction Hout|]. reflexivity. }
    rewrite Heq. unfold bind at 1. rewrite Hrun.
    destruct (run E argv) as [rc stderr| | |x] eqn:Er.
    + destruct (Z.eqb_spec rc 0) as [->|Hrc]; cbn [negb]; rewrite Hbox.
      * do 2 eexists. split; [reflexivity|].
        split; [intros stderr' H; split; [reflexivity|]; congruence|].
        split; [intros rc' stderr' H Hrc'; congruence|].
        repeat split; intros; discriminate.
      * do 2 eexists. split; [reflexivity|]. split; [intros stderr' H; congruence|].
        split; [intros rc' stderr' H _; split; [reflexivity|]; congruence|].
        repeat split; intros; discriminate.
    + rewrite Hbox. do 2 eexists. split; [reflexivity|]. split; [intros; discriminate|].
      split; [intros; discriminate|]. split; [intros _; split; reflexivity|].
      split; intros; discriminate.
    + rewrite Hbox. do 2 eexists. split; [reflexivity|]. split; [intros; discriminate|].
      split; [intros; discriminate|]. split; [intros; discriminate|].
      split; [intros _; split; reflexivity | intros; discriminate].
    + exists (Raise x), []. split; [unfold raise; now rewrite <- Hnone|].
      split; [intros; discriminate|]. split; [intros; discriminate|].
      split; [intros; discriminate|]. split; [intros; discriminate|].
      intros x' H. split; [congruence | reflexivity].
Qed.

Lemma tabulate_runs_one_command_witness :
  (Datetime.strptime (lit "2024-01-01") <> None /\ Datetime.strptime (lit "2024-01-31") <> None
   /\ forallb argument_ok [lit "tabulateWork"; lit "-o"; lit "/home/u/report.csv";
                           lit "2024-01-01"; lit "2024-01-31"; Example.proj] = true)
  /\ Server.tabulate_work Example.laptop (Example.tabulate_from (lit "2024-01-01"))
                          Example.fresh_world
     = (Ret (Server.jsonify
               (JObj [(lit "success", JBool true);
                      (lit "outputFile", JStr (lit "/home/u/report.csv"));
                      (lit "message",
                       JStr (lit "Work report saved to /home/u/report.csv"))])
               200),
        logged Example.fresh_world
               [EvRun [lit "tabulateWork"; lit "-o"; lit "/home/u/report.csv";
                       lit "2024-01-01"; lit "2024-01-31"; Example.proj] 60]).
Proof.
  split; [split; [discriminate | split; [discriminate | reflexivity]]|].
  destruct (tabulate_runs_one_command
              Example.laptop (lit "2024-01-01") (lit "2024-01-31") (lit "/home/u/report.csv")
              [Example.proj] ltac:(discriminate) ltac:(discriminate) ltac:(discriminate)
              ltac:(discriminate))
    as [Hserver _].
  destruct (Hserver (Example.tabulate_from (lit "2024-01-01"))
                    [(lit "repositories", JArr [JStr Example.proj]);
                     (lit "startDate", JStr (lit "2024-01-01"));
                     (lit "endDate", JStr (lit "2024-01-31"));
                     (lit "outputFile", JStr (lit "/home/u/report.csv"))]
                    Example.fresh_world eq_refl eq_refl eq_refl eq_refl eq_refl eq_refl)
    as (answer & Heq & Hok & _).
  rewrite Heq, (Hok [] eq_refl). reflexivity.
Defined.

(** X16: with repositories and two dates that parse but no output file,
    nothing is run: the server answers 400 [Output file is required], and
    the window, when the file dialog is cancelled, does nothing at all. *)
Theorem no_output_file_no_report (E : env) (s e : pystr) :
  Datetime.strptime s <> None -> Datetime.strptime e <> None ->
  (forall req d w,
      Server.request_json req = Ret (JObj d) ->
      truthy (dict_get (lit "repositories") (JArr []) d) = true ->
      dict_lookup (lit "startDate") d = Some (JStr s) ->
      dict_lookup (lit "endDate") d = Some (JStr e) ->
      truthy (dict_get (lit "outputFile") (JStr []) d) = false ->
      Server.tabulate_work E req w
      = (Ret (Server.error (lit "Output file is required") 400), w))
  /\ (forall (g : Gui.gui) (paths : list pystr),
         selected_are g paths -> paths <> [] ->
         strip (Gui.start_date_var g) = s -> strip (Gui.end_date_var g) = e ->
         Gui.tabulate_work E [] g = (Ret tt, g)).
Proof.
  intros Hs He.
  destruct (Datetime.strptime s) as [[[y m] d0]|] eqn:Es; [|now contradiction Hs].
  destruct (Datetime.strptime e) as [[[y' m'] d1]|] eqn:Ee; [|now contradiction He].
  split.
  - intros req d w Hreq Hrep Hsd Hed Hof.
    unfold Server.tabulate_work. rewrite bind_lift, Hreq. rewrite !bind_lift.
    cbn [py_get]. rewrite !bind_lift. rewrite Hrep. cbn [negb].
    assert (Hsd' : dict_get (lit "startDate") (JStr []) d = JStr s)
      by (unfold dict_get; now rewrite Hsd).
    assert (Hed' : dict_get (lit "endDate") (JStr []) d = JStr e)
      by (unfold dict_get; now rewrite Hed).
    rewrite Hsd', Hed'.
    destruct s as [|c s]; [discriminate|]. destruct e as [|c' e]; [discriminate|].
    cbn [truthy negb orb]. rewrite bind_lift, dates_valid_strings, Es, Ee.
    cbn [negb]. now rewrite Hof.
  - intros g paths Hsel Hne Hsd Hed.
    unfold Gui.tabulate_work. unfold bind at 1. rewrite Hsel.
    destruct paths as [|p paths]; [now contradiction Hne|]. cbn [map].
    unfold bind at 1. unfold Gui.validate_dates. rewrite bind_get, Hsd, Hed, Es, Ee.
    reflexivity.
Qed.

Lemma no_output_file_no_report_witness :
  (Datetime.strptime (lit "2024-01-01") <> None /\ Datetime.strptime (lit "2024-01-31") <> None
   /\ selected_are Example.two_selected [Example.proj; Example.other])
  /\ Gui.tabulate_work Example.laptop [] Example.two_selected
     = (Ret tt, Example.two_selected).
Proof.
  split; [split; [discriminate | split; [discriminate | reflexivity]]|].
  destruct (no_output_file_no_report Example.laptop (lit "2024-01-01") (lit "2024-01-31")
                                     ltac:(discriminate) ltac:(discriminate))
    as [_ Hgui].
  apply (Hgui Example.two_selected [Example.proj; Example.other]);
    [reflexivity | discriminate | reflexivity | reflexivity].
Defined.

(** ** The window and its list *)

Lemma entry_paths_schema (l : list entry) :
  entry_paths (map entry_json l) = Some (map entry_path l).
Proof.
  induction l as [|e l IH]; [reflexivity|].
  cbn [map]. apply (entry_paths_cons_intro _ _ (entry_path e)); [reflexivity | exact IH].
Qed.

Lemma tree_rows_schema (l : list entry) : Gui.tree_rows (map entry_json l) = (rows_of l, None).
Proof.
  induction l as [|e l IH]; [reflexivity|].
  cbn [map Gui.tree_rows rows_of]. unfold entry_json at 1.
  cbn [py_get py_getitem and_then]. unfold dict_get. cbn [dict_lookup].
  replace (str_eqb (lit "path") (lit "selected")) with false by reflexivity.
  replace (str_eqb (lit "selected") (lit "selected")) with true by reflexivity.
  replace (str_eqb (lit "path") (lit "path")) with true by reflexivity.
  cbn [and_then truthy]. rewrite IH. reflexivity.
Qed.

Lemma mark_all_schema (v : bool) (l : list entry) :
  Gui.mark_all v (map entry_json l) = (map entry_json (set_all v l), None).
Proof.
  induction l as [|e l IH]; [reflexivity|].
  cbn [map Gui.mark_all set_all]. unfold entry_json at 1. cbn [py_setitem].
  fold (set_all v l). rewrite IH. reflexivity.
Qed.

Lemma selected_paths_schema (l : list entry) :
  Gui.selected_paths (map entry_json l)
  = Ret (map JStr (map entry_path (filter entry_selected l))).
Proof.
  induction l as [|e l IH]; [reflexivity|].
  cbn [map Gui.selected_paths filter]. unfold entry_json at 1.
  cbn [py_get and_then]. unfold dict_get. cbn [dict_lookup].
  replace (str_eqb (lit "path") (lit "selected")) with false by reflexivity.
  replace (str_eqb (lit "selected") (lit "selected")) with true by reflexivity.
  cbn [truthy]. destruct (entry_selected e).
  - unfold entry_json at 1. cbn [py_getitem dict_lookup].
    replace (str_eqb (lit "path") (lit "path")) with true by reflexivity.
    cbn [and_then]. rewrite IH. reflexivity.
  - exact IH.
Qed.

Lemma filter_set_all (v : bool) (l : list entry) :
  map entry_path (filter entry_selected (set_all v l)) = if v then map entry_path l else [].
Proof.
  induction l as [|e l IH]; [now destruct v|].
  cbn [set_all map filter entry_selected]. fold (set_all v l).
  destruct v; cbn [map entry_path]; [now rewrite IH | exact IH].
Qed.

Lemma selected_are_showing (g : Gui.gui) (l : list entry) (w : world) :
  selected_are (showing g l w) (map entry_path (filter entry_selected l)).
Proof.
  unfold selected_are, Gui.get_selected_repositories. rewrite bind_get, bind_lift.
  cbn [showing Gui.repositories schema_list py_iter]. unfold lift.
  now rewrite selected_paths_schema.
Qed.

Lemma save_then_update_schema (E : env) (g : Gui.gui) (l : list entry) :
  write_error E = None -> Gui.repositories g = schema_list l ->
  (Gui.save_repositories E ;;; Gui.update_repo_list) g
  = (Ret tt, showing g l (written (Gui.outside g) (schema_list l))).
Proof.
  intros Hw Hm. unfold bind at 1. rewrite (gui_save_written E g Hw).
  rewrite (update_repo_list_rows _ (map entry_json l) (rows_of l));
    [|exact Hm | apply tree_rows_schema].
  unfold showing, with_tree, with_outside. cbn [Gui.repositories Gui.repo_tree
    Gui.start_date_var Gui.end_date_var Gui.outside]. now rewrite Hm.
Qed.

(** X17: [select_all] marks every entry of the list and [deselect_all]
    unmarks every entry; paths and order stay, the new list is written to
    the file and shown in the tree.  After [select_all] the selected
    repositories are all the paths of the list, after [deselect_all]
    there is none. *)
Theorem select_all_marks_every_entry (E : env) (g : Gui.gui) (l : list entry) :
  write_error E = None -> Gui.repositories g = schema_list l ->
  Gui.select_all E g
  = (Ret tt, showing g (set_all true l)
                     (written (Gui.outside g) (schema_list (set_all true l))))
  /\ Gui.deselect_all E g
     = (Ret tt, showing g (set_all false l)
                        (written (Gui.outside g) (schema_list (set_all false l))))
  /\ selected_are (snd (Gui.select_all E g)) (map entry_path l)
  /\ selected_are (snd (Gui.deselect_all E g)) [].
Proof.
  intros Hw Hm.
  assert (Hsel : forall v,
             Gui.select E v g
             = (Ret tt, showing g (set_all v l)
                                (written (Gui.outside g) (schema_list (set_all v l))))).
  { intros v. unfold Gui.select. rewrite bind_get, bind_lift, Hm.
    cbn [schema_list py_iter]. rewrite mark_all_schema.
    unfold Gui.store_items. rewrite bind_assoc, bind_get, Hm.
    cbn [schema_list]. rewrite bind_set_repositories.
    rewrite (save_then_update_schema E _ (set_all v l) Hw) by reflexivity.
    reflexivity. }
  unfold Gui.select_all, Gui.deselect_all. rewrite !Hsel. cbn [snd].
  split; [reflexivity|]. split; [reflexivity|]. split.
  - pose proof (selected_are_showing
                  g (set_all true l)
                  (written (Gui.outside g) (schema_list (set_all true l)))) as H.
    now rewrite filter_set_all in H.
  - pose proof (selected_are_showing
                  g (set_all false l)
                  (written (Gui.outside g) (schema_list (set_all false l)))) as H.
    now rewrite filter_set_all in H.
Qed.

Lemma select_all_marks_every_entry_witness :
  (write_error Example.laptop = None
   /\ Gui.repositories Example.two_selected = schema_list Cases.two_entries)
  /\ selected_are (snd (Gui.select_all Example.laptop Example.two_selected))
                  [Example.proj; Example.other]
  /\ selected_are (snd (Gui.deselect_all Example.laptop Example.two_selected)) [].
Proof.
  split; [split; reflexivity|].
  destruct (select_all_marks_every_entry Example.laptop Example.two_selected
                                         Cases.two_entries eq_refl eq_refl)
    as (_ & _ & Hall & Hnone).
  split; [exact Hall | exact Hnone].
Defined.

Lemma set_selected_schema (v : bool) (l : list entry) :
  NoDup (map entry_path l) ->
  forall i e, nth_error l i = Some e ->
              Gui.set_selected (JStr (entry_path e)) v (map entry_json l)
              = (map entry_json (set_at i v l), None).
Proof.
  induction l as [|e0 l IH]; intros Hnd i e Hi; [now destruct i|].
  inversion Hnd as [|? ? Hnew Hnd']; subst.
  cbn [map Gui.set_selected]. unfold entry_json at 1. cbn [py_getitem dict_lookup].
  replace (str_eqb (lit "path") (lit "path")) with true by reflexivity.
  cbn [py_eq]. destruct i as [|i]; cbn [nth_error] in Hi.
  - injection Hi as <-. rewrite str_eqb_refl. reflexivity.
  - replace (str_eqb (entry_path e0) (entry_path e)) with false.
    + rewrite (IH Hnd' i e Hi). reflexivity.
    + symmetry. apply str_eqb_neq. intros Heq. apply Hnew. rewrite Heq.
      apply in_map. now apply nth_error_In with i.
Qed.

Lemma replace_row_schema (v : bool) (l : list entry) :
  forall i e, nth_error l i = Some e ->
              Gui.replace_row i (v, JStr (entry_path e)) (rows_of l) = rows_of (set_at i v l).
Proof.
  induction l as [|e0 l IH]; intros i e Hi; [now destruct i|].
  destruct i as [|i]; cbn [nth_error] in Hi.
  - now injection Hi as <-.
  - cbn [rows_of map Gui.replace_row set_at]. f_equal. now apply IH.
Qed.

Lemma set_at_paths (i : nat) (v : bool) (l : list entry) :
  map entry_path (set_at i v l) = map entry_path l.
Proof.
  revert i. induction l as [|e l IH]; intros i; [now destruct i|].
  destruct i as [|i]; cbn [set_at map]; [reflexivity|]. now rewrite IH.
Qed.

Lemma set_at_nth (i : nat) (v : bool) (l : list entry) (e : entry) :
  nth_error l i = Some e ->
  nth_error (set_at i v l) i = Some {| entry_path := entry_path e; entry_selected := v |}.
Proof.
  revert i. induction l as [|e0 l IH]; intros i Hi; [now destruct i|].
  destruct i as [|i]; cbn [nth_error set_at] in *; [now injection Hi as <-|]. now apply IH.
Qed.

Lemma set_at_back (i : nat) (v : bool) (l : list entry) (e : entry) :
  nth_error l i = Some e -> set_at i (entry_selected e) (set_at i v l) = l.
Proof.
  revert i. induction l as [|e0 l IH]; intros i Hi; [now destruct i|].
  destruct i as [|i]; cbn [nth_error set_at] in *.
  - injection Hi as <-. now destruct e0.
  - f_equal. now apply IH.
Qed.

Lemma click_schema (E : env) (g : Gui.gui) (l : list entry) (i : nat) (e : entry) :
  write_error E = None -> shows g l -> NoDup (map entry_path l) -> nth_error l i = Some e ->
  Gui.on_tree_click E (lit "cell") (Some i) (lit "#1") g
  = (Ret tt, showing g (set_at i (negb (entry_selected e)) l)
                     (written (Gui.outside g)
                              (schema_list (set_at i (negb (entry_selected e)) l)))).
Proof.
  intros Hw [Hm Ht] Hnd Hi. unfold Gui.on_tree_click.
  replace (str_eqb (lit "cell") (lit "cell")) with true by reflexivity.
  replace (str_eqb (lit "#1") (lit "#1")) with true by reflexivity.
  rewrite bind_get, Ht. unfold rows_of at 1. rewrite (map_nth_error _ _ _ Hi).
  fold (rows_of l). rewrite (replace_row_schema _ l i e Hi).
  unfold bind at 1. cbn [Gui.set_tree]. rewrite bind_lift. cbn [Gui.repositories].
  rewrite Hm. cbn [schema_list py_iter].
  rewrite (set_selected_schema _ l Hnd i e Hi).
  unfold Gui.store_items. rewrite bind_assoc, bind_get. cbn [Gui.repositories schema_list].
  rewrite bind_set_repositories. rewrite (gui_save_written E _ Hw). reflexivity.
Qed.

(** X18: a click on the check box of a row flips the mark of the entry
    shown in that row and of no other, in memory, in the tree and in the
    file; a second click on the same row brings the list back.  A click
    anywhere else changes nothing. *)
Theorem click_flips_one_entry (E : env) (g : Gui.gui) (l : list entry) (i : nat)
        (e : entry) :
  write_error E = None -> shows g l -> NoDup (map entry_path l) -> nth_error l i = Some e ->
  let l1 := set_at i (negb (entry_selected e)) l in
  let g1 := showing g l1 (written (Gui.outside g) (schema_list l1)) in
  Gui.on_tree_click E (lit "cell") (Some i) (lit "#1") g = (Ret tt, g1)
  /\ Gui.on_tree_click E (lit "cell") (Some i) (lit "#1") g1
     = (Ret tt, showing g l (written (Gui.outside g1) (schema_list l)))
  /\ (forall region item column,
         str_eqb region (lit "cell") && str_eqb column (lit "#1") = false ->
         Gui.on_tree_click E region item column g = (Ret tt, g)).
Proof.
  intros Hw Hs Hnd Hi l1 g1. split; [now apply click_schema|]. split.
  - assert (Hs1 : shows g1 l1) by (split; reflexivity).
    assert (Hnd1 : NoDup (map entry_path l1)) by (unfold l1; now rewrite set_at_paths).
    pose proof (set_at_nth i (negb (entry_selected e)) l e Hi) as Hi1. fold l1 in Hi1.
    rewrite (click_schema E g1 l1 i _ Hw Hs1 Hnd1 Hi1).
    cbn [entry_selected]. rewrite negb_involutive. unfold l1.
    rewrite (set_at_back i _ l e Hi). reflexivity.
  - intros region item column H. unfold Gui.on_tree_click.
    destruct (str_eqb region (lit "cell")); [|reflexivity].
    destruct item; [|reflexivity].
    cbn [andb] in H. now rewrite H.
Qed.

Lemma click_flips_one_entry_witness :
  (write_error Example.laptop = None /\ shows Example.two_selected Cases.two_entries
   /\ NoDup (map entry_path Cases.two_entries))
  /\ Gui.repositories
       (snd (Gui.on_tree_click Example.laptop (lit "cell") (Some 1%nat) (lit "#1")
                               Example.two_selected))
     = schema_list [{| entry_path := Example.proj; entry_selected := true |};
                    {| entry_path := Example.other; entry_selected := false |}].
Proof.
  assert (Hnd : NoDup (map entry_path Cases.two_entries)).
  { repeat constructor; cbn; [|tauto]. intros [H|[]]. discriminate H. }
  assert (Hs : shows Example.two_selected Cases.two_entries) by (split; reflexivity).
  split; [split; [reflexivity | split; [exact Hs | exact Hnd]]|].
  destruct (click_flips_one_entry Example.laptop Example.two_selected Cases.two_entries
                                  1%nat {| entry_path := Example.other;
                                           entry_selected := true |}
                                  eq_refl Hs Hnd eq_refl)
    as (H1 & _ & _).
  rewrite H1. reflexivity.
Defined.

Lemma without_path_schema (q : pystr) (l : list entry) :
  without_path (JStr q) (map entry_json l) = Ret (map entry_json (without_paths [q] l)).
Proof.
  unfold without_paths. induction l as [|e l IH]; [reflexivity|].
  cbn [map without_path]. unfold entry_json at 1. cbn [py_getitem dict_lookup].
  replace (str_eqb (lit "path") (lit "path")) with true by reflexivity.
  cbn [and_then]. rewrite IH. cbn [and_then py_eq filter].
  assert (Hq : existsb (str_eqb (entry_path e)) [q] = str_eqb (entry_path e) q)
    by (cbn [existsb]; apply orb_false_r).
  rewrite Hq. now destruct (str_eqb (entry_path e) q).
Qed.

Lemma without_paths_cons (q : pystr) (qs : list pystr) (l : list entry) :
  without_paths qs (without_paths [q] l) = without_paths (q :: qs) l.
Proof.
  unfold without_paths. induction l as [|e l IH]; [reflexivity|].
  cbn [filter].
  assert (Hq : existsb (str_eqb (entry_path e)) (q :: qs)
               = existsb (str_eqb (entry_path e)) [q]
                 || existsb (str_eqb (entry_path e)) qs)
    by (cbn [existsb]; now rewrite orb_false_r).
  rewrite Hq.
  destruct (existsb (str_eqb (entry_path e)) [q]); cbn [negb orb filter]; [exact IH|].
  destruct (existsb (str_eqb (entry_path e)) qs); cbn [negb]; [exact IH | now rewrite IH].
Qed.

Lemma remove_loop_schema (l : list entry) (picked : list nat) :
  forall (g : Gui.gui) (l' : list entry),
    Gui.repo_tree g = rows_of l -> Gui.repositories g = schema_list l' ->
    Gui.remove_loop picked g
    = (Ret tt, with_repositories g (schema_list (without_paths (picked_paths l picked) l'))).
Proof.
  induction picked as [|i picked IH]; intros g l' Ht Hm.
  - cbn [Gui.remove_loop picked_paths flat_map]. unfold without_paths. cbn [existsb negb].
    assert (Hall : forall k : list entry, filter (fun _ : entry => true) k = k)
      by (intros k; induction k as [|x k IHk]; [reflexivity | cbn; f_equal; exact IHk]).
    rewrite Hall, <- Hm. clear. unfold with_repositories, ret. now destruct g.
  - cbn [Gui.remove_loop]. rewrite bind_get, Ht. unfold rows_of at 1.
    cbn [picked_paths flat_map]. fold (picked_paths l picked).
    destruct (nth_error l i) as [e|] eqn:Hi.
    + rewrite (map_nth_error _ _ _ Hi). rewrite bind_lift, Hm. cbn [schema_list py_iter].
      rewrite bind_lift, without_path_schema. rewrite bind_set_repositories.
      rewrite (IH _ (without_paths [entry_path e] l')); [|exact Ht | reflexivity].
      cbn [app]. now rewrite without_paths_cons.
    + assert (Hnone : nth_error (map (fun e => (entry_selected e, JStr (entry_path e))) l) i
                      = None).
      { apply nth_error_None. rewrite length_map. now apply nth_error_None. }
      rewrite Hnone. cbn [app]. now apply IH.
Qed.

(** X19: [remove_repository] of the window drops the entries whose paths
    are shown in the picked rows, keeps the others in their order, writes
    what is left to the file and shows it; with no row picked it only
    warns. *)
Theorem remove_drops_the_picked_rows (E : env) (g : Gui.gui) (l : list entry)
        (picked : list nat) :
  write_error E = None -> shows g l ->
  (picked <> [] ->
   Gui.remove_repository E picked g
   = (Ret tt, showing g (without_paths (picked_paths l picked) l)
                      (written (Gui.outside g)
                               (schema_list (without_paths (picked_paths l picked) l)))))
  /\ Gui.remove_repository E [] g
     = Gui.messagebox showwarning "Warning" (lit "Please select a repository to remove.") g.
Proof.
  intros Hw [Hm Ht]. split; [|reflexivity].
  intros Hne. unfold Gui.remove_repository.
  destruct picked as [|i picked]; [now contradiction Hne|].
  unfold bind at 1. rewrite (remove_loop_schema l (i :: picked) g l Ht Hm).
  rewrite (save_then_update_schema E _ (without_paths (picked_paths l (i :: picked)) l) Hw)
    by reflexivity.
  reflexivity.
Qed.

Lemma remove_drops_the_picked_rows_witness :
  (write_error Example.laptop = None /\ shows Example.two_selected Cases.two_entries)
  /\ Gui.repositories (snd (Gui.remove_repository Example.laptop [0%nat] Example.two_selected))
     = schema_list [{| entry_path := Example.other; entry_selected := true |}].
Proof.
  assert (Hs : shows Example.two_selected Cases.two_entries) by (split; reflexivity).
  split; [split; [reflexivity | exact Hs]|].
  destruct (remove_drops_the_picked_rows Example.laptop Example.two_selected
                                         Cases.two_entries [0%nat] eq_refl Hs)
    as [H _].
  rewrite H by discriminate. reflexivity.
Defined.

(** X20: a window that is closed and started again holds and shows the
    list it had, marks included: [on_closing] writes the list, and
    [__init__] reads it back and fills the tree with it. *)
Theorem close_and_restart (E : env) (g : Gui.gui) (l : list entry) (today : pystr) :
  write_error E = None ->
  forallb (fun e => str_ok (entry_path e)) l = true ->
  Gui.repositories g = schema_list l ->
  Gui.on_closing E g = (Ret tt, with_outside g (written (Gui.outside g) (schema_list l)))
  /\ Gui.init today (written (Gui.outside g) (schema_list l))
     = (Ret tt, {| Gui.repositories := schema_list l; Gui.repo_tree := rows_of l;
                   Gui.start_date_var := today; Gui.end_date_var := today;
                   Gui.outside := written (Gui.outside g) (schema_list l) |}).
Proof.
  intros Hw Hok Hm. split.
  - unfold Gui.on_closing. rewrite (gui_save_written E g Hw). now rewrite Hm.
  - unfold Gui.init. unfold bind at 1. unfold Gui.load_repositories.
    rewrite bind_get. cbn [Gui.outside written config].
    rewrite JsonFacts.loads_dumps
      by (apply json_ok_document; cbn [schema_list json_ok]; now apply json_ok_schema).
    rewrite bind_lift. cbn [py_get]. unfold dict_get. cbn [dict_lookup].
    rewrite str_eqb_refl. cbn [Gui.set_repositories].
    rewrite (update_repo_list_rows _ (map entry_json l) (rows_of l));
      [reflexivity | reflexivity | apply tree_rows_schema].
Qed.

Lemma close_and_restart_witness :
  (write_error Example.laptop = None
   /\ forallb (fun e => str_ok (entry_path e)) Cases.two_entries = true
   /\ Gui.repositories Example.two_selected = schema_list Cases.two_entries)
  /\ Gui.init (lit "2024-02-01")
              (written (Gui.outside Example.two_selected) (schema_list Cases.two_entries))
     = (Ret tt, {| Gui.repositories := schema_list Cases.two_entries;
                   Gui.repo_tree := rows_of Cases.two_entries;
                   Gui.start_date_var := lit "2024-02-01";
                   Gui.end_date_var := lit "2024-02-01";
                   Gui.outside := written (Gui.outside Example.two_selected)
                                          (schema_list Cases.two_entries) |}).
Proof.
  split; [split; [reflexivity | split; reflexivity]|].
  exact (proj2 (close_and_restart Example.laptop Example.two_selected Cases.two_entries
                                  (lit "2024-02-01") eq_refl eq_refl eq_refl)).
Defined.

(** ** The lock *)



(** ** What a file gives, it takes back *)

Lemma strings_ok_schema (l : list entry) :
  strings_ok (JArr (map entry_json l)) = true ->
  forallb (fun e => str_ok (entry_path e)) l = true.
Proof.
  induction l as [|e l IH]; [reflexivity|].
  cbn [map strings_ok forallb]. intros H. apply andb_true_iff in H as [He Hl].
  rewrite (IH Hl), andb_true_r.
  unfold entry_json in He. cbn [strings_ok forallb] in He.
  apply andb_true_iff in He as [He _]. apply andb_true_iff in He as [_ He]. exact He.
Qed.

(** X22: a list that was read from a configuration file, when it follows
    the schema, is written and read back unchanged: the text of a file
    holds no surrogate, so that no path read from it holds a surrogate
    pair. *)
Theorem loaded_list_is_saved_unchanged (E : env) (w : world) (t : pystr) (l : list entry) :
  write_error E = None -> config w = Text t -> text_ok t = true ->
  stored w (map entry_json l) ->
  forallb (fun e => str_ok (entry_path e)) l = true
  /\ forall w',
      fst (Server.load_repositories (snd (Server.save_repositories E (schema_list l) w')))
      = Ret (schema_list l).
Proof.
  intros Hw Hc Ht Hst.
  assert (Hok : forallb (fun e => str_ok (entry_path e)) l = true).
  { apply strings_ok_schema. unfold stored, Server.load_repositories in Hst.
    rewrite Hc in Hst. cbn [fst] in Hst.
    destruct (Json.loads t) as [data|] eqn:Hl; [|destruct l; [reflexivity | discriminate]].
    apply (py_get_strings_ok data "repositories" (JArr []));
      [exact (loads_strings_ok t data Ht Hl) | reflexivity | exact Hst]. }
  split; [exact Hok|]. intros w'.
  rewrite (server_save_written E _ w' Hw). cbn [snd].
  rewrite load_written; [reflexivity|].
  cbn [schema_list json_ok]. now apply json_ok_schema.
Qed.

Lemma loaded_list_is_saved_unchanged_witness :
  (exists t, config Cases.by_hand = Text t /\ text_ok t = true)
  /\ stored Cases.by_hand
            (map entry_json [{| entry_path := Example.proj; entry_selected := true |}])
  /\ fst (Server.load_repositories
            (snd (Server.save_repositories
                    Example.laptop
                    (schema_list [{| entry_path := Example.proj; entry_selected := true |}])
                    Cases.by_hand)))
     = Ret (schema_list [{| entry_path := Example.proj; entry_selected := true |}]).
Proof.
  assert (Hst : stored Cases.by_hand
                       (map entry_json [{| entry_path := Example.proj;
                                           entry_selected := true |}]))
    by (vm_compute; reflexivity).
  split; [eexists; split; reflexivity|]. split; [exact Hst|].
  exact (proj2 (loaded_list_is_saved_unchanged
                  Example.laptop Cases.by_hand _
                  [{| entry_path := Example.proj; entry_selected := true |}]
                  eq_refl eq_refl eq_refl Hst) Cases.by_hand).
Defined.

(** ** The dialogs of a batch in the window *)

Lemma with_outside_same (g : Gui.gui) : with_outside g (Gui.outside g) = g.
Proof. now destruct g. Qed.

Lemma gui_work_loop_events (E : env) (command verb gerund : string) (paths : list pystr) :
  (command = "startWork" \/ command = "stopWork")%string ->
  forallb argument_ok paths = true -> forallb (ends E command) paths = true ->
  forall g,
  exists w',
    Gui.work_loop E command verb gerund (map JStr paths) g = (Ret true, with_outside g w')
    /\ events w'
       = events (Gui.outside g)
           ++ flat_map (fun p => EvRun [lit command; p] 30
                                       :: failure_dialog E command verb gerund p)
                       paths.
Proof.
  intros Hc. induction paths as [|p paths IH]; intros Ha He g.
  - exists (Gui.outside g). cbn [map Gui.work_loop flat_map].
    rewrite with_outside_same, app_nil_r. now split.
  - cbn [forallb] in Ha, He. apply andb_true_iff in Ha as [Hp Ha].
    apply andb_true_iff in He as [Hep He].
    cbn [map Gui.work_loop flat_map]. unfold bind at 1.
    rewrite (gui_run_command_pair E command p g Hc Hp).
    set (w1 := after_run E [lit command; p] 30 (Gui.outside g)).
    assert (Hev : forall evs, events w1 ++ evs
                              = events (Gui.outside g) ++ EvRun [lit command; p] 30 :: evs)
      by (intros; cbn; now rewrite <- app_assoc).
    assert (Hbox : forall kind title message,
               Gui.messagebox kind title message (with_outside g w1)
               = (Ret tt, with_outside g (logged w1 [EvDialog kind (lit title) message])))
      by reflexivity.
    unfold failure_dialog at 1. unfold ends in Hep.
    destruct (run E [lit command; p]) as [rc stderr| | |x] eqn:Er; try discriminate.
    + destruct (rc =? 0); cbn [negb].
      * unfold bind at 1. cbn [ret].
        destruct (IH Ha He (with_outside g w1)) as (w' & -> & Hevs).
        exists w'. split; [reflexivity|]. rewrite Hevs. cbn [app]. apply Hev.
      * unfold bind at 1. rewrite Hbox.
        destruct (IH Ha He (with_outside g (logged w1 [EvDialog showerror (lit "Error")
                   (lit "Failed to " ++ lit verb ++ lit " work on " ++ format (JStr p)
                        ++ lit ":" ++ [10] ++ stderr)]))) as (w' & -> & Hevs).
        exists w'. split; [reflexivity|]. rewrite Hevs.
        cbn [with_outside Gui.outside logged events format]. rewrite <- app_assoc.
        rewrite Hev. reflexivity.
    + unfold bind at 1. rewrite Hbox.
      destruct (IH Ha He (with_outside g (logged w1 [EvDialog showerror (lit "Error")
                 (lit "Timeout " ++ lit gerund ++ lit " work on " ++ format (JStr p))])))
        as (w' & -> & Hevs).
      exists w'. split; [reflexivity|]. rewrite Hevs.
      cbn [with_outside Gui.outside logged events format]. rewrite <- app_assoc.
      rewrite Hev. reflexivity.
Qed.

(** X23: in the window, when every selected path can be passed as an
    argument and every run of the command ends with an exit code or a
    time-out, [start_work] and [stop_work] run the command once for each
    selected repository, in order, show one error dialog after each run
    that fails or times out, and end with a [Success] dialog that counts
    every selected repository, those that failed included; the list and
    the tree of the window stay as they are. *)
Theorem window_counts_every_selected_repository
        (E : env) (command verb gerund past : string) (paths : list pystr) :
  (command = "startWork" \/ command = "stopWork")%string ->
  paths <> [] ->
  forallb argument_ok paths = true -> forallb (ends E command) paths = true ->
  forall g,
    selected_are g paths ->
    exists w',
      Gui.work E command verb gerund past g = (Ret tt, with_outside g w')
      /\ events w'
         = events (Gui.outside g)
             ++ flat_map (fun p => EvRun [lit command; p] 30
                                         :: failure_dialog E command verb gerund p)
                         paths
             ++ [EvDialog showinfo (lit "Success")
                          (lit past ++ lit " work on "
                               ++ Json.int_repr (Z.of_nat (List.length paths))
                               ++ lit " repository(ies).")].
Proof.
  intros Hc Hne Ha He g Hsel.
  rewrite (gui_work_selected E command verb gerund past g paths Hsel Hne).
  unfold bind at 1.
  destruct (gui_work_loop_events E command verb gerund paths Hc Ha He g) as (w' & -> & Hevs).
  eexists. split; [reflexivity|].
  cbn [with_outside Gui.outside logged events]. now rewrite Hevs, length_map, <- app_assoc.
Qed.

Lemma window_counts_every_selected_repository_witness :
  (forallb argument_ok [Example.proj; Example.other] = true
   /\ forallb (ends Cases.one_fails "startWork") [Example.proj; Example.other] = true
   /\ selected_are Example.two_selected [Example.proj; Example.other])
  /\ exists w',
      Gui.start_work Cases.one_fails Example.two_selected
      = (Ret tt, with_outside Example.two_selected w')
      /\ events w'
         = events (Gui.outside Example.two_selected)
             ++ [EvRun [lit "startWork"; Example.proj] 30;
                 EvRun [lit "startWork"; Example.other] 30;
                 EvDialog showerror (lit "Error")
                          (lit "Failed to start work on /home/u/other:" ++ [10]
                               ++ lit "fatal: not a git repository");
                 EvDialog showinfo (lit "Success")
                          (lit "Started work on 2 repository(ies).")].
Proof.
  split; [split; [reflexivity | split; reflexivity]|].
  exact (window_counts_every_selected_repository
           Cases.one_fails "startWork" "start" "starting" "Started"
           [Example.proj; Example.other] (or_introl eq_refl) ltac:(discriminate)
           eq_refl eq_refl Example.two_selected eq_refl).
Defined.

(** ** Adding and then removing *)

Lemma others_absent (q : pystr) (items : list json) (ps : list pystr) :
  entry_paths items = Some ps -> ~ In q ps -> others q items = items.
Proof.
  revert ps. induction items as [|r items IH]; intros ps Hps Hq; [reflexivity|].
  apply entry_paths_cons in Hps as (p & ps' & -> & Hr & Hrest).
  unfold others. cbn [filter]. fold (others q items).
  rewrite (IH ps' Hrest) by (intros H; apply Hq; now right).
  destruct r as [| | | | | |d]; try discriminate. cbn [entry_paths] in Hr.
  cbn [has_path].
  destruct (dict_lookup (lit "path") d) as [[| | | |p'| |]|]; try discriminate.
  injection Hr as ->.
  replace (str_eqb p q) with false; [reflexivity|].
  symmetry. apply str_eqb_neq. intros ->. apply Hq. now left.
Qed.

Lemma others_app (q : pystr) (a b : list json) : others q (a ++ b) = others q a ++ others q b.
Proof. unfold others. apply filter_app. Qed.

Lemma others_new_entry (q p : pystr) :
  others q [new_entry p] = if str_eqb p q then [] else [new_entry p].
Proof.
  unfold others, new_entry. cbn [filter has_path dict_lookup].
  replace (str_eqb (lit "path") (lit "path")) with true by reflexivity.
  now destruct (str_eqb p q).
Qed.

(** X24: on the server, removing the path of a repository that was just
    added brings the stored list back to what it was.  The path to send
    is the stored one, absolute and user-expanded: a request to remove
    any other string that is not in the list, such as the path as it was
    typed when it was added, removes nothing. *)
Theorem add_then_remove (E : env) (items : list json) (ps : list pystr) (p : pystr) :
  repository_list items -> entry_paths items = Some ps ->
  ~ In p ps -> is_git E p = true -> str_ok p = true -> p <> [] -> write_error E = None ->
  forall added d raw w,
    stored w items ->
    Server.is_json added = true -> Server.request_json added = Ret (JObj d) ->
    dict_lookup (lit "path") d = Some (JStr raw) ->
    strip raw <> [] -> abspath E (expanduser E (strip raw)) = p ->
    forall removed d' q,
      Server.request_json removed = Ret (JObj d') ->
      dict_lookup (lit "path") d' = Some (JStr q) ->
      (q = p ->
       fst (Server.remove_repository E removed (snd (Server.add_repository E added w)))
       = Ret (Server.jsonify (JObj [(lit "repositories", JArr items)]) 200)
       /\ stored (snd (Server.remove_repository E removed
                                                (snd (Server.add_repository E added w))))
                 items)
      /\ (q <> [] -> q <> p -> ~ In q ps ->
          fst (Server.remove_repository E removed (snd (Server.add_repository E added w)))
          = Ret (Server.jsonify
                   (JObj [(lit "repositories", JArr (items ++ [new_entry p]))]) 200)
          /\ stored (snd (Server.remove_repository E removed
                                                   (snd (Server.add_repository E added w))))
                    (items ++ [new_entry p])).
Proof.
  intros Hl Hps Hnew Hgit Hp Hne Hw added d raw w Hst Hj Hreq Hd Hraw Hp' removed d' q
         Hreq' Hd'.
  assert (Hl1 : repository_list (items ++ [new_entry p]))
    by now apply (repository_list_append items ps).
  assert (Hps1 : entry_paths (items ++ [new_entry p]) = Some (ps ++ [p]))
    by (apply entry_paths_app; [exact Hps | apply entry_paths_new]).
  assert (Hadd : snd (Server.add_repository E added w)
                 = written w (JArr (items ++ [new_entry p]))).
  { rewrite (server_add_appends E items ps p added d raw w Hst Hps Hnew Hgit Hj Hreq Hd
                                Hraw Hp').
    unfold bind. now rewrite (server_save_written E _ w Hw). }
  rewrite Hadd.
  assert (Hst1 : stored (written w (JArr (items ++ [new_entry p]))) (items ++ [new_entry p]))
    by (apply stored_written; apply Hl1).
  assert (Hrm : forall kept,
             q <> [] -> others q (items ++ [new_entry p]) = kept ->
             forallb json_ok kept = true ->
             fst (Server.remove_repository E removed
                                           (written w (JArr (items ++ [new_entry p]))))
             = Ret (Server.jsonify (JObj [(lit "repositories", JArr kept)]) 200)
             /\ stored (snd (Server.remove_repository
                               E removed (written w (JArr (items ++ [new_entry p])))))
                       kept).
  { intros kept Hq Hkept Hok.
    rewrite (server_remove_others E _ (ps ++ [p]) q removed d' _ Hst1 Hps1 Hq Hreq' Hd').
    rewrite Hkept. unfold bind. rewrite (server_save_written E _ _ Hw). cbn [fst snd].
    split; [reflexivity|]. now apply stored_written. }
  split.
  - intros ->. apply Hrm; [exact Hne | | apply Hl].
    rewrite others_app, (others_absent p items ps Hps Hnew), others_new_entry.
    rewrite str_eqb_refl. apply app_nil_r.
  - intros Hq Hqp Hqps. apply Hrm; [exact Hq | | apply Hl1].
    rewrite others_app, (others_absent q items ps Hps Hqps), others_new_entry.
    replace (str_eqb p q) with false; [reflexivity|].
    symmetry. apply str_eqb_neq. congruence.
Qed.

Lemma add_then_remove_witness :
  (repository_list [] /\ is_git Example.laptop Example.proj = true
   /\ str_ok Example.proj = true /\ stored Example.fresh_world []
   /\ abspath Example.laptop (expanduser Example.laptop (strip (lit "~/proj"))) = Example.proj)
  /\ (fst (Server.remove_repository
             Example.laptop (Cases.remove_path Example.proj)
             (snd (Server.add_repository Example.laptop Cases.add_tilde Example.fresh_world)))
      = Ret (Server.jsonify (JObj [(lit "repositories", JArr [])]) 200))
  /\ (fst (Server.remove_repository
             Example.laptop (Cases.remove_path (lit "~/proj"))
             (snd (Server.add_repository Example.laptop Cases.add_tilde Example.fresh_world)))
      = Ret (Server.jsonify (JObj [(lit "repositories", JArr [new_entry Example.proj])]) 200)).
Proof.
  split.
  { split; [exact repository_list_nil|]. repeat split. }
  pose proof (add_then_remove Example.laptop [] [] Example.proj repository_list_nil eq_refl
                              (fun H => H) eq_refl eq_refl ltac:(discriminate) eq_refl
                              Cases.add_tilde [(lit "path", JStr (lit "~/proj"))]
                              (lit "~/proj") Example.fresh_world
                              eq_refl eq_refl eq_refl eq_refl ltac:(discriminate) eq_refl)
    as H.
  split.
  - destruct (H (Cases.remove_path Example.proj) [(lit "path", JStr Example.proj)]
                Example.proj eq_refl eq_refl) as [Hsame _].
    exact (proj1 (Hsame eq_refl)).
  - destruct (H (Cases.remove_path (lit "~/proj")) [(lit "path", JStr (lit "~/proj"))]
                (lit "~/proj") eq_refl eq_refl) as [_ Hother].
    refine (proj1 (Hother _ _ _)); [discriminate | discriminate | intros []].
Defined.
